(* ===== verification/_CoqProject ===== *)
-Q . S2P
Prelude.v
StableSort.v
Value.v
Json.v
JsonGrammar.v
Matcher.v
Cursor.v
Collection.v
Store.v
CreateUser.v
UsersPage.v
AlertsPage.v
TransactionsPage.v
DashboardPage.v
AnalyticsPage.v
AppShell.v
LoginView.v
LayoutView.v
ApiGuide.v
GuideScript.v
GuideCurl.v
EndToEnd.v
UsersForm.v
