(* ===== verification/Prelude.v ===== *)
(** * Verification of the ration-fraud administration application

    The repository is a web application for tracking ration-card fraud.  Its
    sources under [src/] are the React frontend
    ([src/frontend/src/pages/Users.js], [FraudAlerts.js] (which also holds
    [App.js] from line 293), [Transactions.js], [Dashboard.js], and, in the
    unnamed parts, [Layout.js] ([part_000] from line 209), [Login.js]
    ([part_001]) and [Analytics.js] ([part_002])), and markdown reports that
    quote the backend: the in-memory document store [backend/mock_db.py]
    ([src/FIXES_APPLIED.md] lines 181-251) and the [create_user] route of
    [backend/server.py] ([src/USER_CREATION_FIX.md] lines 46-76).  The parts
    of the store that are not quoted are modelled from the specification.
    The running guide ([part_003]) lists the API's endpoints (lines 44-102)
    and gives cURL commands (lines 107-148) and a Python test script
    (lines 151-189); all three are modelled.

    ** How the parts interact

    The [App] shell decides from the stored token whether the user is
    signed in and routes each location to a page or to the login screen;
    its Axios interceptor adds the token to every request.  A page handler
    (e.g. [handleAddUser] of [Users.js]) sends an HTTP request; the backend
    route (e.g. [create_user]) asks the store for a named collection, runs
    queries through the matcher, gets a cursor and materialises it; the page
    stores the JSON answer in its React state, and an effect recomputes the
    filtered list that is rendered.

    ** Files (in dependency order, see _CoqProject)

    - [Prelude]  this header; the [result] error monad and its [let*]
      notation (scope [store_scope]); the JavaScript string primitives the
      pages call ([includes], ASCII [toLowerCase], truthiness), Python's
      slice [l[:n]]; generic list lemmas; the hint databases [store] and
      [store_rw]; the [decides] combinators for boolean loops in the monad.
    - [StableSort]  a [TotalCmp] class with instances for [nat], [Z],
      [string], [bool], pairs and reversed keys; a stable insertion sort
      with its permutation, sortedness, stability and uniqueness lemmas, and
      the facts about sorting twice and sorting by a reversed key.
    - [Value]  the tagged-union document value with a nested induction
      principle, its decidable equality, documents as insertion-ordered
      association lists with [get]/[__setitem__]/[update], and the ordering
      of [$gt]/[$lt].
    - [Json]  the browser's [JSON.stringify] (as [Login.js] stores the user)
      and [JSON.parse] (as [Layout] reads it back) on that value type: the
      standard string escapes, integers as decimal digits, and a
      recursive-descent parser (mutual [Fixpoint] on fuel) whose syntax
      errors are values of [json_error].
    - [JsonGrammar]  the RFC 8259 grammar as mutually inductive predicates
      on texts and the values they denote ([jval], [jelems], [jmembers],
      with [string_lit], [int_lit] and whitespace [ws]), the reference the
      parser of [Json] is checked against in both directions.
    - [Matcher]  [_matches_query]: literals, the operators and [$or] in the
      error monad; an abstract satisfaction relation [sat] and the
      refinement theorem between them.
    - [Cursor]  [MockCursor]: snapshot, stable [sort], [to_list].
    - [Collection]  [MockCollection]'s CRUD operations as state passing on
      the list of documents, and the [CollectionOps] interface (a type class
      with laws) that [create_user] is verified against.
    - [Store]  [MockDatabase]: a [gmap] from names to collections created on
      first access; identities from a counter.
    - [CreateUser]  the [create_user] handler: check, commit, fraud scan;
      the uniqueness invariant of sequential requests and a step relation
      for two interleaved requests.
    - [UsersPage], [AlertsPage], [TransactionsPage], [DashboardPage]  each
      page (and [AnalyticsPage], in [Module Analytics]) as a reducer: its
      [useState] fields as a record, user actions and
      HTTP outcomes as events, the handler followed by the filter effect
      (run when one of its dependencies changed, compared as React compares
      them) as one step, runs over event lists, and what the page renders (cards,
      buttons by [data-testid], notices).  Handlers are split at their
      [await]: the request is an effect of the click, the outcome a later
      event, so the interleavings of responses are sequences of events.
    - [AppShell]  [App]'s routes and start-up effect, the interceptor,
      [Login.handleSubmit] and [Layout]'s menu and [handleLogout], as one
      session state (storage, flag, location, and the state of the mounted
      [Login] with the key of its instance).  After every event the router
      replaces the location by the end of its redirects, and a [Login]
      reached through a [<Navigate>] or from another screen is a new
      instance with its initial state; the code after [handleSubmit]'s
      [await] acts on [Login]'s state only while the instance that sent the
      request is mounted.
    - [LoginView]  the Login form as rendered in that session (inputs of
      the mode with [required] and [type="email"], the submit button with
      [disabled={loading}], the toggle), the browser's constraint
      validation, and a step relation over the session and the
      authentication requests in flight, each tagged with the instance that
      sent it and answered in any order (stdpp's [rtc]).
    - [LayoutView]  what [Layout] renders in that session: the stored user
      parsed back and shown as [user.username || 'Admin'] and
      [user.email] (a render that throws is [None]), the menu buttons with
      the active one, and the events its buttons raise.
    - [ApiGuide]  the guide's endpoint list as data, every page request as
      the method and URL its [axios] call builds, and the matching of URLs
      against the guide's path templates ([{user_id}] a segment); the
      absolute URL from [REACT_APP_BACKEND_URL] of the documented [.env].
    - [GuideScript]  the guide's Python script in a small print/raise/state
      monad ([py], with stdpp's [MRet]/[MBind] instances) over a world of
      server state, printed lines and sent requests; the server is a
      parameter, and [serve_users] answers [/api/users] with [create_user]
      over any [CollectionOps] collection behind [get_current_user].
    - [EndToEnd]  [handleAddUser]'s round trip: the page's submit, the
      backend's [create_user] on any [CollectionOps] collection, and the
      page's handling of the answer, composed into one function.
    - [UsersForm]  the Users page's header, Add User dialog and filters as
      controls raising [UsersPage]'s events, the form's [required] and
      [min] validation, and a step relation over the page and the log of
      posted forms.
    - [GuideCurl]  the guide's cURL commands (method, URL, headers, and the
      [-d] text with its layout, decoded by [Json.json_parse]) run in order
      against the same [serve_users] routes.

    ** What the theorems show

    The store: the matcher refines [sat] and fails only on malformed
    queries (the latter half is kept as a lemma); [$regex] ignores case;
    type mismatches do not match;
    [to_list] caps (and a negative cap drops the tail); every operation keeps
    stored documents dicts with unique keys and an [id]; [sort] is a stable
    permutation, descending is the reverse of ascending only for distinct
    keys, and a second sort keeps the first as tie-breaker; insert/find
    round trip, [$or] union, [update_one] and [delete_many]; collections are
    isolated; the specification's scenario runs.  [create_user]: uniqueness
    of Aadhaar numbers under sequential requests, 400 on duplicates, a
    failing scan is harmless, and two interleaved requests create a
    duplicate.  Through the page, a duplicate submission stores nothing and
    shows the 400's detail while a new one adds one user and refetches.
    The pages: the shown lists are the filters of the last fetched data
    under the last search and status chosen, after any events; typing refines searches; buttons follow statuses;
    alert updates refetch and the last response wins; failures change
    nothing but a notice (or are silent); dashboard data are all or nothing;
    pie colours are always defined.  The analytics page shows the last
    successful load, leaves its loading view with the first answer for good,
    trains and refetches as its handler says, keeps a stale "Not Trained"
    when the refetch after a training fails, and bounds its pie labels.  The
    guide: which page requests its endpoint list covers (it names
    [daily-transactions] where the pages call [transactions-trend]); its
    script prints and sends exactly its four steps, authenticating as the
    interceptor does, stops with [KeyError] on a refused login, and prints
    "Create User: 400" when run twice.  The shell: no redirect loop and no
    protected page without sign-in; the flag equals "a truthy token is
    stored" and the interceptor sends it exactly then; logout, login and
    registration do what the handlers say, and an answer to an earlier
    [Login]'s request leaves the current one alone; the menu matches the
    routes.  The Layout shows the user stored at login (or "Admin"), and
    throws on every protected page exactly when the login response's user
    is missing, [null], or an object whose shown fields hold objects.  [JSON.parse]
    reads back every [JSON.stringify] output whose objects have unique keys,
    always answers within its fuel, and returns a value exactly on the
    texts of the grammar ([json_parse_spec]: soundness by induction on the
    fuel, one parser level per lemma of a [Section] whose hypotheses are
    the levels below; completeness by the combined induction scheme of the
    grammar, with the fuel bound [3 * length + 1] shown to suffice).  The
    mounted Login page has at most one authentication request of its own
    in flight, exactly while its button is disabled, and sends only
    requests that pass its validation; but a Login mounted again after a
    navigation starts enabled, so two requests can be in flight; the Users
    page posts only forms that pass its validation, but nothing stops a
    double submission, which the non-atomic [create_user] can turn into a
    duplicate Aadhaar number.  The guide's cURL commands send the script's
    requests with other data and the same Aadhaar number, so running the
    script after them prints "Create User: 400".

    ** Bounds and fuel

    The only fuel is [AppShell.resolve]'s count of route evaluations; the
    route table redirects at most once ("/login" to "/" or a protected
    location to "/login", both of which render), so 2 is enough:
    [resolve_terminates] proves that one result is reached with 2 and kept
    for every larger fuel.  [Json.json_parse] runs its parser on fuel
    [3 * length + 1]: every call on a non-empty remainder either consumes a
    character or descends into a member with one unit less, so the fuel
    bounds the work, and [json_parse_terminates] proves that it never runs
    out.  Every other definition is structurally recursive.

    ** What is not modelled

    JSX markup beyond the elements with a [data-testid] and the conditions
    under which they appear (CSS, icons, chart geometry, dates, number
    formatting); networking, JWT and bcrypt; the fraud scoring engine (a
    parameter of [create_user]); authentication on the backend (a parameter
    of [serve_users]); the [requests] library, JSON decoding and pydantic
    validation beyond their observable results (no coercions, no escaping
    in [repr]); the share of a pie slice, which the chart library computes
    (a rational argument of [pie_label]); the prose of the reports and the
    guide (status tables, set-up, troubleshooting and deployment steps);
    floating-point numbers
    in documents (integers [Z]; confidence scores are rationals);
    in [JSON.parse], fractions, exponents and [\u] escapes above one byte
    (reported as [JsonNotModelled]) and the reordering of integer-like keys
    of objects that JavaScript performs; in the Users form, the text
    typed into a number input (the model takes the integer that
    [parseInt]/[parseFloat] computed, so a fractional income and the
    [step] check that rejects it are outside it); the Login page's and
    Users page's static headings and icons;
    regular-expression metacharacters in [$regex] (a pattern is a literal
    substring, which is what the pages send). *)

From stdpp Require Export base list sets strings.
From Stdlib Require Export Ascii String ZArith.

Declare Scope store_scope.
Delimit Scope store_scope with store.
Local Open Scope string_scope.

Create HintDb store discriminated.
Create Rewrite HintDb store_rw.

(** ** The error monad shared by the store and the route handlers *)

Inductive result (E A : Type) : Type :=
| Ok (a : A)
| Err (e : E).
Arguments Ok {E A} a.
Arguments Err {E A} e.

Definition rbind {E A B} (m : result E A) (k : A -> result E B) : result E B :=
  match m with
  | Ok a => k a
  | Err e => Err e
  end.

Notation "'let*' x := m 'in' k" := (rbind m (fun x => k))
  (at level 10, x name, m at level 100, k at level 200) : store_scope.
Open Scope store_scope.

(** ** JavaScript string primitives used by the pages *)

(** [s.includes(sub)]: [sub] occurs in [s] at some position. *)
Fixpoint js_includes (s sub : string) : bool :=
  if String.prefix sub s then true
  else match s with
       | EmptyString => false
       | String _ s' => js_includes s' sub
       end.

(** [toLowerCase] on the ASCII range (upper-case letters 65..90). *)
Definition ascii_to_lower (c : ascii) : ascii :=
  let n := nat_of_ascii c in
  if (65 <=? n)%nat && (n <=? 90)%nat then ascii_of_nat (n + 32) else c.

Fixpoint js_to_lower (s : string) : string :=
  match s with
  | EmptyString => EmptyString
  | String c s' => String (ascii_to_lower c) (js_to_lower s')
  end.

(** A JavaScript string is truthy iff it is not empty. *)
Definition js_truthy (s : string) : bool :=
  match s with EmptyString => false | _ => true end.

(** [s.split(c)] of Python and JavaScript: the pieces between the occurrences of [c]. *)
Fixpoint split_on (c : ascii) (s : string) : list string :=
  match s with
  | EmptyString => [""]
  | String d s' =>
      let r := split_on c s' in
      if Ascii.eqb d c then "" :: r else String d (List.hd "" r) :: List.tl r
  end.

Fixpoint has_char (c : ascii) (s : string) : bool :=
  match s with
  | EmptyString => false
  | String d s' => Ascii.eqb d c || has_char c s'
  end.

(** ** Python's prefix slice [l[:n]] on a list *)

(** A negative bound counts from the end and a bound past either end is
    clamped, as in CPython's [list.__getitem__] with a slice. *)
Definition py_slice_to {A} (l : list A) (n : Z) : list A :=
  if (0 <=? n)%Z then take (Z.to_nat n) l
  else take (Z.to_nat (Z.of_nat (List.length l) + n)) l.

(** Computations in the error monad that decide a proposition. *)
(** [m] succeeds and its boolean reflects [P]. *)
Definition decides {E} (m : result E bool) (P : Prop) : Prop :=
  exists b, m = Ok b /\ (b = true <-> P).

(** ** Lemmas of the error monad *)

Lemma rbind_ok {E A B} (a : A) (k : A -> result E B) : rbind (Ok a) k = k a.
Proof. reflexivity. Qed.

Lemma rbind_err {E A B} (e : E) (k : A -> result E B) : rbind (Err e) k = Err e.
Proof. reflexivity. Qed.

Lemma rbind_Ok_inv {E A B} (m : result E A) (k : A -> result E B) b :
  rbind m k = Ok b -> exists a, m = Ok a /\ k a = Ok b.
Proof. destruct m; simpl; [eauto | discriminate]. Qed.

#[export] Hint Rewrite @rbind_ok @rbind_err : store_rw.

(** Destruct every [rbind] scrutinee of the goal, keeping the equation. *)
Ltac simp_res :=
  repeat match goal with
  | |- context [rbind ?m _] =>
      let E := fresh "Hres" in destruct m eqn:E; simpl
  end.

(** ** Generic lemmas *)

Lemma prefix_empty s : String.prefix "" s = true.
Proof. destruct s; reflexivity. Qed.

Lemma js_includes_empty s : js_includes s "" = true.
Proof. destruct s; reflexivity. Qed.

Lemma prefix_refl s : String.prefix s s = true.
Proof.
  induction s as [|c s IH]; [reflexivity|]. simpl.
  destruct (ascii_dec c c); [exact IH | congruence].
Qed.

Lemma js_includes_refl s : js_includes s s = true.
Proof. destruct s as [|c s]; [reflexivity|]. cbn [js_includes]. now rewrite prefix_refl. Qed.

Lemma js_includes_cons c s sub :
  js_includes s sub = true -> js_includes (String c s) sub = true.
Proof. intros H. cbn [js_includes]. now destruct (String.prefix sub (String c s)). Qed.

Lemma ascii_to_lower_idem c : ascii_to_lower (ascii_to_lower c) = ascii_to_lower c.
Proof.
  unfold ascii_to_lower.
  destruct ((65 <=? nat_of_ascii c)%nat && (nat_of_ascii c <=? 90)%nat) eqn:E;
    [|now rewrite E].
  apply andb_true_iff in E as [E1 E2].
  apply Nat.leb_le in E1, E2.
  rewrite nat_ascii_embedding by lia.
  replace ((65 <=? nat_of_ascii c + 32)%nat && (nat_of_ascii c + 32 <=? 90)%nat)
    with false; [reflexivity|].
  symmetry. apply andb_false_iff. right. apply Nat.leb_gt. lia.
Qed.

Lemma js_to_lower_idem s : js_to_lower (js_to_lower s) = js_to_lower s.
Proof. induction s; simpl; [reflexivity|]. now rewrite ascii_to_lower_idem, IHs. Qed.

Lemma js_truthy_false s : js_truthy s = false <-> s = "".
Proof. destruct s; simpl; split; congruence. Qed.

Lemma py_slice_to_nonneg {A} (l : list A) n :
  (0 <= n)%Z -> py_slice_to l n = take (Z.to_nat n) l.
Proof. intros H. unfold py_slice_to. now replace (0 <=? n)%Z with true by lia. Qed.

Lemma py_slice_to_prefix {A} (l : list A) n : exists r, l = (py_slice_to l n ++ r)%list.
Proof. unfold py_slice_to. destruct (0 <=? n)%Z; eexists; symmetry; apply take_drop. Qed.

Lemma py_slice_to_length_le {A} (l : list A) n : List.length (py_slice_to l n) <= List.length l.
Proof. unfold py_slice_to. destruct (0 <=? n)%Z; rewrite length_take; lia. Qed.

Lemma prefix_app_l a b s : String.prefix (a ++ b) s = true -> String.prefix a s = true.
Proof.
  revert s. induction a as [|c a IH]; intros s H; [apply prefix_empty|].
  destruct s as [|c' s]; [discriminate|]. simpl in *.
  destruct (ascii_dec c c'); [now apply IH | discriminate].
Qed.

(** A string containing [a ++ b] contains [a]. *)
Lemma js_includes_app_l s a b : js_includes s (a ++ b) = true -> js_includes s a = true.
Proof.
  induction s as [|c s IH]; cbn [js_includes].
  - destruct (String.prefix (a ++ b) "") eqn:E; [|discriminate].
    now rewrite (prefix_app_l _ _ _ E).
  - destruct (String.prefix (a ++ b) (String c s)) eqn:E.
    + now rewrite (prefix_app_l _ _ _ E).
    + intros H. destruct (String.prefix a (String c s)); [reflexivity|]. now apply IH.
Qed.

Lemma js_to_lower_app a b : js_to_lower (a ++ b) = js_to_lower a ++ js_to_lower b.
Proof. induction a as [|c a IH]; [reflexivity|]. simpl. rewrite IH. reflexivity. Qed.

(** [String.append] does not unfold under [simpl] (stdpp makes it
    [simpl never]); these equations move literal characters out. *)
Lemma append_String c s t : (String c s ++ t)%string = String c (s ++ t).
Proof. reflexivity. Qed.

Lemma append_EmptyString t : ("" ++ t)%string = t.
Proof. reflexivity. Qed.

Lemma string_app_empty_r (x : string) : (x ++ "")%string = x.
Proof. induction x as [|c x IH]; [reflexivity | exact (f_equal (String c) IH)]. Qed.

Lemma string_app_assoc (x y z : string) : ((x ++ y) ++ z)%string = (x ++ (y ++ z))%string.
Proof. induction x as [|c x IH]; [reflexivity | exact (f_equal (String c) IH)]. Qed.

Lemma string_length_app (x y : string) : String.length (x ++ y) = (String.length x + String.length y)%nat.
Proof. induction x as [|c x IH]; [reflexivity | exact (f_equal S IH)]. Qed.

Lemma split_on_nonempty c s : split_on c s = List.hd "" (split_on c s) :: List.tl (split_on c s).
Proof. destruct s as [|d s]; simpl; [reflexivity|]. now destruct (Ascii.eqb d c). Qed.

Lemma split_on_app_nochar c x s :
  has_char c x = false ->
  split_on c (x ++ s) = (x ++ List.hd "" (split_on c s)) :: List.tl (split_on c s).
Proof.
  induction x as [|d x IH]; simpl; intros H; [apply split_on_nonempty|].
  apply orb_false_iff in H as [Hd Hx]. now rewrite Hd, IH.
Qed.

Lemma split_on_nochar c x : has_char c x = false -> split_on c x = [x].
Proof.
  intros H. rewrite <- (string_app_empty_r x), split_on_app_nochar by exact H.
  cbn [split_on List.hd List.tl]. now rewrite string_app_empty_r.
Qed.

Create Rewrite HintDb str_rw.
#[export] Hint Rewrite append_String append_EmptyString string_app_empty_r : str_rw.

(** ** Generic list lemmas *)

(** Filtering by a stronger test after a weaker one is filtering once. *)
Lemma filter_filter_implied {A} (f g : A -> bool) (l : list A) :
  (forall x, g x = true -> f x = true) ->
  List.filter g (List.filter f l) = List.filter g l.
Proof.
  intros Hgf. induction l as [|x l IH]; [reflexivity|]. simpl.
  destruct (f x) eqn:Ef, (g x) eqn:Eg; simpl; rewrite ?Eg; try congruence.
  specialize (Hgf x Eg). congruence.
Qed.

Lemma filter_all_true {A} (f : A -> bool) (l : list A) :
  (forall x, f x = true) -> List.filter f l = l.
Proof. intros Hf. induction l as [|x l IH]; simpl; [reflexivity|]. now rewrite Hf, IH. Qed.

#[export] Hint Resolve js_includes_empty js_includes_refl prefix_refl : store.
#[export] Hint Rewrite js_to_lower_idem ascii_to_lower_idem : store_rw.

(** ** Boolean computations in the error monad that decide a proposition *)

Lemma decides_ret {E} (b : bool) (P : Prop) :
  (b = true <-> P) -> decides (E:=E) (Ok b) P.
Proof. intros H. now exists b. Qed.

Lemma decides_iff {E} (m : result E bool) (P Q : Prop) :
  decides m P -> (P <-> Q) -> decides m Q.
Proof. intros (b & -> & Hb) HPQ. exists b. split; [done|]. now rewrite Hb. Qed.

(** [if not m: return False] followed by the rest: a conjunction. *)
Lemma decides_and {E} (m r : result E bool) (P Q : Prop) :
  decides m P -> decides r Q ->
  decides (rbind m (fun b => if b then r else Ok false)) (P /\ Q).
Proof.
  intros ([] & -> & Hb) Hr; simpl.
  - eapply decides_iff; [exact Hr|]. split; [|tauto]. intros HQ. split; [now apply Hb|done].
  - apply decides_ret. split; [discriminate|]. intros [HP _]. now apply Hb.
Qed.

(** [if m: return True] followed by the rest: a disjunction ([any]). *)
Lemma decides_or {E} (m r : result E bool) (P Q : Prop) :
  decides m P -> decides r Q ->
  decides (rbind m (fun b => if b then Ok true else r)) (P \/ Q).
Proof.
  intros ([] & -> & Hb) Hr; simpl.
  - apply decides_ret. split; [|done]. intros _. left. now apply Hb.
  - eapply decides_iff; [exact Hr|]. split; [tauto|]. intros [HP|HQ]; [|done].
    apply Hb in HP. discriminate.
Qed.

Lemma decides_not_err {E} (m : result E bool) (P : Prop) e :
  decides m P -> m <> Err e.
Proof. now intros (b & -> & _). Qed.

#[export] Hint Resolve decides_and decides_or : store.
