(* ===== verification/StableSort.v ===== *)
(** Total orders given by a comparison function ([TotalCmp], with
    instances for [nat], [Z], [string], [bool], lexicographic pairs and
    the reversed order) and a stable insertion sort by a key.  Python's
    [list.sort] is stable, and a stable sort's output is unique
    ([sorted_stable_unique]), so [ssort] computes exactly what the store's
    [sort] computes whatever algorithm CPython uses. *)

From S2P Require Import Prelude.
From Stdlib Require Import Sorted Permutation OrdersEx.

(** ** Total orders as comparison functions *)

Class TotalCmp (K : Type) := {
  tcmp : K -> K -> comparison;
  tcmp_sym : forall a b, tcmp b a = CompOpp (tcmp a b);
  tcmp_eq : forall a b, tcmp a b = Eq -> a = b;
  tcmp_lt_trans : forall a b c, tcmp a b = Lt -> tcmp b c = Lt -> tcmp a c = Lt
}.

(** [False < True], as Python orders booleans. *)
Definition bool_cmp (a b : bool) : comparison :=
  match a, b with
  | false, true => Lt
  | true, false => Gt
  | _, _ => Eq
  end.

(** Lexicographic order on pairs: the first component decides unless equal. *)
Definition lex_cmp {K1 K2} `{TotalCmp K1} `{TotalCmp K2} (a b : K1 * K2) : comparison :=
  match tcmp a.1 b.1 with Eq => tcmp a.2 b.2 | c => c end.

(** The reversed order, for a descending sort. *)
Record rev_key (K : Type) := RevKey { un_rev : K }.
Arguments RevKey {K} _.
Arguments un_rev {K} _.

Section TotalCmpFacts.
Context {K : Type} `{TotalCmp K}.

Lemma tcmp_refl a : tcmp a a = Eq.
Proof. pose proof (tcmp_sym a a) as Hs. destruct (tcmp a a); simpl in *; congruence. Qed.

Lemma tcmp_eq_iff a b : tcmp a b = Eq <-> a = b.
Proof. split; [apply tcmp_eq | intros ->; apply tcmp_refl]. Qed.

Lemma tcmp_gt_lt a b : tcmp a b = Gt <-> tcmp b a = Lt.
Proof. rewrite (tcmp_sym a b). destruct (tcmp a b); simpl; split; congruence. Qed.

Lemma tcmp_le_trans a b c : tcmp a b <> Gt -> tcmp b c <> Gt -> tcmp a c <> Gt.
Proof.
  destruct (tcmp a b) eqn:Eab; [apply tcmp_eq in Eab as ->; auto| |congruence].
  destruct (tcmp b c) eqn:Ebc; [apply tcmp_eq in Ebc as ->; congruence| |congruence].
  rewrite (tcmp_lt_trans a b c Eab Ebc). congruence.
Qed.
End TotalCmpFacts.

Lemma string_compare_trans s t u :
  String.compare s t = Lt -> String.compare t u = Lt -> String.compare s u = Lt.
Proof. apply String_as_OT.lt_strorder. Qed.

#[export] Instance nat_total_cmp : TotalCmp nat.
Proof.
  refine {| tcmp := Nat.compare |}.
  - intros. apply Nat.compare_antisym.
  - intros a b. apply Nat.compare_eq.
  - intros a b c. rewrite !Nat.compare_lt_iff. lia.
Defined.

#[export] Instance Z_total_cmp : TotalCmp Z.
Proof.
  refine {| tcmp := Z.compare |}.
  - intros. apply Z.compare_antisym.
  - intros a b. apply Z.compare_eq.
  - intros a b c. rewrite !Z.compare_lt_iff. lia.
Defined.

#[export] Instance string_total_cmp : TotalCmp string.
Proof.
  refine {| tcmp := String.compare |}.
  - intros. apply String.compare_antisym.
  - intros a b. apply String.compare_eq_iff.
  - apply string_compare_trans.
Defined.

#[export] Instance bool_total_cmp : TotalCmp bool.
Proof.
  refine {| tcmp := bool_cmp |}.
  - intros [] []; reflexivity.
  - intros [] []; simpl; congruence.
  - intros [] [] []; simpl; congruence.
Defined.

#[export] Instance prod_total_cmp {K1 K2} `{TotalCmp K1} `{TotalCmp K2} :
  TotalCmp (K1 * K2).
Proof.
  refine {| tcmp := lex_cmp |}; unfold lex_cmp.
  - intros a b. rewrite (tcmp_sym a.1 b.1). destruct (tcmp a.1 b.1); simpl;
      [apply tcmp_sym | reflexivity ..].
  - intros [a1 a2] [b1 b2]; simpl.
    destruct (tcmp a1 b1) eqn:E; try discriminate.
    intros E2. apply tcmp_eq in E, E2. congruence.
  - intros [a1 a2] [b1 b2] [c1 c2]; simpl.
    destruct (tcmp a1 b1) eqn:Eab; intros H1; try discriminate;
      destruct (tcmp b1 c1) eqn:Ebc; intros H2; try discriminate.
    + apply tcmp_eq in Eab, Ebc. subst. rewrite tcmp_refl. now apply (tcmp_lt_trans _ b2).
    + apply tcmp_eq in Eab. subst. now rewrite Ebc.
    + apply tcmp_eq in Ebc. subst. now rewrite Eab.
    + now rewrite (tcmp_lt_trans _ _ _ Eab Ebc).
Defined.

#[export] Instance rev_total_cmp {K} `{TotalCmp K} : TotalCmp (rev_key K).
Proof.
  refine {| tcmp := fun a b => tcmp (un_rev b) (un_rev a) |}.
  - intros a b. apply tcmp_sym.
  - intros [a] [b] E. simpl in E. apply tcmp_eq in E. congruence.
  - intros a b c Hab Hbc. exact (tcmp_lt_trans _ _ _ Hbc Hab).
Defined.

(** ** Stable insertion sort by a key *)

Section StableSort.
Context {A K : Type} `{TotalCmp K} (key : A -> K).

(** Insert [x] after every element whose key is strictly smaller. *)
Fixpoint ins (x : A) (l : list A) : list A :=
  match l with
  | [] => [x]
  | y :: l' =>
      match tcmp (key y) (key x) with
      | Lt => y :: ins x l'
      | _ => x :: l
      end
  end.

Definition ssort (l : list A) : list A := foldr ins [] l.

Definition key_le (x y : A) : Prop := tcmp (key x) (key y) <> Gt.

(** The elements whose key is [k]. *)
Definition same_key (k : K) (y : A) : bool :=
  match tcmp (key y) k with Eq => true | _ => false end.

#[export] Instance key_le_trans : Transitive key_le.
Proof. intros x y z. apply tcmp_le_trans. Qed.

Lemma same_key_true k y : same_key k y = true <-> key y = k.
Proof.
  unfold same_key. rewrite <- (tcmp_eq_iff (key y) k).
  destruct (tcmp (key y) k); split; congruence.
Qed.

Lemma ins_perm x l : Permutation (ins x l) (x :: l).
Proof.
  induction l as [|y l IH]; simpl; [reflexivity|].
  destruct (tcmp (key y) (key x)); try reflexivity.
  rewrite IH. apply perm_swap.
Qed.

Lemma ssort_perm l : Permutation (ssort l) l.
Proof.
  induction l as [|x l IH]; simpl; [reflexivity|].
  rewrite ins_perm. now apply perm_skip.
Qed.

Lemma HdRel_ins y x l :
  HdRel key_le y l -> key_le y x -> HdRel key_le y (ins x l).
Proof.
  intros Hl Hyx. destruct l as [|z l]; simpl; [now constructor|].
  inversion Hl; subst. destruct (tcmp (key z) (key x)); now constructor.
Qed.

Lemma ins_sorted x l : Sorted key_le l -> Sorted key_le (ins x l).
Proof.
  induction 1 as [|y l Hl IH Hhd]; simpl; [repeat constructor|].
  destruct (tcmp (key y) (key x)) eqn:E.
  - apply tcmp_eq in E. constructor; [now constructor|].
    constructor. unfold key_le. rewrite E, tcmp_refl. discriminate.
  - constructor; [exact IH|]. apply HdRel_ins; [exact Hhd|].
    unfold key_le. rewrite E. discriminate.
  - constructor; [now constructor|]. constructor. unfold key_le.
    apply tcmp_gt_lt in E. rewrite E. discriminate.
Qed.

Lemma ssort_sorted l : Sorted key_le (ssort l).
Proof. induction l as [|x l IH]; simpl; [constructor | now apply ins_sorted]. Qed.

Lemma filter_same_key_ins k x l :
  List.filter (same_key k) (ins x l) = List.filter (same_key k) (x :: l).
Proof.
  induction l as [|y l IH]; simpl; [reflexivity|].
  destruct (tcmp (key y) (key x)) eqn:E; try reflexivity.
  simpl. rewrite IH. simpl.
  destruct (same_key k y) eqn:Ey, (same_key k x) eqn:Ex; try reflexivity.
  apply same_key_true in Ey, Ex. rewrite Ey, Ex, tcmp_refl in E. discriminate.
Qed.

(** Stability: the elements of each key keep their relative order. *)
Lemma ssort_stable k l :
  List.filter (same_key k) (ssort l) = List.filter (same_key k) l.
Proof.
  induction l as [|x l IH]; simpl; [reflexivity|].
  rewrite filter_same_key_ins. simpl. now rewrite IH.
Qed.

Lemma sorted_head_le x l y :
  Sorted key_le (x :: l) -> In y (x :: l) -> key_le x y.
Proof.
  intros Hs Hin. apply Sorted_StronglySorted in Hs; [|exact key_le_trans].
  apply StronglySorted_inv in Hs as [_ Hall]. destruct Hin as [<-|Hin].
  - unfold key_le. rewrite tcmp_refl. discriminate.
  - rewrite List.Forall_forall in Hall. now apply Hall.
Qed.

(** A sorted list is determined by its elements and the order of the
    elements of each key: any stable sort computes [ssort]. *)
Lemma sorted_stable_unique l1 l2 :
  Permutation l1 l2 -> Sorted key_le l1 -> Sorted key_le l2 ->
  (forall k, List.filter (same_key k) l1 = List.filter (same_key k) l2) ->
  l1 = l2.
Proof.
  revert l2. induction l1 as [|a r1 IH]; intros l2 Hp Hs1 Hs2 Hf.
  - symmetry. now apply Permutation_nil.
  - destruct l2 as [|b r2]; [apply Permutation_sym, Permutation_nil in Hp; discriminate|].
    assert (Hab : key a = key b).
    { apply tcmp_eq. pose proof (sorted_head_le a r1 b Hs1) as H1.
      pose proof (sorted_head_le b r2 a Hs2) as H2.
      specialize (H1 (Permutation_in _ (Permutation_sym Hp) (in_eq _ _))).
      specialize (H2 (Permutation_in _ Hp (in_eq _ _))).
      unfold key_le in *. rewrite (tcmp_sym (key a) (key b)) in H2.
      destruct (tcmp (key a) (key b)); simpl in *; congruence. }
    assert (a = b) as <-.
    { specialize (Hf (key a)). cbn [List.filter] in Hf.
      rewrite (proj2 (same_key_true (key a) a) eq_refl),
        (proj2 (same_key_true (key a) b) (eq_sym Hab)) in Hf.
      congruence. }
    f_equal. apply IH.
    + eapply Permutation_cons_inv; exact Hp.
    + now apply Sorted_inv in Hs1.
    + now apply Sorted_inv in Hs2.
    + intros k. specialize (Hf k). cbn [List.filter] in Hf.
      destruct (same_key k a); congruence.
Qed.
End StableSort.

(** ** Sorting twice, and sorting in reverse *)

Section SortFacts.
Context {A : Type}.

Lemma filter_filter_andb (f g : A -> bool) l :
  List.filter f (List.filter g l) = List.filter (fun x => g x && f x) l.
Proof.
  induction l as [|x l IH]; simpl; [reflexivity|].
  destruct (g x); simpl; [destruct (f x); simpl|]; congruence.
Qed.

Lemma filter_andb_comm (f g : A -> bool) l :
  List.filter (fun x => f x && g x) l = List.filter (fun x => g x && f x) l.
Proof. induction l as [|x l IH]; simpl; [reflexivity|]. now rewrite andb_comm, IH. Qed.

Lemma StronglySorted_filter (R : A -> A -> Prop) f l :
  StronglySorted R l -> StronglySorted R (List.filter f l).
Proof.
  induction 1 as [|x l Hl IH Hall]; simpl; [constructor|].
  destruct (f x); [|exact IH]. constructor; [exact IH|].
  rewrite List.Forall_forall in Hall |- *. intros y Hy.
  apply filter_In in Hy as [Hy _]. now apply Hall.
Qed.

Lemma StronglySorted_snoc (R : A -> A -> Prop) l x :
  StronglySorted R l -> Forall (fun y => R y x) l -> StronglySorted R (l ++ [x]).
Proof.
  induction 1 as [|y l Hl IH Hall]; intros Hx; simpl.
  - repeat constructor.
  - apply Forall_cons_iff in Hx as [Hyx Hx]. constructor; [now apply IH|].
    apply Forall_app. split; [exact Hall | now constructor].
Qed.

Lemma StronglySorted_rev (R : A -> A -> Prop) l :
  StronglySorted R l -> StronglySorted (fun x y => R y x) (rev l).
Proof.
  induction 1 as [|x l Hl IH Hall]; simpl; [constructor|].
  apply StronglySorted_snoc; [exact IH|]. now apply Forall_rev.
Qed.

Lemma length_le_1_rev (l : list A) : List.length l <= 1 -> rev l = l.
Proof. destruct l as [|a [|b l]]; simpl; [done|done|lia]. Qed.
End SortFacts.

Section SortTwice.
Context {A K1 K2 : Type} `{TotalCmp K1} `{TotalCmp K2}.
Context (key1 : A -> K1) (key2 : A -> K2).

Lemma same_key_pair k2 k1 y :
  same_key (fun x => (key2 x, key1 x)) (k2, k1) y =
  same_key key2 k2 y && same_key key1 k1 y.
Proof.
  unfold same_key. cbn. unfold lex_cmp. cbn.
  destruct (tcmp (key2 y) k2); reflexivity.
Qed.

Lemma strongly_sorted_lex M :
  StronglySorted (key_le key2) M ->
  (forall k, StronglySorted (key_le key1) (List.filter (same_key key2 k) M)) ->
  StronglySorted (key_le (fun x => (key2 x, key1 x))) M.
Proof.
  induction M as [|x M IH]; intros Hs Hf; [constructor|].
  apply StronglySorted_inv in Hs as [Hs Hall]. constructor.
  - apply IH; [exact Hs|]. intros k. specialize (Hf k). cbn [List.filter] in Hf.
    destruct (same_key key2 k x); [now apply StronglySorted_inv in Hf as [Hf _] | exact Hf].
  - rewrite List.Forall_forall in Hall |- *. intros y Hy. specialize (Hall y Hy).
    unfold key_le in *. cbn. unfold lex_cmp. cbn.
    destruct (tcmp (key2 x) (key2 y)) eqn:E; [|discriminate|contradiction].
    specialize (Hf (key2 x)). cbn [List.filter] in Hf.
    rewrite (proj2 (same_key_true key2 (key2 x) x) eq_refl) in Hf.
    apply StronglySorted_inv in Hf as [_ Hf]. rewrite List.Forall_forall in Hf.
    apply Hf, filter_In. split; [exact Hy|]. apply same_key_true.
    symmetry. now apply tcmp_eq.
Qed.

(** Sorting by [key1] and then by [key2] is sorting by [key2] with ties
    broken by [key1]: an earlier sort survives as the tie-breaker. *)
Lemma ssort_twice l :
  ssort key2 (ssort key1 l) = ssort (fun x => (key2 x, key1 x)) l.
Proof.
  apply (sorted_stable_unique (fun x => (key2 x, key1 x))).
  - rewrite !ssort_perm. reflexivity.
  - apply StronglySorted_Sorted, strongly_sorted_lex.
    + apply Sorted_StronglySorted; [apply (key_le_trans key2) | apply ssort_sorted].
    + intros k. rewrite ssort_stable. apply StronglySorted_filter.
      apply Sorted_StronglySorted; [apply (key_le_trans key1) | apply ssort_sorted].
  - apply ssort_sorted.
  - intros [k2 k1]. rewrite ssort_stable.
    rewrite !(List.filter_ext _ _ (same_key_pair k2 k1)).
    rewrite <- !filter_filter_andb, ssort_stable, !filter_filter_andb,
      filter_andb_comm, <- filter_filter_andb, ssort_stable.
    now rewrite filter_filter_andb, filter_andb_comm.
Qed.
End SortTwice.

Section SortRev.
Context {A K : Type} `{TotalCmp K} (key : A -> K).

Lemma same_key_rev k y : same_key (fun x => RevKey (key x)) k y = same_key key (un_rev k) y.
Proof.
  apply Bool.eq_iff_eq_true. rewrite !same_key_true. destruct k as [k]. simpl.
  split; [congruence | now intros ->].
Qed.

Lemma filter_same_key_nodup k l :
  NoDup (map key l) -> List.length (List.filter (same_key key k) l) <= 1.
Proof.
  induction l as [|x l IH]; simpl; intros Hnd; [lia|].
  apply NoDup_cons in Hnd as [Hx Hnd]. destruct (same_key key k x) eqn:E; simpl.
  - apply (same_key_true key k x) in E. rewrite <- E.
    enough (List.filter (same_key key (key x)) l = []) as -> by (simpl; lia).
    destruct (List.filter (same_key key (key x)) l) as [|y r] eqn:Ef; [done|].
    assert (Hy : In y (List.filter (same_key key (key x)) l)) by (rewrite Ef; now left).
    apply filter_In in Hy as [Hy Ey].
    apply (same_key_true key (key x) y) in Ey. destruct Hx. rewrite <- Ey.
    apply list_elem_of_In. now apply in_map.
  - now apply IH.
Qed.

(** With pairwise distinct keys, the descending sort is the reverse of
    the ascending sort. *)
Lemma ssort_rev_distinct l :
  NoDup (map key l) -> ssort (fun x => RevKey (key x)) l = rev (ssort key l).
Proof.
  intros Hnd. apply (sorted_stable_unique (fun x => RevKey (key x))).
  - rewrite ssort_perm, <- Permutation_rev, ssort_perm. reflexivity.
  - apply ssort_sorted.
  - apply StronglySorted_Sorted.
    apply (StronglySorted_rev (key_le key)).
    apply Sorted_StronglySorted; [apply (key_le_trans key) | apply ssort_sorted].
  - intros k. rewrite ssort_stable, filter_rev.
    rewrite !(List.filter_ext _ _ (same_key_rev k)), ssort_stable.
    symmetry. apply length_le_1_rev, filter_same_key_nodup, Hnd.
Qed.
End SortRev.

#[export] Hint Resolve ssort_perm ssort_sorted : store.
