(* ===== verification/Value.v ===== *)
(** Document values of the in-memory store ([backend/mock_db.py]): the
    tagged union a JSON document is made of, documents as Python dicts
    (insertion-ordered association lists with unique keys), type-sensitive
    equality and the ordering that [$gt]/[$lt] and [sort] use. *)

From S2P Require Import Prelude.
From Stdlib Require Import OrdersEx.
Local Open Scope string_scope.

(** ** Values and documents *)

Local Set Warnings "-register-all".
Inductive value : Type :=
| VStr (s : string)
| VNum (n : Z)
| VBool (b : bool)
| VNull
| VDoc (fields : list (string * value))
| VArr (items : list value).

(** A document is a Python dict from field names to values. *)
Abbreviation document := (list (string * value)).

(** The induction principle that sees through the nested lists. *)
Section ValueInd.
Variable P : value -> Prop.
Hypothesis HStr : forall s, P (VStr s).
Hypothesis HNum : forall n, P (VNum n).
Hypothesis HBool : forall b, P (VBool b).
Hypothesis HNull : P VNull.
Hypothesis HDoc : forall fs, Forall (fun kv => P kv.2) fs -> P (VDoc fs).
Hypothesis HArr : forall vs, Forall P vs -> P (VArr vs).

Fixpoint value_ind' (v : value) : P v :=
  match v with
  | VStr s => HStr s
  | VNum n => HNum n
  | VBool b => HBool b
  | VNull => HNull
  | VDoc fs => HDoc fs
      ((fix go (l : list (string * value)) : Forall (fun kv => P kv.2) l :=
          match l with
          | [] => List.Forall_nil _
          | kv :: l' => List.Forall_cons _ kv l' (value_ind' kv.2) (go l')
          end) fs)
  | VArr vs => HArr vs
      ((fix go (l : list value) : Forall P l :=
          match l with
          | [] => List.Forall_nil _
          | x :: l' => List.Forall_cons _ x l' (value_ind' x) (go l')
          end) vs)
  end.
End ValueInd.

(** ** Type-sensitive equality: Python's [==] on same-typed values *)

Fixpoint value_eqb (a b : value) {struct a} : bool :=
  match a, b with
  | VStr s, VStr t => String.eqb s t
  | VNum x, VNum y => Z.eqb x y
  | VBool x, VBool y => Bool.eqb x y
  | VNull, VNull => true
  | VDoc f, VDoc g =>
      (fix fields_eqb (f g : list (string * value)) : bool :=
         match f, g with
         | [], [] => true
         | (k, v) :: f', (k', v') :: g' =>
             String.eqb k k' && value_eqb v v' && fields_eqb f' g'
         | _, _ => false
         end) f g
  | VArr l, VArr m =>
      (fix items_eqb (l m : list value) : bool :=
         match l, m with
         | [], [] => true
         | x :: l', y :: m' => value_eqb x y && items_eqb l' m'
         | _, _ => false
         end) l m
  | _, _ => false
  end.

(** ** Python dict operations on documents *)

(** [d.get(k)]. *)
Fixpoint doc_get (d : document) (k : string) : option value :=
  match d with
  | [] => None
  | (k', v) :: d' => if String.eqb k k' then Some v else doc_get d' k
  end.

(** [d[k] = v]: an existing key keeps its position, a new key goes last. *)
Fixpoint doc_set (k : string) (v : value) (d : document) : document :=
  match d with
  | [] => [(k, v)]
  | (k', v') :: d' =>
      if String.eqb k k' then (k, v) :: d' else (k', v') :: doc_set k v d'
  end.

(** [d.update(u)]: the shallow, top-level merge of [update_one]. *)
Definition doc_update (d u : document) : document :=
  fold_left (fun acc kv => doc_set kv.1 kv.2 acc) u d.

(** A Python dict has each key once. *)
Definition doc_wf (d : document) : Prop := NoDup d.*1.

(** ** Ordering used by [$gt], [$gte], [$lt], [$lte] *)

(** Numbers compare numerically and strings lexicographically; any other
    pair is incomparable, which the matcher turns into a non-match. *)
Definition value_cmp (a b : value) : option comparison :=
  match a, b with
  | VNum x, VNum y => Some (Z.compare x y)
  | VStr s, VStr t => Some (String.compare s t)
  | _, _ => None
  end.

(** ** Lemmas *)

Lemma value_eqb_eq a b : value_eqb a b = true <-> a = b.
Proof.
  revert b. induction a as [s|n|x| |fs IH|vs IH] using value_ind';
    intros [s'|n'|x'| |gs|ws]; simpl; try (split; congruence).
  - rewrite String.eqb_eq. split; congruence.
  - rewrite Z.eqb_eq. split; congruence.
  - rewrite Bool.eqb_true_iff. split; congruence.
  - revert gs. induction IH as [|[k v] fs Hv _ IHfs]; intros [|[k' v'] gs];
      try (split; congruence).
    cbn in Hv. rewrite !andb_true_iff, String.eqb_eq, Hv, IHfs. split.
    + intros [[-> ->] Heq]. congruence.
    + intros Heq. injection Heq as -> -> ->. auto.
  - revert ws. induction IH as [|x vs Hx _ IHvs]; intros [|y ws];
      try (split; congruence).
    rewrite andb_true_iff, Hx, IHvs. split.
    + intros [-> Heq]. congruence.
    + intros Heq. injection Heq as -> ->. auto.
Qed.

Lemma value_eqb_refl a : value_eqb a a = true.
Proof. now apply value_eqb_eq. Qed.

#[export] Instance value_eq_dec : EqDecision value.
Proof.
  intros a b. destruct (value_eqb a b) eqn:E.
  - left. now apply value_eqb_eq.
  - right. intros <-. now rewrite value_eqb_refl in E.
Defined.

#[export] Hint Resolve value_eqb_refl : store.

Lemma doc_get_set_eq d k v : doc_get (doc_set k v d) k = Some v.
Proof.
  induction d as [|[k' v'] d IH]; simpl; rewrite ?String.eqb_refl; [reflexivity|].
  destruct (String.eqb_spec k k'); simpl; [now rewrite String.eqb_refl|].
  destruct (String.eqb_spec k k'); [contradiction | exact IH].
Qed.

Lemma doc_get_set_ne d k k2 v :
  k2 <> k -> doc_get (doc_set k v d) k2 = doc_get d k2.
Proof.
  intros Hne. induction d as [|[k' v'] d IH]; simpl.
  - now destruct (String.eqb_spec k2 k).
  - destruct (String.eqb_spec k k'); simpl.
    + subst. now destruct (String.eqb_spec k2 k'), (String.eqb_spec k2 k').
    + now rewrite IH.
Qed.

Lemma doc_set_keys d k v :
  (doc_set k v d).*1 = if bool_decide (k ∈ d.*1) then d.*1 else (d.*1 ++ [k])%list.
Proof.
  induction d as [|[k' v'] d IH]; [reflexivity|]. cbn [doc_set].
  destruct (String.eqb_spec k k') as [->|Hne]; rewrite !fmap_cons; cbn [fst].
  - rewrite bool_decide_true by set_solver. reflexivity.
  - rewrite IH. case_bool_decide as H1; case_bool_decide as H2;
      try reflexivity; exfalso; set_solver.
Qed.

Lemma doc_set_wf d k v : doc_wf d -> doc_wf (doc_set k v d).
Proof.
  unfold doc_wf. rewrite doc_set_keys. case_bool_decide; [done|].
  intros Hnd. apply NoDup_app. split_and!; [done| |apply NoDup_singleton].
  set_solver.
Qed.

Lemma doc_update_wf d u : doc_wf d -> doc_wf (doc_update d u).
Proof.
  unfold doc_update. revert d. induction u as [|kv u IH]; intros d Hd; simpl;
    [done|]. apply IH, doc_set_wf, Hd.
Qed.

Lemma doc_get_update d u k :
  doc_get (doc_update d u) k =
  match doc_get (rev u) k with Some v => Some v | None => doc_get d k end.
Proof.
  unfold doc_update. revert d. induction u as [|[k' v'] u IH]; intros d; simpl;
    [reflexivity|].
  rewrite IH. clear IH. induction (rev u) as [|[k2 v2] r IHr]; simpl.
  - destruct (String.eqb_spec k k') as [->|Hne];
      [apply doc_get_set_eq | now apply doc_get_set_ne].
  - destruct (String.eqb k k2); [reflexivity | exact IHr].
Qed.

Lemma value_cmp_some_types a b c :
  value_cmp a b = Some c ->
  (exists x y, a = VNum x /\ b = VNum y) \/ (exists s t, a = VStr s /\ b = VStr t).
Proof. destruct a, b; simpl; try discriminate; eauto. Qed.

#[export] Hint Resolve doc_get_set_eq doc_set_wf doc_update_wf : store.
