(* ===== verification/Json.v ===== *)
(** [JSON.stringify] and [JSON.parse] on the document values of [Value],
    as the pages use them for the stored user ([Login.handleSubmit] stores
    [JSON.stringify(response.data.user)], [Layout] reads it back with
    [JSON.parse]).  Strings are sequences of 8-bit characters; numbers are
    integers, so a fraction or an exponent is reported as not modelled, as
    is a [\u] escape beyond one byte.  [JSON.parse] is a recursive descent
    with fuel [3 * length + 1], which is proved to be enough for every
    input; an object with a repeated key keeps the first position and the
    last value, as JavaScript objects do. *)

From S2P Require Import Prelude Value.
From Stdlib Require Import DecimalN DecimalFacts.
Local Open Scope string_scope.
Local Open Scope nat_scope.

(** ** Characters *)

Definition dquote : ascii := "034"%char.
Definition bslash : ascii := "092"%char.

(** The whitespace [JSON.parse] skips between tokens. *)
Definition is_ws (c : ascii) : bool :=
  Ascii.eqb c " " || Ascii.eqb c "009"%char || Ascii.eqb c "010"%char || Ascii.eqb c "013"%char.

Fixpoint skip_ws (s : string) : string :=
  match s with
  | String c s' => if is_ws c then skip_ws s' else s
  | EmptyString => EmptyString
  end.

Fixpoint strip_prefix (p s : string) : option string :=
  match p, s with
  | EmptyString, _ => Some s
  | String a p', String b s' => if Ascii.eqb a b then strip_prefix p' s' else None
  | _, _ => None
  end.

Definition hex_digit (n : nat) : ascii :=
  if n <? 10 then ascii_of_nat (48 + n) else ascii_of_nat (87 + n).

Definition hex_value (c : ascii) : option nat :=
  let n := nat_of_ascii c in
  if (48 <=? n) && (n <=? 57) then Some (n - 48)
  else if (97 <=? n) && (n <=? 102) then Some (n - 87)
  else if (65 <=? n) && (n <=? 70) then Some (n - 55)
  else None.

(** ** [JSON.stringify] *)

(** The escape of one character: quote and backslash, the five short
    control escapes, [\u00xx] (lower-case hex) for the other control
    characters, the character itself otherwise. *)
Definition escape_char (c : ascii) : string :=
  let n := nat_of_ascii c in
  if Ascii.eqb c dquote then String bslash (String dquote "")
  else if Ascii.eqb c bslash then String bslash (String bslash "")
  else if n =? 8 then String bslash "b"
  else if n =? 9 then String bslash "t"
  else if n =? 10 then String bslash "n"
  else if n =? 12 then String bslash "f"
  else if n =? 13 then String bslash "r"
  else if n <? 32 then
    String bslash (String "u" (String "0" (String "0"
      (String (hex_digit (n / 16)) (String (hex_digit (n mod 16)) "")))))
  else String c "".

Fixpoint json_escape (s : string) : string :=
  match s with
  | EmptyString => EmptyString
  | String c s' => escape_char c ++ json_escape s'
  end.

Definition json_quote (s : string) : string := String dquote (json_escape s ++ String dquote "").

Fixpoint uint_string (u : Decimal.uint) : string :=
  match u with
  | Decimal.Nil => ""
  | Decimal.D0 u => String "0" (uint_string u)
  | Decimal.D1 u => String "1" (uint_string u)
  | Decimal.D2 u => String "2" (uint_string u)
  | Decimal.D3 u => String "3" (uint_string u)
  | Decimal.D4 u => String "4" (uint_string u)
  | Decimal.D5 u => String "5" (uint_string u)
  | Decimal.D6 u => String "6" (uint_string u)
  | Decimal.D7 u => String "7" (uint_string u)
  | Decimal.D8 u => String "8" (uint_string u)
  | Decimal.D9 u => String "9" (uint_string u)
  end.

(** An integer in decimal, with [-] when negative. *)
Definition json_number (n : Z) : string :=
  match n with
  | Z0 => "0"
  | Zpos p => uint_string (N.to_uint (Npos p))
  | Zneg p => String "-" (uint_string (N.to_uint (Npos p)))
  end.

Fixpoint json_stringify (v : value) : string :=
  match v with
  | VStr s => json_quote s
  | VNum n => json_number n
  | VBool b => if b then "true" else "false"
  | VNull => "null"
  | VArr items => "[" ++ String.concat "," (map json_stringify items) ++ "]"
  | VDoc fields =>
      "{" ++ String.concat "," (map (fun kv => json_quote kv.1 ++ ":" ++ json_stringify kv.2) fields)
        ++ "}"
  end.

(** ** [JSON.parse] *)

Inductive json_error : Type :=
| JsonSyntaxError
| JsonOutOfFuel
| JsonNotModelled (what : string).

Abbreviation jres A := (result json_error A).

Definition digit_of (c : ascii) : option (Decimal.uint -> Decimal.uint) :=
  if Ascii.eqb c "0" then Some Decimal.D0 else if Ascii.eqb c "1" then Some Decimal.D1
  else if Ascii.eqb c "2" then Some Decimal.D2 else if Ascii.eqb c "3" then Some Decimal.D3
  else if Ascii.eqb c "4" then Some Decimal.D4 else if Ascii.eqb c "5" then Some Decimal.D5
  else if Ascii.eqb c "6" then Some Decimal.D6 else if Ascii.eqb c "7" then Some Decimal.D7
  else if Ascii.eqb c "8" then Some Decimal.D8 else if Ascii.eqb c "9" then Some Decimal.D9
  else None.

(** The longest run of digits. *)
Fixpoint take_digits (s : string) : Decimal.uint * string :=
  match s with
  | String c s' =>
      match digit_of c with
      | Some d => let (u, r) := take_digits s' in (d u, r)
      | None => (Decimal.Nil, s)
      end
  | EmptyString => (Decimal.Nil, EmptyString)
  end.

Definition is_number_start (c : ascii) : bool :=
  Ascii.eqb c "-" || match digit_of c with Some _ => true | None => false end.

(** A number: an optional [-], digits without a leading zero. *)
Definition parse_number (s : string) : jres (Z * string) :=
  let '(neg, s1) := match s with
                    | String c r => if Ascii.eqb c "-" then (true, r) else (false, s)
                    | EmptyString => (false, s)
                    end in
  let '(u, r) := take_digits s1 in
  let n := Z.of_N (N.of_uint u) in
  let ok := Ok (if neg then Z.opp n else n, r) in
  let int_ok := match r with
                | String c _ =>
                    if Ascii.eqb c "." || Ascii.eqb c "e" || Ascii.eqb c "E"
                    then Err (JsonNotModelled "fraction or exponent") else ok
                | EmptyString => ok
                end in
  match u with
  | Decimal.Nil => Err JsonSyntaxError
  | Decimal.D0 Decimal.Nil => int_ok
  | Decimal.D0 _ => Err JsonSyntaxError
  | _ => int_ok
  end.

(** The characters of a string literal, after its opening quote, as a
    machine: plain characters, after a backslash, inside [\uXXXX]. *)
Inductive str_state : Type :=
| SNormal
| SEscape
| SUnicode (k acc : nat).

Definition simple_unescape (c : ascii) : option ascii :=
  if Ascii.eqb c dquote then Some dquote
  else if Ascii.eqb c bslash then Some bslash
  else if Ascii.eqb c "/" then Some "/"%char
  else if Ascii.eqb c "b" then Some (ascii_of_nat 8)
  else if Ascii.eqb c "f" then Some (ascii_of_nat 12)
  else if Ascii.eqb c "n" then Some (ascii_of_nat 10)
  else if Ascii.eqb c "r" then Some (ascii_of_nat 13)
  else if Ascii.eqb c "t" then Some (ascii_of_nat 9)
  else None.

Definition cons_char (c : ascii) (r : jres (string * string)) : jres (string * string) :=
  match r with
  | Ok (t, rest) => Ok (String c t, rest)
  | Err e => Err e
  end.

Fixpoint parse_chars (st : str_state) (s : string) : jres (string * string) :=
  match s with
  | EmptyString => Err JsonSyntaxError
  | String c s' =>
      match st with
      | SNormal =>
          if Ascii.eqb c dquote then Ok (EmptyString, s')
          else if Ascii.eqb c bslash then parse_chars SEscape s'
          else if nat_of_ascii c <? 32 then Err JsonSyntaxError
          else cons_char c (parse_chars SNormal s')
      | SEscape =>
          match simple_unescape c with
          | Some d => cons_char d (parse_chars SNormal s')
          | None => if Ascii.eqb c "u" then parse_chars (SUnicode 4 0) s' else Err JsonSyntaxError
          end
      | SUnicode k acc =>
          match hex_value c with
          | None => Err JsonSyntaxError
          | Some h =>
              let acc' := acc * 16 + h in
              match k with
              | 1 =>
                  if acc' <? 256 then cons_char (ascii_of_nat acc') (parse_chars SNormal s')
                  else Err (JsonNotModelled "escape beyond one byte")
              | _ => parse_chars (SUnicode (k - 1) acc') s'
              end
          end
      end
  end.

(** The object of the members read: a repeated key keeps its first
    position and takes the last value. *)
Definition build_object (members : list (string * value)) : document :=
  fold_left (fun d kv => doc_set kv.1 kv.2 d) members [].

Fixpoint parse_value (fuel : nat) (s : string) {struct fuel} : jres (value * string) :=
  match fuel with
  | 0 => Err JsonOutOfFuel
  | S f =>
      match skip_ws s with
      | EmptyString => Err JsonSyntaxError
      | String c r =>
          if Ascii.eqb c dquote then
            match parse_chars SNormal r with
            | Ok (t, r') => Ok (VStr t, r')
            | Err e => Err e
            end
          else if Ascii.eqb c "[" then
            match parse_array f r with
            | Ok (items, r') => Ok (VArr items, r')
            | Err e => Err e
            end
          else if Ascii.eqb c "{" then
            match parse_object f r with
            | Ok (members, r') => Ok (VDoc (build_object members), r')
            | Err e => Err e
            end
          else if is_number_start c then
            match parse_number (String c r) with
            | Ok (n, r') => Ok (VNum n, r')
            | Err e => Err e
            end
          else
            match strip_prefix "true" (String c r), strip_prefix "false" (String c r),
                  strip_prefix "null" (String c r) with
            | Some r', _, _ => Ok (VBool true, r')
            | _, Some r', _ => Ok (VBool false, r')
            | _, _, Some r' => Ok (VNull, r')
            | None, None, None => Err JsonSyntaxError
            end
      end
  end
(** After [[]: [] or the items. *)
with parse_array (fuel : nat) (s : string) {struct fuel} : jres (list value * string) :=
  match fuel with
  | 0 => Err JsonOutOfFuel
  | S f =>
      match skip_ws s with
      | String c r => if Ascii.eqb c "]" then Ok ([], r) else parse_items f (String c r)
      | EmptyString => parse_items f EmptyString
      end
  end
with parse_items (fuel : nat) (s : string) {struct fuel} : jres (list value * string) :=
  match fuel with
  | 0 => Err JsonOutOfFuel
  | S f =>
      match parse_value f s with
      | Err e => Err e
      | Ok (v, r) =>
          match skip_ws r with
          | String c r' =>
              if Ascii.eqb c "," then
                match parse_items f r' with
                | Ok (vs, r'') => Ok (v :: vs, r'')
                | Err e => Err e
                end
              else if Ascii.eqb c "]" then Ok ([v], r')
              else Err JsonSyntaxError
          | EmptyString => Err JsonSyntaxError
          end
      end
  end
(** After [{]: [}] or the members. *)
with parse_object (fuel : nat) (s : string) {struct fuel} : jres (list (string * value) * string) :=
  match fuel with
  | 0 => Err JsonOutOfFuel
  | S f =>
      match skip_ws s with
      | String c r => if Ascii.eqb c "}" then Ok ([], r) else parse_members f (String c r)
      | EmptyString => parse_members f EmptyString
      end
  end
with parse_members (fuel : nat) (s : string) {struct fuel}
  : jres (list (string * value) * string) :=
  match fuel with
  | 0 => Err JsonOutOfFuel
  | S f =>
      match skip_ws s with
      | String c r =>
          if negb (Ascii.eqb c dquote) then Err JsonSyntaxError else
          match parse_chars SNormal r with
          | Err e => Err e
          | Ok (k, r1) =>
              match skip_ws r1 with
              | String c1 r2 =>
                  if negb (Ascii.eqb c1 ":") then Err JsonSyntaxError else
                  match parse_value f r2 with
                  | Err e => Err e
                  | Ok (v, r3) =>
                      match skip_ws r3 with
                      | String c3 r4 =>
                          if Ascii.eqb c3 "," then
                            match parse_members f r4 with
                            | Ok (ms, r5) => Ok ((k, v) :: ms, r5)
                            | Err e => Err e
                            end
                          else if Ascii.eqb c3 "}" then Ok ([(k, v)], r4)
                          else Err JsonSyntaxError
                      | EmptyString => Err JsonSyntaxError
                      end
                  end
              | EmptyString => Err JsonSyntaxError
              end
          end
      | EmptyString => Err JsonSyntaxError
      end
  end.

(** [JSON.parse(s)]: one value and nothing but whitespace after it. *)
Definition json_parse (s : string) : jres value :=
  match parse_value (3 * String.length s + 1) s with
  | Ok (v, r) => if String.eqb (skip_ws r) "" then Ok v else Err JsonSyntaxError
  | Err e => Err e
  end.

(** The values [JSON.stringify] produces from JavaScript values: objects
    with each key once. *)
Inductive json_wf : value -> Prop :=
| wf_str s : json_wf (VStr s)
| wf_num n : json_wf (VNum n)
| wf_bool b : json_wf (VBool b)
| wf_null : json_wf VNull
| wf_arr vs : Forall json_wf vs -> json_wf (VArr vs)
| wf_doc fs : NoDup fs.*1 -> Forall (fun kv => json_wf kv.2) fs -> json_wf (VDoc fs).

(** ** Lemmas *)

(** What may follow a value in the output of [JSON.stringify]. *)
Definition delim (t : string) : Prop :=
  match t with
  | EmptyString => True
  | String c _ => c = ","%char \/ c = "]"%char \/ c = "}"%char
  end.

(** A value of the output of [JSON.stringify] reads back, with enough fuel,
    whatever follows it. *)
Definition parses_back (v : value) : Prop :=
  forall F t, delim t -> 3 * String.length (json_stringify v ++ t) + 1 <= F ->
  parse_value F (json_stringify v ++ t) = Ok (v, t).

Lemma parse_escape_char c t :
  parse_chars SNormal (escape_char c ++ t) = cons_char c (parse_chars SNormal t).
Proof. destruct c as [[] [] [] [] [] [] [] []]; reflexivity. Qed.

Lemma parse_json_escape s t :
  parse_chars SNormal (json_escape s ++ String dquote t) = Ok (s, t).
Proof.
  induction s as [|c s IH]; [reflexivity|]. cbn [json_escape].
  rewrite string_app_assoc, parse_escape_char, IH. reflexivity.
Qed.

Lemma take_digits_uint u t :
  (match t with String c _ => digit_of c = None | EmptyString => True end) ->
  take_digits (uint_string u ++ t) = (u, t).
Proof.
  intros Ht. induction u; cbn [uint_string]; rewrite ?append_String, ?append_EmptyString;
    try (cbn [take_digits digit_of Ascii.eqb]; rewrite IHu; reflexivity).
  destruct t as [|c t]; [reflexivity|]. simpl. now rewrite Ht.
Qed.

Lemma nzhead_not_D0_self u : Decimal.nzhead u <> Decimal.D0 u.
Proof.
  intros Eh. pose proof (DecimalFacts.nb_digits_nzhead u) as Hle.
  rewrite Eh in Hle. simpl in Hle. lia.
Qed.

(** The digits of a positive number: not empty, no leading zero. *)
Lemma to_uint_pos_shape p :
  N.to_uint (Npos p) <> Decimal.Nil /\ forall u, N.to_uint (Npos p) <> Decimal.D0 u.
Proof.
  pose proof (DecimalN.Unsigned.to_of (N.to_uint (Npos p))) as E.
  rewrite DecimalN.Unsigned.of_to in E.
  assert (Hnz : N.to_uint (Npos p) <> Decimal.zero).
  { intros Hz. pose proof (DecimalN.Unsigned.of_to (Npos p)) as H. rewrite Hz in H. discriminate. }
  split; [intros Hn | intros u Hu].
  - rewrite Hn in E. exact (DecimalFacts.unorm_nonnil Decimal.Nil (eq_sym E)).
  - rewrite Hu in E, Hnz.
    assert (H0 : Decimal.unorm (Decimal.D0 u) =
                 match Decimal.nzhead u with Decimal.Nil => Decimal.zero | d => d end)
      by reflexivity.
    rewrite H0 in E. destruct (Decimal.nzhead u) eqn:Eh; try discriminate E.
    + exact (Hnz E).
    + injection E as <-. exact (nzhead_not_D0_self _ Eh).
Qed.



Lemma delim_no_digit t :
  delim t -> match t with String c _ => digit_of c = None | EmptyString => True end.
Proof. destruct t as [|c t]; [done|]. intros [->|[->| ->]]; reflexivity. Qed.

Lemma parse_pos_digits (neg : bool) p t :
  delim t ->
  parse_number ((if neg then "-" else "") ++ uint_string (N.to_uint (Npos p)) ++ t) =
  Ok (if neg then Zneg p else Zpos p, t).
Proof.
  intros Hd. pose proof (take_digits_uint (N.to_uint (Npos p)) t (delim_no_digit t Hd)) as Ht.
  pose proof (DecimalN.Unsigned.of_to (Npos p)) as Hv.
  destruct (to_uint_pos_shape p) as [Hn H0].
  destruct (N.to_uint (Npos p)) as [|u|u|u|u|u|u|u|u|u|u];
    [contradiction | exfalso; exact (H0 u eq_refl) |..];
    cbn [uint_string] in *; rewrite append_String in *;
    destruct neg; rewrite ?append_String, ?append_EmptyString; unfold parse_number;
    cbn [String.eqb Ascii.eqb Bool.eqb andb]; rewrite Ht; rewrite Hv;
    (destruct t as [|c t]; [reflexivity|]); destruct Hd as [->|[->| ->]]; reflexivity.
Qed.

Lemma parse_json_number n t : delim t -> parse_number (json_number n ++ t) = Ok (n, t).
Proof.
  intros Hd. destruct n as [|p|p].
  - destruct t as [|c t]; [reflexivity|]. destruct Hd as [->|[->| ->]]; reflexivity.
  - exact (parse_pos_digits false p t Hd).
  - exact (parse_pos_digits true p t Hd).
Qed.

Lemma stringify_head v :
  exists c r, json_stringify v = String c r /\ is_ws c = false /\
    c <> "]"%char /\ c <> "}"%char /\ c <> ","%char.
Proof.
  destruct v as [s|[|p|p]|[]| |fs|vs];
    try (eexists _, _; split; [reflexivity|]; split_and!; first [reflexivity | discriminate]).
  all: cbn [json_stringify json_number]; destruct (to_uint_pos_shape p) as [Hn _];
    destruct (N.to_uint (Npos p)); try contradiction;
    eexists _, _; (split; [reflexivity|]); split_and!; first [reflexivity | discriminate].
Qed.

Lemma stringify_length v : 1 <= String.length (json_stringify v).
Proof. destruct (stringify_head v) as (c & r & -> & _). simpl. lia. Qed.

Lemma doc_set_absent k v d : k ∉ d.*1 -> doc_set k v d = (d ++ [(k, v)])%list.
Proof.
  induction d as [|[k' v'] d IH]; intros Hk; [reflexivity|]. cbn [doc_set].
  destruct (String.eqb_spec k k') as [->|Hne]; [set_solver|].
  rewrite IH by set_solver. reflexivity.
Qed.

Lemma fold_doc_set_nodup acc fs :
  NoDup (acc.*1 ++ fs.*1)%list ->
  fold_left (fun d kv => doc_set kv.1 kv.2 d) fs acc = (acc ++ fs)%list.
Proof.
  revert acc. induction fs as [|[k v] fs IH]; intros acc Hnd; simpl; [now rewrite List.app_nil_r|].
  rewrite doc_set_absent.
  - rewrite IH; [now rewrite <- List.app_assoc|]. rewrite fmap_app. simpl. now rewrite <- List.app_assoc.
  - intros Hk. cbn in Hnd. apply NoDup_app in Hnd as (_ & Hdis & _).
    apply (Hdis k Hk). simpl. set_solver.
Qed.

Lemma build_object_nodup fs : NoDup fs.*1 -> build_object fs = fs.
Proof. intros Hnd. exact (fold_doc_set_nodup [] fs Hnd). Qed.

Lemma number_start_plain c :
  is_number_start c = true ->
  is_ws c = false /\ Ascii.eqb c dquote = false /\ Ascii.eqb c "[" = false /\ Ascii.eqb c "{" = false /\
  c <> "]"%char /\ c <> "}"%char /\ c <> ","%char.
Proof. destruct c as [[] [] [] [] [] [] [] []]; cbn; intros H; try discriminate H; split_and!; easy. Qed.

Lemma json_number_head n : exists c r, json_number n = String c r /\ is_number_start c = true.
Proof.
  destruct n as [|p|p]; [eexists _, _; split; reflexivity| |eexists _, _; split; reflexivity].
  cbn [json_number]. destruct (to_uint_pos_shape p) as [Hn H0].
  destruct (N.to_uint (Npos p)); try contradiction; [exfalso; exact (H0 _ eq_refl)|..];
    eexists _, _; split; reflexivity.
Qed.

(** The dispatch of [parse_value] on a character that starts a number. *)
Lemma parse_value_number_start f c r :
  is_number_start c = true ->
  parse_value (S f) (String c r) =
  match parse_number (String c r) with Ok (n, r') => Ok (VNum n, r') | Err e => Err e end.
Proof.
  intros Hc. destruct (number_start_plain c Hc) as (Hw & Hq & Hb & Hc' & _).
  cbn [parse_value skip_ws]. now rewrite Hw, Hq, Hb, Hc', Hc.
Qed.

Lemma parse_value_json_number f n t :
  delim t -> parse_value (S f) (json_number n ++ t) = Ok (VNum n, t).
Proof.
  intros Hd. destruct (json_number_head n) as (c & r & Hjn & Hc).
  rewrite Hjn, append_String, parse_value_number_start by exact Hc.
  rewrite <- append_String, <- Hjn, parse_json_number by exact Hd. reflexivity.
Qed.

Lemma parse_array_open f c r :
  is_ws c = false -> c <> "]"%char -> parse_array (S f) (String c r) = parse_items f (String c r).
Proof. destruct c as [[] [] [] [] [] [] [] []]; cbn; intros Hw Hc; try discriminate Hw; easy. Qed.

Lemma parse_object_open f c r :
  is_ws c = false -> c <> "}"%char -> parse_object (S f) (String c r) = parse_members f (String c r).
Proof. destruct c as [[] [] [] [] [] [] [] []]; cbn; intros Hw Hc; try discriminate Hw; easy. Qed.

Lemma parse_array_stringify f v y :
  parse_array (S f) (json_stringify v ++ y) = parse_items f (json_stringify v ++ y).
Proof.
  destruct (stringify_head v) as (c & r & Hh & Hw & Hc & _). rewrite Hh, append_String.
  exact (parse_array_open f c _ Hw Hc).
Qed.

Lemma concat_cons_head (x : string) xs :
  String.concat "," (x :: xs) = x ++ match xs with [] => "" | _ => "," ++ String.concat "," xs end.
Proof. destruct xs; [now rewrite string_app_empty_r | reflexivity]. Qed.

Lemma parse_items_stringify vs t :
  Forall parses_back vs -> vs <> [] ->
  forall F, 3 * String.length (String.concat "," (map json_stringify vs) ++ String "]" t) + 2 <= F ->
  parse_items F (String.concat "," (map json_stringify vs) ++ String "]" t) = Ok (vs, t).
Proof.
  induction vs as [|v vs IH]; intros Hall Hne F HF; [congruence|].
  apply Forall_cons in Hall as [Hv Hall]. destruct F as [|f]; [lia|].
  pose proof (stringify_length v) as Hl.
  destruct vs as [|v2 vs].
  - cbn [map String.concat] in *. cbn [parse_items].
    rewrite (Hv f (String "]" t)); [reflexivity | right; left; reflexivity | lia].
  - change (String.concat "," (map json_stringify (v :: v2 :: vs))) with
      (json_stringify v ++ "," ++ String.concat "," (map json_stringify (v2 :: vs))) in *.
    rewrite !string_app_assoc, append_String, append_EmptyString in *.
    rewrite string_length_app in HF. cbn [String.length] in HF. cbn [parse_items].
    rewrite (Hv f); [| left; reflexivity | rewrite string_length_app; cbn [String.length]; lia].
    cbn [skip_ws is_ws Ascii.eqb Bool.eqb orb].
    rewrite (IH Hall ltac:(discriminate) f); [reflexivity | lia].
Qed.

Ltac str_norm := repeat (rewrite ?string_app_assoc; autorewrite with str_rw).

Ltac len_lia :=
  repeat (rewrite ?string_length_app in *; cbn [String.length] in * ); lia.

Lemma parse_members_stringify fs t :
  Forall (fun kv => parses_back kv.2) fs -> fs <> [] ->
  forall F,
  3 * String.length (String.concat ","
        (map (fun kv => json_quote kv.1 ++ ":" ++ json_stringify kv.2) fs) ++ String "}" t) + 2 <= F ->
  parse_members F (String.concat ","
        (map (fun kv => json_quote kv.1 ++ ":" ++ json_stringify kv.2) fs) ++ String "}" t) =
  Ok (fs, t).
Proof.
  induction fs as [|[k x] fs IH]; intros Hall Hne F HF; [congruence|].
  apply Forall_cons in Hall as [Hx Hall]. destruct F as [|f]; [lia|].
  pose proof (stringify_length x) as Hl. cbn [fst snd] in Hx.
  destruct fs as [|kv2 fs].
  - cbn [map String.concat fst snd] in *. unfold json_quote in *. str_norm.
    rewrite !string_length_app in HF; cbn [String.length] in HF; rewrite ?string_length_app in HF.
    cbn [parse_members skip_ws is_ws Ascii.eqb Bool.eqb orb negb dquote]; fold dquote.
    rewrite parse_json_escape. cbn [skip_ws is_ws Ascii.eqb Bool.eqb orb].
    rewrite (Hx f (String "}" t)); [reflexivity | right; right; reflexivity
                                 | len_lia].
  - change (String.concat "," (map (fun kv => json_quote kv.1 ++ ":" ++ json_stringify kv.2)
              ((k, x) :: kv2 :: fs))) with
      ((json_quote k ++ ":" ++ json_stringify x) ++ "," ++
       String.concat "," (map (fun kv => json_quote kv.1 ++ ":" ++ json_stringify kv.2) (kv2 :: fs)))
      in *.
    unfold json_quote at 1 in HF. unfold json_quote at 1. str_norm.
    rewrite !string_length_app in HF; cbn [String.length] in HF; rewrite ?string_length_app in HF.
    cbn [parse_members skip_ws is_ws Ascii.eqb Bool.eqb orb negb dquote]; fold dquote.
    rewrite parse_json_escape. cbn [skip_ws is_ws Ascii.eqb Bool.eqb orb].
    rewrite (Hx f); [| left; reflexivity | len_lia].
    cbn [skip_ws is_ws Ascii.eqb Bool.eqb orb].
    rewrite (IH Hall ltac:(discriminate) f); [reflexivity | len_lia].
Qed.

Lemma parse_object_members f fs y :
  fs <> [] ->
  parse_object (S f)
    (String.concat "," (map (fun kv => json_quote kv.1 ++ ":" ++ json_stringify kv.2) fs) ++ y) =
  parse_members f
    (String.concat "," (map (fun kv => json_quote kv.1 ++ ":" ++ json_stringify kv.2) fs) ++ y).
Proof.
  destruct fs as [|[k x] fs]; [congruence|]. intros _.
  rewrite map_cons, concat_cons_head. unfold json_quote at 1.
  rewrite !string_app_assoc, append_String. now apply parse_object_open.
Qed.

Lemma parse_array_items f vs y :
  vs <> [] ->
  parse_array (S f) (String.concat "," (map json_stringify vs) ++ y) =
  parse_items f (String.concat "," (map json_stringify vs) ++ y).
Proof.
  destruct vs as [|v vs]; [congruence|]. intros _.
  rewrite map_cons, concat_cons_head, string_app_assoc. apply parse_array_stringify.
Qed.

Lemma parses_back_all v : json_wf v -> parses_back v.
Proof.
  induction v as [s|n|b| |fs IH|vs IH] using value_ind'; intros Hwf F t Hd HF;
    destruct F as [|f]; try lia.
  - cbn [json_stringify]. unfold json_quote. str_norm.
    cbn [parse_value skip_ws is_ws Ascii.eqb Bool.eqb orb dquote]; fold dquote.
    now rewrite parse_json_escape.
  - exact (parse_value_json_number f n t Hd).
  - destruct b; destruct t as [|c t]; try reflexivity; destruct Hd as [->|[->| ->]]; reflexivity.
  - destruct t as [|c t]; try reflexivity; destruct Hd as [->|[->| ->]]; reflexivity.
  - inversion Hwf as [| | | | |? Hnd Hall]; subst.
    assert (Hb : Forall (fun kv => parses_back kv.2) fs).
    { rewrite List.Forall_forall in IH, Hall |- *. intros kv Hkv. exact (IH kv Hkv (Hall kv Hkv)). }
    cbn [json_stringify] in *. str_norm. cbn [parse_value skip_ws is_ws Ascii.eqb Bool.eqb orb dquote].
    destruct f as [|f]; [len_lia|].
    destruct fs as [|kv fs]; [reflexivity|].
    rewrite parse_object_members, parse_members_stringify by (exact Hb || discriminate || len_lia).
    now rewrite build_object_nodup.
  - inversion Hwf as [| | | |? Hall|]; subst.
    assert (Hb : Forall parses_back vs).
    { rewrite List.Forall_forall in IH, Hall |- *. intros v Hv. exact (IH v Hv (Hall v Hv)). }
    cbn [json_stringify] in *. str_norm. cbn [parse_value skip_ws is_ws Ascii.eqb Bool.eqb orb dquote].
    destruct f as [|f]; [len_lia|].
    destruct vs as [|v vs]; [reflexivity|].
    rewrite parse_array_items, parse_items_stringify by (exact Hb || discriminate || len_lia).
    reflexivity.
Qed.

(** C12: [JSON.parse] reads back what [JSON.stringify] writes.  For every
    value whose objects have each key once, [json_parse (json_stringify v)]
    is [v]: strings with all their escapes, integers, literals, arrays and
    objects with their members in order. *)
Theorem json_roundtrip v : json_wf v -> json_parse (json_stringify v) = Ok v.
Proof.
  intros Hwf. unfold json_parse. rewrite <- (string_app_empty_r (json_stringify v)).
  rewrite (parses_back_all v Hwf); [reflexivity | exact I | lia].
Qed.

Lemma json_roundtrip_witness :
  json_parse (json_stringify (VDoc [("username", VStr "a\b"); ("id", VNum (-42));
    ("tags", VArr [VBool true; VNull])])) =
  Ok (VDoc [("username", VStr "a\b"); ("id", VNum (-42)); ("tags", VArr [VBool true; VNull])]).
Proof.
  apply json_roundtrip. repeat constructor; cbn; set_solver.
Defined.

(** ** Termination of [JSON.parse] *)

Lemma skip_ws_le s : String.length (skip_ws s) <= String.length s.
Proof. induction s as [|c s IH]; cbn; [lia|]. destruct (is_ws c); cbn; lia. Qed.

Lemma strip_prefix_len p s r :
  strip_prefix p s = Some r -> String.length r + String.length p = String.length s.
Proof.
  revert s. induction p as [|a p IH]; intros [|b s] H; cbn in H; try discriminate.
  - injection H as <-. cbn. lia.
  - injection H as <-. cbn. lia.
  - destruct (Ascii.eqb a b); [|discriminate]. apply IH in H. cbn. lia.
Qed.

Lemma parse_chars_len st s t r :
  parse_chars st s = Ok (t, r) -> String.length r < String.length s.
Proof.
  revert st t. induction s as [|c s IH]; intros st t H; cbn [parse_chars] in H; [discriminate|].
  cbn [String.length]. destruct st as [| |k acc].
  - destruct (Ascii.eqb c dquote); [injection H as _ <-; lia|].
    destruct (Ascii.eqb c bslash); [apply IH in H; lia|].
    match type of H with context [Nat.ltb (nat_of_ascii c) ?m] => destruct (Nat.ltb (nat_of_ascii c) m) end;
      [discriminate|].
    destruct (parse_chars SNormal s) as [[t' r']|] eqn:E; cbn in H; [|discriminate].
    injection H as _ <-. apply IH in E. lia.
  - destruct (simple_unescape c).
    + destruct (parse_chars SNormal s) as [[t' r']|] eqn:E; cbn in H; [|discriminate].
      injection H as _ <-. apply IH in E. lia.
    + destruct (Ascii.eqb c "u"); [apply IH in H; lia | discriminate].
  - destruct (hex_value c); [|discriminate].
    destruct k as [|[|k]].
    + apply IH in H. lia.
    + destruct (_ <? 256); [|discriminate].
      destruct (parse_chars SNormal s) as [[t' r']|] eqn:E; cbn in H; [|discriminate].
      injection H as _ <-. apply IH in E. lia.
    + apply IH in H. lia.
Qed.

Lemma take_digits_len s u r :
  take_digits s = (u, r) -> String.length r <= String.length s /\
                            (u <> Decimal.Nil -> String.length r < String.length s).
Proof.
  revert u r. induction s as [|c s IH]; intros u r H; cbn in H.
  - injection H as <- <-. split; [lia | congruence].
  - destruct (digit_of c) as [d|].
    + destruct (take_digits s) as [u' r'] eqn:E. injection H as <- <-.
      destruct (IH _ _ eq_refl) as [H1 _]. cbn. split; intros; lia.
    + injection H as <- <-. split; [lia | congruence].
Qed.

Lemma parse_number_len s n r :
  parse_number s = Ok (n, r) -> String.length r < String.length s.
Proof.
  unfold parse_number. intros H.
  assert (Hs : exists neg s1, (match s with
                               | String c r => if Ascii.eqb c "-" then (true, r) else (false, s)
                               | EmptyString => (false, s) end) = (neg, s1) /\
                              String.length s1 <= String.length s).
  { destruct s as [|c s]; [eexists _, _; split; [reflexivity|lia]|].
    destruct (Ascii.eqb c "-"); eexists _, _; (split; [reflexivity|cbn; lia]). }
  destruct Hs as (neg & s1 & Es & Hl). rewrite Es in H.
  destruct (take_digits s1) as [u r1] eqn:Et. apply take_digits_len in Et as [_ Hlt].
  destruct u as [|u|u|u|u|u|u|u|u|u|u]; try destruct u; try discriminate H;
    repeat match type of H with
           | context [match ?x with _ => _ end] => destruct x; try discriminate H
           end;
    injection H as _ Hr; subst; specialize (Hlt ltac:(discriminate)); lia.
Qed.

(** Case analysis on every [match] of a hypothesis. *)
Ltac dmatch H :=
  repeat match type of H with
         | context [match ?x with _ => _ end] =>
             let E := fresh "E" in destruct x eqn:E; try discriminate H
         end.

(** The length facts of the pieces a parse went through. *)
Ltac len_facts :=
  repeat match goal with
         | E : skip_ws ?s = ?t |- _ =>
             let H := fresh "L" in pose proof (skip_ws_le s) as H; rewrite E in H; clear E
         | E : strip_prefix _ _ = Some _ |- _ => apply strip_prefix_len in E
         | E : parse_chars _ _ = Ok _ |- _ => apply parse_chars_len in E
         | E : parse_number _ = Ok _ |- _ => apply parse_number_len in E
         end;
  cbn [String.length] in *.

(** Every successful parse consumes input. *)
Lemma parse_consumes f :
  (forall s v r, parse_value f s = Ok (v, r) -> String.length r < String.length s) /\
  (forall s vs r, parse_array f s = Ok (vs, r) -> String.length r < String.length s) /\
  (forall s vs r, parse_items f s = Ok (vs, r) -> String.length r < String.length s) /\
  (forall s ms r, parse_object f s = Ok (ms, r) -> String.length r < String.length s) /\
  (forall s ms r, parse_members f s = Ok (ms, r) -> String.length r < String.length s).
Proof.
  induction f as [|f (IHv & IHa & IHi & IHo & IHm)]; [split_and!; discriminate|].
  split_and!; intros s x r H;
    cbn [parse_value parse_array parse_items parse_object parse_members] in H; dmatch H;
    try (injection H as _ <-);
    repeat match goal with
           | E : parse_value f _ = Ok _ |- _ => apply IHv in E
           | E : parse_array f _ = Ok _ |- _ => apply IHa in E
           | E : parse_items f _ = Ok _ |- _ => apply IHi in E
           | E : parse_object f _ = Ok _ |- _ => apply IHo in E
           | E : parse_members f _ = Ok _ |- _ => apply IHm in E
           end;
    len_facts; lia.
Qed.

Lemma cons_char_no_fuel c r : r <> Err JsonOutOfFuel -> cons_char c r <> Err JsonOutOfFuel.
Proof. destruct r as [[t rest]|e]; cbn; congruence. Qed.

Lemma parse_chars_no_fuel st s : parse_chars st s <> Err JsonOutOfFuel.
Proof.
  revert st. induction s as [|c s IH]; intros st; cbn [parse_chars]; [discriminate|].
  destruct st as [| |k acc].
  - destruct (Ascii.eqb c dquote); [discriminate|]. destruct (Ascii.eqb c bslash); [apply IH|].
    match goal with |- context [Nat.ltb (nat_of_ascii c) ?m] => destruct (Nat.ltb (nat_of_ascii c) m) end;
      [discriminate | now apply cons_char_no_fuel].
  - destruct (simple_unescape c); [now apply cons_char_no_fuel|].
    destruct (Ascii.eqb c "u"); [apply IH | discriminate].
  - destruct (hex_value c); [|discriminate]. destruct k as [|[|k]]; [apply IH| |apply IH].
    destruct (_ <? 256); [now apply cons_char_no_fuel | discriminate].
Qed.

Lemma parse_number_no_fuel s : parse_number s <> Err JsonOutOfFuel.
Proof.
  unfold parse_number. intros H. dmatch H; try discriminate H;
    try (destruct u; discriminate H); injection H as H; discriminate H.
Qed.

(** Fuel three times the length, plus a little per level, is enough. *)
Lemma parse_fuel f :
  (forall s, 3 * String.length s + 1 <= f -> parse_value f s <> Err JsonOutOfFuel) /\
  (forall s, 3 * String.length s + 3 <= f -> parse_array f s <> Err JsonOutOfFuel) /\
  (forall s, 3 * String.length s + 2 <= f -> parse_items f s <> Err JsonOutOfFuel) /\
  (forall s, 3 * String.length s + 3 <= f -> parse_object f s <> Err JsonOutOfFuel) /\
  (forall s, 3 * String.length s + 2 <= f -> parse_members f s <> Err JsonOutOfFuel).
Proof.
  induction f as [|f (IHv & IHa & IHi & IHo & IHm)]; [split_and!; intros; lia|].
  destruct (parse_consumes f) as (Cv & Ca & Ci & Co & Cm).
  split_and!; intros s Hf H;
    cbn [parse_value parse_array parse_items parse_object parse_members] in H; dmatch H;
    try (injection H as ->);
    repeat match goal with
           | E : parse_value f _ = Ok _ |- _ => apply Cv in E
           | E : parse_array f _ = Ok _ |- _ => apply Ca in E
           | E : parse_items f _ = Ok _ |- _ => apply Ci in E
           | E : parse_object f _ = Ok _ |- _ => apply Co in E
           | E : parse_members f _ = Ok _ |- _ => apply Cm in E
           | E : parse_chars _ _ = Err JsonOutOfFuel |- _ => exact (parse_chars_no_fuel _ _ E)
           | E : parse_number _ = Err JsonOutOfFuel |- _ => exact (parse_number_no_fuel _ E)
           end;
    len_facts;
    match goal with
    | E : parse_value f ?a = Err JsonOutOfFuel |- _ => exact (IHv a ltac:(cbn [String.length]; lia) E)
    | E : parse_array f ?a = Err JsonOutOfFuel |- _ => exact (IHa a ltac:(cbn [String.length]; lia) E)
    | E : parse_items f ?a = Err JsonOutOfFuel |- _ => exact (IHi a ltac:(cbn [String.length]; lia) E)
    | E : parse_object f ?a = Err JsonOutOfFuel |- _ => exact (IHo a ltac:(cbn [String.length]; lia) E)
    | E : parse_members f ?a = Err JsonOutOfFuel |- _ => exact (IHm a ltac:(cbn [String.length]; lia) E)
    end.
Qed.

(** C26: [JSON.parse] always answers.  On every input string the fuel
    [3 * length + 1] is enough: [json_parse] returns a value, a syntax
    error or a construct outside the model, never "out of fuel". *)
Theorem json_parse_terminates s : json_parse s <> Err JsonOutOfFuel.
Proof.
  unfold json_parse. destruct (parse_value _ s) as [[v r]|e] eqn:E.
  - destruct (String.eqb _ _); discriminate.
  - intros [= ->]. exact (proj1 (parse_fuel (3 * String.length s + 1)) s (le_n _) E).
Qed.
