(* ===== verification/JsonGrammar.v ===== *)
(** The JSON grammar of RFC 8259, as the reference the [JSON.parse] of
    [Json] is measured against: whitespace, string literals with their
    escapes, integer literals, the three literals, arrays and objects, each
    as an inductive predicate on the text (concatenations of its parts) and
    the value it denotes.  The grammar is restricted as the model is:
    numbers are integers and a [\u] escape denotes one byte.  An object
    denotes the JavaScript object its members build, later keys replacing
    earlier ones ([build_object]). *)

From S2P Require Import Prelude Value Json.
Local Open Scope string_scope.

(** ** Tokens *)

Definition ws (w : string) : Prop := Forall (fun c => is_ws c = true) (list_ascii_of_string w).

(** The two-character escapes: a backslash followed by a quote, a
    backslash, a slash, or one of b, f, n, r, t. *)
Inductive short_escape : ascii -> ascii -> Prop :=
| esc_quote : short_escape dquote dquote
| esc_bslash : short_escape bslash bslash
| esc_slash : short_escape "/" "/"
| esc_b : short_escape "b" (ascii_of_nat 8)
| esc_f : short_escape "f" (ascii_of_nat 12)
| esc_n : short_escape "n" (ascii_of_nat 10)
| esc_r : short_escape "r" (ascii_of_nat 13)
| esc_t : short_escape "t" (ascii_of_nat 9).

(** A hexadecimal digit and its value. *)
Inductive hex_char : ascii -> nat -> Prop :=
| hex_dec n : (n < 10)%nat -> hex_char (ascii_of_nat (48 + n)) n
| hex_lower n : (10 <= n < 16)%nat -> hex_char (ascii_of_nat (87 + n)) n
| hex_upper n : (10 <= n < 16)%nat -> hex_char (ascii_of_nat (55 + n)) n.

(** One character of a string literal: a character other than the quote,
    the backslash and the control characters, a short escape, or [\uXXXX]
    of a code below 256. *)
Inductive str_char : string -> ascii -> Prop :=
| sc_plain c :
    c <> dquote -> c <> bslash -> (32 <= nat_of_ascii c)%nat -> str_char (String c "") c
| sc_escape e d : short_escape e d -> str_char (String bslash (String e "")) d
| sc_unicode h1 h2 h3 h4 n1 n2 n3 n4 :
    hex_char h1 n1 -> hex_char h2 n2 -> hex_char h3 n3 -> hex_char h4 n4 ->
    (((n1 * 16 + n2) * 16 + n3) * 16 + n4 < 256)%nat ->
    str_char (String bslash (String "u" (String h1 (String h2 (String h3 (String h4 ""))))))
      (ascii_of_nat (((n1 * 16 + n2) * 16 + n3) * 16 + n4)).

Inductive str_body : string -> string -> Prop :=
| sb_nil : str_body "" ""
| sb_cons t c b v : str_char t c -> str_body b v -> str_body (t ++ b) (String c v).

Definition string_lit (t v : string) : Prop :=
  exists b, t = String dquote (b ++ String dquote "") /\ str_body b v.

Definition is_digit (c : ascii) : Prop := (48 <= nat_of_ascii c <= 57)%nat.

(** The decimal digits as the standard library's [Decimal.uint]. *)
Fixpoint digits_uint (ds : string) : Decimal.uint :=
  match ds with
  | EmptyString => Decimal.Nil
  | String c ds' =>
      let u := digits_uint ds' in
      match nat_of_ascii c - 48 with
      | 0 => Decimal.D0 u | 1 => Decimal.D1 u | 2 => Decimal.D2 u | 3 => Decimal.D3 u
      | 4 => Decimal.D4 u | 5 => Decimal.D5 u | 6 => Decimal.D6 u | 7 => Decimal.D7 u
      | 8 => Decimal.D8 u | _ => Decimal.D9 u
      end
  end.

(** An unsigned integer: [0], or digits not starting with [0]. *)
Inductive uint_lit : string -> Z -> Prop :=
| ul_zero : uint_lit "0" 0
| ul_pos ds :
    ds <> "" -> Forall is_digit (list_ascii_of_string ds) -> String.get 0 ds <> Some "0"%char ->
    uint_lit ds (Z.of_N (N.of_uint (digits_uint ds))).

(** An integer: an unsigned one, optionally after a minus sign. *)
Inductive int_lit : string -> Z -> Prop :=
| il_nat t n : uint_lit t n -> int_lit t n
| il_neg t n : uint_lit t n -> int_lit (String "-" t) (- n).

(** ** Values *)

(** A value with the whitespace before it; [jelems] and [jmembers] are
    the insides of arrays and objects. *)
Inductive jval : string -> value -> Prop :=
| jv_str w t s : ws w -> string_lit t s -> jval (w ++ t) (VStr s)
| jv_num w t n : ws w -> int_lit t n -> jval (w ++ t) (VNum n)
| jv_true w : ws w -> jval (w ++ "true") (VBool true)
| jv_false w : ws w -> jval (w ++ "false") (VBool false)
| jv_null w : ws w -> jval (w ++ "null") VNull
| jv_arr_nil w1 w2 : ws w1 -> ws w2 -> jval (w1 ++ "[" ++ w2 ++ "]") (VArr [])
| jv_arr w t vs : ws w -> jelems t vs -> jval (w ++ "[" ++ t ++ "]") (VArr vs)
| jv_obj_nil w1 w2 : ws w1 -> ws w2 -> jval (w1 ++ "{" ++ w2 ++ "}") (VDoc [])
| jv_obj w t ms : ws w -> jmembers t ms -> jval (w ++ "{" ++ t ++ "}") (VDoc (build_object ms))
with jelems : string -> list value -> Prop :=
| je_one t v w : jval t v -> ws w -> jelems (t ++ w) [v]
| je_cons t v w t' vs : jval t v -> ws w -> jelems t' vs -> jelems (t ++ w ++ "," ++ t') (v :: vs)
with jmembers : string -> list (string * value) -> Prop :=
| jm_one w1 kt k w2 t v w3 :
    ws w1 -> string_lit kt k -> ws w2 -> jval t v -> ws w3 ->
    jmembers (w1 ++ kt ++ w2 ++ ":" ++ t ++ w3) [(k, v)]
| jm_cons w1 kt k w2 t v w3 t' ms :
    ws w1 -> string_lit kt k -> ws w2 -> jval t v -> ws w3 -> jmembers t' ms ->
    jmembers (w1 ++ kt ++ w2 ++ ":" ++ t ++ w3 ++ "," ++ t') ((k, v) :: ms).

(** Induction over the three grammar predicates together. *)
Scheme jval_mut := Induction for jval Sort Prop
with jelems_mut := Induction for jelems Sort Prop
with jmembers_mut := Induction for jmembers Sort Prop.
Combined Scheme jgrammar_mut from jval_mut, jelems_mut, jmembers_mut.

(** A JSON text: a value between whitespace. *)
Definition json_text (s : string) (v : value) : Prop :=
  exists t w, s = t ++ w /\ jval t v /\ ws w.

(** What the string scanner of [Json.parse_chars] has read of an escape
    when it is in state [st]: nothing, the backslash, or [\u] and some hex
    digits whose value is the accumulator. *)
Definition chars_pre (st : str_state) (pre : string) : Prop :=
  match st with
  | SNormal => pre = ""
  | SEscape => pre = String bslash ""
  | SUnicode k acc =>
      exists hs ns, pre = String bslash (String "u" hs) /\
        Forall2 hex_char (list_ascii_of_string hs) ns /\ (List.length ns + k = 4)%nat /\
        (1 <= k)%nat /\ acc = fold_left (fun a n => a * 16 + n) ns 0
  end.

(** What each parser of [Json] promises: what it read is the text of a
    value, of the inside of an array up to its [\]], or of the inside of an
    object up to its [}]. *)
Definition value_sound (P : string -> jres (value * string)) : Prop :=
  forall s v r, P s = Ok (v, r) -> exists t, s = t ++ r /\ jval t v.

Definition array_sound (P : string -> jres (list value * string)) : Prop :=
  forall s vs r, P s = Ok (vs, r) ->
  exists t, s = t ++ String "]" r /\ ((vs = [] /\ ws t) \/ jelems t vs).

Definition items_sound (P : string -> jres (list value * string)) : Prop :=
  forall s vs r, P s = Ok (vs, r) -> exists t, s = t ++ String "]" r /\ jelems t vs.

Definition object_sound (P : string -> jres (list (string * value) * string)) : Prop :=
  forall s ms r, P s = Ok (ms, r) ->
  exists t, s = t ++ String "}" r /\ ((ms = [] /\ ws t) \/ jmembers t ms).

Definition members_sound (P : string -> jres (list (string * value) * string)) : Prop :=
  forall s ms r, P s = Ok (ms, r) -> exists t, s = t ++ String "}" r /\ jmembers t ms.

(** What may follow a value inside a text: nothing, whitespace, or the
    punctuation that ends it; and what may follow a number without
    extending it. *)
Definition follow (r : string) : Prop :=
  match r with
  | EmptyString => True
  | String c _ => is_ws c = true \/ c = ","%char \/ c = "]"%char \/ c = "}"%char
  end.

Definition num_follow (r : string) : Prop :=
  match r with
  | EmptyString => True
  | String c _ => digit_of c = None /\ c <> "."%char /\ c <> "e"%char /\ c <> "E"%char
  end.

(** ** Lemmas on tokens *)

Local Open Scope nat_scope.

Lemma ws_empty : ws "".
Proof. constructor. Qed.

Lemma ws_app w1 w2 : ws w1 -> ws w2 -> ws (w1 ++ w2).
Proof.
  unfold ws. intros H1 H2. induction w1 as [|c w1 IH]; [exact H2|].
  inversion H1; subst. cbn. constructor; auto.
Qed.

Lemma skip_ws_split s : exists w, s = w ++ skip_ws s /\ ws w.
Proof.
  induction s as [|c s (w & Hs & Hw)]; [exists ""; split; [reflexivity | apply ws_empty]|].
  cbn. destruct (is_ws c) eqn:E.
  - exists (String c w). split; [rewrite append_String; now f_equal | constructor; assumption].
  - exists "". split; [reflexivity | apply ws_empty].
Qed.

Lemma strip_prefix_app p s r : strip_prefix p s = Some r -> s = p ++ r.
Proof.
  revert s. induction p as [|a p IH]; intros [|b s] H; cbn in H; try discriminate.
  - now injection H as <-.
  - now injection H as <-.
  - destruct (Ascii.eqb a b) eqn:E; [|discriminate]. apply Ascii.eqb_eq in E as ->.
    rewrite append_String. f_equal. now apply IH.
Qed.

Lemma simple_unescape_sound e d : simple_unescape e = Some d -> short_escape e d.
Proof.
  unfold simple_unescape.
  repeat match goal with
         | |- (if Ascii.eqb e ?x then _ else _) = _ -> _ =>
             destruct (Ascii.eqb e x) eqn:E;
             [apply Ascii.eqb_eq in E as ->; intros [= <-]; constructor | clear E]
         end.
  discriminate.
Qed.

Lemma hex_value_sound c n : hex_value c = Some n -> hex_char c n.
Proof.
  unfold hex_value. intros H.
  destruct ((48 <=? nat_of_ascii c) && (nat_of_ascii c <=? 57)) eqn:E1;
    [|destruct ((97 <=? nat_of_ascii c) && (nat_of_ascii c <=? 102)) eqn:E2;
      [|destruct ((65 <=? nat_of_ascii c) && (nat_of_ascii c <=? 70)) eqn:E3; [|discriminate]]];
    injection H as <-; rewrite <- (ascii_nat_embedding c) at 1;
    repeat match goal with E : _ && _ = true |- _ =>
      apply andb_true_iff in E as [?Ea ?Eb]; apply Nat.leb_le in Ea, Eb end.
  - replace (nat_of_ascii c) with (48 + (nat_of_ascii c - 48)) at 1 by lia. apply hex_dec. lia.
  - replace (nat_of_ascii c) with (87 + (nat_of_ascii c - 87)) at 1 by lia. apply hex_lower. lia.
  - replace (nat_of_ascii c) with (55 + (nat_of_ascii c - 55)) at 1 by lia. apply hex_upper. lia.
Qed.

Lemma str_body_plain c b t :
  c <> dquote -> c <> bslash -> 32 <= nat_of_ascii c -> str_body b t -> str_body (String c b) (String c t).
Proof. intros. apply (sb_cons (String c "")); [now constructor | assumption]. Qed.

Lemma eqb_false_neq a b : Ascii.eqb a b = false -> a <> b.
Proof. intros E ->. now rewrite Ascii.eqb_refl in E. Qed.

Lemma list_ascii_of_string_app s1 s2 :
  list_ascii_of_string (s1 ++ s2) = (list_ascii_of_string s1 ++ list_ascii_of_string s2)%list.
Proof. induction s1 as [|c s1 IH]; [reflexivity|]. rewrite append_String. cbn. now rewrite IH. Qed.

Lemma cons_char_ok c r t rest : cons_char c r = Ok (t, rest) ->
  exists t', r = Ok (t', rest) /\ t = String c t'.
Proof. destruct r as [[t' r']|e]; cbn; [intros [= <- <-]; eauto | discriminate]. Qed.

(** The string scanner reads a string body up to the closing quote. *)
Lemma parse_chars_sound s : forall st pre t r,
  chars_pre st pre -> parse_chars st s = Ok (t, r) ->
  exists b, s = b ++ String dquote r /\ str_body (pre ++ b) t.
Proof.
  induction s as [|c s IH]; intros st pre t r Hpre H; cbn [parse_chars] in H; [discriminate|].
  destruct st as [| |k acc]; cbn in Hpre.
  - subst pre. destruct (Ascii.eqb c dquote) eqn:Eq.
    { apply Ascii.eqb_eq in Eq as ->. injection H as <- <-. exists "". split; [reflexivity | constructor]. }
    destruct (Ascii.eqb c bslash) eqn:Eb.
    { apply Ascii.eqb_eq in Eb as ->. destruct (IH SEscape _ t r eq_refl H) as (b & -> & Hb).
      exists (String bslash b). split; [reflexivity | exact Hb]. }
    match type of H with context [Nat.ltb (nat_of_ascii c) ?m] => destruct (Nat.ltb (nat_of_ascii c) m) eqn:Ec end;
      [discriminate|].
    apply cons_char_ok in H as (t' & H & ->). destruct (IH SNormal "" t' r eq_refl H) as (b & -> & Hb).
    exists (String c b). split; [reflexivity|].
    apply str_body_plain; [now apply eqb_false_neq | now apply eqb_false_neq | apply Nat.ltb_ge, Ec | exact Hb].
  - subst pre. destruct (simple_unescape c) as [d|] eqn:Eu.
    + apply cons_char_ok in H as (t' & H & ->). destruct (IH SNormal "" t' r eq_refl H) as (b & -> & Hb).
      exists (String c b). split; [reflexivity|].
      apply (sb_cons (String bslash (String c ""))); [constructor; now apply simple_unescape_sound | exact Hb].
    + destruct (Ascii.eqb c "u") eqn:Eu'; [|discriminate]. apply Ascii.eqb_eq in Eu' as ->.
      destruct (IH (SUnicode 4 0) (String bslash (String "u" "")) t r) as (b & -> & Hb);
        [exists "", []; split_and!; [reflexivity | constructor | reflexivity | lia | reflexivity] | exact H|].
      exists (String "u" b). split; [reflexivity | exact Hb].
  - destruct Hpre as (hs & ns & -> & Hhex & Hlen & Hk & ->).
    destruct (hex_value c) as [h|] eqn:Eh; [|discriminate]. apply hex_value_sound in Eh.
    destruct k as [|[|k]]; [lia| |].
    + destruct (_ <? 256) eqn:Elt; [|discriminate]. apply Nat.ltb_lt in Elt.
      apply cons_char_ok in H as (t' & H & ->). destruct (IH SNormal "" t' r eq_refl H) as (b & -> & Hb).
      exists (String c b). split; [reflexivity|].
      destruct ns as [|n1 [|n2 [|n3 [|n4 ns]]]]; cbn in Hlen; try lia.
      destruct hs as [|h1 [|h2 [|h3 [|h4 hs]]]]; inversion Hhex as [|? ? ? ? H1 Hr1]; subst;
        inversion Hr1 as [|? ? ? ? H2 Hr2]; subst; inversion Hr2 as [|? ? ? ? H3 Hr3]; subst;
        inversion Hr3; subst.
      change (String bslash (String "u" (String h1 (String h2 (String h3 ""))))
                ++ String c b)%string
        with (String bslash (String "u" (String h1 (String h2 (String h3 (String c ""))))) ++ b)%string.
      apply sb_cons; [|exact Hb]. cbn in Elt |- *.
      apply (sc_unicode h1 h2 h3 c n1 n2 n3 h); assumption.
    + destruct (IH (SUnicode (S k) (fold_left (fun a n => a * 16 + n) ns 0 * 16 + h))
                  (String bslash (String "u" (hs ++ String c ""))) t r) as (b & -> & Hb).
      * exists (hs ++ String c ""), (ns ++ [h])%list. split_and!; [reflexivity| |rewrite length_app; cbn; lia|lia|].
        -- rewrite list_ascii_of_string_app. apply Forall2_app; [exact Hhex | constructor; [exact Eh | constructor]].
        -- now rewrite fold_left_app.
      * exact H.
      * exists (String c b). split; [reflexivity|]. revert Hb. now rewrite !append_String, string_app_assoc.
Qed.

Lemma digit_of_sound c d :
  digit_of c = Some d -> is_digit c /\ forall ds, digits_uint (String c ds) = d (digits_uint ds).
Proof.
  destruct c as [[] [] [] [] [] [] [] []]; cbn; intros H; try discriminate;
    injection H as <-; (split; [unfold is_digit; vm_compute; lia | reflexivity]).
Qed.

Lemma take_digits_sound s u r :
  take_digits s = (u, r) ->
  exists ds, s = ds ++ r /\ Forall is_digit (list_ascii_of_string ds) /\ u = digits_uint ds.
Proof.
  revert u r. induction s as [|c s IH]; intros u r H; cbn in H.
  - injection H as <- <-. exists "". split_and!; [reflexivity | constructor | reflexivity].
  - destruct (digit_of c) as [d|] eqn:Ed.
    + destruct (take_digits s) as [u' r'] eqn:Et. injection H as <- <-.
      destruct (IH _ _ eq_refl) as (ds & -> & Hd & ->). apply digit_of_sound in Ed as [Hc Hu].
      exists (String c ds). split_and!; [reflexivity | constructor; assumption | symmetry; apply Hu].
    + injection H as <- <-. exists "". split_and!; [reflexivity | constructor | reflexivity].
Qed.

Lemma digits_uint_nil ds : digits_uint ds = Decimal.Nil -> ds = "".
Proof.
  destruct ds as [|c ds]; [reflexivity|]. cbn.
  destruct (nat_of_ascii c - 48) as [|[|[|[|[|[|[|[|[|]]]]]]]]]; discriminate.
Qed.

(** A run of digits that is [0] or does not start with [0] is an integer
    literal, signed or not. *)
Lemma digits_int_lit (neg : bool) (ds : string) :
  Forall is_digit (list_ascii_of_string ds) -> ds <> "" ->
  (digits_uint ds = Decimal.D0 Decimal.Nil \/
   match digits_uint ds with Decimal.D0 _ => False | _ => True end) ->
  let n := Z.of_N (N.of_uint (digits_uint ds)) in
  int_lit ((if neg then "-" else "") ++ ds)%string (if neg then Z.opp n else n)%Z.
Proof.
  intros Hd Hne Hhead n.
  assert (Hlit : uint_lit ds n).
  { destruct Hhead as [H0 | Hnz].
    - destruct ds as [|c ds]; [congruence|]. cbn in H0, Hd. inversion Hd as [|? ? Hc _]; subst.
      destruct (nat_of_ascii c - 48) as [|[|[|[|[|[|[|[|[|]]]]]]]]] eqn:Ec; try discriminate H0.
      injection H0 as H0.
      apply digits_uint_nil in H0 as ->. unfold is_digit in Hc.
      assert (Hc0 : c = "0"%char) by (rewrite <- (ascii_nat_embedding c);
                                       replace (nat_of_ascii c) with 48 by lia; reflexivity).
      subst c. exact ul_zero.
    - apply ul_pos; [exact Hne | exact Hd |].
      destruct ds as [|c ds]; [congruence|]. cbn. intros [= ->]. exact Hnz. }
  destruct neg; [apply il_neg | apply il_nat]; exact Hlit.
Qed.

Lemma parse_number_sound s n r :
  parse_number s = Ok (n, r) -> exists t, s = t ++ r /\ int_lit t n.
Proof.
  unfold parse_number. intros H.
  assert (Hs : exists neg s1, (match s with
                               | String c r => if Ascii.eqb c "-" then (true, r) else (false, s)
                               | EmptyString => (false, s) end) = (neg, s1) /\
                              s = ((if neg then "-" else "") ++ s1)%string).
  { destruct s as [|c s]; [exists false, ""; split; reflexivity|].
    destruct (Ascii.eqb c "-") eqn:E; [apply Ascii.eqb_eq in E as ->|]; eexists _, _; split; reflexivity. }
  destruct Hs as (neg & s1 & Es & ->). rewrite Es in H.
  destruct (take_digits s1) as [u r1] eqn:Et. apply take_digits_sound in Et as (ds & -> & Hd & ->).
  assert (Hok : ds <> "" /\
    (digits_uint ds = Decimal.D0 Decimal.Nil \/
     match digits_uint ds with Decimal.D0 _ => False | _ => True end) /\
    n = (if neg then Z.opp (Z.of_N (N.of_uint (digits_uint ds))) else Z.of_N (N.of_uint (digits_uint ds))) /\
    r = r1).
  { destruct (digits_uint ds) as [|u|u|u|u|u|u|u|u|u|u] eqn:Eu; try discriminate H;
      [destruct u; try discriminate H | ..];
      repeat match type of H with
             | context [match ?x with _ => _ end] => destruct x; try discriminate H
             end;
      injection H as <- <-;
      (split; [intros ->; discriminate Eu | split; [auto | split; reflexivity]]). }
  destruct Hok as (Hne & Hhead & -> & ->).
  exists ((if neg then "-" else "") ++ ds). split; [now rewrite string_app_assoc|].
  now apply digits_int_lit.
Qed.

(** ** Tokens read back *)

Lemma skip_ws_app w x : ws w -> skip_ws (w ++ x) = skip_ws x.
Proof.
  induction w as [|c w IH]; intros Hw; [reflexivity|]. inversion Hw as [|? ? Hc Hw']; subst.
  rewrite append_String. cbn. rewrite Hc. now apply IH.
Qed.

Lemma skip_ws_nows c r : is_ws c = false -> skip_ws (String c r) = String c r.
Proof. intros H. cbn. now rewrite H. Qed.

Lemma parse_value_ws f w x : ws w -> parse_value f (w ++ x) = parse_value f x.
Proof. intros Hw. destruct f; [reflexivity|]. cbn [parse_value]. now rewrite skip_ws_app. Qed.

Lemma parse_items_ws f w x : ws w -> parse_items f (w ++ x) = parse_items f x.
Proof. intros Hw. destruct f; [reflexivity|]. cbn [parse_items]. now rewrite parse_value_ws. Qed.

Lemma parse_members_ws f w x : ws w -> parse_members f (w ++ x) = parse_members f x.
Proof. intros Hw. destruct f; [reflexivity|]. cbn [parse_members]. now rewrite skip_ws_app. Qed.

Lemma short_escape_complete e d : short_escape e d -> simple_unescape e = Some d.
Proof. destruct 1; reflexivity. Qed.

Lemma hex_char_complete c n : hex_char c n -> hex_value c = Some n.
Proof.
  destruct 1 as [n H|n H|n H];
    do 16 (destruct n as [|n]; [first [reflexivity | lia]|]); lia.
Qed.

Lemma str_body_complete b v r : str_body b v -> parse_chars SNormal (b ++ String dquote r) = Ok (v, r).
Proof.
  induction 1 as [|t c b v Hc Hb IH]; [reflexivity|]. rewrite string_app_assoc.
  destruct Hc as [c Hq Hs Hl|e d He|h1 h2 h3 h4 n1 n2 n3 n4 H1 H2 H3 H4 Hlt].
  - rewrite append_String, append_EmptyString. cbn [parse_chars].
    rewrite (proj2 (Ascii.eqb_neq c dquote) Hq), (proj2 (Ascii.eqb_neq c bslash) Hs).
    match goal with |- context [Nat.ltb (nat_of_ascii c) ?m] => destruct (Nat.ltb (nat_of_ascii c) m) eqn:E end;
      [apply Nat.ltb_lt in E; lia|]. now rewrite IH.
  - rewrite !append_String, append_EmptyString. cbn [parse_chars].
    rewrite (short_escape_complete _ _ He). now rewrite IH.
  - rewrite !append_String, append_EmptyString. cbn [parse_chars].
    rewrite (hex_char_complete _ _ H1), (hex_char_complete _ _ H2), (hex_char_complete _ _ H3),
      (hex_char_complete _ _ H4). cbn -[Nat.ltb].
    destruct (_ <? 256) eqn:E; [|apply Nat.ltb_ge in E; lia]. now rewrite IH.
Qed.

Lemma digit_of_complete c : is_digit c -> exists d, digit_of c = Some d.
Proof.
  unfold is_digit. destruct c as [[] [] [] [] [] [] [] []]; intros H; vm_compute in H; try lia; vm_compute; eauto.
Qed.

Lemma take_digits_complete ds r :
  Forall is_digit (list_ascii_of_string ds) ->
  match r with EmptyString => True | String c _ => digit_of c = None end ->
  take_digits (ds ++ r) = (digits_uint ds, r).
Proof.
  induction ds as [|c ds IH]; intros Hd Hr.
  - destruct r as [|c r]; [reflexivity|]. change ("" ++ String c r) with (String c r).
    cbn [take_digits]. now rewrite Hr.
  - inversion Hd as [|? ? Hc Hds]; subst. destruct (digit_of_complete c Hc) as [d Ed].
    rewrite append_String. cbn [take_digits]. rewrite Ed, (IH Hds Hr).
    destruct (digit_of_sound c d Ed) as [_ ->]. reflexivity.
Qed.

Lemma digits_head_nonzero c ds :
  is_digit c -> c <> "0"%char -> match digits_uint (String c ds) with Decimal.D0 _ | Decimal.Nil => False | _ => True end.
Proof.
  unfold is_digit. intros H Hc. cbn.
  destruct (nat_of_ascii c - 48) as [|[|[|[|[|[|[|[|[|]]]]]]]]] eqn:E; try exact I.
  apply Hc. rewrite <- (ascii_nat_embedding c). now replace (nat_of_ascii c) with 48 by lia.
Qed.

Lemma uint_lit_complete t n r (neg : bool) :
  uint_lit t n -> num_follow r ->
  parse_number ((if neg then String "-" t else t) ++ r) = Ok (if neg then Z.opp n else n, r).
Proof.
  intros Ht Hr. unfold parse_number.
  assert (Hdr : match r with EmptyString => True | String c _ => digit_of c = None end)
    by (destruct r; [exact I | apply Hr]).
  destruct Ht as [|ds Hne Hd Hh].
  - destruct neg; rewrite ?append_String; cbn -[take_digits];
      change (String "0" ("" ++ r)) with ("0" ++ r)%string;
      rewrite (take_digits_complete "0" r) by (repeat constructor; unfold is_digit; vm_compute; lia || exact Hdr);
      (destruct r as [|c' r']; [reflexivity|]);
      destruct Hr as (_ & Hdot & He & HE);
      rewrite (proj2 (Ascii.eqb_neq _ _) Hdot), (proj2 (Ascii.eqb_neq _ _) He),
        (proj2 (Ascii.eqb_neq _ _) HE); reflexivity.
  - destruct ds as [|c ds]; [congruence|]. inversion Hd as [|? ? Hc _]; subst.
    assert (Hc0 : c <> "0"%char) by (intros ->; apply Hh; reflexivity).
    assert (Hm : Ascii.eqb c "-" = false).
    { apply Ascii.eqb_neq. intros ->. unfold is_digit in Hc. vm_compute in Hc. lia. }
    pose proof (digits_head_nonzero c ds Hc Hc0) as Hnz.
    destruct neg; rewrite ?append_String; cbn -[take_digits digits_uint N.of_uint]; rewrite ?Hm;
      rewrite <- append_String, (take_digits_complete _ r Hd Hdr);
      destruct (digits_uint (String c ds)) as [|u|u|u|u|u|u|u|u|u|u]; try contradiction;
      (destruct r as [|c' r']; [reflexivity|]);
      destruct Hr as (_ & Hdot & He & HE);
      rewrite (proj2 (Ascii.eqb_neq _ _) Hdot), (proj2 (Ascii.eqb_neq _ _) He),
        (proj2 (Ascii.eqb_neq _ _) HE); reflexivity.
Qed.

Lemma int_lit_complete t n r : int_lit t n -> num_follow r -> parse_number (t ++ r) = Ok (n, r).
Proof.
  destruct 1 as [t n Ht|t n Ht]; intros Hr.
  - exact (uint_lit_complete t n r false Ht Hr).
  - exact (uint_lit_complete t n r true Ht Hr).
Qed.

Lemma is_ws_cases c : is_ws c = true -> c = " "%char \/ c = "009"%char \/ c = "010"%char \/ c = "013"%char.
Proof.
  unfold is_ws. intros H. repeat apply orb_true_iff in H as [H|H]; apply Ascii.eqb_eq in H; tauto.
Qed.

Lemma follow_num r : follow r -> num_follow r.
Proof.
  destruct r as [|c r]; [trivial|]. cbn.
  intros [Hw | [-> | [-> | ->]]]; [destruct (is_ws_cases c Hw) as [-> | [-> | [-> | ->]]] | ..];
    split_and!; try reflexivity; discriminate.
Qed.

(** ** Whitespace in front of values *)

Lemma jval_ws w t v : ws w -> jval t v -> jval (w ++ t) v.
Proof.
  intros Hw Hv. destruct Hv; rewrite <- string_app_assoc; constructor; auto using ws_app.
Qed.

Lemma jelems_ws w t vs : ws w -> jelems t vs -> jelems (w ++ t) vs.
Proof.
  intros Hw Hv. destruct Hv; rewrite <- string_app_assoc; constructor; auto using jval_ws.
Qed.

Lemma jmembers_ws w t ms : ws w -> jmembers t ms -> jmembers (w ++ t) ms.
Proof.
  intros Hw Hm. destruct Hm; rewrite <- string_app_assoc; constructor; auto using ws_app.
Qed.

Ltac str_eq := str_norm; reflexivity.

(** After [skip_ws]: the whitespace skipped and the character found. *)
Ltac skip_split s :=
  let w := fresh "w" in let Hs := fresh "Hs" in let Hw := fresh "Hw" in
  let E := fresh "E" in
  destruct (skip_ws_split s) as (w & Hs & Hw);
  destruct (skip_ws s) as [|?c ?r0] eqn:E; try rewrite E in Hs; subst s.

Ltac eqb_subst :=
  repeat match goal with
         | E : Ascii.eqb ?c ?d = true |- _ => apply Ascii.eqb_eq in E; subst c
         end.

(** ** Soundness of one level of the parser, given the levels below *)

Section ParseStep.
Variable f : nat.
Hypothesis IHv : value_sound (parse_value f).
Hypothesis IHa : array_sound (parse_array f).
Hypothesis IHi : items_sound (parse_items f).
Hypothesis IHo : object_sound (parse_object f).
Hypothesis IHm : members_sound (parse_members f).

Lemma value_step : value_sound (parse_value (S f)).
Proof.
  intros s v r H. cbn [parse_value] in H. skip_split s; [discriminate|].
  destruct (Ascii.eqb c dquote) eqn:Eq; eqb_subst.
  { destruct (parse_chars SNormal r0) as [[t' r']|e] eqn:Ec; [|discriminate]. injection H as <- <-.
    destruct (parse_chars_sound r0 SNormal "" t' r' eq_refl Ec) as (b & -> & Hb).
    exists (w ++ String dquote (b ++ String dquote "")). split; [str_eq|].
    apply jv_str; [exact Hw | exists b; split; [reflexivity | exact Hb]]. }
  destruct (Ascii.eqb c "[") eqn:Eo; eqb_subst.
  { destruct (parse_array f r0) as [[items r']|e] eqn:Ea; [|discriminate]. injection H as <- <-.
    destruct (IHa _ _ _ Ea) as (t0 & -> & [[-> Ht] | Ht]);
      exists (w ++ "[" ++ t0 ++ "]"); (split; [str_eq | first [now apply jv_arr_nil | now apply jv_arr]]). }
  destruct (Ascii.eqb c "{") eqn:Eb; eqb_subst.
  { destruct (parse_object f r0) as [[ms r']|e] eqn:Eo'; [|discriminate]. injection H as <- <-.
    destruct (IHo _ _ _ Eo') as (t0 & -> & [[-> Ht] | Ht]);
      exists (w ++ "{" ++ t0 ++ "}"); (split; [str_eq | first [now apply jv_obj_nil | now apply jv_obj]]). }
  destruct (is_number_start c) eqn:En.
  { destruct (parse_number (String c r0)) as [[n r']|e] eqn:Ep; [|discriminate]. injection H as <- <-.
    apply parse_number_sound in Ep as (tn & Htn & Hn). rewrite Htn.
    exists (w ++ tn). split; [str_eq | now apply jv_num]. }
  destruct (strip_prefix "true" (String c r0)) as [r'|] eqn:Et;
    [injection H as <- <-; apply strip_prefix_app in Et; rewrite Et;
     exists (w ++ "true"); split; [str_eq | now apply jv_true]|].
  destruct (strip_prefix "false" (String c r0)) as [r'|] eqn:Ef;
    [injection H as <- <-; apply strip_prefix_app in Ef; rewrite Ef;
     exists (w ++ "false"); split; [str_eq | now apply jv_false]|].
  destruct (strip_prefix "null" (String c r0)) as [r'|] eqn:Enl; [|discriminate].
  injection H as <- <-. apply strip_prefix_app in Enl. rewrite Enl.
  exists (w ++ "null"). split; [str_eq | now apply jv_null].
Qed.

Lemma array_step : array_sound (parse_array (S f)).
Proof.
  intros s vs r H. cbn [parse_array] in H. skip_split s.
  - apply IHi in H as (t & Ht & _). destruct t; discriminate Ht.
  - destruct (Ascii.eqb c "]") eqn:Ec; eqb_subst.
    + injection H as <- <-. exists w. split; [reflexivity | now left].
    + apply IHi in H as (t & Ht & Hv). rewrite Ht.
      exists (w ++ t). split; [str_eq | right; now apply jelems_ws].
Qed.

Lemma items_step : items_sound (parse_items (S f)).
Proof.
  intros s vs r H. cbn [parse_items] in H.
  destruct (parse_value f s) as [[v r1]|e] eqn:Ev; [|discriminate].
  apply IHv in Ev as (t & -> & Hv). skip_split r1; [discriminate|].
  destruct (Ascii.eqb c ",") eqn:Ec; eqb_subst.
  - destruct (parse_items f r0) as [[vs' r']|e] eqn:Ei; [|discriminate]. injection H as <- <-.
    apply IHi in Ei as (t' & -> & Ht').
    exists (t ++ w ++ "," ++ t'). split; [str_eq | now apply je_cons].
  - destruct (Ascii.eqb c "]") eqn:Ec'; [eqb_subst | discriminate]. injection H as <- <-.
    exists (t ++ w). split; [str_eq | now apply je_one].
Qed.

Lemma object_step : object_sound (parse_object (S f)).
Proof.
  intros s ms r H. cbn [parse_object] in H. skip_split s.
  - apply IHm in H as (t & Ht & _). destruct t; discriminate Ht.
  - destruct (Ascii.eqb c "}") eqn:Ec; eqb_subst.
    + injection H as <- <-. exists w. split; [reflexivity | now left].
    + apply IHm in H as (t & Ht & Hm). rewrite Ht.
      exists (w ++ t). split; [str_eq | right; now apply jmembers_ws].
Qed.

Lemma members_step : members_sound (parse_members (S f)).
Proof.
  intros s ms r H. cbn [parse_members] in H. skip_split s; [discriminate|].
  destruct (Ascii.eqb c dquote) eqn:Eq; [eqb_subst | discriminate]. cbn [negb] in H.
  destruct (parse_chars SNormal r0) as [[k r1]|e] eqn:Ec; [|discriminate].
  destruct (parse_chars_sound r0 SNormal "" k r1 eq_refl Ec) as (b & -> & Hb).
  skip_split r1; [discriminate|].
  destruct (Ascii.eqb c ":") eqn:Ecol; [eqb_subst | discriminate]. cbn [negb] in H.
  destruct (parse_value f r0) as [[v r3]|e] eqn:Ev; [|discriminate].
  apply IHv in Ev as (t & -> & Hv). skip_split r3; [discriminate|].
  assert (Hk : string_lit (String dquote (b ++ String dquote "")) k) by (exists b; now split).
  destruct (Ascii.eqb c ",") eqn:Ecom; eqb_subst.
  - destruct (parse_members f r0) as [[ms' r5]|e] eqn:Em; [|discriminate]. injection H as <- <-.
    apply IHm in Em as (t' & -> & Ht').
    exists (w ++ String dquote (b ++ String dquote "") ++ w0 ++ ":" ++ t ++ w1 ++ "," ++ t').
    split; [str_eq | now apply jm_cons].
  - destruct (Ascii.eqb c "}") eqn:Ecl; [eqb_subst | discriminate]. injection H as <- <-.
    exists (w ++ String dquote (b ++ String dquote "") ++ w0 ++ ":" ++ t ++ w1).
    split; [str_eq | now apply jm_one].
Qed.

End ParseStep.

(** Every level of the parser, at every fuel, reads only grammar texts. *)
Lemma parse_sound f :
  value_sound (parse_value f) /\ array_sound (parse_array f) /\ items_sound (parse_items f) /\
  object_sound (parse_object f) /\ members_sound (parse_members f).
Proof.
  induction f as [|f (IHv & IHa & IHi & IHo & IHm)]; [split_and!; intros ???; discriminate|].
  split_and!; [apply value_step | apply array_step | apply items_step | apply object_step | apply members_step];
    assumption.
Qed.

Lemma skip_ws_empty_ws r : String.eqb (skip_ws r) "" = true -> ws r.
Proof.
  intros E. apply String.eqb_eq in E. destruct (skip_ws_split r) as (w & Hr & Hw).
  rewrite E, string_app_empty_r in Hr. now subst.
Qed.

(** ** [JSON.parse] refines the grammar *)

(** [JSON.parse] accepts only JSON texts, and returns what they denote. *)
Lemma json_parse_sound s v : json_parse s = Ok v -> json_text s v.
Proof.
  unfold json_parse. intros H.
  destruct (parse_value _ s) as [[v' r]|e] eqn:Ep; [|discriminate].
  destruct (String.eqb (skip_ws r) "") eqn:Er; [injection H as <-|discriminate].
  destruct (proj1 (parse_sound _) _ _ _ Ep) as (t & -> & Ht).
  exists t, r. split_and!; [reflexivity | exact Ht | now apply skip_ws_empty_ws].
Qed.

(** ** Every grammar text is read back *)

Lemma digit_token c : is_digit c -> is_ws c = false /\ c <> "]"%char /\ c <> "}"%char /\
  Ascii.eqb c dquote = false /\ Ascii.eqb c "[" = false /\ Ascii.eqb c "{" = false.
Proof.
  unfold is_digit. intros H.
  assert (Hn : forall d, (nat_of_ascii d < 48 \/ 57 < nat_of_ascii d)%nat -> c <> d)
    by (intros d Hd ->; lia).
  split_and!.
  - destruct (is_ws c) eqn:E; [|reflexivity].
    destruct (is_ws_cases c E) as [-> | [-> | [-> | ->]]]; vm_compute in H; lia.
  - apply Hn. vm_compute. lia.
  - apply Hn. vm_compute. lia.
  - apply Ascii.eqb_neq, Hn. vm_compute. lia.
  - apply Ascii.eqb_neq, Hn. vm_compute. lia.
  - apply Ascii.eqb_neq, Hn. vm_compute. lia.
Qed.

Lemma int_lit_head t n : int_lit t n ->
  exists c r, t = String c r /\ is_number_start c = true /\ is_ws c = false /\
    c <> "]"%char /\ c <> "}"%char /\
    Ascii.eqb c dquote = false /\ Ascii.eqb c "[" = false /\ Ascii.eqb c "{" = false.
Proof.
  assert (Hu : forall t n, uint_lit t n -> exists c r, t = String c r /\ is_digit c).
  { destruct 1 as [|ds Hne Hd _]; [exists "0"%char, ""; split; [reflexivity | unfold is_digit; vm_compute; lia]|].
    destruct ds as [|c ds]; [congruence|]. inversion Hd; subst. eauto. }
  destruct 1 as [t n Ht|t n Ht].
  - destruct (Hu _ _ Ht) as (c & r & -> & Hc). exists c, r. split; [reflexivity|].
    destruct (digit_of_complete c Hc) as [d Ed]. unfold is_number_start. rewrite Ed, orb_true_r.
    split; [reflexivity | apply digit_token, Hc].
  - exists "-"%char, t. split_and!; try reflexivity; discriminate.
Qed.

Lemma jval_head t v : jval t v ->
  exists w c r, t = w ++ String c r /\ ws w /\ is_ws c = false /\ c <> "]"%char /\ c <> "}"%char.
Proof.
  destruct 1 as [w t s Hw (b & -> & _)|w t n Hw Hn|w Hw|w Hw|w Hw|w1 w2 Hw1 _|w t vs Hw _|w1 w2 Hw1 _|w t ms Hw _];
    try (destruct (int_lit_head _ _ Hn) as (c & r & -> & _ & Hc & Hc1 & Hc2 & _));
    eexists _, _, _; (split; [reflexivity|]); split_and!; eauto; discriminate.
Qed.

Lemma jelems_head t vs : jelems t vs ->
  exists w c r, t = w ++ String c r /\ ws w /\ is_ws c = false /\ c <> "]"%char.
Proof.
  destruct 1 as [t v w Hv _|t v w t' vs Hv _ _];
    destruct (jval_head _ _ Hv) as (w0 & c & r & -> & Hw0 & Hc & Hc1 & _);
    exists w0, c; eexists; (split; [str_eq | auto]).
Qed.

Lemma jmembers_head t ms : jmembers t ms -> exists w r, t = w ++ String dquote r /\ ws w.
Proof.
  destruct 1 as [w1 kt k w2 t v w3 Hw1 (b & -> & _) _ _ _|w1 kt k w2 t v w3 t' ms Hw1 (b & -> & _) _ _ _ _];
    exists w1; eexists; (split; [str_eq | exact Hw1]).
Qed.

Lemma follow_ws w c r : ws w -> follow (String c r) -> follow (w ++ String c r).
Proof. destruct w as [|d w]; intros Hw Hf; [exact Hf|]. inversion Hw; subst. now left. Qed.

Lemma skip_ws_punct w c r : ws w -> is_ws c = false -> skip_ws (w ++ String c r) = String c r.
Proof. intros Hw Hc. rewrite skip_ws_app by exact Hw. now apply skip_ws_nows. Qed.

Ltac eqb_compute := cbn [Ascii.eqb Bool.eqb dquote andb negb orb].

Lemma parse_complete :
  (forall t v, jval t v -> forall F rest, follow rest -> 3 * String.length (t ++ rest) + 1 <= F ->
     parse_value F (t ++ rest) = Ok (v, rest)) /\
  (forall t vs, jelems t vs -> forall F rest, 3 * String.length (t ++ String "]" rest) + 2 <= F ->
     parse_items F (t ++ String "]" rest) = Ok (vs, rest)) /\
  (forall t ms, jmembers t ms -> forall F rest, 3 * String.length (t ++ String "}" rest) + 2 <= F ->
     parse_members F (t ++ String "}" rest) = Ok (ms, rest)).
Proof.
  apply jgrammar_mut.
  - (* string *)
    intros w t s Hw (b & -> & Hb) F rest Hf HF. destruct F as [|f]; [lia|].
    rewrite string_app_assoc, parse_value_ws by exact Hw. str_norm.
    cbn [parse_value]. rewrite skip_ws_nows by reflexivity. rewrite Ascii.eqb_refl.
    now rewrite (str_body_complete _ _ _ Hb).
  - (* number *)
    intros w t n Hw Hn F rest Hf HF. destruct F as [|f]; [lia|].
    destruct (int_lit_head _ _ Hn) as (c & r & -> & Hs & Hc & _ & _ & Eq & Eo & Eb).
    rewrite string_app_assoc, parse_value_ws by exact Hw. rewrite append_String.
    cbn [parse_value]. rewrite skip_ws_nows by exact Hc. rewrite Eq, Eo, Eb, Hs.
    rewrite <- append_String, (int_lit_complete _ _ _ Hn (follow_num _ Hf)). reflexivity.
  - intros w Hw F rest Hf HF. destruct F as [|f]; [lia|].
    rewrite string_app_assoc, parse_value_ws by exact Hw. reflexivity.
  - intros w Hw F rest Hf HF. destruct F as [|f]; [lia|].
    rewrite string_app_assoc, parse_value_ws by exact Hw. reflexivity.
  - intros w Hw F rest Hf HF. destruct F as [|f]; [lia|].
    rewrite string_app_assoc, parse_value_ws by exact Hw. reflexivity.
  - (* empty array *)
    intros w1 w2 Hw1 Hw2 F rest Hf HF. destruct F as [|[|f]]; [lia|len_lia|].
    rewrite string_app_assoc, parse_value_ws by exact Hw1. str_norm.
    cbn [parse_value parse_array]. rewrite skip_ws_nows by reflexivity. eqb_compute.
    now rewrite skip_ws_punct by (exact Hw2 || reflexivity).
  - (* array *)
    intros w t vs Hw He IHe F rest Hf HF. destruct F as [|[|f]]; [lia|len_lia|].
    rewrite string_app_assoc, parse_value_ws by exact Hw. str_norm.
    cbn [parse_value parse_array]. rewrite skip_ws_nows by reflexivity. eqb_compute.
    destruct (jelems_head _ _ He) as (w' & c & r & Ht & Hw' & Hc & Hc1).
    rewrite Ht at 1. rewrite string_app_assoc, append_String, skip_ws_punct by assumption.
    rewrite (proj2 (Ascii.eqb_neq _ _) Hc1), <- (parse_items_ws _ w') by exact Hw'.
    rewrite <- append_String, <- string_app_assoc, <- Ht, IHe by len_lia. reflexivity.
  - (* empty object *)
    intros w1 w2 Hw1 Hw2 F rest Hf HF. destruct F as [|[|f]]; [lia|len_lia|].
    rewrite string_app_assoc, parse_value_ws by exact Hw1. str_norm.
    cbn [parse_value parse_object]. rewrite skip_ws_nows by reflexivity. eqb_compute.
    now rewrite skip_ws_punct by (exact Hw2 || reflexivity).
  - (* object *)
    intros w t ms Hw Hm IHm F rest Hf HF. destruct F as [|[|f]]; [lia|len_lia|].
    rewrite string_app_assoc, parse_value_ws by exact Hw. str_norm.
    cbn [parse_value parse_object]. rewrite skip_ws_nows by reflexivity. eqb_compute.
    destruct (jmembers_head _ _ Hm) as (w' & r & Ht & Hw').
    rewrite Ht at 1. rewrite string_app_assoc, append_String, skip_ws_punct by (assumption || reflexivity).
    eqb_compute. rewrite <- (parse_members_ws _ w') by exact Hw'.
    rewrite <- append_String, <- string_app_assoc, <- Ht, IHm by len_lia. reflexivity.
  - (* one element *)
    intros t v w Hv IHv Hw F rest HF. destruct F as [|f]; [lia|].
    cbn [parse_items]. rewrite string_app_assoc, IHv by ((apply follow_ws; [exact Hw | cbn; auto]) || len_lia).
    rewrite skip_ws_punct by (exact Hw || reflexivity). reflexivity.
  - (* more elements *)
    intros t v w t' vs Hv IHv Hw He IHe F rest HF. destruct F as [|f]; [lia|].
    cbn [parse_items]. rewrite !string_app_assoc, append_String.
    rewrite IHv by ((apply follow_ws; [exact Hw | cbn; auto]) || len_lia).
    rewrite skip_ws_punct by (exact Hw || reflexivity). eqb_compute.
    rewrite append_EmptyString, IHe by len_lia. reflexivity.
  - (* one member *)
    intros w1 kt k w2 t v w3 Hw1 (b & -> & Hb) Hw2 Hv IHv Hw3 F rest HF. destruct F as [|f]; [lia|].
    cbn [parse_members]. str_norm. rewrite skip_ws_punct by (exact Hw1 || reflexivity).
    eqb_compute. rewrite (str_body_complete _ _ _ Hb). eqb_compute.
    rewrite skip_ws_punct by (exact Hw2 || reflexivity). eqb_compute.
    rewrite IHv by ((apply follow_ws; [exact Hw3 | cbn; auto]) || len_lia). eqb_compute.
    rewrite skip_ws_punct by (exact Hw3 || reflexivity). reflexivity.
  - (* more members *)
    intros w1 kt k w2 t v w3 t' ms Hw1 (b & -> & Hb) Hw2 Hv IHv Hw3 Hm IHm F rest HF.
    destruct F as [|f]; [lia|].
    cbn [parse_members]. str_norm. rewrite skip_ws_punct by (exact Hw1 || reflexivity).
    eqb_compute. rewrite (str_body_complete _ _ _ Hb). eqb_compute.
    rewrite skip_ws_punct by (exact Hw2 || reflexivity). eqb_compute.
    rewrite IHv by ((apply follow_ws; [exact Hw3 | cbn; auto]) || len_lia). eqb_compute.
    rewrite skip_ws_punct by (exact Hw3 || reflexivity). eqb_compute.
    rewrite IHm by len_lia. reflexivity.
Qed.

Lemma ws_follow w : ws w -> follow w.
Proof. destruct w as [|c w]; intros Hw; [exact I|]. inversion Hw; subst. now left. Qed.

Lemma skip_ws_ws w : ws w -> skip_ws w = "".
Proof. intros Hw. rewrite <- (string_app_empty_r w), skip_ws_app by exact Hw. reflexivity. Qed.

Lemma json_parse_complete s v : json_text s v -> json_parse s = Ok v.
Proof.
  intros (t & w & -> & Ht & Hw). unfold json_parse.
  rewrite (proj1 parse_complete t v Ht) by (apply ws_follow, Hw || lia).
  now rewrite skip_ws_ws.
Qed.

(** C13: [JSON.parse] is exactly the RFC 8259 grammar.  [json_parse s]
    returns [v] if and only if [s] is a value of the grammar (restricted to
    integers and one-byte escapes) between whitespace and [v] is the value
    that text denotes: strings with their escapes decoded, integers, the
    literals, arrays, and objects built from their members in order.  So
    the parser rejects every text outside the grammar, and its fuel,
    three times the length of the text plus one, never runs out on a text
    of the grammar. *)
Theorem json_parse_spec s v : json_parse s = Ok v <-> json_text s v.
Proof. split; [apply json_parse_sound | apply json_parse_complete]. Qed.
