(* ===== verification/Matcher.v ===== *)
(** The query matcher of the in-memory store, [MockCollection._matches_query]:
    the top-level loop (quoted in [src/FIXES_APPLIED.md]) with its [$or]
    clause, and the operator handling ([$eq $ne $gt $gte $lt $lte $in
    $regex]) that the quote elides and the spec describes.  An abstract,
    propositional satisfaction relation [sat] states what a query means;
    [matches_query] refines it on well-formed queries and only fails on
    malformed ones. *)

From S2P Require Import Prelude Value.
Local Open Scope string_scope.

(** ** Errors and operators *)

Inductive query_error : Type :=
| MalformedQuery (op : string).

Abbreviation qres A := (result query_error A).

Inductive qop : Type := OEq | ONe | OGt | OGte | OLt | OLte | OIn | ORegex.

(** The [if op == "$eq" ... elif ...] chain of the operator loop. *)
Definition parse_op (s : string) : option qop :=
  if String.eqb s "$eq" then Some OEq
  else if String.eqb s "$ne" then Some ONe
  else if String.eqb s "$gt" then Some OGt
  else if String.eqb s "$gte" then Some OGte
  else if String.eqb s "$lt" then Some OLt
  else if String.eqb s "$lte" then Some OLte
  else if String.eqb s "$in" then Some OIn
  else if String.eqb s "$regex" then Some ORegex
  else None.

(** [re.search(pattern, value, re.IGNORECASE)] for a pattern without
    metacharacters: case-insensitive substring search. *)
Definition regex_search_i (pat s : string) : bool :=
  js_includes (js_to_lower s) (js_to_lower pat).

(** [doc.get(field) == arg], an absent field being unequal to everything. *)
Definition field_eqb (fv : option value) (arg : value) : bool :=
  match fv with Some v => value_eqb v arg | None => false end.

(** An ordering comparison; an absent field or incomparable types do not match. *)
Definition field_cmp (fv : option value) (arg : value) (ok : comparison -> bool) : bool :=
  match fv with
  | Some v => match value_cmp v arg with Some c => ok c | None => false end
  | None => false
  end.

Definition eval_qop (fv : option value) (o : qop) (arg : value) : qres bool :=
  match o with
  | OEq => Ok (field_eqb fv arg)
  | ONe => Ok (negb (field_eqb fv arg))
  | OGt => Ok (field_cmp fv arg (fun c => match c with Gt => true | _ => false end))
  | OGte => Ok (field_cmp fv arg (fun c => match c with Lt => false | _ => true end))
  | OLt => Ok (field_cmp fv arg (fun c => match c with Lt => true | _ => false end))
  | OLte => Ok (field_cmp fv arg (fun c => match c with Gt => false | _ => true end))
  | OIn =>
      match arg with
      | VArr vs => Ok (match fv with Some v => existsb (value_eqb v) vs | None => false end)
      | _ => Err (MalformedQuery "$in")
      end
  | ORegex =>
      match arg with
      | VStr pat => Ok (match fv with Some (VStr s) => regex_search_i pat s | _ => false end)
      | _ => Err (MalformedQuery "$regex")
      end
  end.

Definition eval_op (fv : option value) (op : string) (arg : value) : qres bool :=
  match parse_op op with
  | Some o => eval_qop fv o arg
  | None => Err (MalformedQuery op)
  end.

(** The operators of one field, in order, stopping at the first failure. *)
Fixpoint eval_ops (fv : option value) (ops : document) : qres bool :=
  match ops with
  | [] => Ok true
  | (op, arg) :: ops' =>
      let* b := eval_op fv op arg in
      if b then eval_ops fv ops' else Ok false
  end.

(** A field condition: an operator mapping, or a literal (equality). *)
Definition match_field (d : document) (k : string) (cond : value) : qres bool :=
  match cond with
  | VDoc ops => eval_ops (doc_get d k) ops
  | lit => Ok (field_eqb (doc_get d k) lit)
  end.

(** [_matches_query]: every key in order, returning [False] at the first
    key that fails; [$or] is [any] over the nested queries, evaluated left
    to right up to the first match.  The recursion is structural on the
    query value, so a nested query is a [VDoc] and anything else in an
    [$or] list is malformed. *)
Fixpoint matches_value (d : document) (qv : value) {struct qv} : qres bool :=
  match qv with
  | VDoc q =>
      (fix loop (q : document) : qres bool :=
         match q with
         | [] => Ok true
         | (k, v) :: q' =>
             let* b :=
               if String.eqb k "$or" then
                 match v with
                 | VArr alts =>
                     (fix any_alt (alts : list value) : qres bool :=
                        match alts with
                        | [] => Ok false
                        | a :: alts' =>
                            let* b := matches_value d a in
                            if b then Ok true else any_alt alts'
                        end) alts
                 | _ => Err (MalformedQuery "$or")
                 end
               else match_field d k v in
             if b then loop q' else Ok false
         end) q
  | _ => Err (MalformedQuery "$or")
  end.

Definition matches_query (d : document) (q : document) : qres bool :=
  matches_value d (VDoc q).

(** ** Well-formed queries *)

(** The operand has the shape the operator needs. *)
Definition op_shape (o : qop) (arg : value) : bool :=
  match o, arg with
  | OIn, VArr _ => true
  | OIn, _ => false
  | ORegex, VStr _ => true
  | ORegex, _ => false
  | _, _ => true
  end.

Definition op_wf (op : string) (arg : value) : bool :=
  match parse_op op with Some o => op_shape o arg | None => false end.

Definition cond_wf (cond : value) : bool :=
  match cond with
  | VDoc ops => forallb (fun oa => op_wf oa.1 oa.2) ops
  | _ => true
  end.

Fixpoint value_query_wf (qv : value) : bool :=
  match qv with
  | VDoc q =>
      (fix loop (q : document) : bool :=
         match q with
         | [] => true
         | (k, v) :: q' =>
             (if String.eqb k "$or" then
                match v with
                | VArr alts => forallb value_query_wf alts
                | _ => false
                end
              else cond_wf v) && loop q'
         end) q
  | _ => false
  end.

Definition query_wf (q : document) : bool := value_query_wf (VDoc q).

(** ** The abstract meaning of a query *)

Definition cmp_holds (fv : option value) (arg : value) (R : comparison -> Prop) : Prop :=
  exists v c, fv = Some v /\ value_cmp v arg = Some c /\ R c.

Definition qop_holds (fv : option value) (o : qop) (arg : value) : Prop :=
  match o with
  | OEq => fv = Some arg
  | ONe => fv <> Some arg
  | OGt => cmp_holds fv arg (fun c => c = Gt)
  | OGte => cmp_holds fv arg (fun c => c <> Lt)
  | OLt => cmp_holds fv arg (fun c => c = Lt)
  | OLte => cmp_holds fv arg (fun c => c <> Gt)
  | OIn => exists v vs, fv = Some v /\ arg = VArr vs /\ v ∈ vs
  | ORegex => exists s pat, fv = Some (VStr s) /\ arg = VStr pat /\
                js_includes (js_to_lower s) (js_to_lower pat) = true
  end.

Definition cond_holds (fv : option value) (cond : value) : Prop :=
  match cond with
  | VDoc ops =>
      Forall (fun oa => exists o, parse_op oa.1 = Some o /\ qop_holds fv o oa.2) ops
  | lit => fv = Some lit
  end.

Fixpoint value_sat (d : document) (qv : value) : Prop :=
  match qv with
  | VDoc q =>
      (fix loop (q : document) : Prop :=
         match q with
         | [] => True
         | (k, v) :: q' =>
             (if String.eqb k "$or" then
                match v with
                | VArr alts =>
                    (fix any_sat (alts : list value) : Prop :=
                       match alts with
                       | [] => False
                       | a :: alts' => value_sat d a \/ any_sat alts'
                       end) alts
                | _ => False
                end
              else cond_holds (doc_get d k) v) /\ loop q'
         end) q
  | _ => False
  end.

Definition sat (d : document) (q : document) : Prop := value_sat d (VDoc q).

(** The statement proved by induction: a well-formed query value is
    evaluated without error to the truth of [value_sat]. *)
Definition matches_value_ok (a : value) : Prop :=
  forall d, value_query_wf a = true -> decides (matches_value d a) (value_sat d a).

(** [any] over the alternatives of [$or], as a function of its own. *)
Fixpoint any_alt (d : document) (alts : list value) : qres bool :=
  match alts with
  | [] => Ok false
  | a :: alts' => let* b := matches_value d a in if b then Ok true else any_alt d alts'
  end.

(** ** Correctness of the matcher with respect to [sat] *)

Lemma field_eqb_spec fv arg : field_eqb fv arg = true <-> fv = Some arg.
Proof.
  destruct fv as [v|]; simpl; [rewrite value_eqb_eq|]; split; congruence.
Qed.

Lemma field_cmp_spec fv arg (ok : comparison -> bool) (R : comparison -> Prop) :
  (forall c, ok c = true <-> R c) ->
  field_cmp fv arg ok = true <-> cmp_holds fv arg R.
Proof.
  intros HR. unfold cmp_holds. destruct fv as [v|]; simpl.
  - destruct (value_cmp v arg) as [c|] eqn:E.
    + rewrite HR. split; [eauto | intros (v' & c' & [= <-] & E' & Hc); congruence].
    + split; [discriminate | intros (v' & c' & [= <-] & E' & _); congruence].
  - split; [discriminate | intros (? & ? & ? & _); discriminate].
Qed.

Lemma eval_qop_decides fv o arg :
  op_shape o arg = true -> decides (eval_qop fv o arg) (qop_holds fv o arg).
Proof.
  intros Hs. destruct o; simpl.
  - apply decides_ret, field_eqb_spec.
  - apply decides_ret. rewrite negb_true_iff, <- not_true_iff_false, field_eqb_spec. done.
  - apply decides_ret, field_cmp_spec. intros []; simpl; split; congruence.
  - apply decides_ret, field_cmp_spec. intros []; simpl; split; congruence.
  - apply decides_ret, field_cmp_spec. intros []; simpl; split; congruence.
  - apply decides_ret, field_cmp_spec. intros []; simpl; split; congruence.
  - destruct arg as [| | | | |vs]; try discriminate. apply decides_ret.
    destruct fv as [v|].
    + rewrite existsb_exists. split.
      * intros (w & Hw & Heq). apply value_eqb_eq in Heq as <-.
        exists v, vs. split_and!; [done|done|]. by apply list_elem_of_In.
      * intros (w & ws & [= Hw] & [= Hws] & Hin). subst. exists w.
        split; [by apply list_elem_of_In | apply value_eqb_refl].
    + split; [discriminate | intros (? & ? & ? & _); discriminate].
  - destruct arg as [pat| | | | |]; try discriminate. apply decides_ret.
    destruct fv as [[s| | | | |]|];
      [|split; [discriminate | intros (? & ? & ? & ? & ?); congruence] ..].
    split.
    + intros H. exists s, pat. eauto.
    + intros (s' & p' & [= <-] & [= <-] & H). exact H.
Qed.

Lemma eval_op_decides fv op arg :
  op_wf op arg = true ->
  decides (eval_op fv op arg) (exists o, parse_op op = Some o /\ qop_holds fv o arg).
Proof.
  unfold op_wf, eval_op. destruct (parse_op op) as [o|]; [|discriminate].
  intros Hs. eapply decides_iff; [exact (eval_qop_decides fv o arg Hs)|].
  split; [eauto | intros (o' & [= <-] & H); exact H].
Qed.

Lemma eval_ops_decides fv ops :
  forallb (fun oa => op_wf oa.1 oa.2) ops = true ->
  decides (eval_ops fv ops)
    (Forall (fun oa => exists o, parse_op oa.1 = Some o /\ qop_holds fv o oa.2) ops).
Proof.
  induction ops as [|[op arg] ops IH]; simpl.
  - intros _. apply decides_ret. split; [constructor | done].
  - intros [Hh Ht]%andb_true_iff. eapply decides_iff.
    + apply decides_and; [apply eval_op_decides, Hh | apply IH, Ht].
    + rewrite Forall_cons. done.
Qed.

Lemma match_field_decides d k v :
  cond_wf v = true -> decides (match_field d k v) (cond_holds (doc_get d k) v).
Proof.
  destruct v; simpl; intros Hwf;
    [apply decides_ret, field_eqb_spec .. | apply eval_ops_decides, Hwf |
     apply decides_ret, field_eqb_spec].
Qed.

Lemma matches_value_ok_all v :
  match v with VArr alts => Forall matches_value_ok alts | _ => matches_value_ok v end.
Proof.
  induction v as [s|n|b| |fs IH|vs IH] using value_ind';
    try (intros d Hwf; discriminate).
  - intros d. induction IH as [|[k v] fs Hv Hfs IHfs]; intros Hwf.
    + apply decides_ret. split; done.
    + cbn in Hwf. apply andb_true_iff in Hwf as [Hh Ht].
      cbn [matches_value value_sat]. apply decides_and; [|exact (IHfs Ht)].
      destruct (String.eqb k "$or"); [|now apply match_field_decides].
      destruct v as [| | | | |alts]; try discriminate. cbn in Hv.
      induction Hv as [|a alts Ha _ IHalts]; simpl in Hh.
      * apply decides_ret. split; done.
      * apply andb_true_iff in Hh as [Ha' Hh].
        apply decides_or; [apply Ha, Ha' | apply IHalts, Hh].
  - eapply Forall_impl; [exact IH|]. intros [] Hv; try exact Hv.
    intros d Hwf. discriminate.
Qed.

Lemma matches_query_decides d q :
  query_wf q = true -> decides (matches_query d q) (sat d q).
Proof. intros Hwf. exact (matches_value_ok_all (VDoc q) d Hwf). Qed.

(** One step of the key loop of [_matches_query]. *)
Lemma matches_query_cons d k v q' :
  matches_query d ((k, v) :: q') =
  let* b := (if String.eqb k "$or" then
               match v with
               | VArr alts => any_alt d alts
               | _ => Err (MalformedQuery "$or")
               end
             else match_field d k v) in
  if b then matches_query d q' else Ok false.
Proof.
  unfold matches_query. cbn [matches_value].
  destruct (String.eqb k "$or"); [|reflexivity]. destruct v as [| | | | |alts]; try reflexivity.
  f_equal. induction alts as [|a r IH]; [reflexivity|]. cbn [any_alt].
  destruct (matches_value d a) as [[]|]; simpl; [reflexivity|exact IH|reflexivity].
Qed.

(** A query on one ordinary field is that field's condition. *)
Lemma matches_query_single d k c :
  k <> "$or" -> matches_query d [(k, c)] = match_field d k c.
Proof.
  intros Hk. unfold matches_query. cbn [matches_value].
  destruct (String.eqb_spec k "$or"); [contradiction|].
  destruct (match_field d k c) as [[]|]; reflexivity.
Qed.

(** ** Properties of the matcher *)

(** C1: Refinement of the abstract query semantics.  On a well-formed query
    (every operator recognised, [$in] given an array, [$regex] a string,
    [$or] an array of queries), [_matches_query] returns without error, and
    it returns [True] exactly when the document satisfies the query in the
    sense of [sat]: every ordinary key's condition holds, and some
    alternative of each [$or] holds. *)
Theorem matches_query_refines_sat d q :
  query_wf q = true ->
  exists b, matches_query d q = Ok b /\ (b = true <-> sat d q).
Proof. apply matches_query_decides. Qed.

Lemma matches_query_refines_sat_witness :
  matches_query [("name", VStr "Bob"); ("income", VNum 50000)]
    [("income", VDoc [("$gte", VNum 10000)]);
     ("$or", VArr [VDoc [("name", VStr "Alice")]; VDoc [("name", VStr "Bob")]])] = Ok true /\
  exists b, matches_query [("name", VStr "Bob"); ("income", VNum 50000)]
    [("income", VDoc [("$gte", VNum 10000)]);
     ("$or", VArr [VDoc [("name", VStr "Alice")]; VDoc [("name", VStr "Bob")]])] = Ok b /\
  (b = true <-> sat [("name", VStr "Bob"); ("income", VNum 50000)]
    [("income", VDoc [("$gte", VNum 10000)]);
     ("$or", VArr [VDoc [("name", VStr "Alice")]; VDoc [("name", VStr "Bob")]])]).
Proof. split; [reflexivity | apply matches_query_refines_sat; reflexivity]. Defined.

(** Error semantics.  The matcher reports [MalformedQuery] only for a
    malformed query: a type mismatch, an absent field or any document
    content never makes it fail. *)
Theorem matches_query_error_only_malformed d q e :
  matches_query d q = Err e -> query_wf q = false.
Proof.
  intros Herr. destruct (query_wf q) eqn:Hwf; [|reflexivity].
  exfalso. exact (decides_not_err _ _ e (matches_query_decides d q Hwf) Herr).
Qed.

Lemma matches_query_error_only_malformed_witness :
  matches_query [("age", VNum 3)] [("age", VDoc [("$foo", VNum 1)])] =
    Err (MalformedQuery "$foo") /\
  query_wf [("age", VDoc [("$foo", VNum 1)])] = false.
Proof.
  split; [reflexivity|].
  apply (matches_query_error_only_malformed [("age", VNum 3)] _ (MalformedQuery "$foo")).
  reflexivity.
Defined.

(** [$regex] is case-insensitive.  Two documents whose field values
    agree up to letter case, matched against two patterns that agree up to
    letter case, give the same answer. *)
Theorem regex_case_insensitive d d' k s s' pat pat' :
  k <> "$or" ->
  doc_get d k = Some (VStr s) -> doc_get d' k = Some (VStr s') ->
  js_to_lower s = js_to_lower s' -> js_to_lower pat = js_to_lower pat' ->
  matches_query d [(k, VDoc [("$regex", VStr pat)])] =
  matches_query d' [(k, VDoc [("$regex", VStr pat')])].
Proof.
  intros Hk Hd Hd' Hs Hp. rewrite !matches_query_single by exact Hk.
  simpl. rewrite Hd, Hd'. unfold regex_search_i. now rewrite Hs, Hp.
Qed.

Lemma regex_case_insensitive_witness :
  matches_query [("name", VStr "Alice")] [("name", VDoc [("$regex", VStr "alice")])] = Ok true /\
  matches_query [("name", VStr "Alice")] [("name", VDoc [("$regex", VStr "alice")])] =
  matches_query [("name", VStr "alice")] [("name", VDoc [("$regex", VStr "ALICE")])].
Proof.
  split; [reflexivity|].
  apply (regex_case_insensitive _ _ "name" "Alice" "alice" "alice" "ALICE");
    reflexivity || discriminate.
Defined.

(** A type mismatch is a non-match, never an error.  An ordering
    operator applied to a field whose value is not comparable with the
    operand (a string against a number, a boolean, null, ...) yields
    [False]. *)
Theorem compare_type_mismatch_no_match d k v arg op :
  k <> "$or" -> doc_get d k = Some v -> value_cmp v arg = None ->
  op ∈ ["$gt"; "$gte"; "$lt"; "$lte"] ->
  matches_query d [(k, VDoc [(op, arg)])] = Ok false.
Proof.
  intros Hk Hd Hcmp Hop. rewrite matches_query_single by exact Hk.
  cbn [match_field eval_ops]. rewrite Hd.
  repeat rewrite elem_of_cons in Hop. rewrite elem_of_nil in Hop.
  destruct Hop as [->|[->|[->|[->|[]]]]]; cbn; unfold field_cmp; now rewrite Hcmp.
Qed.

Lemma compare_type_mismatch_no_match_witness :
  matches_query [("income", VStr "high")] [("income", VDoc [("$gt", VNum 1000)])] = Ok false.
Proof.
  apply (compare_type_mismatch_no_match _ _ (VStr "high")); try reflexivity.
  - discriminate.
  - now apply elem_of_cons; left.
Defined.
