(* ===== verification/Cursor.v ===== *)
(** [MockCursor] of the in-memory store (quoted in [src/FIXES_APPLIED.md]
    and [src/USER_CREATION_FIX.md]): a snapshot of the documents a [find]
    selected, a chainable [sort] by one field and [to_list] with an
    optional size cap, which is a Python slice [self.data[:max_length]]. *)

From S2P Require Import Prelude StableSort Value.
From Stdlib Require Import Sorted Permutation.
Local Open Scope string_scope.

(** [MockCursor.__init__]: the cursor holds the list of results. *)
Record cursor := MockCursor { cursor_data : list document }.

(** The sort key of a field value.  A missing field sorts lowest, then, in
    the cross-type order of the document database the store imitates,
    null, numbers, strings, documents, arrays, booleans; numbers compare
    numerically, strings lexicographically, booleans [False < True], and
    documents or arrays are not ordered among themselves. *)
Definition sort_key (fv : option value) : nat * (Z * (string * bool)) :=
  match fv with
  | None => (0, (0%Z, ("", false)))
  | Some VNull => (1, (0%Z, ("", false)))
  | Some (VNum n) => (2, (n, ("", false)))
  | Some (VStr s) => (3, (0%Z, (s, false)))
  | Some (VDoc _) => (4, (0%Z, ("", false)))
  | Some (VArr _) => (5, (0%Z, ("", false)))
  | Some (VBool b) => (6, (0%Z, ("", b)))
  end.

Definition doc_sort_key (field : string) (d : document) : nat * (Z * (string * bool)) :=
  sort_key (doc_get d field).

(** [sort(key, direction)]: a stable sort of the held list, descending as
    Python's [reverse=True] when [direction] is [-1]; returns the cursor. *)
Definition sort (c : cursor) (field : string) (direction : Z) : cursor :=
  MockCursor
    (if Z.eqb direction (-1)
     then ssort (fun d => RevKey (doc_sort_key field d)) (cursor_data c)
     else ssort (doc_sort_key field) (cursor_data c)).

(** [to_list(max_length=None)]. *)
Definition to_list (c : cursor) (max_length : option Z) : list document :=
  match max_length with
  | None => cursor_data c
  | Some n => py_slice_to (cursor_data c) n
  end.

(** ** Lemmas *)

Lemma to_list_none c : to_list c None = cursor_data c.
Proof. reflexivity. Qed.

Lemma sort_asc_data c field dir :
  dir <> (-1)%Z -> cursor_data (sort c field dir) = ssort (doc_sort_key field) (cursor_data c).
Proof. intros Hd. unfold sort. simpl. now replace (Z.eqb dir (-1)) with false by lia. Qed.

Lemma sort_desc_data c field :
  cursor_data (sort c field (-1)) = ssort (fun d => RevKey (doc_sort_key field d)) (cursor_data c).
Proof. reflexivity. Qed.

Lemma sort_perm c field dir : Permutation (cursor_data (sort c field dir)) (cursor_data c).
Proof. unfold sort. simpl. destruct (Z.eqb dir (-1)); apply ssort_perm. Qed.

#[export] Hint Rewrite to_list_none sort_desc_data : store_rw.

(** ** Properties of the cursor *)

(** Bounded materialisation.  [to_list(n)] with [n >= 0] returns the
    first [n] documents of the current order, and exactly [min n len] of
    them. *)
Theorem to_list_cap c n :
  (0 <= n)%Z ->
  to_list c (Some n) = take (Z.to_nat n) (cursor_data c) /\
  List.length (to_list c (Some n)) = Nat.min (Z.to_nat n) (List.length (cursor_data c)).
Proof.
  intros Hn. simpl. rewrite py_slice_to_nonneg by exact Hn.
  split; [reflexivity | apply length_take].
Qed.

Lemma to_list_cap_witness :
  List.length (to_list (MockCursor [[("a", VNum 1)]; [("a", VNum 2)]; [("a", VNum 3)]]) (Some 2%Z)) = 2.
Proof.
  destruct (to_list_cap (MockCursor [[("a", VNum 1)]; [("a", VNum 2)]; [("a", VNum 3)]]) 2%Z)
    as [_ ->]; [lia | reflexivity].
Defined.

(** A negative size cap is a Python slice bound counted from the end:
    [to_list(-k)] silently drops the last [k] documents instead of
    returning at most [-k] of them or failing. *)
Theorem to_list_negative_cap c n :
  (n < 0)%Z ->
  to_list c (Some n) = take (List.length (cursor_data c) - Z.to_nat (- n)) (cursor_data c).
Proof.
  intros Hn. simpl. unfold py_slice_to. replace (0 <=? n)%Z with false by lia.
  f_equal. lia.
Qed.

Lemma to_list_negative_cap_witness :
  to_list (MockCursor [[("a", VNum 1)]; [("a", VNum 2)]; [("a", VNum 3)]]) (Some (-1)%Z) =
  [[("a", VNum 1)]; [("a", VNum 2)]].
Proof. rewrite to_list_negative_cap by lia. reflexivity. Defined.

(** [sort(field, 1)] returns the held documents reordered (a
    permutation), in non-decreasing order of the field's sort key, and
    stably: documents with equal keys keep their relative order. *)
Theorem sort_asc_spec c field :
  let r := to_list (sort c field 1) None in
  Permutation r (cursor_data c) /\
  Sorted (key_le (doc_sort_key field)) r /\
  (forall k, List.filter (same_key (doc_sort_key field) k) r =
             List.filter (same_key (doc_sort_key field) k) (cursor_data c)).
Proof.
  cbv zeta. rewrite to_list_none, sort_asc_data by lia.
  split_and!; [apply ssort_perm | apply ssort_sorted | intros k; apply ssort_stable].
Qed.

(** When the documents' sort keys are pairwise distinct, sorting
    descending yields exactly the reverse of sorting ascending. *)
Theorem sort_desc_reverses_asc c field :
  NoDup (map (doc_sort_key field) (cursor_data c)) ->
  to_list (sort c field (-1)) None = rev (to_list (sort c field 1) None).
Proof.
  intros Hnd. rewrite !to_list_none, sort_desc_data, sort_asc_data by lia.
  now apply ssort_rev_distinct.
Qed.

Lemma sort_desc_reverses_asc_witness :
  to_list (sort (MockCursor [[("n", VNum 2)]; [("n", VNum 1)]; [("n", VNum 3)]]) "n" (-1)) None =
  rev (to_list (sort (MockCursor [[("n", VNum 2)]; [("n", VNum 1)]; [("n", VNum 3)]]) "n" 1) None).
Proof. apply sort_desc_reverses_asc. vm_compute. repeat constructor; set_solver. Defined.

(** With a tie the claim fails: equal keys keep their insertion order in
    both directions, so the descending result is not the reverse. *)
Lemma sort_desc_ties_not_reverse :
  to_list (sort (MockCursor [[("id", VStr "a"); ("n", VNum 1)];
                             [("id", VStr "b"); ("n", VNum 1)]]) "n" (-1)) None <>
  rev (to_list (sort (MockCursor [[("id", VStr "a"); ("n", VNum 1)];
                                  [("id", VStr "b"); ("n", VNum 1)]]) "n" 1) None).
Proof. vm_compute. congruence. Qed.

(** A second [sort] does not erase the first: the result is ordered by
    the last sort's field, with ties broken by the previous sort's field. *)
Theorem sort_chain_tiebreak c f1 f2 :
  to_list (sort (sort c f1 1) f2 1) None =
  ssort (fun d => (doc_sort_key f2 d, doc_sort_key f1 d)) (cursor_data c).
Proof. rewrite to_list_none, !sort_asc_data by lia. apply ssort_twice. Qed.
