(* ===== verification/Collection.v ===== *)
(** [MockCollection] of the in-memory store: the list of stored documents
    and its operations [insert_one], [insert_many], [find_one], [find],
    [update_one], [delete_one], [delete_many] and [count_documents], each
    a function from the collection to its result and the new collection,
    in the error monad of the matcher.  The identity a document receives is
    an argument ([uuid4()] is external).  [CollectionOps] is the interface
    the route handlers rely on; the list model is its instance. *)

From S2P Require Import Prelude StableSort Value Matcher Cursor.


Record collection := MockCollection { coll_data : list document }.

(** The identity field. *)
Definition id_field : string := "id"%string.

(** ** Projection *)

(** A projection value includes its field when truthy ([1], [True]). *)
Definition proj_truthy (v : value) : bool :=
  match v with
  | VNum 0 | VBool false | VNull => false
  | _ => true
  end.

(** With some truthy entry the projection lists the fields to keep,
    otherwise the fields to drop; the stored document is not changed. *)
Definition apply_projection (proj : option document) (d : document) : document :=
  match proj with
  | None => d
  | Some p =>
      if existsb (fun kv => proj_truthy kv.2) p
      then List.filter (fun kv => match doc_get p kv.1 with
                                  | Some v => proj_truthy v | None => false end) d
      else List.filter (fun kv => match doc_get p kv.1 with
                                  | Some _ => false | None => true end) d
  end.

(** ** Queries over the stored list *)

(** [[doc for doc in self.data if self._matches_query(doc, query)]]. *)
Fixpoint find_all (q : document) (docs : list document) : qres (list document) :=
  match docs with
  | [] => Ok []
  | d :: ds =>
      let* b := matches_query d q in
      let* r := find_all q ds in
      Ok (if b then d :: r else r)
  end.

(** The first match in storage order; documents after it are not examined. *)
Fixpoint find_first (q : document) (docs : list document) : qres (option document) :=
  match docs with
  | [] => Ok None
  | d :: ds =>
      let* b := matches_query d q in
      if b then Ok (Some d) else find_first q ds
  end.

Fixpoint update_first (q upd : document) (docs : list document)
  : qres (list document * nat) :=
  match docs with
  | [] => Ok ([], 0)
  | d :: ds =>
      let* b := matches_query d q in
      if b then Ok (doc_update d upd :: ds, 1)
      else let* r := update_first q upd ds in Ok (d :: r.1, r.2)
  end.

Fixpoint delete_first (q : document) (docs : list document)
  : qres (list document * nat) :=
  match docs with
  | [] => Ok ([], 0)
  | d :: ds =>
      let* b := matches_query d q in
      if b then Ok (ds, 1)
      else let* r := delete_first q ds in Ok (d :: r.1, r.2)
  end.

Fixpoint keep_unmatched (q : document) (docs : list document) : qres (list document) :=
  match docs with
  | [] => Ok []
  | d :: ds =>
      let* b := matches_query d q in
      let* r := keep_unmatched q ds in
      Ok (if b then r else d :: r)
  end.

(** ** The operations *)

(** [insert_one(doc)]: add the identity if missing, append, return the
    stored document. *)
Definition insert_one (c : collection) (new_id : string) (d : document)
  : collection * document :=
  let d' := match doc_get d id_field with
            | Some _ => d
            | None => doc_set id_field (VStr new_id) d
            end in
  (MockCollection (coll_data c ++ [d']), d').

(** [insert_many(docs)]: [insert_one] on each, with one identity each. *)
Fixpoint insert_many (c : collection) (ids : list string) (ds : list document)
  : collection * list document :=
  match ds, ids with
  | d :: ds', i :: ids' =>
      let (c1, d1) := insert_one c i d in
      let (c2, r) := insert_many c1 ids' ds' in (c2, d1 :: r)
  | _, _ => (c, [])
  end.

Definition find_one (c : collection) (q : document) (proj : option document)
  : qres (option document) :=
  let* r := find_first q (coll_data c) in
  Ok (option_map (apply_projection proj) r).

(** [find(query, projection)] returns [MockCursor(results)]. *)
Definition find (c : collection) (q : document) (proj : option document) : qres cursor :=
  let* r := find_all q (coll_data c) in
  Ok (MockCursor (map (apply_projection proj) r)).

Definition update_one (c : collection) (q upd : document) : qres (collection * nat) :=
  let* r := update_first q upd (coll_data c) in
  Ok (MockCollection r.1, r.2).

Definition delete_one (c : collection) (q : document) : qres (collection * nat) :=
  let* r := delete_first q (coll_data c) in
  Ok (MockCollection r.1, r.2).

Definition delete_many (c : collection) (q : document) : qres (collection * nat) :=
  let* r := keep_unmatched q (coll_data c) in
  Ok (MockCollection r, List.length (coll_data c) - List.length r).

Definition count_documents (c : collection) (q : document) : qres nat :=
  let* r := find_all q (coll_data c) in
  Ok (List.length r).

(** ** The matcher as a boolean on well-formed queries *)

Definition matchb (q : document) (d : document) : bool :=
  match matches_query d q with Ok b => b | Err _ => false end.

(** The first match splits the list: documents before it do not match. *)
Definition first_match (q : document) (docs pre : list document) (d : document) (post : list document) : Prop :=
  docs = pre ++ d :: post /\ matchb q d = true /\ Forall (fun x => matchb q x = false) pre.

(** ** The interface the route handlers use *)

(** What a collection promises its clients: [find_one] without projection
    returns the first stored document the matcher accepts, and [insert_one]
    appends the document with its identity filled in. *)
Class CollectionOps (C : Type) := {
  co_docs : C -> list document;
  co_find_one : C -> document -> qres (option document);
  co_insert : C -> string -> document -> C * document;
  co_find_one_wf : forall c q,
    query_wf q = true -> co_find_one c q = Ok (List.find (matchb q) (co_docs c));
  co_insert_docs : forall c i d,
    co_docs (co_insert c i d).1 = co_docs c ++ [(co_insert c i d).2];
  co_insert_other : forall c i d k,
    k <> id_field -> doc_get (co_insert c i d).2 k = doc_get d k
}.

(** A stored document is a Python dict (each key once) carrying its
    identity. *)
Definition stored_ok (d : document) : Prop := doc_wf d /\ is_Some (doc_get d id_field).

Definition coll_wf (c : collection) : Prop := Forall stored_ok (coll_data c).

(** ** Lemmas *)

Lemma matches_query_wf_ok q d :
  query_wf q = true -> matches_query d q = Ok (matchb q d).
Proof.
  intros Hwf. destruct (matches_query_decides d q Hwf) as (b & Hb & _).
  unfold matchb. now rewrite Hb.
Qed.

Lemma matchb_sat q d : query_wf q = true -> matchb q d = true <-> sat d q.
Proof.
  intros Hwf. destruct (matches_query_decides d q Hwf) as (b & Hb & Hiff).
  unfold matchb. now rewrite Hb.
Qed.

Section WfQuery.
Context (q : document) (Hwf : query_wf q = true).

Lemma find_all_ok docs : find_all q docs = Ok (List.filter (matchb q) docs).
Proof.
  induction docs as [|d ds IH]; simpl; [reflexivity|].
  rewrite matches_query_wf_ok by exact Hwf. simpl. rewrite IH. reflexivity.
Qed.

Lemma find_first_ok docs : find_first q docs = Ok (List.find (matchb q) docs).
Proof.
  induction docs as [|d ds IH]; simpl; [reflexivity|].
  rewrite matches_query_wf_ok by exact Hwf. simpl. now destruct (matchb q d).
Qed.

Lemma keep_unmatched_ok docs :
  keep_unmatched q docs = Ok (List.filter (fun d => negb (matchb q d)) docs).
Proof.
  induction docs as [|d ds IH]; simpl; [reflexivity|].
  rewrite matches_query_wf_ok by exact Hwf. simpl. rewrite IH. simpl.
  now destruct (matchb q d).
Qed.

Lemma update_first_ok upd docs :
  (exists pre d post, first_match q docs pre d post /\
     update_first q upd docs = Ok (pre ++ doc_update d upd :: post, 1)) \/
  (Forall (fun x => matchb q x = false) docs /\ update_first q upd docs = Ok (docs, 0)).
Proof.
  induction docs as [|x ds IH]; simpl; [right; split; [constructor | reflexivity]|].
  rewrite matches_query_wf_ok by exact Hwf. simpl.
  destruct (matchb q x) eqn:Ex.
  - left. exists [], x, ds. split; [split_and!; [done|done|constructor] | reflexivity].
  - destruct IH as [(pre & d & post & (-> & Hd & Hpre) & ->)|[Hall ->]]; simpl.
    + left. exists (x :: pre), d, post. split; [split_and!; [done|done|now constructor]|done].
    + right. split; [now constructor | reflexivity].
Qed.

Lemma delete_first_ok docs :
  (exists pre d post, first_match q docs pre d post /\
     delete_first q docs = Ok (pre ++ post, 1)) \/
  (Forall (fun x => matchb q x = false) docs /\ delete_first q docs = Ok (docs, 0)).
Proof.
  induction docs as [|x ds IH]; simpl; [right; split; [constructor | reflexivity]|].
  rewrite matches_query_wf_ok by exact Hwf. simpl.
  destruct (matchb q x) eqn:Ex.
  - left. exists [], x, ds. split; [split_and!; [done|done|constructor] | reflexivity].
  - destruct IH as [(pre & d & post & (-> & Hd & Hpre) & ->)|[Hall ->]]; simpl.
    + left. exists (x :: pre), d, post. split; [split_and!; [done|done|now constructor]|done].
    + right. split; [now constructor | reflexivity].
Qed.
End WfQuery.

(** ** Identity assignment *)

Lemma insert_one_data c i d :
  coll_data (insert_one c i d).1 = coll_data c ++ [(insert_one c i d).2].
Proof. reflexivity. Qed.

Lemma insert_one_id c i d :
  doc_get (insert_one c i d).2 id_field =
  Some (match doc_get d id_field with Some v => v | None => VStr i end).
Proof.
  simpl. destruct (doc_get d id_field) eqn:E; [exact E | apply doc_get_set_eq].
Qed.

Lemma insert_one_other c i d k :
  k <> id_field -> doc_get (insert_one c i d).2 k = doc_get d k.
Proof.
  intros Hk. simpl. destruct (doc_get d id_field); [reflexivity|].
  now apply doc_get_set_ne.
Qed.

Lemma find_one_ok c q :
  query_wf q = true -> find_one c q None = Ok (List.find (matchb q) (coll_data c)).
Proof.
  intros Hwf. unfold find_one. rewrite find_first_ok by exact Hwf. simpl.
  now destruct (List.find _ _).
Qed.

#[export] Instance mock_collection_ops : CollectionOps collection := {
  co_docs := coll_data;
  co_find_one c q := find_one c q None;
  co_insert := insert_one;
  co_find_one_wf := find_one_ok;
  co_insert_docs := insert_one_data;
  co_insert_other := insert_one_other
}.

Lemma matchb_literal k lit d :
  k <> "$or"%string -> (forall ops, lit <> VDoc ops) ->
  matchb [(k, lit)] d = field_eqb (doc_get d k) lit.
Proof.
  intros Hk Hl. unfold matchb. rewrite matches_query_single by exact Hk.
  destruct lit; try reflexivity. now destruct (Hl fields).
Qed.

Lemma matchb_or2 q1 q2 d :
  query_wf q1 = true -> query_wf q2 = true ->
  matchb [("$or"%string, VArr [VDoc q1; VDoc q2])] d = matchb q1 d || matchb q2 d.
Proof.
  intros H1 H2. unfold matchb at 1. rewrite matches_query_cons, String.eqb_refl.
  cbn [any_alt].
  change (matches_value d (VDoc q1)) with (matches_query d q1).
  change (matches_value d (VDoc q2)) with (matches_query d q2).
  rewrite (matches_query_wf_ok q1), (matches_query_wf_ok q2) by assumption.
  destruct (matchb q1 d), (matchb q2 d); reflexivity.
Qed.

Lemma map_apply_projection_none docs : map (apply_projection None) docs = docs.
Proof. apply map_id. Qed.

(** ** Properties of the collection *)

(** Identity round trip.  A document inserted without an identity
    receives the fresh identity, and a later [find({id: that value})]
    returns exactly that document with its identity, provided no stored
    document already carries the same identity. *)
Theorem insert_find_roundtrip c i d :
  doc_get d id_field = None ->
  Forall (fun d' => doc_get d' id_field <> Some (VStr i)) (coll_data c) ->
  find (insert_one c i d).1 [(id_field, VStr i)] None =
  Ok (MockCursor [doc_set id_field (VStr i) d]).
Proof.
  intros Hd Hfresh. unfold find. rewrite find_all_ok by reflexivity.
  simpl. rewrite Hd, List.filter_app, map_apply_projection_none.
  rewrite (List.filter_ext_in _ (fun _ => false)), List.filter_false; simpl.
  - rewrite matchb_literal, doc_get_set_eq by (discriminate || congruence).
    simpl. now rewrite String.eqb_refl.
  - intros x Hx. rewrite matchb_literal by (discriminate || congruence).
    rewrite List.Forall_forall in Hfresh. specialize (Hfresh x Hx).
    unfold field_eqb. destruct (doc_get x id_field) as [v|]; [|reflexivity].
    destruct (value_eqb v (VStr i)) eqn:E; [|reflexivity].
    apply value_eqb_eq in E. congruence.
Qed.

Lemma insert_find_roundtrip_witness :
  find (insert_one (MockCollection [[("id", VStr "x"); ("name", VStr "Bob")]])
          "u1" [("name", VStr "Alice")]).1 [(id_field, VStr "u1")] None =
  Ok (MockCursor [[("name", VStr "Alice"); ("id", VStr "u1")]]).
Proof.
  apply (insert_find_roundtrip _ "u1" [("name", VStr "Alice")]); [reflexivity|].
  repeat constructor. discriminate.
Defined.

(** [$or] composition.  [find({$or: [q1, q2]})] returns, in storage
    order, every stored document matching [q1] or [q2], each once. *)
Theorem find_or_union c q1 q2 :
  query_wf q1 = true -> query_wf q2 = true ->
  find c [("$or"%string, VArr [VDoc q1; VDoc q2])] None =
  Ok (MockCursor (List.filter (fun d => matchb q1 d || matchb q2 d) (coll_data c))).
Proof.
  intros H1 H2. unfold find.
  rewrite find_all_ok.
  2:{ unfold query_wf at 1. cbn [value_query_wf]. rewrite String.eqb_refl. cbn [forallb].
      change (value_query_wf (VDoc q1)) with (query_wf q1).
      change (value_query_wf (VDoc q2)) with (query_wf q2). now rewrite H1, H2. }
  simpl.
  rewrite map_apply_projection_none.
  now rewrite (List.filter_ext _ _ (fun d => matchb_or2 q1 q2 d H1 H2)).
Qed.

Lemma find_or_union_witness :
  find (MockCollection [[("a", VNum 1)]; [("b", VNum 2)]; [("a", VNum 1); ("b", VNum 2)]; [("c", VNum 3)]])
    [("$or"%string, VArr [VDoc [("a", VNum 1)]; VDoc [("b", VNum 2)]])] None =
  Ok (MockCursor [[("a", VNum 1)]; [("b", VNum 2)]; [("a", VNum 1); ("b", VNum 2)]]).
Proof. rewrite find_or_union by reflexivity. reflexivity. Defined.

(** [update_one] changes only the first document (in storage order)
    that the matcher accepts, replacing it by its shallow merge with the
    update, and reports 1; when no document matches it changes nothing and
    reports 0. *)
Theorem update_one_first_match c q upd c' n :
  query_wf q = true -> update_one c q upd = Ok (c', n) ->
  (n = 1 /\ exists pre d post,
     coll_data c = pre ++ d :: post /\ matches_query d q = Ok true /\
     Forall (fun x => matches_query x q = Ok false) pre /\
     coll_data c' = pre ++ doc_update d upd :: post) \/
  (n = 0 /\ c' = c /\ Forall (fun x => matches_query x q = Ok false) (coll_data c)).
Proof.
  intros Hwf Hup. unfold update_one in Hup.
  assert (Hf : forall x, matchb q x = false -> matches_query x q = Ok false)
    by (intros x Hx; now rewrite matches_query_wf_ok, Hx).
  destruct (update_first_ok q Hwf upd (coll_data c))
    as [(pre & d & post & (Hc & Hd & Hpre) & Hr)|[Hall Hr]];
    rewrite Hr in Hup; simpl in Hup; injection Hup as <- <-.
  - left. split; [done|]. exists pre, d, post. split_and!; [done| |by eapply Forall_impl|done].
    now rewrite matches_query_wf_ok, Hd.
  - right. split_and!; [done| now destruct c | by eapply Forall_impl].
Qed.

Lemma update_one_first_match_witness :
  let c := MockCollection [[("k", VStr "A1")]; [("k", VStr "A2"); ("s", VStr "ok")]] in
  let q := [("k", VStr "A2")] in
  let upd := [("s", VStr "flagged")] in
  let c' := MockCollection [[("k", VStr "A1")]; [("k", VStr "A2"); ("s", VStr "flagged")]] in
  update_one c q upd = Ok (c', 1) /\
  ((1 = 1 /\ exists pre d post,
     coll_data c = pre ++ d :: post /\ matches_query d q = Ok true /\
     Forall (fun x => matches_query x q = Ok false) pre /\
     coll_data c' = pre ++ doc_update d upd :: post) \/
   (1 = 0 /\ c' = c /\ Forall (fun x => matches_query x q = Ok false) (coll_data c))).
Proof.
  intros c q upd c'. split; [reflexivity|].
  exact (update_one_first_match c q upd c' 1 eq_refl eq_refl).
Defined.

(** [delete_many] keeps exactly the documents the matcher rejects, in
    order, and reports how many it removed. *)
Theorem delete_many_spec c q :
  query_wf q = true ->
  delete_many c q =
  Ok (MockCollection (List.filter (fun d => negb (matchb q d)) (coll_data c)),
      List.length (List.filter (matchb q) (coll_data c))).
Proof.
  intros Hwf. unfold delete_many. rewrite keep_unmatched_ok by exact Hwf. simpl.
  do 2 f_equal. pose proof (List.filter_length (matchb q) (coll_data c)). lia.
Qed.

Lemma delete_many_spec_witness :
  delete_many (MockCollection [[("a", VNum 1)]; [("a", VNum 2)]; [("a", VNum 3)];
                               [("a", VNum 4)]; [("a", VNum 5)]]) [] =
  Ok (MockCollection [], 5).
Proof. rewrite delete_many_spec by reflexivity. reflexivity. Defined.

(** ** Well-formed collections *)

(** Cases on the matcher's verdict in a hypothesis [let* b := matches_query d q in ...]. *)
Ltac qres_case E :=
  match type of E with
  | context [matches_query ?d ?q] =>
      let b := fresh "b" in
      destruct (matches_query d q) as [b|?]; simpl in E; [|discriminate]; destruct b
  end.

Section Preserve.
Context (P : document -> Prop).

Lemma update_first_Forall q upd docs r :
  (forall d, P d -> P (doc_update d upd)) -> Forall P docs ->
  update_first q upd docs = Ok r -> Forall P r.1.
Proof.
  revert r. induction docs as [|d ds IH]; intros r Hup Hf E; simpl in E;
    [injection E as <-; constructor|].
  apply Forall_cons in Hf as [Hd Hds]. qres_case E.
  - injection E as <-. simpl. now constructor; [apply Hup|].
  - destruct (update_first q upd ds) as [r'|] eqn:Eu; simpl in E; [|discriminate].
    injection E as <-. simpl. constructor; [exact Hd | exact (IH r' Hup Hds eq_refl)].
Qed.

Lemma delete_first_Forall q docs r :
  Forall P docs -> delete_first q docs = Ok r -> Forall P r.1.
Proof.
  revert r. induction docs as [|d ds IH]; intros r Hf E; simpl in E;
    [injection E as <-; constructor|].
  apply Forall_cons in Hf as [Hd Hds]. qres_case E.
  - injection E as <-. exact Hds.
  - destruct (delete_first q ds) as [r'|] eqn:Eu; simpl in E; [|discriminate].
    injection E as <-. simpl. constructor; [exact Hd | exact (IH r' Hds eq_refl)].
Qed.

Lemma keep_unmatched_Forall q docs r :
  Forall P docs -> keep_unmatched q docs = Ok r -> Forall P r.
Proof.
  revert r. induction docs as [|d ds IH]; intros r Hf E; simpl in E;
    [injection E as <-; constructor|].
  apply Forall_cons in Hf as [Hd Hds]. qres_case E;
    (destruct (keep_unmatched q ds) as [r'|] eqn:Eu; simpl in E; [|discriminate]);
    injection E as <-; [|constructor; [exact Hd|]]; exact (IH r' Hds eq_refl).
Qed.
Lemma find_all_Forall q docs r :
  Forall P docs -> find_all q docs = Ok r -> Forall P r.
Proof.
  revert r. induction docs as [|d ds IH]; intros r Hf E; simpl in E;
    [injection E as <-; constructor|].
  apply Forall_cons in Hf as [Hd Hds]. qres_case E;
    (destruct (find_all q ds) as [r'|] eqn:Eu; simpl in E; [|discriminate]);
    injection E as <-; [constructor; [exact Hd|]|]; exact (IH r' Hds eq_refl).
Qed.
End Preserve.

Lemma stored_ok_update d upd : stored_ok d -> stored_ok (doc_update d upd).
Proof.
  intros [Hwf [v Hv]]. split; [now apply doc_update_wf|].
  rewrite doc_get_update. destruct (doc_get (rev upd) id_field); [eauto|]. rewrite Hv. eauto.
Qed.

Lemma stored_ok_insert_one c i d : doc_wf d -> stored_ok (insert_one c i d).2.
Proof.
  intros Hwf. split; [|rewrite insert_one_id; eauto].
  simpl. destruct (doc_get d id_field); [exact Hwf | now apply doc_set_wf].
Qed.

Lemma insert_one_wf c i d : coll_wf c -> doc_wf d -> coll_wf (insert_one c i d).1.
Proof.
  intros Hc Hd. unfold coll_wf. rewrite insert_one_data.
  apply Forall_app. split; [exact Hc | constructor; [now apply stored_ok_insert_one | constructor]].
Qed.

Lemma insert_many_wf c ids ds :
  coll_wf c -> Forall doc_wf ds -> coll_wf (insert_many c ids ds).1.
Proof.
  revert c ids. induction ds as [|d ds IH]; intros c [|i ids] Hc Hds; try exact Hc.
  apply Forall_cons in Hds as [Hd Hds]. cbn [insert_many].
  pose proof (insert_one_wf c i d Hc Hd) as H1.
  destruct (insert_one c i d) as [c1 d1]. simpl in H1.
  pose proof (IH c1 ids H1 Hds) as H2.
  destruct (insert_many c1 ids ds) as [c2 r]. exact H2.
Qed.

(** C25: Stored documents stay well-formed.  If every document of a
    collection is a dict with each key once and carries an [id], this
    still holds after [insert_one] or [insert_many] of dicts with unique
    keys (the identity is added when missing), and after any [update_one],
    [delete_one] or [delete_many] that succeeds, whatever its query and
    update; and the cursor of a [find] without projection yields only such
    documents. *)
Theorem collection_wf_preserved c :
  coll_wf c ->
  (forall q cur, find c q None = Ok cur -> Forall stored_ok (cursor_data cur)) /\
  (forall i d, doc_wf d -> coll_wf (insert_one c i d).1) /\
  (forall ids ds, Forall doc_wf ds -> coll_wf (insert_many c ids ds).1) /\
  (forall q upd c' n, update_one c q upd = Ok (c', n) -> coll_wf c') /\
  (forall q c' n, delete_one c q = Ok (c', n) -> coll_wf c') /\
  (forall q c' n, delete_many c q = Ok (c', n) -> coll_wf c').
Proof.
  intros Hc. split_and!.
  - intros q cur E. unfold find in E.
    destruct (find_all q (coll_data c)) as [r|] eqn:Ef; simpl in E; [|discriminate].
    injection E as <-. simpl. rewrite map_apply_projection_none.
    exact (find_all_Forall _ _ _ _ Hc Ef).
  - intros i d Hd. now apply insert_one_wf.
  - intros ids ds Hds. now apply insert_many_wf.
  - intros q upd c' n E. unfold update_one in E.
    destruct (update_first q upd (coll_data c)) as [r|] eqn:Eu; simpl in E; [|discriminate].
    injection E as <- _. exact (update_first_Forall _ _ _ _ _ (fun d => stored_ok_update d upd) Hc Eu).
  - intros q c' n E. unfold delete_one in E.
    destruct (delete_first q (coll_data c)) as [r|] eqn:Eu; simpl in E; [|discriminate].
    injection E as <- _. exact (delete_first_Forall _ _ _ _ Hc Eu).
  - intros q c' n E. unfold delete_many in E.
    destruct (keep_unmatched q (coll_data c)) as [r|] eqn:Eu; simpl in E; [|discriminate].
    injection E as <- _. exact (keep_unmatched_Forall _ _ _ _ Hc Eu).
Qed.

Lemma collection_wf_preserved_witness :
  coll_wf (insert_one (MockCollection []) "uuid-1" [("name", VStr "Asha")]).1.
Proof.
  apply (proj1 (proj2 (collection_wf_preserved (MockCollection []) ltac:(constructor)))).
  unfold doc_wf. simpl. repeat constructor; set_solver.
Defined.
