(* ===== verification/Store.v ===== *)
(** [MockDatabase] of the in-memory store: a map from collection names to
    collections, a collection being created empty the first time its name
    is used ([db.users], [db.fraud_alerts], ...), and the identity source
    [uuid4()] modelled as a counter whose successive values are distinct
    strings.  Store-level operations run a collection operation on the named
    collection and write it back. *)

From S2P Require Import Prelude StableSort Value Matcher Cursor Collection.
From stdpp Require Import gmap pretty.

Record store := MockDatabase {
  collections : gmap string collection;
  next_id : N
}.

(** The identity handed out for the [n]-th inserted document. *)
Definition fresh_id (n : N) : string := "uuid-" +:+ pretty n.

(** [db[name]]: the named collection, created empty on first access. *)
Definition get_collection (s : store) (name : string) : store * collection :=
  match collections s !! name with
  | Some c => (s, c)
  | None =>
      (MockDatabase (<[name := MockCollection []]> (collections s)) (next_id s),
       MockCollection [])
  end.

Definition put_collection (s : store) (name : string) (c : collection) : store :=
  MockDatabase (<[name := c]> (collections s)) (next_id s).

(** [await db[name].insert_one(doc)], drawing a fresh identity. *)
Definition db_insert_one (s : store) (name : string) (d : document) : store * document :=
  let (s1, c) := get_collection s name in
  let (c', d') := insert_one c (fresh_id (next_id s1)) d in
  (MockDatabase (<[name := c']> (collections s1)) (N.succ (next_id s1)), d').

Definition db_find_one (s : store) (name : string) (q : document) (proj : option document)
  : store * qres (option document) :=
  let (s1, c) := get_collection s name in (s1, find_one c q proj).

Definition db_find (s : store) (name : string) (q : document) (proj : option document)
  : store * qres cursor :=
  let (s1, c) := get_collection s name in (s1, Collection.find c q proj).

Definition db_update_one (s : store) (name : string) (q upd : document) : store * qres nat :=
  let (s1, c) := get_collection s name in
  match update_one c q upd with
  | Ok (c', n) => (put_collection s1 name c', Ok n)
  | Err e => (s1, Err e)
  end.

Definition db_delete_many (s : store) (name : string) (q : document) : store * qres nat :=
  let (s1, c) := get_collection s name in
  match delete_many c q with
  | Ok (c', n) => (put_collection s1 name c', Ok n)
  | Err e => (s1, Err e)
  end.

Definition db_count_documents (s : store) (name : string) (q : document) : store * qres nat :=
  let (s1, c) := get_collection s name in (s1, count_documents c q).

Definition empty_store : store := MockDatabase ∅ 0.

(** ** Lemmas *)

Lemma fresh_id_inj n m : fresh_id n = fresh_id m -> n = m.
Proof.
  unfold fresh_id. intros H. apply (inj pretty).
  apply (inj (String.append "uuid-")). exact H.
Qed.

Lemma get_collection_lookup s name :
  collections (get_collection s name).1 !! name = Some (get_collection s name).2.
Proof.
  unfold get_collection. destruct (collections s !! name) eqn:E; [exact E|].
  simpl. apply lookup_insert_eq.
Qed.

Lemma get_collection_other s name name' :
  name' <> name ->
  collections (get_collection s name).1 !! name' = collections s !! name'.
Proof.
  intros Hne. unfold get_collection. destruct (collections s !! name); [reflexivity|].
  simpl. now apply lookup_insert_ne.
Qed.

Lemma get_collection_next_id s name : next_id (get_collection s name).1 = next_id s.
Proof. unfold get_collection. now destruct (collections s !! name). Qed.

Lemma db_insert_one_other s name name' d :
  name' <> name ->
  collections (db_insert_one s name d).1 !! name' = collections s !! name'.
Proof.
  intros Hne. unfold db_insert_one.
  destruct (get_collection s name) as [s1 c] eqn:Eg.
  destruct (insert_one c (fresh_id (next_id s1)) d) as [c' d'].
  simpl. rewrite lookup_insert_ne by congruence.
  pose proof (get_collection_other s name name' Hne) as H. rewrite Eg in H. exact H.
Qed.

Lemma db_find_lookup s s' name q proj :
  collections s' !! name = collections s !! name ->
  (db_find s' name q proj).2 = (db_find s name q proj).2.
Proof.
  intros H. unfold db_find, get_collection. rewrite H.
  now destruct (collections s !! name).
Qed.

(** ** Properties of the store *)

(** Collections are independent.  Inserting into one collection does
    not change what a [find] on any other collection returns (created on
    first access or not). *)
Theorem insert_isolated_from_other_collections s name name' d q proj :
  name' <> name ->
  (db_find (db_insert_one s name d).1 name' q proj).2 = (db_find s name' q proj).2.
Proof. intros Hne. apply db_find_lookup, db_insert_one_other, Hne. Qed.

Lemma insert_isolated_from_other_collections_witness :
  (db_find (db_insert_one empty_store "users" [("name", VStr "Alice")]).1
           "fraud_alerts" [] None).2 = Ok (MockCursor []).
Proof.
  rewrite insert_isolated_from_other_collections by discriminate. reflexivity.
Defined.

(** The scenario of the specification, run on the model: insert two
    users into a fresh store, look one up by Aadhaar number, count them
    through [find] and [to_list], flag the second with [update_one], and
    read it back: the update reports 1, sets [status] and keeps [name]. *)
Example spec_scenario_users :
  let alice := [("aadhaar_id", VStr "A1"); ("name", VStr "Alice")] in
  let bob := [("aadhaar_id", VStr "A2"); ("name", VStr "Bob")] in
  let s1 := (db_insert_one empty_store "users" alice).1 in
  let s2 := (db_insert_one s1 "users" bob).1 in
  let s3 := (db_update_one s2 "users" [("aadhaar_id", VStr "A2")]
                                       [("status", VStr "flagged")]) in
  (db_find_one s2 "users" [("aadhaar_id", VStr "A1")] None).2 =
    Ok (Some (alice ++ [("id", VStr (fresh_id 0))])) /\
  option_map List.length
    (match (db_find s2 "users" [] None).2 with
     | Ok cur => Some (to_list cur None) | Err _ => None end) = Some 2 /\
  s3.2 = Ok 1 /\
  (db_find_one s3.1 "users" [("aadhaar_id", VStr "A2")] None).2 =
    Ok (Some [("aadhaar_id", VStr "A2"); ("name", VStr "Bob");
              ("id", VStr (fresh_id 1)); ("status", VStr "flagged")]).
Proof. vm_compute. split_and!; reflexivity. Qed.
