(* ===== verification/CreateUser.v ===== *)
(** The [create_user] route handler of [backend/server.py], as quoted in
    [src/USER_CREATION_FIX.md]: reject a duplicate Aadhaar number with
    HTTP 400, build the [RationUser] document (identity, [status:
    "active"], creation time), insert it, run the fraud rules and insert
    their alerts, a failure of the rules being only logged.  The handler is
    written against the [CollectionOps] interface, so its theorems hold for
    any collection that keeps the interface's promises.  It is split into
    its check and its commit so that the interleaving of two requests can
    be stated. *)

From S2P Require Import Prelude StableSort Value Matcher Cursor Collection.
From stdpp Require Import relations.
Local Open Scope string_scope.

(** [RationUserCreate], the validated request body. *)
Record ration_user_create := RationUserCreate {
  aadhaar_id : string;
  name : string;
  address : string;
  district : string;
  state : string;
  family_size : Z;
  income : Z;
  card_type : string;
  phone : string
}.

Inductive http_error : Type :=
| HTTPException (status_code : Z) (detail : string).

(** [RationUser] built from the unpacked request, dumped, with [created_at] in ISO
    format: the request's fields plus the defaults. *)
Definition user_doc (uid now : string) (u : ration_user_create) : document :=
  [("id", VStr uid); ("aadhaar_id", VStr (aadhaar_id u)); ("name", VStr (name u));
   ("address", VStr (address u)); ("district", VStr (district u));
   ("state", VStr (state u)); ("family_size", VNum (family_size u));
   ("income", VNum (income u)); ("card_type", VStr (card_type u));
   ("phone", VStr (phone u)); ("status", VStr "active"); ("created_at", VStr now)].

Definition aadhaar_query (u : ration_user_create) : document :=
  [("aadhaar_id", VStr (aadhaar_id u))].

Section CreateUser.
Context {C : Type} `{CollectionOps C}.

(** [existing = await db.users.find_one({"aadhaar_id": ...})]; a truthy
    result raises 400, which the handler re-raises as it is; any other
    exception becomes a 500 whose detail carries the exception's text
    (here the offending operator). *)
Definition create_user_check (users : C) (u : ration_user_create) : result http_error unit :=
  match co_find_one users (aadhaar_query u) with
  | Ok (Some _) => Err (HTTPException 400 "Aadhaar ID already registered")
  | Ok None => Ok tt
  | Err (MalformedQuery op) => Err (HTTPException 500 ("User creation error: " ++ op))
  end.

(** [await db.users.insert_one(doc)]. *)
Definition create_user_commit (users : C) (uid now : string) (u : ration_user_create)
  : C * document :=
  co_insert users uid (user_doc uid now u).

(** Inserting the fraud alerts one by one, each with its identity. *)
Fixpoint insert_alerts (alerts : C) (ids : list string) (ds : list document) : C :=
  match ds, ids with
  | d :: ds', i :: ids' => insert_alerts (co_insert alerts i d).1 ids' ds'
  | _, _ => alerts
  end.

(** The whole handler.  [detect] is [fraud_engine.detect_fraud_rules]
    applied to the new user's identity: [None] when it raises, which the
    handler only logs. *)
Definition create_user (detect : string -> option (list document))
    (users alerts : C) (uid now : string) (alert_ids : list string)
    (u : ration_user_create) : C * C * result http_error document :=
  match create_user_check users u with
  | Err e => (users, alerts, Err e)
  | Ok _ =>
      let (users', doc) := create_user_commit users uid now u in
      let alerts' := match detect uid with
                     | Some found => insert_alerts alerts alert_ids found
                     | None => alerts
                     end in
      (users', alerts', Ok doc)
  end.

(** The Aadhaar numbers of the stored users. *)
Definition aadhaar_values (users : C) : list value :=
  omap (fun d => doc_get d "aadhaar_id") (co_docs users).

(** No two stored users share an Aadhaar number. *)
Definition aadhaar_unique (users : C) : Prop := NoDup (aadhaar_values users).
End CreateUser.

(** ** Two requests whose [await]s interleave *)

(** With a database driver that yields at each [await], two [create_user]
    requests can interleave between the duplicate check ([find_one]) and
    the insertion ([insert_one]).  A request is at its start, past its
    check, committed, or rejected. *)
Inductive phase : Type := Start | Checked | Committed | Rejected (e : http_error).

Record race (C : Type) := Race { r_users : C; r_ph1 : phase; r_ph2 : phase }.
Arguments Race {C} _ _ _.
Arguments r_users {C} _.
Arguments r_ph1 {C} _.
Arguments r_ph2 {C} _.

Section Race.
Context {C : Type} `{CollectionOps C}.
Context (u1 u2 : ration_user_create) (uid1 uid2 now : string).

Inductive race_step : race C -> race C -> Prop :=
| check1 users p2 :
    create_user_check users u1 = Ok tt ->
    race_step (Race users Start p2) (Race users Checked p2)
| reject1 users p2 e :
    create_user_check users u1 = Err e ->
    race_step (Race users Start p2) (Race users (Rejected e) p2)
| commit1 users p2 :
    race_step (Race users Checked p2)
              (Race (create_user_commit users uid1 now u1).1 Committed p2)
| check2 users p1 :
    create_user_check users u2 = Ok tt ->
    race_step (Race users p1 Start) (Race users p1 Checked)
| reject2 users p1 e :
    create_user_check users u2 = Err e ->
    race_step (Race users p1 Start) (Race users p1 (Rejected e))
| commit2 users p1 :
    race_step (Race users p1 Checked)
              (Race (create_user_commit users uid2 now u2).1 p1 Committed).
End Race.

(** A sample request for the witnesses. *)
Definition example_user (a : string) : ration_user_create :=
  RationUserCreate a "Test User" "Test Address" "Test District" "Test State" 3 50000 "AAY"
    "9876543210".


(** ** Lemmas *)

Section CreateUserFacts.
Context {C : Type} `{CollectionOps C}.

Lemma aadhaar_query_wf u : query_wf (aadhaar_query u) = true.
Proof. reflexivity. Qed.

Lemma user_doc_aadhaar uid now u :
  doc_get (user_doc uid now u) "aadhaar_id" = Some (VStr (aadhaar_id u)).
Proof. reflexivity. Qed.

Lemma matchb_aadhaar u d :
  matchb (aadhaar_query u) d = true <-> doc_get d "aadhaar_id" = Some (VStr (aadhaar_id u)).
Proof.
  unfold aadhaar_query. rewrite matchb_literal by (discriminate || congruence).
  unfold field_eqb. destruct (doc_get d "aadhaar_id") as [v|]; [|split; congruence].
  rewrite value_eqb_eq. split; congruence.
Qed.

Lemma check_ok_fresh (users : C) u :
  create_user_check users u = Ok tt -> VStr (aadhaar_id u) ∉ aadhaar_values users.
Proof.
  unfold create_user_check. rewrite co_find_one_wf by apply aadhaar_query_wf.
  destruct (List.find _ _) eqn:Ef; [discriminate|]. intros _ Hin.
  apply list_elem_of_omap in Hin as (d & Hd & Hget).
  apply list_elem_of_In in Hd.
  pose proof (List.find_none _ _ Ef d Hd) as Hf.
  apply not_true_iff_false in Hf. apply Hf, matchb_aadhaar, Hget.
Qed.

Lemma check_dup (users : C) u d :
  In d (co_docs users) -> doc_get d "aadhaar_id" = Some (VStr (aadhaar_id u)) ->
  create_user_check users u = Err (HTTPException 400 "Aadhaar ID already registered").
Proof.
  intros Hd Hget. unfold create_user_check. rewrite co_find_one_wf by apply aadhaar_query_wf.
  destruct (List.find _ _) eqn:Ef; [reflexivity|].
  pose proof (List.find_none _ _ Ef d Hd) as Hf. apply not_true_iff_false in Hf.
  exfalso. apply Hf, matchb_aadhaar, Hget.
Qed.

Lemma commit_docs (users : C) uid now u :
  co_docs (create_user_commit users uid now u).1 =
  (co_docs users ++ [(create_user_commit users uid now u).2])%list.
Proof. apply co_insert_docs. Qed.

Lemma commit_aadhaar_values (users : C) uid now u :
  aadhaar_values (create_user_commit users uid now u).1 =
  (aadhaar_values users ++ [VStr (aadhaar_id u)])%list.
Proof.
  unfold aadhaar_values. rewrite commit_docs, omap_app. f_equal. simpl.
  unfold create_user_commit. rewrite co_insert_other by discriminate.
  reflexivity.
Qed.

Lemma commit_preserves_unique (users : C) uid now u :
  aadhaar_unique users -> VStr (aadhaar_id u) ∉ aadhaar_values users ->
  aadhaar_unique (create_user_commit users uid now u).1.
Proof.
  unfold aadhaar_unique. rewrite commit_aadhaar_values. intros Hnd Hnot.
  apply NoDup_app. split_and!; [done| |apply NoDup_singleton]. set_solver.
Qed.
End CreateUserFacts.

Section CreateUserFacts2.
Context {C : Type} `{CollectionOps C}.

Lemma check_fresh_ok (users : C) u :
  VStr (aadhaar_id u) ∉ aadhaar_values users -> create_user_check users u = Ok tt.
Proof.
  intros Hnot. unfold create_user_check. rewrite co_find_one_wf by apply aadhaar_query_wf.
  destruct (List.find _ _) as [d|] eqn:Ef; [|reflexivity].
  apply List.find_some in Ef as [Hd Hm]. exfalso. apply Hnot.
  apply list_elem_of_omap. exists d. split; [now apply list_elem_of_In|].
  now apply matchb_aadhaar.
Qed.

Lemma create_user_ok_inv detect (users alerts : C) uid now ids u users' alerts' r :
  create_user detect users alerts uid now ids u = (users', alerts', r) ->
  (exists e, create_user_check users u = Err e /\ users' = users /\ r = Err e) \/
  (create_user_check users u = Ok tt /\
   (users', r) = ((create_user_commit users uid now u).1,
                  Ok (create_user_commit users uid now u).2)).
Proof.
  unfold create_user. destruct (create_user_check users u) as [[]|e] eqn:Ec.
  - destruct (create_user_commit users uid now u) as [u' d] eqn:Em.
    intros [= <- <- <-]. right. split; [done|reflexivity].
  - intros [= <- <- <-]. left. eauto.
Qed.
(** Both checks run before either insertion: the schedule check, check,
    commit, commit is a run of the race, and both requests commit. *)
Lemma race_checks_first (users : C) u1 u2 uid1 uid2 now :
  create_user_check users u1 = Ok tt -> create_user_check users u2 = Ok tt ->
  rtc (race_step u1 u2 uid1 uid2 now) (Race users Start Start)
    (Race (create_user_commit (create_user_commit users uid1 now u1).1 uid2 now u2).1
       Committed Committed).
Proof.
  intros Hc1 Hc2.
  eapply rtc_l; [apply check1, Hc1|]. eapply rtc_l; [apply check2, Hc2|].
  eapply rtc_l; [apply commit1|]. eapply rtc_l; [apply commit2|]. apply rtc_refl.
Qed.

(** Committing two users with the same Aadhaar number leaves it twice. *)
Lemma commit_twice_not_unique (users : C) u1 u2 uid1 uid2 now :
  aadhaar_id u1 = aadhaar_id u2 ->
  ~ aadhaar_unique (create_user_commit (create_user_commit users uid1 now u1).1 uid2 now u2).1.
Proof.
  intros Heq. unfold aadhaar_unique. rewrite !commit_aadhaar_values, <- Heq, <- app_assoc.
  intros Hnd. apply NoDup_app in Hnd as (_ & _ & Hnd). apply NoDup_cons in Hnd as [Hin _].
  apply Hin. now left.
Qed.

End CreateUserFacts2.

(** ** Properties of [create_user] *)

(** C2: Sequential requests keep Aadhaar numbers unique.  If no two stored
    users share an Aadhaar number before a [create_user] request, none do
    after it, whatever the request and whatever the fraud rules do. *)
Theorem create_user_preserves_aadhaar_unique {C} `{CollectionOps C}
    detect (users alerts : C) uid now ids u users' alerts' r :
  aadhaar_unique users ->
  create_user detect users alerts uid now ids u = (users', alerts', r) ->
  aadhaar_unique users'.
Proof.
  intros Hu Hc. apply create_user_ok_inv in Hc as [(e & _ & -> & _)|[Hok Heq]]; [exact Hu|].
  injection Heq as -> _. apply commit_preserves_unique; [exact Hu|].
  now apply check_ok_fresh.
Qed.

Lemma create_user_preserves_aadhaar_unique_witness :
  aadhaar_unique
    (create_user (fun _ => None) (MockCollection []) (MockCollection []) "u1" "t0" []
                 (example_user "123456789012")).1.1.
Proof.
  eapply (create_user_preserves_aadhaar_unique (fun _ => None) (MockCollection [])
           (MockCollection []) "u1" "t0" [] (example_user "123456789012")).
  - apply NoDup_nil_2.
  - reflexivity.
Defined.

(** C11: A duplicate Aadhaar number is rejected with HTTP 400 "Aadhaar ID
    already registered", and neither collection changes. *)
Theorem create_user_rejects_duplicate {C} `{CollectionOps C}
    detect (users alerts : C) uid now ids u d :
  In d (co_docs users) -> doc_get d "aadhaar_id" = Some (VStr (aadhaar_id u)) ->
  create_user detect users alerts uid now ids u =
  (users, alerts, Err (HTTPException 400 "Aadhaar ID already registered")).
Proof.
  intros Hd Hget. unfold create_user. now rewrite (check_dup users u d Hd Hget).
Qed.

Lemma create_user_rejects_duplicate_witness :
  create_user (fun _ => None)
    (MockCollection [user_doc "u0" "t0" (example_user "123456789012")])
    (MockCollection []) "u1" "t1" [] (example_user "123456789012") =
  (MockCollection [user_doc "u0" "t0" (example_user "123456789012")], MockCollection [],
   Err (HTTPException 400 "Aadhaar ID already registered")).
Proof.
  apply (create_user_rejects_duplicate _ _ _ _ _ _ _
           (user_doc "u0" "t0" (example_user "123456789012"))); [now left | reflexivity].
Defined.

(** A failing fraud scan does not prevent the creation: when the
    Aadhaar number is new, the user document is appended to the users
    collection and returned, whether the rules raise or not. *)
Theorem create_user_survives_detection_failure {C} `{CollectionOps C}
    detect (users alerts : C) uid now ids u :
  VStr (aadhaar_id u) ∉ aadhaar_values users ->
  exists doc,
    (create_user detect users alerts uid now ids u).2 = Ok doc /\
    co_docs (create_user detect users alerts uid now ids u).1.1 = (co_docs users ++ [doc])%list /\
    doc_get doc "aadhaar_id" = Some (VStr (aadhaar_id u)).
Proof.
  intros Hnot. unfold create_user. rewrite (check_fresh_ok users u Hnot).
  pose proof (commit_docs users uid now u) as Hd.
  assert (Ha : doc_get (create_user_commit users uid now u).2 "aadhaar_id" =
               Some (VStr (aadhaar_id u)))
    by (unfold create_user_commit; now rewrite co_insert_other by discriminate).
  destruct (create_user_commit users uid now u) as [u' doc]. simpl in *.
  exists doc. split_and!; [reflexivity|exact Hd|exact Ha].
Qed.

Lemma create_user_survives_detection_failure_witness :
  exists doc,
    (create_user (fun _ => None) (MockCollection []) (MockCollection []) "u1" "t0" []
       (example_user "123456789012")).2 = Ok doc /\
    co_docs (create_user (fun _ => None) (MockCollection []) (MockCollection []) "u1" "t0" []
       (example_user "123456789012")).1.1 = (co_docs (MockCollection []) ++ [doc])%list /\
    doc_get doc "aadhaar_id" = Some (VStr "123456789012").
Proof.
  apply (create_user_survives_detection_failure (fun _ => None) (MockCollection [])).
  intros Hin. inversion Hin.
Defined.

(** C3: The check-then-insert of [create_user] is not atomic.  Two
    requests for the same new Aadhaar number whose checks both run before
    either insertion are both accepted, and the users collection ends with
    the number twice, although it was free of duplicates before. *)
Theorem interleaved_create_user_duplicates {C} `{CollectionOps C}
    (users : C) u1 u2 uid1 uid2 now :
  aadhaar_id u1 = aadhaar_id u2 ->
  VStr (aadhaar_id u1) ∉ aadhaar_values users ->
  exists s, rtc (race_step u1 u2 uid1 uid2 now) (Race users Start Start) s /\
    r_ph1 s = Committed /\ r_ph2 s = Committed /\ ~ aadhaar_unique (r_users s).
Proof.
  intros Heq Hnot. eexists. split_and!.
  - apply race_checks_first; apply check_fresh_ok; congruence.
  - reflexivity.
  - reflexivity.
  - now apply commit_twice_not_unique.
Qed.

Lemma interleaved_create_user_duplicates_witness :
  exists s, rtc (race_step (example_user "123456789012") (example_user "123456789012")
                           "u1" "u2" "t0")
              (Race (MockCollection []) Start Start) s /\
    r_ph1 s = Committed /\ r_ph2 s = Committed /\ ~ aadhaar_unique (r_users s).
Proof.
  apply interleaved_create_user_duplicates; [reflexivity|]. intros Hin. inversion Hin.
Defined.
