(* ===== verification/UsersPage.v ===== *)
(** The user-management page [src/frontend/src/pages/Users.js].  The React
    component is a state machine: its [useState] hooks are the fields of
    [users_state]; a user action or an HTTP response is a [users_event];
    [users_step] runs the handler, then the [useEffect] that recomputes the
    filtered list when one of its dependencies changed, and returns the
    requests and toasts the handler issued.
    [render_users] is what the component shows: the user cards with their
    [data-testid] action buttons. *)

From S2P Require Import Prelude.
From stdpp Require Import relations.
Local Open Scope string_scope.

(** ** Data *)

(** A [RationUser] as the API returns it. *)
Record ration_user := RationUser {
  ru_id : string;
  ru_aadhaar_id : string;
  ru_name : string;
  ru_address : string;
  ru_district : string;
  ru_state : string;
  ru_family_size : Z;
  ru_income : Z;
  ru_card_type : string;
  ru_phone : string;
  ru_status : string;
  ru_verification_status : string
}.

(** The add-user form ([newUser]); [parseInt]/[parseFloat] of an empty or
    non-numeric input is [NaN], written [None]. *)
Record new_user_form := NewUserForm {
  nu_aadhaar_id : string;
  nu_name : string;
  nu_address : string;
  nu_district : string;
  nu_state : string;
  nu_family_size : option Z;
  nu_income : option Z;
  nu_card_type : string;
  nu_phone : string
}.

Definition empty_new_user : new_user_form :=
  NewUserForm "" "" "" "" "" (Some 1%Z) (Some 0%Z) "BPL" "".

Record users_state := UsersState {
  users : list ration_user;
  filteredUsers : list ration_user;
  searchTerm : string;
  statusFilter : string;
  showAddDialog : bool;
  loading : bool;
  newUser : new_user_form
}.

Definition users_init : users_state :=
  UsersState [] [] "" "all" false true empty_new_user.

(** Requests to the backend, and the notifications shown. *)
Inductive request : Type :=
| GetUsers
| PostUser (form : new_user_form)
| PatchUserStatus (user_id status : string)
| PostVerify (user_id : string)
| PostScan (user_id : string).

Inductive toast : Type :=
| ToastSuccess (msg : string)
| ToastError (msg : string)
| ToastInfo (msg : string).

Inductive effect : Type :=
| Send (r : request)
| Show (t : toast).

(** A form field edit, from the inputs' [onChange] handlers. *)
Inductive form_edit : Type :=
| EditAadhaar (v : string) | EditName (v : string) | EditAddress (v : string)
| EditDistrict (v : string) | EditState (v : string)
| EditFamilySize (v : option Z) | EditIncome (v : option Z)
| EditCardType (v : string) | EditPhone (v : string).

Inductive users_event : Type :=
| SetSearchTerm (s : string)
| SetStatusFilter (s : string)
| SetShowAddDialog (b : bool)
| EditNewUser (e : form_edit)
| SubmitAddUser
| ClickUpdateStatus (user_id status : string)
| ClickVerify (user_id : string)
| ClickScan (user_id : string)
(** Responses: [Some detail] of an error is [error.response?.data?.detail]. *)
| UsersFetched (data : list ration_user)
| UsersFetchFailed
| AddUserDone
| AddUserFailed (detail : option string)
| StatusUpdated (status : string)
| StatusUpdateFailed
| Verified (message : string)
| VerifyFailed
| Scanned (message : string)
| ScanFailed.

(** ** [filterUsers] *)

Definition user_matches_search (term : string) (u : ration_user) : bool :=
  js_includes (js_to_lower (ru_name u)) (js_to_lower term) ||
  js_includes (ru_aadhaar_id u) term.

Definition filterUsers (us : list ration_user) (term status : string) : list ration_user :=
  let filtered := if negb (String.eqb status "all")
                  then List.filter (fun u => String.eqb (ru_status u) status) us
                  else us in
  if js_truthy term then List.filter (user_matches_search term) filtered else filtered.

(** ** Handlers *)

(** [setNewUser({ ...newUser, field: value })]. *)
Definition apply_edit (f : new_user_form) (e : form_edit) : new_user_form :=
  let 'NewUserForm a n ad di st fs inc ct ph := f in
  match e with
  | EditAadhaar v => NewUserForm v n ad di st fs inc ct ph
  | EditName v => NewUserForm a v ad di st fs inc ct ph
  | EditAddress v => NewUserForm a n v di st fs inc ct ph
  | EditDistrict v => NewUserForm a n ad v st fs inc ct ph
  | EditState v => NewUserForm a n ad di v fs inc ct ph
  | EditFamilySize v => NewUserForm a n ad di st v inc ct ph
  | EditIncome v => NewUserForm a n ad di st fs v ct ph
  | EditCardType v => NewUserForm a n ad di st fs inc v ph
  | EditPhone v => NewUserForm a n ad di st fs inc ct v
  end.

Definition set_users (s : users_state) (us : list ration_user) (ld : bool) : users_state :=
  UsersState us (filteredUsers s) (searchTerm s) (statusFilter s) (showAddDialog s) ld (newUser s).

Definition set_search (s : users_state) (t : string) : users_state :=
  UsersState (users s) (filteredUsers s) t (statusFilter s) (showAddDialog s) (loading s) (newUser s).

Definition set_status_filter (s : users_state) (f : string) : users_state :=
  UsersState (users s) (filteredUsers s) (searchTerm s) f (showAddDialog s) (loading s) (newUser s).

Definition set_dialog_form (s : users_state) (b : bool) (f : new_user_form) : users_state :=
  UsersState (users s) (filteredUsers s) (searchTerm s) (statusFilter s) b (loading s) f.

(** The handler of an event: the new state before effects run, and what it
    sent or showed.  [fetchUsers()] is a [GET /users] whose outcome arrives
    later as [UsersFetched] or [UsersFetchFailed]. *)
Definition users_handler (s : users_state) (ev : users_event) : users_state * list effect :=
  match ev with
  | SetSearchTerm t => (set_search s t, [])
  | SetStatusFilter f => (set_status_filter s f, [])
  | SetShowAddDialog b => (set_dialog_form s b (newUser s), [])
  | EditNewUser e => (set_dialog_form s (showAddDialog s) (apply_edit (newUser s) e), [])
  | SubmitAddUser => (s, [Send (PostUser (newUser s))])
  | ClickUpdateStatus uid st => (s, [Send (PatchUserStatus uid st)])
  | ClickVerify uid => (s, [Send (PostVerify uid)])
  | ClickScan uid => (s, [Send (PostScan uid)])
  | UsersFetched data => (set_users s data false, [])
  | UsersFetchFailed => (set_users s (users s) false, [Show (ToastError "Failed to fetch users")])
  | AddUserDone =>
      (set_dialog_form s false empty_new_user,
       [Show (ToastSuccess "User added successfully"); Send GetUsers])
  | AddUserFailed detail =>
      (s, [Show (ToastError (match detail with
                             | Some d => if js_truthy d then d else "Failed to add user"
                             | None => "Failed to add user" end))])
  | StatusUpdated st => (s, [Show (ToastSuccess ("User " ++ st ++ " successfully")); Send GetUsers])
  | StatusUpdateFailed => (s, [Show (ToastError "Failed to update user status")])
  | Verified msg => (s, [Show (ToastSuccess msg); Send GetUsers])
  | VerifyFailed => (s, [Show (ToastError "Verification failed")])
  | Scanned msg => (s, [Show (ToastInfo msg)])
  | ScanFailed => (s, [Show (ToastError "Fraud scan failed")])
  end.

(** [useEffect(() => filterUsers(), [users, searchTerm, statusFilter])]. *)
Definition run_filter_effect (s : users_state) : users_state :=
  UsersState (users s) (filterUsers (users s) (searchTerm s) (statusFilter s))
    (searchTerm s) (statusFilter s) (showAddDialog s) (loading s) (newUser s).

(** Whether the effect's dependencies changed; React compares them with
    [Object.is]: [setUsers(response.data)] stores a new array on every
    successful fetch (and [users] is set nowhere else), the two strings
    compare by value. *)
Definition filter_deps_changed (ev : users_event) (s s1 : users_state) : bool :=
  match ev with
  | UsersFetched _ => true
  | _ => negb (String.eqb (searchTerm s) (searchTerm s1) && String.eqb (statusFilter s) (statusFilter s1))
  end.

(** The handler, then the filter effect when its dependencies changed. *)
Definition users_step (s : users_state) (ev : users_event) : users_state * list effect :=
  let (s1, effs) := users_handler s ev in
  (if filter_deps_changed ev s s1 then run_filter_effect s1 else s1, effs).

(** Mounting runs both effects: [fetchUsers()] and [filterUsers()]. *)
Definition users_mount : users_state * list effect :=
  (run_filter_effect users_init, [Send GetUsers]).

(** A run of events from the mounted page; the effects are collected. *)
Fixpoint users_run (s : users_state) (evs : list users_event) : users_state * list effect :=
  match evs with
  | [] => (s, [])
  | ev :: evs' =>
      let (s1, e1) := users_step s ev in
      let (s2, e2) := users_run s1 evs' in (s2, (e1 ++ e2)%list)
  end.

(** ** What the page renders *)

(** The action buttons of a user card, by their [data-testid]. *)
Inductive user_button : Type :=
| VerifyButton (user_id : string)
| ScanButton (user_id : string)
| SuspendButton (user_id : string)
| ActivateButton (user_id : string).

(** [getStatusBadge]: the badge spreads [variants[status]], the variant and
    class of a known status, and nothing for another one. *)
Definition getUserStatusBadge (status : string) : option (string * string) :=
  if String.eqb status "active"
  then Some ("default", "bg-green-100 text-green-700 hover:bg-green-100")
  else if String.eqb status "suspended"
  then Some ("secondary", "bg-gray-100 text-gray-700 hover:bg-gray-100")
  else if String.eqb status "flagged"
  then Some ("destructive", "bg-red-100 text-red-700 hover:bg-red-100")
  else None.

(** [getVerificationBadge]: [variants[status]?.className]. *)
Definition getVerificationBadge (status : string) : option string :=
  if String.eqb status "verified" then Some "bg-green-100 text-green-700"
  else if String.eqb status "pending" then Some "bg-amber-100 text-amber-700"
  else if String.eqb status "rejected" then Some "bg-red-100 text-red-700"
  else None.

(** A badge shows its status text with the styling chosen above. *)
Record user_card := UserCard {
  card_user : string;
  card_status_badge : string * option (string * string);
  card_verification_badge : string * option string;
  card_buttons : list user_button
}.

Definition user_buttons (u : ration_user) : list user_button :=
  (if String.eqb (ru_verification_status u) "pending" then [VerifyButton (ru_id u)] else []) ++
  [ScanButton (ru_id u)] ++
  (if String.eqb (ru_status u) "active" then [SuspendButton (ru_id u)] else []) ++
  (if String.eqb (ru_status u) "suspended" then [ActivateButton (ru_id u)] else []).

Definition render_card (u : ration_user) : user_card :=
  UserCard (ru_id u) (ru_status u, getUserStatusBadge (ru_status u))
    (ru_verification_status u, getVerificationBadge (ru_verification_status u))
    (user_buttons u).

Inductive users_view : Type :=
| UsersLoading
| UsersList (cards : list user_card) (no_users_notice : bool).

Definition render_users (s : users_state) : users_view :=
  if loading s then UsersLoading
  else UsersList (map render_card (filteredUsers s))
                 (Nat.eqb (List.length (filteredUsers s)) 0).

(** The [onClick] of each button. *)
Definition button_event (b : user_button) : users_event :=
  match b with
  | VerifyButton uid => ClickVerify uid
  | ScanButton uid => ClickScan uid
  | SuspendButton uid => ClickUpdateStatus uid "suspended"
  | ActivateButton uid => ClickUpdateStatus uid "active"
  end.

Definition status_ok (status : string) (u : ration_user) : bool :=
  String.eqb status "all" || String.eqb (ru_status u) status.

Definition search_ok (term : string) (u : ration_user) : bool :=
  negb (js_truthy term) || user_matches_search term u.

(** The [useEffect] invariant: the shown list is computed from the state. *)
Definition filter_consistent (s : users_state) : Prop :=
  filteredUsers s = filterUsers (users s) (searchTerm s) (statusFilter s).

(** What the events last set: the list of the last successful fetch, the
    last search term typed, the last status chosen (each [dflt] before the
    first). *)
Fixpoint last_fetched (dflt : list ration_user) (evs : list users_event) : list ration_user :=
  match evs with
  | [] => dflt
  | UsersFetched data :: evs' => last_fetched data evs'
  | _ :: evs' => last_fetched dflt evs'
  end.

Fixpoint last_search (dflt : string) (evs : list users_event) : string :=
  match evs with
  | [] => dflt
  | SetSearchTerm t :: evs' => last_search t evs'
  | _ :: evs' => last_search dflt evs'
  end.

Fixpoint last_status (dflt : string) (evs : list users_event) : string :=
  match evs with
  | [] => dflt
  | SetStatusFilter f :: evs' => last_status f evs'
  | _ :: evs' => last_status dflt evs'
  end.

(** A sample user for the witnesses. *)
Definition example_ration_user (id status : string) : ration_user :=
  RationUser id "123412341234" "Asha" "12 MG Road" "Pune" "Maharashtra" 4 90000 "BPL"
    "9876543210" status "pending".

(** ** Lemmas *)

Lemma filter_filter_comp {A} (f g : A -> bool) (l : list A) :
  List.filter g (List.filter f l) = List.filter (fun x => f x && g x) l.
Proof.
  induction l as [|x l IH]; simpl; [reflexivity|].
  destruct (f x); simpl; [destruct (g x)|]; simpl; congruence.
Qed.

Lemma filter_true_ext {A} (l : list A) : List.filter (fun _ => true) l = l.
Proof. induction l; simpl; congruence. Qed.

Lemma in_user_buttons b u :
  In b (user_buttons u) <->
  (b = VerifyButton (ru_id u) /\ ru_verification_status u = "pending") \/
  b = ScanButton (ru_id u) \/
  (b = SuspendButton (ru_id u) /\ ru_status u = "active") \/
  (b = ActivateButton (ru_id u) /\ ru_status u = "suspended").
Proof.
  unfold user_buttons. rewrite !in_app_iff.
  destruct (String.eqb_spec (ru_verification_status u) "pending"),
    (String.eqb_spec (ru_status u) "active"), (String.eqb_spec (ru_status u) "suspended");
    simpl; intuition congruence.
Qed.

Lemma user_matches_search_app t x u :
  user_matches_search (t ++ x) u = true -> user_matches_search t u = true.
Proof.
  unfold user_matches_search. rewrite js_to_lower_app, !orb_true_iff.
  intros [H|H]; [left|right]; eapply js_includes_app_l; exact H.
Qed.

Lemma user_matches_search_empty u : user_matches_search "" u = true.
Proof. unfold user_matches_search. now rewrite js_includes_empty. Qed.

Lemma deps_unchanged a b c d : negb (String.eqb a b && String.eqb c d) = false -> b = a /\ d = c.
Proof.
  destruct (String.eqb_spec a b), (String.eqb_spec c d); cbn; intros H; try discriminate; auto.
Qed.

(** The effect keeps the shown list computed from the state: it runs when
    a dependency changed, and otherwise neither the list nor its
    dependencies changed. *)
Lemma users_step_consistent s ev :
  filter_consistent s -> filter_consistent (users_step s ev).1.
Proof.
  intros Hc. unfold users_step. destruct (users_handler s ev) as [s1 e] eqn:E. cbn [fst].
  destruct (filter_deps_changed ev s s1) eqn:Ed; [reflexivity|].
  destruct ev; cbn in E; injection E as <- _; cbn in Ed; try discriminate Ed;
    apply deps_unchanged in Ed as [Ht Hf]; unfold filter_consistent in *; cbn in *;
    rewrite ?Ht, ?Hf; exact Hc.
Qed.

(** The effect touches only the shown list. *)
Lemma users_step_fields s ev :
  let s1 := (users_handler s ev).1 in let s' := (users_step s ev).1 in
  users s' = users s1 /\ searchTerm s' = searchTerm s1 /\ statusFilter s' = statusFilter s1 /\
  showAddDialog s' = showAddDialog s1 /\ loading s' = loading s1 /\ newUser s' = newUser s1.
Proof.
  unfold users_step. destruct (users_handler s ev) as [s1 e]. cbn.
  destruct (filter_deps_changed ev s s1); split_and!; reflexivity.
Qed.

Lemma users_step_effects s ev : (users_step s ev).2 = (users_handler s ev).2.
Proof. unfold users_step. now destruct (users_handler s ev). Qed.

(** An event that sets none of the effect's dependencies leaves the
    effect unrun. *)
Lemma users_step_same_deps s ev :
  match ev with UsersFetched _ | SetSearchTerm _ | SetStatusFilter _ => False | _ => True end ->
  users_step s ev = users_handler s ev.
Proof.
  intros H. unfold users_step. destruct ev; try contradiction; cbn; rewrite !String.eqb_refl; reflexivity.
Qed.

(** The page's users, search term and status are what the events last set. *)
Lemma users_run_fields s evs :
  let s' := (users_run s evs).1 in
  users s' = last_fetched (users s) evs /\ searchTerm s' = last_search (searchTerm s) evs /\
  statusFilter s' = last_status (statusFilter s) evs.
Proof.
  revert s. induction evs as [|ev evs IH]; intros s; [auto|]. cbn [users_run].
  destruct (users_step s ev) as [s1 e1] eqn:E. destruct (users_run s1 evs) as [s2 e2] eqn:E2.
  cbn [fst]. specialize (IH s1). rewrite E2 in IH. cbn [fst] in IH. destruct IH as (-> & -> & ->).
  unfold users_step in E. destruct ev; cbn in E;
    repeat match type of E with context [if ?b then _ else _] => destruct b end;
    injection E as <- _; split_and!; reflexivity.
Qed.

Lemma users_run_consistent s evs :
  filter_consistent s -> filter_consistent (users_run s evs).1.
Proof.
  revert s. induction evs as [|ev evs IH]; intros s Hs; simpl; [exact Hs|].
  pose proof (users_step_consistent s ev Hs) as H1.
  destruct (users_step s ev) as [s1 e1]. specialize (IH s1 H1).
  destruct (users_run s1 evs) as [s2 e2]. exact IH.
Qed.

(** ** Properties of the page *)

(** [filterUsers] is one filter.  Filtering first by status (unless
    "all") and then by the search term (when non-empty: name contains the
    term ignoring case, or Aadhaar number contains it) keeps exactly, in
    order, the users that pass both tests. *)
Theorem filterUsers_single_pass us term status :
  filterUsers us term status =
  List.filter (fun u => status_ok status u && search_ok term u) us.
Proof.
  unfold filterUsers, status_ok, search_ok.
  destruct (String.eqb status "all"), (js_truthy term); simpl.
  - apply List.filter_ext. reflexivity.
  - induction us as [|u us IH]; simpl; congruence.
  - rewrite filter_filter_comp. apply List.filter_ext. reflexivity.
  - apply List.filter_ext. intros u. now rewrite andb_true_r.
Qed.

(** Typing refines the user search.  With any status filter,
    extending the search term by a suffix shows exactly the users of the
    current list that also match the longer term (name ignoring case, or
    Aadhaar number): typing never brings back a user. *)
Theorem users_search_extension_refines us t x status :
  filterUsers us (t ++ x) status =
  List.filter (user_matches_search (t ++ x)) (filterUsers us t status).
Proof.
  unfold filterUsers. destruct t as [|c t]; simpl.
  - destruct x as [|c x]; simpl; [|reflexivity].
    symmetry. apply filter_all_true, user_matches_search_empty.
  - symmetry. apply filter_filter_implied. intros u. apply user_matches_search_app.
Qed.

(** C27: The status buttons follow the status.  A card offers Suspend
    exactly for an active user and Activate exactly for a suspended one,
    never both, and a flagged user gets neither; Verify appears exactly for
    a pending verification, and Scan always. *)
Theorem user_buttons_by_status u :
  (In (SuspendButton (ru_id u)) (user_buttons u) <-> ru_status u = "active") /\
  (In (ActivateButton (ru_id u)) (user_buttons u) <-> ru_status u = "suspended") /\
  (In (VerifyButton (ru_id u)) (user_buttons u) <-> ru_verification_status u = "pending") /\
  In (ScanButton (ru_id u)) (user_buttons u) /\
  ~ (In (SuspendButton (ru_id u)) (user_buttons u) /\
     In (ActivateButton (ru_id u)) (user_buttons u)) /\
  (ru_status u = "flagged" ->
   forall i, ~ In (SuspendButton i) (user_buttons u) /\ ~ In (ActivateButton i) (user_buttons u)).
Proof.
  rewrite !in_user_buttons. split_and!; try intuition congruence.
  intros Hf i. rewrite !in_user_buttons. rewrite Hf. intuition congruence.
Qed.

Lemma user_buttons_by_status_witness :
  ru_status (example_ration_user "u2" "flagged") = "flagged" /\
  ~ In (SuspendButton "u2") (user_buttons (example_ration_user "u2" "flagged")) /\
  ~ In (ActivateButton "u2") (user_buttons (example_ration_user "u2" "flagged")).
Proof.
  split; [reflexivity|].
  apply (user_buttons_by_status (example_ration_user "u2" "flagged")). reflexivity.
Defined.

(** C6: What the list shows.  Once loaded, after any sequence of events
    (fetch outcomes, typing in the search box, choosing a status, dialog
    and button events) the page shows one card per user, in order, of
    [filterUsers] applied to the list of the last successful fetch, the
    last search term typed and the last status chosen, each card with the
    buttons its status calls for, and the "No users found" card exactly
    when there is none. *)
Theorem render_users_after_events evs :
  let s := (users_run users_mount.1 evs).1 in
  let shown := filterUsers (last_fetched [] evs) (last_search "" evs) (last_status "all" evs) in
  loading s = false ->
  exists cards,
    render_users s = UsersList cards (Nat.eqb (List.length cards) 0) /\
    map card_user cards = map ru_id shown /\
    map card_buttons cards = map user_buttons shown.
Proof.
  intros s shown Hl.
  assert (Hf : filteredUsers s = shown).
  { subst s shown. rewrite (users_run_consistent users_mount.1 evs eq_refl).
    destruct (users_run_fields users_mount.1 evs) as (-> & -> & ->). reflexivity. }
  exists (map render_card shown). rewrite <- Hf.
  split_and!.
  - unfold render_users. rewrite Hl. now rewrite length_map.
  - rewrite map_map. reflexivity.
  - rewrite map_map. reflexivity.
Qed.

Lemma render_users_after_events_witness :
  let evs := [UsersFetched [example_ration_user "u1" "active"; example_ration_user "u2" "suspended"];
              SetStatusFilter "suspended"] in
  let s := (users_run users_mount.1 evs).1 in
  loading s = false /\
  exists cards,
    render_users s = UsersList cards false /\
    map card_user cards = ["u2"] /\
    map card_buttons cards = [user_buttons (example_ration_user "u2" "suspended")].
Proof.
  intros evs s. split; [reflexivity|].
  destruct (render_users_after_events evs eq_refl) as (cards & Hr & Hu & Hb).
  assert (Hlen : List.length cards = 1%nat) by (rewrite <- (length_map card_user), Hu; reflexivity).
  exists cards. unfold s. rewrite Hr, Hu, Hb, Hlen. split_and!; reflexivity.
Defined.
