(* ===== verification/AlertsPage.v ===== *)
(** The fraud-alert review page [src/frontend/src/pages/FraudAlerts.js]
    (lines 1-292 of that file).  As for the user page, the component is a
    state machine: the [useState] hooks are the fields of [alerts_state], a
    click or an HTTP response is an [alerts_event], and [alerts_step] runs
    the handler followed by the [useEffect] that recomputes the filtered
    list when the fetched list or the status filter changed.  [render_alerts] is what the page shows: the counter, the alert
    cards with their buttons and the details dialog. *)

From S2P Require Import Prelude UsersPage.
From Stdlib Require Import QArith Lqa.
Local Open Scope string_scope.

(** ** Data *)

(** A [FraudAlert] as [GET /fraud-alerts] returns it.  The confidence score
    is a JavaScript number in [0, 1]; it is compared against decimal
    thresholds only, so a rational models it exactly. *)
Record fraud_alert := FraudAlert {
  fa_id : string;
  fa_user_id : string;
  fa_fraud_type : string;
  fa_confidence_score : Q;
  fa_details_message : string;
  fa_status : string;
  fa_created_at : string
}.

Record alerts_state := AlertsState {
  alerts : list fraud_alert;
  filteredAlerts : list fraud_alert;
  alertStatusFilter : string;
  (** [selectedAlert] is [{ ...alert, user: userResponse.data }]. *)
  selectedAlert : option (fraud_alert * ration_user);
  showDetailsDialog : bool;
  alertsLoading : bool
}.

Definition alerts_init : alerts_state :=
  AlertsState [] [] "pending" None false true.

Inductive alert_request : Type :=
| GetAlerts
| GetAlertUser (user_id : string)
| PatchAlert (alert_id status : string).

Inductive alert_effect : Type :=
| ASend (r : alert_request)
| AShow (t : toast).

Inductive alerts_event : Type :=
| SetAlertStatusFilter (f : string)
| SetShowDetailsDialog (b : bool)
| ClickViewAlert (a : fraud_alert)
| ClickUpdateAlert (alert_id status : string)
(** Responses. *)
| AlertsFetched (data : list fraud_alert)
| AlertsFetchFailed
| AlertUserFetched (a : fraud_alert) (u : ration_user)
| AlertUserFetchFailed
| AlertUpdated (status : string)
| AlertUpdateFailed.

(** ** [filterAlerts], [getStatusBadge], [getConfidenceColor] *)

Definition filterAlerts (al : list fraud_alert) (status : string) : list fraud_alert :=
  if String.eqb status "all" then al
  else List.filter (fun a => String.eqb (fa_status a) status) al.

(** [variants[status]?.className]: [None] is [undefined]. *)
Definition getStatusBadge (status : string) : option string :=
  if String.eqb status "pending" then Some "bg-amber-100 text-amber-700"
  else if String.eqb status "confirmed" then Some "bg-red-100 text-red-700"
  else if String.eqb status "dismissed" then Some "bg-gray-100 text-gray-700"
  else None.

Definition getConfidenceColor (score : Q) : string :=
  if Qle_bool (8 # 10) score then "text-red-600"
  else if Qle_bool (6 # 10) score then "text-amber-600"
  else "text-gray-600".

(** ** Handlers *)

Definition set_alerts (s : alerts_state) (al : list fraud_alert) : alerts_state :=
  AlertsState al (filteredAlerts s) (alertStatusFilter s) (selectedAlert s)
    (showDetailsDialog s) false.

Definition set_alert_filter (s : alerts_state) (f : string) : alerts_state :=
  AlertsState (alerts s) (filteredAlerts s) f (selectedAlert s) (showDetailsDialog s)
    (alertsLoading s).

Definition set_details (s : alerts_state) (sel : option (fraud_alert * ration_user))
  (b : bool) : alerts_state :=
  AlertsState (alerts s) (filteredAlerts s) (alertStatusFilter s) sel b (alertsLoading s).

(** [fetchAlerts()] is a [GET /fraud-alerts] whose outcome arrives later; its
    [finally] clears [loading] on both outcomes.  [viewAlertDetails] and
    [handleUpdateAlert] are split at their [await] in the same way. *)
Definition alerts_handler (s : alerts_state) (ev : alerts_event)
  : alerts_state * list alert_effect :=
  match ev with
  | SetAlertStatusFilter f => (set_alert_filter s f, [])
  | SetShowDetailsDialog b => (set_details s (selectedAlert s) b, [])
  | ClickViewAlert a => (s, [ASend (GetAlertUser (fa_user_id a))])
  | ClickUpdateAlert aid st => (s, [ASend (PatchAlert aid st)])
  | AlertsFetched data => (set_alerts s data, [])
  | AlertsFetchFailed => (set_alerts s (alerts s), [AShow (ToastError "Failed to fetch alerts")])
  | AlertUserFetched a u => (set_details s (Some (a, u)) true, [])
  | AlertUserFetchFailed => (s, [AShow (ToastError "Failed to fetch alert details")])
  | AlertUpdated st =>
      (set_details s (selectedAlert s) false,
       [AShow (ToastSuccess ("Alert " ++ st ++ " successfully")); ASend GetAlerts])
  | AlertUpdateFailed => (s, [AShow (ToastError "Failed to update alert")])
  end.

(** [useEffect(() => filterAlerts(), [alerts, statusFilter])]. *)
Definition run_alert_filter (s : alerts_state) : alerts_state :=
  AlertsState (alerts s) (filterAlerts (alerts s) (alertStatusFilter s))
    (alertStatusFilter s) (selectedAlert s) (showDetailsDialog s) (alertsLoading s).

(** Whether the effect's dependencies changed ([Object.is]): a successful
    fetch stores a new array with [setAlerts(response.data)], the filter
    compares by value. *)
Definition alert_deps_changed (ev : alerts_event) (s s1 : alerts_state) : bool :=
  match ev with
  | AlertsFetched _ => true
  | _ => negb (String.eqb (alertStatusFilter s) (alertStatusFilter s1))
  end.

(** The handler, then the filter effect when its dependencies changed. *)
Definition alerts_step (s : alerts_state) (ev : alerts_event)
  : alerts_state * list alert_effect :=
  let (s1, effs) := alerts_handler s ev in
  (if alert_deps_changed ev s s1 then run_alert_filter s1 else s1, effs).

Definition alerts_mount : alerts_state * list alert_effect :=
  (run_alert_filter alerts_init, [ASend GetAlerts]).

Fixpoint alerts_run (s : alerts_state) (evs : list alerts_event)
  : alerts_state * list alert_effect :=
  match evs with
  | [] => (s, [])
  | ev :: evs' =>
      let (s1, e1) := alerts_step s ev in
      let (s2, e2) := alerts_run s1 evs' in (s2, (e1 ++ e2)%list)
  end.

(** ** What the page renders *)

Inductive alert_button : Type :=
| ViewAlert (a : fraud_alert)
| ConfirmAlert (alert_id : string)
| DismissAlert (alert_id : string).

Record alert_card := AlertCard {
  ac_alert_id : string;
  ac_fraud_type : string;
  ac_status_badge : option string;
  ac_confidence_color : string;
  ac_buttons : list alert_button
}.

Definition alert_buttons (a : fraud_alert) : list alert_button :=
  ViewAlert a ::
  (if String.eqb (fa_status a) "pending"
   then [ConfirmAlert (fa_id a); DismissAlert (fa_id a)] else []).

Definition render_alert_card (a : fraud_alert) : alert_card :=
  AlertCard (fa_id a) (fa_fraud_type a) (getStatusBadge (fa_status a))
    (getConfidenceColor (fa_confidence_score a)) (alert_buttons a).

(** The contents of the details dialog: the alert, its user, and the
    "Confirm Fraud" / "Dismiss Alert" buttons. *)
Record alert_details := AlertDetails {
  ad_alert_id : string;
  ad_user : ration_user;
  ad_buttons : list alert_button
}.

Definition render_details (sel : fraud_alert * ration_user) : alert_details :=
  let (a, u) := sel in
  AlertDetails (fa_id a) u
    (if String.eqb (fa_status a) "pending"
     then [ConfirmAlert (fa_id a); DismissAlert (fa_id a)] else []).

Inductive alerts_list_view : Type :=
| AlertsLoadingView
| AlertsList (cards : list alert_card) (no_alerts_notice : bool).

Record alerts_view := AlertsView {
  av_showing : nat;
  av_list : alerts_list_view;
  (** [None]: the dialog is closed; [Some None]: open with no alert. *)
  av_dialog : option (option alert_details)
}.

Definition render_alerts (s : alerts_state) : alerts_view :=
  AlertsView (List.length (filteredAlerts s))
    (if alertsLoading s then AlertsLoadingView
     else AlertsList (map render_alert_card (filteredAlerts s))
                     (Nat.eqb (List.length (filteredAlerts s)) 0))
    (if showDetailsDialog s then Some (option_map render_details (selectedAlert s))
     else None).

Definition alert_button_event (b : alert_button) : alerts_event :=
  match b with
  | ViewAlert a => ClickViewAlert a
  | ConfirmAlert aid => ClickUpdateAlert aid "confirmed"
  | DismissAlert aid => ClickUpdateAlert aid "dismissed"
  end.

(** Every button the page shows, in the list and in the dialog. *)
Definition view_buttons (v : alerts_view) : list alert_button :=
  (match av_list v with
   | AlertsLoadingView => []
   | AlertsList cards _ => List.concat (map ac_buttons cards)
   end ++
   match av_dialog v with
   | Some (Some d) => ad_buttons d
   | _ => []
   end)%list.

(** The outcome of a threshold test [a <= x] on rationals. *)
Inductive qle_case (a x : Q) : bool -> Prop :=
| QleTrue : (a <= x)%Q -> qle_case a x true
| QleFalse : (x < a)%Q -> qle_case a x false.

Definition confidence_rank (color : string) : nat :=
  if String.eqb color "text-red-600" then 2
  else if String.eqb color "text-amber-600" then 1 else 0.

Definition alerts_consistent (s : alerts_state) : Prop :=
  filteredAlerts s = filterAlerts (alerts s) (alertStatusFilter s).

(** Which events change the fetched list. *)
Definition is_fetch (ev : alerts_event) : bool :=
  match ev with AlertsFetched _ => true | _ => false end.

(** What the events last set: the list of the last successful fetch and
    the last status filter chosen ([dflt] before the first). *)
Fixpoint last_alerts (dflt : list fraud_alert) (evs : list alerts_event) : list fraud_alert :=
  match evs with
  | [] => dflt
  | AlertsFetched data :: evs' => last_alerts data evs'
  | _ :: evs' => last_alerts dflt evs'
  end.

Fixpoint last_alert_filter (dflt : string) (evs : list alerts_event) : string :=
  match evs with
  | [] => dflt
  | SetAlertStatusFilter f :: evs' => last_alert_filter f evs'
  | _ :: evs' => last_alert_filter dflt evs'
  end.

(** A sample alert for the witnesses. *)
Definition example_alert (id st : string) : fraud_alert :=
  FraudAlert id "u1" "duplicate_aadhaar" (9 # 10) "Aadhaar reused" st "2024-01-01".

(** ** Lemmas *)

Lemma Qle_bool_spec a x : qle_case a x (Qle_bool a x).
Proof.
  destruct (Qle_bool a x) eqn:E; constructor; [now apply Qle_bool_iff|].
  apply Qnot_le_lt. intros H. apply Qle_bool_iff in H. congruence.
Qed.

Lemma filterAlerts_In a al status :
  In a (filterAlerts al status) <->
  In a al /\ (status = "all" \/ fa_status a = status).
Proof.
  unfold filterAlerts. destruct (String.eqb_spec status "all") as [->|Hne].
  - tauto.
  - rewrite List.filter_In, String.eqb_eq. intuition congruence.
Qed.

(** The effect touches only the shown list. *)
Lemma alerts_step_fields s ev :
  let s1 := (alerts_handler s ev).1 in let s' := (alerts_step s ev).1 in
  alerts s' = alerts s1 /\ alertStatusFilter s' = alertStatusFilter s1 /\
  selectedAlert s' = selectedAlert s1 /\ showDetailsDialog s' = showDetailsDialog s1 /\
  alertsLoading s' = alertsLoading s1.
Proof.
  unfold alerts_step. destruct (alerts_handler s ev) as [s1 e]. cbn.
  destruct (alert_deps_changed ev s s1); split_and!; reflexivity.
Qed.

(** The shown list stays [filterAlerts] of the state: the effect runs when
    a dependency changed, and otherwise neither changed. *)
Lemma alerts_step_consistent s ev :
  alerts_consistent s -> alerts_consistent (alerts_step s ev).1.
Proof.
  intros Hc. unfold alerts_step. destruct (alerts_handler s ev) as [s1 e] eqn:E. cbn [fst].
  destruct (alert_deps_changed ev s s1) eqn:Ed; [reflexivity|].
  destruct ev; cbn in E; injection E as <- _; cbn in Ed; try discriminate Ed;
    apply negb_false_iff, String.eqb_eq in Ed; unfold alerts_consistent in *; cbn in *;
    rewrite <- ?Ed; exact Hc.
Qed.

Lemma alerts_step_same_deps s ev :
  match ev with AlertsFetched _ | SetAlertStatusFilter _ => False | _ => True end ->
  alerts_step s ev = alerts_handler s ev.
Proof.
  intros H. unfold alerts_step. destruct ev; try contradiction; cbn; rewrite String.eqb_refl; reflexivity.
Qed.

Lemma alerts_run_fst_cons s ev evs :
  (alerts_run s (ev :: evs)).1 = (alerts_run (alerts_step s ev).1 evs).1.
Proof.
  simpl. destruct (alerts_step s ev) as [s1 e1]. simpl.
  now destruct (alerts_run s1 evs).
Qed.

Lemma alerts_run_app s evs1 evs2 :
  (alerts_run s (evs1 ++ evs2)).1 = (alerts_run (alerts_run s evs1).1 evs2).1.
Proof.
  revert s. induction evs1 as [|ev evs1 IH]; intros s; [reflexivity|].
  rewrite <- app_comm_cons, !alerts_run_fst_cons. apply IH.
Qed.

Lemma alerts_run_consistent s evs :
  alerts_consistent s -> alerts_consistent (alerts_run s evs).1.
Proof.
  revert s. induction evs as [|ev evs IH]; intros s Hs; [exact Hs|].
  rewrite alerts_run_fst_cons. apply IH, alerts_step_consistent, Hs.
Qed.

Lemma run_alert_filter_consistent s : alerts_consistent s -> run_alert_filter s = s.
Proof. destruct s; unfold alerts_consistent, run_alert_filter; simpl; congruence. Qed.

Lemma in_alert_buttons b a :
  In b (alert_buttons a) <->
  b = ViewAlert a \/
  ((b = ConfirmAlert (fa_id a) \/ b = DismissAlert (fa_id a)) /\ fa_status a = "pending").
Proof.
  unfold alert_buttons. destruct (String.eqb_spec (fa_status a) "pending"); simpl;
    intuition congruence.
Qed.

Lemma alerts_step_alerts s ev :
  is_fetch ev = false -> alerts (alerts_step s ev).1 = alerts s.
Proof. destruct (alerts_step_fields s ev) as (-> & _). destruct ev; simpl; easy. Qed.

(** The page's list and filter are what the events last set. *)
Lemma alerts_run_fields s evs :
  alerts (alerts_run s evs).1 = last_alerts (alerts s) evs /\
  alertStatusFilter (alerts_run s evs).1 = last_alert_filter (alertStatusFilter s) evs.
Proof.
  revert s. induction evs as [|ev evs IH]; intros s; [auto|]. rewrite alerts_run_fst_cons.
  destruct (IH (alerts_step s ev).1) as [-> ->].
  destruct (alerts_step_fields s ev) as (-> & -> & _). destruct ev; split; reflexivity.
Qed.

Lemma alerts_run_no_fetch s evs :
  Forall (fun ev => is_fetch ev = false) evs -> alerts (alerts_run s evs).1 = alerts s.
Proof.
  revert s. induction evs as [|ev evs IH]; intros s Hf; [reflexivity|].
  apply Forall_cons in Hf as [H1 H2].
  rewrite alerts_run_fst_cons, IH by exact H2. now apply alerts_step_alerts.
Qed.

(** ** Properties of the page *)

(** C15: What the alert list holds.  After any sequence of events on the
    mounted page the list shown is [filterAlerts] of the list of the last
    successful fetch under the last status chosen ("pending" before any
    choice): all of it under "all", otherwise exactly the alerts whose
    status is the chosen one, in the order of the response; and the
    counter "Showing N alerts" is its length. *)
Theorem alerts_filter_after_events evs :
  let s := (alerts_run alerts_mount.1 evs).1 in
  let fetched := last_alerts [] evs in let status := last_alert_filter "pending" evs in
  filteredAlerts s = filterAlerts fetched status /\
  (forall a, In a (filteredAlerts s) <-> In a fetched /\ (status = "all" \/ fa_status a = status)) /\
  av_showing (render_alerts s) = List.length (filterAlerts fetched status).
Proof.
  intros s fetched status.
  assert (Hc : filteredAlerts s = filterAlerts fetched status).
  { subst s fetched status. rewrite (alerts_run_consistent alerts_mount.1 evs eq_refl).
    destruct (alerts_run_fields alerts_mount.1 evs) as [-> ->]. reflexivity. }
  split_and!; [exact Hc | intros a; rewrite Hc; apply filterAlerts_In | cbn; now rewrite Hc].
Qed.

Lemma alerts_filter_after_events_witness :
  let evs := [AlertsFetched [example_alert "a1" "pending"; example_alert "a2" "confirmed"];
              SetAlertStatusFilter "confirmed"] in
  filteredAlerts (alerts_run alerts_mount.1 evs).1 = [example_alert "a2" "confirmed"].
Proof. intros evs. rewrite (proj1 (alerts_filter_after_events evs)). reflexivity. Defined.

(** C9: Confirm and Dismiss are offered only for pending alerts.  Every
    Confirm or Dismiss button the page shows, on a card or in the details
    dialog, belongs to an alert whose status is "pending" and that is either
    in the shown list or the selected one; clicking it sends
    [PATCH /fraud-alerts/{id}] with status "confirmed" or "dismissed". *)
Theorem confirm_dismiss_only_pending s b :
  In b (view_buttons (render_alerts s)) ->
  match b with
  | ViewAlert a => In a (filteredAlerts s) /\ alert_button_event b = ClickViewAlert a
  | ConfirmAlert i | DismissAlert i =>
      (exists a, fa_id a = i /\ fa_status a = "pending" /\
                 (In a (filteredAlerts s) \/ exists u, selectedAlert s = Some (a, u))) /\
      alerts_handler s (alert_button_event b) =
        (s, [ASend (PatchAlert i (if b is ConfirmAlert _ then "confirmed" else "dismissed"))])
  end.
Proof.
  unfold view_buttons, render_alerts. simpl. rewrite in_app_iff. intros [Hl|Hd].
  - destruct (alertsLoading s); [destruct Hl|]. simpl in Hl.
    apply in_concat in Hl as [bs [Hbs Hb]]. apply in_map_iff in Hbs as [c [<- Hc]].
    apply in_map_iff in Hc as [a [<- Ha]]. simpl in Hb. apply in_alert_buttons in Hb.
    destruct Hb as [->|[[->| ->] Hp]]; eauto 10.
  - destruct (showDetailsDialog s); [|destruct Hd].
    destruct (selectedAlert s) as [[a u]|] eqn:Es; [|destruct Hd]. simpl in Hd.
    destruct (String.eqb_spec (fa_status a) "pending"); [|destruct Hd].
    destruct Hd as [<-|[<-|[]]]; eauto 10.
Qed.

Lemma confirm_dismiss_only_pending_witness :
  let s := (alerts_run alerts_mount.1 [AlertsFetched [example_alert "a1" "pending"]]).1 in
  In (ConfirmAlert "a1") (view_buttons (render_alerts s)) /\
  (exists a, fa_id a = "a1" /\ fa_status a = "pending" /\
             (In a (filteredAlerts s) \/ exists u, selectedAlert s = Some (a, u))) /\
  alerts_handler s (alert_button_event (ConfirmAlert "a1")) =
    (s, [ASend (PatchAlert "a1" "confirmed")]).
Proof.
  intros s. assert (Hin : In (ConfirmAlert "a1") (view_buttons (render_alerts s))).
  { vm_compute. right. left. reflexivity. }
  split; [exact Hin|]. exact (confirm_dismiss_only_pending s _ Hin).
Defined.

(** The confidence colour follows the thresholds.  A score of at least
    0.8 is shown red, a score in [0.6, 0.8) amber and anything lower grey;
    the colour's severity never decreases as the score grows. *)
Theorem getConfidenceColor_thresholds (x y : Q) :
  (getConfidenceColor x = "text-red-600" <-> 8 # 10 <= x)%Q /\
  (getConfidenceColor x = "text-amber-600" <-> 6 # 10 <= x /\ x < 8 # 10)%Q /\
  (getConfidenceColor x = "text-gray-600" <-> x < 6 # 10)%Q /\
  ((x <= y)%Q ->
   (confidence_rank (getConfidenceColor x) <= confidence_rank (getConfidenceColor y))%nat).
Proof.
  unfold getConfidenceColor.
  destruct (Qle_bool_spec (8 # 10) x), (Qle_bool_spec (6 # 10) x);
    try (exfalso; lra); split_and!; try (intuition (try discriminate; try lra); fail);
    intros Hxy; destruct (Qle_bool_spec (8 # 10) y), (Qle_bool_spec (6 # 10) y);
    first [exfalso; lra | cbv; lia].
Qed.

Lemma getConfidenceColor_thresholds_witness :
  ((6 # 10 <= 7 # 10)%Q /\ (7 # 10 < 8 # 10)%Q) /\
  (confidence_rank (getConfidenceColor (7 # 10)) <=
   confidence_rank (getConfidenceColor (9 # 10)))%nat.
Proof.
  split; [split; vm_compute; first [reflexivity | intros H; discriminate H]|].
  apply (proj2 (proj2 (proj2 (getConfidenceColor_thresholds (7 # 10) (9 # 10))))).
  vm_compute. intros H; discriminate H.
Defined.

(** C28: Confirming or dismissing an alert.  Clicking Confirm (or Dismiss)
    sends the PATCH; on success the page shows "Alert <status>
    successfully", closes the details dialog and refetches; once the
    refetched list (in which that alert has its new status) arrives, the
    alert no longer appears under the default "pending" filter. *)
Theorem update_alert_flow s aid st data :
  alertStatusFilter s = "pending" -> st <> "pending" ->
  Forall (fun a => fa_id a = aid -> fa_status a = st) data ->
  let r := alerts_run s [ClickUpdateAlert aid st; AlertUpdated st; AlertsFetched data] in
  r.2 = [ASend (PatchAlert aid st); AShow (ToastSuccess ("Alert " ++ st ++ " successfully"));
         ASend GetAlerts] /\
  showDetailsDialog r.1 = false /\ alertsLoading r.1 = false /\
  Forall (fun a => fa_id a <> aid) (filteredAlerts r.1).
Proof.
  intros Hf Hst Hd r. subst r. cbn [alerts_run].
  rewrite (alerts_step_same_deps _ (ClickUpdateAlert aid st) I). cbn [alerts_handler fst snd].
  rewrite (alerts_step_same_deps _ (AlertUpdated st) I).
  cbn -[filterAlerts]. rewrite Hf. split_and!; try reflexivity.
  apply List.Forall_forall. intros a Ha Hid. apply filterAlerts_In in Ha as [Ha Hs].
  rewrite List.Forall_forall in Hd. rewrite (Hd a Ha Hid) in Hs.
  destruct Hs; congruence.
Qed.

Lemma update_alert_flow_witness :
  let s := (alerts_run alerts_mount.1 [AlertsFetched [example_alert "a1" "pending"]]).1 in
  let r := alerts_run s [ClickUpdateAlert "a1" "confirmed"; AlertUpdated "confirmed";
                         AlertsFetched [example_alert "a1" "confirmed"]] in
  r.2 = [ASend (PatchAlert "a1" "confirmed");
         AShow (ToastSuccess ("Alert " ++ "confirmed" ++ " successfully")); ASend GetAlerts] /\
  showDetailsDialog r.1 = false /\ alertsLoading r.1 = false /\
  Forall (fun a => fa_id a <> "a1") (filteredAlerts r.1).
Proof.
  intros s. apply update_alert_flow; [reflexivity|discriminate|].
  repeat constructor.
Defined.

(** Failed requests change nothing but the notice.  When the PATCH of
    an alert or the GET of an alert's user fails, the state is unchanged
    (the dialog stays as it was) and an error is shown; when the alert list
    cannot be fetched the previous list is kept, loading ends, and an error
    is shown. *)
Theorem alert_failures_keep_state s :
  alerts_consistent s ->
  alerts_step s AlertUpdateFailed = (s, [AShow (ToastError "Failed to update alert")]) /\
  alerts_step s AlertUserFetchFailed =
    (s, [AShow (ToastError "Failed to fetch alert details")]) /\
  alerts_step s AlertsFetchFailed =
    (AlertsState (alerts s) (filteredAlerts s) (alertStatusFilter s) (selectedAlert s)
       (showDetailsDialog s) false, [AShow (ToastError "Failed to fetch alerts")]).
Proof.
  intros Hc. rewrite !alerts_step_same_deps by exact I. split_and!; reflexivity.
Qed.

Lemma alert_failures_keep_state_witness :
  let s := alerts_mount.1 in
  alerts_step s AlertUpdateFailed = (s, [AShow (ToastError "Failed to update alert")]) /\
  alerts_step s AlertUserFetchFailed =
    (s, [AShow (ToastError "Failed to fetch alert details")]) /\
  alerts_step s AlertsFetchFailed =
    (AlertsState (alerts s) (filteredAlerts s) (alertStatusFilter s) (selectedAlert s)
       (showDetailsDialog s) false, [AShow (ToastError "Failed to fetch alerts")]).
Proof. apply alert_failures_keep_state. reflexivity. Defined.

(** C32: The last list response wins.  Whatever happened before, after a
    response of [GET /fraud-alerts] carrying [d] and any later events that
    are not list responses, the page holds exactly [d]: responses are not
    matched to the request that caused them, so an older response arriving
    last replaces a newer one. *)
Theorem alerts_last_response_wins s evs d evs' :
  Forall (fun ev => is_fetch ev = false) evs' ->
  alerts (alerts_run s (evs ++ AlertsFetched d :: evs')).1 = d.
Proof.
  intros Hf. rewrite alerts_run_app, alerts_run_fst_cons.
  rewrite alerts_run_no_fetch by exact Hf. reflexivity.
Qed.

Lemma alerts_last_response_wins_witness :
  alerts (alerts_run alerts_mount.1
            ([AlertsFetched [example_alert "a1" "confirmed"]] ++
             [AlertsFetched [example_alert "a1" "pending"]])).1 =
  [example_alert "a1" "pending"].
Proof. apply alerts_last_response_wins. constructor. Defined.
