(* ===== verification/TransactionsPage.v ===== *)
(** The transaction monitor [src/frontend/src/pages/Transactions.js]: the
    fetched transactions, a case-sensitive search on card number and user
    identity kept up to date by an effect, and the rendered transaction
    cards.  A failed fetch is only logged to the console. *)

From S2P Require Import Prelude.
Local Open Scope string_scope.

(** ** Data *)

(** An item of a transaction: [{name, quantity}]. *)
Record txn_item := TxnItem { item_name : string; item_quantity : Z }.

Record transaction := Transaction {
  txn_id : string;
  card_number : string;
  txn_user_id : string;
  shop_id : string;
  transaction_date : string;
  items : list txn_item
}.

Record txns_state := TxnsState {
  transactions : list transaction;
  filteredTransactions : list transaction;
  txnSearchTerm : string;
  txnsLoading : bool
}.

Definition txns_init : txns_state := TxnsState [] [] "" true.

(** The page has one request ([GET /transactions]) and shows no toast: a
    failure goes to [console.error]. *)
Inductive txn_effect : Type :=
| GetTransactions
| ConsoleError (msg : string).

Inductive txns_event : Type :=
| SetTxnSearchTerm (t : string)
| TxnsFetched (data : list transaction)
| TxnsFetchFailed.

(** ** [filterTransactions] *)

Definition txn_matches (term : string) (t : transaction) : bool :=
  js_includes (card_number t) term || js_includes (txn_user_id t) term.

Definition filterTransactions (ts : list transaction) (term : string) : list transaction :=
  if negb (js_truthy term) then ts else List.filter (txn_matches term) ts.

(** ** Handlers and effects *)

Definition txns_handler (s : txns_state) (ev : txns_event) : txns_state * list txn_effect :=
  match ev with
  | SetTxnSearchTerm t =>
      (TxnsState (transactions s) (filteredTransactions s) t (txnsLoading s), [])
  | TxnsFetched data => (TxnsState data (filteredTransactions s) (txnSearchTerm s) false, [])
  | TxnsFetchFailed =>
      (TxnsState (transactions s) (filteredTransactions s) (txnSearchTerm s) false,
       [ConsoleError "Failed to fetch transactions"])
  end.

(** [useEffect(() => filterTransactions(), [transactions, searchTerm])]. *)
Definition run_txn_filter (s : txns_state) : txns_state :=
  TxnsState (transactions s) (filterTransactions (transactions s) (txnSearchTerm s))
    (txnSearchTerm s) (txnsLoading s).

Definition txns_step (s : txns_state) (ev : txns_event) : txns_state * list txn_effect :=
  let (s1, effs) := txns_handler s ev in (run_txn_filter s1, effs).

Definition txns_mount : txns_state * list txn_effect :=
  (run_txn_filter txns_init, [GetTransactions]).

Fixpoint txns_run (s : txns_state) (evs : list txns_event) : txns_state * list txn_effect :=
  match evs with
  | [] => (s, [])
  | ev :: evs' =>
      let (s1, e1) := txns_step s ev in
      let (s2, e2) := txns_run s1 evs' in (s2, (e1 ++ e2)%list)
  end.

(** ** What the page renders *)

Record txn_card := TxnCard {
  tc_id : string;
  tc_card_number : string;
  tc_item_count : nat;
  (** The [item.name x item.quantity] badges, shown when there are items. *)
  tc_item_badges : option (list (string * Z))
}.

Definition render_txn_card (t : transaction) : txn_card :=
  TxnCard (txn_id t) (card_number t) (List.length (items t))
    (if Nat.ltb 0 (List.length (items t))
     then Some (map (fun i => (item_name i, item_quantity i)) (items t)) else None).

Inductive txns_view : Type :=
| TxnsLoadingView
| TxnsList (cards : list txn_card) (no_transactions_notice : bool).

Definition render_txns (s : txns_state) : txns_view :=
  if txnsLoading s then TxnsLoadingView
  else TxnsList (map render_txn_card (filteredTransactions s))
                (Nat.eqb (List.length (filteredTransactions s)) 0).

Definition txns_consistent (s : txns_state) : Prop :=
  filteredTransactions s = filterTransactions (transactions s) (txnSearchTerm s).

(** ** Lemmas *)

Lemma txn_matches_app t x u : txn_matches (t ++ x) u = true -> txn_matches t u = true.
Proof.
  unfold txn_matches. rewrite !orb_true_iff.
  intros [H|H]; [left|right]; eapply js_includes_app_l; exact H.
Qed.

Lemma txn_matches_empty u : txn_matches "" u = true.
Proof. unfold txn_matches. now rewrite js_includes_empty. Qed.

Lemma txns_run_fst_cons s ev evs :
  (txns_run s (ev :: evs)).1 = (txns_run (txns_step s ev).1 evs).1.
Proof.
  simpl. destruct (txns_step s ev) as [s1 e1]. simpl. now destruct (txns_run s1 evs).
Qed.

Lemma txns_run_consistent s evs :
  txns_consistent s -> txns_consistent (txns_run s evs).1.
Proof.
  revert s. induction evs as [|ev evs IH]; intros s Hs; [exact Hs|].
  rewrite txns_run_fst_cons. apply IH. unfold txns_step. now destruct (txns_handler s ev).
Qed.

Lemma filterTransactions_In t ts term :
  In t (filterTransactions ts term) <-> In t ts /\ (term = "" \/ txn_matches term t = true).
Proof.
  unfold filterTransactions. destruct term as [|c term]; simpl.
  - tauto.
  - rewrite List.filter_In. intuition congruence.
Qed.

(** ** Properties of the page *)

(** Typing refines the search.  Extending the search term by any
    suffix shows exactly the transactions of the current list that also
    match the longer term: typing never brings back a transaction. *)
Theorem search_extension_refines ts t x :
  filterTransactions ts (t ++ x) =
  List.filter (txn_matches (t ++ x)) (filterTransactions ts t).
Proof.
  unfold filterTransactions. destruct t as [|c t]; simpl.
  - destruct x as [|c x]; simpl; [|reflexivity].
    symmetry. apply filter_all_true, txn_matches_empty.
  - symmetry. apply filter_filter_implied. intros u. apply txn_matches_app.
Qed.

(** After any sequence of events on the mounted page the shown list is
    [filterTransactions] of the fetched list: every transaction when the
    search box is empty, otherwise exactly those whose card number or user
    identity contains the term (case-sensitively), in order. *)
Theorem txns_filter_after_events evs :
  let s := (txns_run txns_mount.1 evs).1 in
  filteredTransactions s = filterTransactions (transactions s) (txnSearchTerm s) /\
  forall t, In t (filteredTransactions s) <->
            In t (transactions s) /\
            (txnSearchTerm s = "" \/
             js_includes (card_number t) (txnSearchTerm s) = true \/
             js_includes (txn_user_id t) (txnSearchTerm s) = true).
Proof.
  intros s. assert (Hc : txns_consistent s) by now apply txns_run_consistent.
  split; [exact Hc|]. intros t. rewrite Hc, filterTransactions_In.
  unfold txn_matches. now rewrite orb_true_iff.
Qed.

(** A failed fetch is silent.  When [GET /transactions] fails, the
    page shows exactly what a successful response carrying the list it
    already had would show, and reports nothing but a console message; on
    the freshly mounted page that is the "No transactions found" card. *)
Lemma txns_fetch_failure_silent s :
  render_txns (txns_step s TxnsFetchFailed).1 =
    render_txns (txns_step s (TxnsFetched (transactions s))).1 /\
  (txns_step s TxnsFetchFailed).2 = [ConsoleError "Failed to fetch transactions"] /\
  render_txns (txns_run txns_mount.1 [TxnsFetchFailed]).1 = TxnsList [] true.
Proof. split_and!; reflexivity. Qed.
