(* ===== verification/DashboardPage.v ===== *)
(** The overview page [src/frontend/src/pages/Dashboard.js]: four
    analytics requests issued together with [Promise.all], the six
    statistics cards built from the dashboard numbers ([statCards]), and the
    three charts with their "no data" notices; the pie chart colours its
    slices by cycling through [COLORS]. *)

From S2P Require Import Prelude.
Local Open Scope string_scope.

(** ** Data *)

(** The response of [GET /analytics/dashboard]. *)
Record dash_stats := DashStats {
  total_users : Z;
  active_users : Z;
  flagged_users : Z;
  pending_alerts : Z;
  confirmed_frauds : Z;
  total_transactions : Z
}.

(** The responses of the three chart endpoints: a label and a count. *)
Definition chart_data : Type := list (string * Z).

Record dash_state := DashState {
  stats : option dash_stats;
  fraudByType : chart_data;
  fraudByDistrict : chart_data;
  transactionsTrend : chart_data;
  dashLoading : bool
}.

Definition dash_init : dash_state := DashState None [] [] [] true.

Inductive dash_request : Type :=
| GetDashboard | GetFraudByType | GetFraudByDistrict | GetTransactionsTrend.

(** [Promise.all] resolves with the four responses or rejects as a whole. *)
Inductive dash_event : Type :=
| DashFetched (st : dash_stats) (by_type by_district trend : chart_data)
| DashFetchFailed.

(** [fetchDashboardData]: on success the four setters, in both cases
    [setLoading(false)]; a failure is only logged to the console. *)
Definition dash_handler (s : dash_state) (ev : dash_event) : dash_state :=
  match ev with
  | DashFetched st bt bd tr => DashState (Some st) bt bd tr false
  | DashFetchFailed =>
      DashState (stats s) (fraudByType s) (fraudByDistrict s) (transactionsTrend s) false
  end.

Definition dash_mount : dash_state * list dash_request :=
  (dash_init, [GetDashboard; GetFraudByType; GetFraudByDistrict; GetTransactionsTrend]).

Definition dash_run (s : dash_state) (evs : list dash_event) : dash_state :=
  fold_left dash_handler evs s.

(** ** [statCards] *)

Record stat_card := StatCard {
  sc_title : string;
  sc_value : Z;
  sc_color : string;
  sc_bgColor : string;
  sc_testId : string
}.

Definition statCards (st : option dash_stats) : list stat_card :=
  match st with
  | None => []
  | Some s =>
      [StatCard "Total Users" (total_users s) "from-blue-500 to-blue-600" "bg-blue-50"
         "total-users-stat";
       StatCard "Active Users" (active_users s) "from-green-500 to-green-600" "bg-green-50"
         "active-users-stat";
       StatCard "Flagged Users" (flagged_users s) "from-red-500 to-red-600" "bg-red-50"
         "flagged-users-stat";
       StatCard "Pending Alerts" (pending_alerts s) "from-amber-500 to-amber-600" "bg-amber-50"
         "pending-alerts-stat";
       StatCard "Confirmed Frauds" (confirmed_frauds s) "from-purple-500 to-purple-600"
         "bg-purple-50" "confirmed-frauds-stat";
       StatCard "Total Transactions" (total_transactions s) "from-indigo-500 to-indigo-600"
         "bg-indigo-50" "total-transactions-stat"]
  end.

(** ** The charts *)

Definition COLORS : list string :=
  ["#6366f1"; "#8b5cf6"; "#ec4899"; "#f59e0b"; "#10b981"; "#3b82f6"].

(** [COLORS[index % COLORS.length]]; an index past the end would be
    [undefined], written [None]. *)
Definition cell_color (index : nat) : option string :=
  nth_error COLORS (index mod List.length COLORS).

(** The pie's cells, [fraudByType.map((entry, index) => <Cell fill=...>)]:
    each entry with the colour of its position. *)
Fixpoint pie_cells_from (index : nat) (data : chart_data) : list (string * Z * option string) :=
  match data with
  | [] => []
  | (label, n) :: data' => (label, n, cell_color index) :: pie_cells_from (S index) data'
  end.

Definition pie_cells (data : chart_data) : list (string * Z * option string) :=
  pie_cells_from 0 data.

(** A chart is drawn when it has data, otherwise its notice is shown. *)
Inductive chart_view (A : Type) : Type :=
| Chart (data : A)
| NoData (notice : string).
Arguments Chart {A} data.
Arguments NoData {A} notice.

Definition chart_or {A} (data : chart_data) (draw : chart_data -> A) (notice : string)
  : chart_view A :=
  if Nat.ltb 0 (List.length data) then Chart (draw data) else NoData notice.

Inductive dash_view : Type :=
| DashLoadingView
| DashView (cards : list stat_card)
           (by_type : chart_view (list (string * Z * option string)))
           (by_district : chart_view chart_data)
           (trend : chart_view chart_data).

Definition render_dash (s : dash_state) : dash_view :=
  if dashLoading s then DashLoadingView
  else DashView (statCards (stats s))
         (chart_or (fraudByType s) pie_cells "No fraud data available")
         (chart_or (fraudByDistrict s) id "No district data available")
         (chart_or (transactionsTrend s) id "No transaction data available").

(** ** Lemmas *)

Lemma dash_run_snoc s evs ev : dash_run s (evs ++ [ev]) = dash_handler (dash_run s evs) ev.
Proof. unfold dash_run. now rewrite fold_left_app. Qed.

Lemma cell_color_mod i : cell_color i = nth_error COLORS (i mod 6).
Proof. reflexivity. Qed.

Lemma succ_mod_6 i : S i mod 6 = if Nat.eqb (i mod 6) 5 then 0 else S (i mod 6).
Proof.
  replace (S i) with (i + 1) by lia. rewrite Nat.Div0.add_mod.
  pose proof (Nat.mod_upper_bound i 6 ltac:(lia)).
  destruct (i mod 6) as [|[|[|[|[|[|k]]]]]]; try reflexivity; lia.
Qed.

Lemma length_pie_cells_from i data : List.length (pie_cells_from i data) = List.length data.
Proof.
  revert i. induction data as [|[label n] data IH]; intros i; simpl; [reflexivity|].
  now rewrite IH.
Qed.

Lemma nth_error_pie_cells_from data i j label n :
  nth_error data j = Some (label, n) ->
  nth_error (pie_cells_from i data) j = Some (label, n, cell_color (i + j)).
Proof.
  revert i j. induction data as [|[l m] data IH]; intros i j H; [now destruct j|].
  destruct j as [|j]; simpl in *.
  - injection H as <- <-. now rewrite Nat.add_0_r.
  - rewrite (IH (S i) j H). do 3 f_equal. lia.
Qed.

Lemma dash_run_failures evs :
  evs <> [] -> Forall (fun ev => ev = DashFetchFailed) evs ->
  dash_run dash_init evs = DashState None [] [] [] false.
Proof.
  induction evs as [|ev evs IH] using rev_ind; intros Hne Hf; [congruence|].
  apply Forall_app in Hf as [Hf Hev]. apply Forall_cons in Hev as [-> _].
  rewrite dash_run_snoc. destruct evs as [|ev' evs']; [reflexivity|].
  rewrite IH by (discriminate || exact Hf). reflexivity.
Qed.

(** ** Properties of the page *)

(** C16: The dashboard data are all or nothing.  After any sequence of
    responses, either no dashboard response has succeeded and the page holds
    no statistics and three empty chart lists, or the statistics and all
    three chart lists come from the same successful [Promise.all] response
    among those received; loading ends with the first response. *)
Theorem dash_all_or_nothing evs :
  let s := dash_run dash_init evs in
  ((stats s = None /\ fraudByType s = [] /\ fraudByDistrict s = [] /\
    transactionsTrend s = []) \/
   (exists st bt bd tr, In (DashFetched st bt bd tr) evs /\
      stats s = Some st /\ fraudByType s = bt /\ fraudByDistrict s = bd /\
      transactionsTrend s = tr)) /\
  (dashLoading s = false <-> evs <> []).
Proof.
  induction evs as [|ev evs IH] using rev_ind; cbv zeta in *.
  - split; [left; split_and!; reflexivity | split; [discriminate | congruence]].
  - rewrite dash_run_snoc. destruct IH as [IH _]. split.
    + destruct ev as [st bt bd tr|]; simpl.
      * right. exists st, bt, bd, tr. rewrite in_app_iff. simpl. tauto.
      * destruct IH as [IH|(st & bt & bd & tr & Hin & IH)]; [left; exact IH|].
        right. exists st, bt, bd, tr. rewrite in_app_iff. tauto.
    + destruct ev; simpl; split; [|reflexivity| |reflexivity]; intros _ Hnil;
        apply app_eq_nil in Hnil as [_ ?]; discriminate.
Qed.

(** Every slice of the fraud-type pie has a colour.  The cells keep
    the entries in order, the colour of the [i]-th cell is
    [COLORS[i % 6]], which is always defined, the colours repeat with
    period 6, and two neighbouring slices never share a colour. *)
Theorem pie_cells_colors data :
  List.length (pie_cells data) = List.length data /\
  (forall i label n, nth_error data i = Some (label, n) ->
     exists c, nth_error (pie_cells data) i = Some (label, n, Some c) /\
               nth_error COLORS (i mod 6) = Some c) /\
  (forall i, cell_color (i + 6) = cell_color i /\ cell_color (S i) <> cell_color i).
Proof.
  split_and!; [apply length_pie_cells_from| |].
  - intros i label n H. unfold pie_cells. rewrite (nth_error_pie_cells_from _ 0 _ _ _ H), Nat.add_0_l, cell_color_mod.
    destruct (nth_error COLORS (i mod 6)) as [c|] eqn:E; [exists c; split; reflexivity|].
    apply nth_error_None in E. pose proof (Nat.mod_upper_bound i 6). simpl in E. lia.
  - intros i. rewrite !cell_color_mod. split.
    + f_equal. replace (i + 6) with (i + 1 * 6) by lia. apply Nat.Div0.mod_add.
    + rewrite succ_mod_6. pose proof (Nat.mod_upper_bound i 6 ltac:(lia)).
      destruct (i mod 6) as [|[|[|[|[|[|k]]]]]]; simpl; try discriminate; lia.
Qed.

(** Failed loads are silent.  After any non-empty sequence of
    [Promise.all] rejections on the mounted page, it shows no statistics
    card and the three "no data" notices, exactly as for an empty
    response without statistics; no error is shown to the user. *)
Theorem dash_fetch_failure_silent evs :
  evs <> [] -> Forall (fun ev => ev = DashFetchFailed) evs ->
  render_dash (dash_run dash_mount.1 evs) =
  DashView [] (NoData "No fraud data available") (NoData "No district data available")
    (NoData "No transaction data available").
Proof.
  intros Hne Hf. unfold dash_mount. simpl.
  rewrite (dash_run_failures evs Hne Hf). reflexivity.
Qed.

Lemma dash_fetch_failure_silent_witness :
  render_dash (dash_run dash_mount.1 [DashFetchFailed; DashFetchFailed]) =
  DashView [] (NoData "No fraud data available") (NoData "No district data available")
    (NoData "No transaction data available").
Proof. apply dash_fetch_failure_silent; [discriminate | repeat constructor]. Defined.

Lemma pie_cells_colors_witness :
  nth_error [("duplicate_aadhaar", 3%Z); ("ghost_beneficiary", 1%Z)] 1 =
    Some ("ghost_beneficiary", 1%Z) /\
  exists c, nth_error (pie_cells [("duplicate_aadhaar", 3%Z); ("ghost_beneficiary", 1%Z)]) 1 =
              Some ("ghost_beneficiary", 1%Z, Some c) /\ nth_error COLORS (1 mod 6) = Some c.
Proof.
  split; [reflexivity|].
  apply (proj1 (proj2 (pie_cells_colors [("duplicate_aadhaar", 3%Z); ("ghost_beneficiary", 1%Z)]))).
  reflexivity.
Defined.
