(* ===== verification/AnalyticsPage.v ===== *)
(** The analytics page (the [Analytics] component of [src/unnamed/part_002]):
    four requests issued together with [Promise.all] (the three chart
    endpoints and the model status), the model-status card with its
    "Train Model" button, whose handler posts [/ml/train] and, on success,
    starts a new [fetchAnalytics] without awaiting it, and the three charts.
    The charts reuse the dashboard's colours and "no data" notices. *)

From S2P Require Import Prelude DashboardPage.
From Stdlib Require Import QArith Qround Lqa.
From stdpp Require Import pretty.
Local Open Scope string_scope.

Module Analytics.

(** ** Data *)

(** The response of [GET /ml/status]: [is_trained] and the optional
    [model_type] ([undefined] is [None]). *)
Record ml_status := MlStatus {
  is_trained : bool;
  model_type : option string
}.

(** [useState({ is_trained: false })]. *)
Definition ml_status_init : ml_status := MlStatus false None.

Record analytics_state := AnalyticsState {
  fraudByType : chart_data;
  fraudByDistrict : chart_data;
  transactionsTrend : chart_data;
  mlStatus : ml_status;
  loading : bool
}.

Definition analytics_init : analytics_state :=
  AnalyticsState [] [] [] ml_status_init true.

(** The requests, by method and path below [API]. *)
Inductive analytics_request : Type :=
| AnGet (path : string)
| AnPost (path : string).

(** The toasts of [sonner] the page raises; [toast.warning] receives
    [response.data.message], which may be [undefined]. *)
Inductive analytics_toast : Type :=
| AToastSuccess (msg : string)
| AToastWarning (msg : option string)
| AToastError (msg : string).

Inductive analytics_effect : Type :=
| AnSend (r : analytics_request)
| AnToast (t : analytics_toast)
| AnConsoleError (msg : string).

(** Clicks and the outcomes of the requests.  [Promise.all] resolves with
    the four responses or rejects as a whole. *)
Inductive analytics_event : Type :=
| AnalyticsFetched (by_type by_district trend : chart_data) (ml : ml_status)
| AnalyticsFetchFailed
| ClickTrainModel
(** [response.data.success] and [response.data.message]. *)
| TrainResponded (success : bool) (message : option string)
| TrainFailed.

(** ** [fetchAnalytics] and [handleTrainModel] *)

(** The four [axios.get] calls of [fetchAnalytics], in their order. *)
Definition fetchAnalytics : list analytics_effect :=
  [AnSend (AnGet "/analytics/fraud-by-type"); AnSend (AnGet "/analytics/fraud-by-district");
   AnSend (AnGet "/analytics/transactions-trend"); AnSend (AnGet "/ml/status")].

(** The [finally] of [fetchAnalytics]: [setLoading(false)] on both outcomes,
    after the four setters on success. *)
Definition fetch_analytics_done (s : analytics_state) (ev : analytics_event)
  : analytics_state * list analytics_effect :=
  match ev with
  | AnalyticsFetched bt bd tr ml => (AnalyticsState bt bd tr ml false, [])
  | AnalyticsFetchFailed =>
      (AnalyticsState (fraudByType s) (fraudByDistrict s) (transactionsTrend s) (mlStatus s)
         false, [AnConsoleError "Error fetching analytics:"])
  | _ => (s, [])
  end.

(** [handleTrainModel], split at its [await]: the click posts, the outcome
    raises one toast, and only a successful training calls [fetchAnalytics]
    again (without [setLoading(true)] and without awaiting it). *)
Definition handleTrainModel (s : analytics_state) (ev : analytics_event)
  : analytics_state * list analytics_effect :=
  match ev with
  | ClickTrainModel => (s, [AnSend (AnPost "/ml/train")])
  | TrainResponded success message =>
      if success then (s, AnToast (AToastSuccess "ML model trained successfully") :: fetchAnalytics)
      else (s, [AnToast (AToastWarning message)])
  | TrainFailed => (s, [AnToast (AToastError "Failed to train model")])
  | _ => (s, [])
  end.

Definition analytics_step (s : analytics_state) (ev : analytics_event)
  : analytics_state * list analytics_effect :=
  match ev with
  | AnalyticsFetched _ _ _ _ | AnalyticsFetchFailed => fetch_analytics_done s ev
  | _ => handleTrainModel s ev
  end.

(** [useEffect(() => { fetchAnalytics(); }, [])]. *)
Definition analytics_mount : analytics_state * list analytics_effect :=
  (analytics_init, fetchAnalytics).

Fixpoint analytics_run (s : analytics_state) (evs : list analytics_event)
  : analytics_state * list analytics_effect :=
  match evs with
  | [] => (s, [])
  | ev :: evs' =>
      let (s1, e1) := analytics_step s ev in
      let (s2, e2) := analytics_run s1 evs' in (s2, (e1 ++ e2)%list)
  end.

(** ** What the page renders *)

(** The model-status card. *)
Record ml_card := MlCard {
  status_class : string;
  status_text : string;
  model_type_text : string;
  train_button_label : string
}.

Definition render_ml_card (m : ml_status) : ml_card :=
  MlCard ("font-medium " ++ if is_trained m then "text-green-600" else "text-amber-600")
    (if is_trained m then "Trained & Active" else "Not Trained")
    ("Model Type: " ++ match model_type m with
                       | Some t => if js_truthy t then t else "Isolation Forest"
                       | None => "Isolation Forest"
                       end)
    (if is_trained m then "Retrain Model" else "Train Model").

(** [Number.prototype.toFixed(0)] on a non-negative number: the integer
    nearest to it, the larger one on a tie. *)
Definition toFixed0 (x : Q) : Z := Qfloor (x + (1 # 2)).

(** The pie's label [`${type.slice(0, 15)}... ${(percent * 100).toFixed(0)}%`],
    where [percent] is the slice's share that the chart library computes. *)
Definition pie_label (type : string) (percent : Q) : string :=
  substring 0 15 type ++ "... " ++ pretty (toFixed0 (percent * 100)) ++ "%".

Inductive analytics_view : Type :=
| AnalyticsLoadingView
| AnalyticsView (card : ml_card)
                (by_type : chart_view (list (string * Z * option string)))
                (by_district : chart_view chart_data)
                (trend : chart_view chart_data).

Definition render_analytics (s : analytics_state) : analytics_view :=
  if loading s then AnalyticsLoadingView
  else AnalyticsView (render_ml_card (mlStatus s))
         (chart_or (fraudByType s) pie_cells "No fraud data available")
         (chart_or (fraudByDistrict s) id "No district data available")
         (chart_or (transactionsTrend s) id "No transaction data available").

(** ** Specification *)

(** The page's data, and the last successful [Promise.all] among a sequence
    of events ([None] when there is none). *)
Definition analytics_data (s : analytics_state) : chart_data * chart_data * chart_data * ml_status :=
  (fraudByType s, fraudByDistrict s, transactionsTrend s, mlStatus s).

Fixpoint last_analytics (evs : list analytics_event)
  : option (chart_data * chart_data * chart_data * ml_status) :=
  match evs with
  | [] => None
  | ev :: evs' =>
      match last_analytics evs' with
      | Some r => Some r
      | None => match ev with AnalyticsFetched bt bd tr ml => Some (bt, bd, tr, ml) | _ => None end
      end
  end.

Definition is_fetch_response (ev : analytics_event) : bool :=
  match ev with AnalyticsFetched _ _ _ _ | AnalyticsFetchFailed => true | _ => false end.

(** ** Lemmas *)

Lemma analytics_run_fst_cons s ev evs :
  (analytics_run s (ev :: evs)).1 = (analytics_run (analytics_step s ev).1 evs).1.
Proof.
  simpl. destruct (analytics_step s ev) as [s1 e1]. simpl. now destruct (analytics_run s1 evs).
Qed.

Lemma analytics_step_loading s ev :
  loading (analytics_step s ev).1 = if is_fetch_response ev then false else loading s.
Proof. destruct ev as [| | |[]|]; reflexivity. Qed.

Lemma analytics_step_data s ev :
  analytics_data (analytics_step s ev).1 =
  match ev with AnalyticsFetched bt bd tr ml => (bt, bd, tr, ml) | _ => analytics_data s end.
Proof. destruct ev as [| | |[]|]; reflexivity. Qed.

Lemma analytics_run_loading s evs :
  loading (analytics_run s evs).1 = if existsb is_fetch_response evs then false else loading s.
Proof.
  revert s. induction evs as [|ev evs IH]; intros s; [reflexivity|].
  rewrite analytics_run_fst_cons, IH, analytics_step_loading. simpl.
  destruct (is_fetch_response ev), (existsb is_fetch_response evs); reflexivity.
Qed.

Lemma substring_0_length n t : String.length (substring 0 n t) = Nat.min n (String.length t).
Proof.
  revert n. induction t as [|c t IH]; intros [|n]; simpl; try reflexivity. now rewrite IH.
Qed.

(** [toFixed(0)] gives the nearest integer, ties rounded up. *)
Lemma toFixed0_nearest x : (inject_Z (toFixed0 x) - (1 # 2) <= x < inject_Z (toFixed0 x) + (1 # 2))%Q.
Proof.
  unfold toFixed0. pose proof (Qfloor_le (x + (1 # 2))) as H1.
  pose proof (Qlt_floor (x + (1 # 2))) as H2. rewrite inject_Z_plus in H2.
  change (inject_Z 1) with 1%Q in H2. split; lra.
Qed.

Lemma toFixed0_bounds x : (0 <= x <= 100)%Q -> (0 <= toFixed0 x <= 100)%Z.
Proof.
  intros [H0 H1]. unfold toFixed0. split.
  - change 0%Z with (Qfloor 0). apply Qfloor_resp_le. lra.
  - change 100%Z with (Qfloor (201 # 2)). apply Qfloor_resp_le.
    unfold Qle, Qplus in *. simpl in *. lia.
Qed.

(** ** Properties of the page *)

(** C19: The loading view ends with the first answer.  On the mounted page,
    after any sequence of events, the page shows "Loading analytics..."
    exactly when no outcome of a [fetchAnalytics] (success or failure) has
    arrived: the first answer ends the loading view for good, and neither
    training nor the refetch it starts brings it back. *)
Theorem analytics_loading_ends evs :
  render_analytics (analytics_run analytics_mount.1 evs).1 = AnalyticsLoadingView <->
  Forall (fun ev => is_fetch_response ev = false) evs.
Proof.
  unfold render_analytics. rewrite analytics_run_loading, List.Forall_forall.
  destruct (existsb is_fetch_response evs) eqn:E; simpl.
  - apply existsb_exists in E as (ev & Hin & Hev). split; [discriminate|].
    intros H. specialize (H ev Hin). congruence.
  - split; [intros _ ev Hin|reflexivity].
    apply Bool.not_true_is_false. intros Hev.
    assert (existsb is_fetch_response evs = true) by (apply existsb_exists; eauto). congruence.
Qed.

(** C17: The page shows the last successful load.  After any sequence of
    events on the mounted page, the three charts and the model status are
    those of the last successful [Promise.all] among the events, all four
    from the same response, or the initial empty charts and untrained status
    when no load has succeeded; failed loads and training change nothing. *)
Theorem analytics_shows_last_load evs :
  analytics_data (analytics_run analytics_mount.1 evs).1 =
  match last_analytics evs with
  | Some r => r
  | None => ([], [], [], ml_status_init)
  end.
Proof.
  change ([], [], [], ml_status_init) with (analytics_data analytics_mount.1).
  generalize analytics_mount.1. induction evs as [|ev evs IH]; intros s; [reflexivity|].
  rewrite analytics_run_fst_cons, IH. simpl.
  destruct (last_analytics evs); [reflexivity|]. rewrite analytics_step_data. now destruct ev.
Qed.

(** C20: Training the model.  On the loaded page, clicking "Train Model"
    posts [/ml/train] and the page stays visible whatever the outcome.  A
    successful training shows "ML model trained successfully" and issues the
    four requests of [fetchAnalytics] again, after whose answer the page
    shows the new status and charts; a refusal shows a warning with the
    server's message and a failed request "Failed to train model", and
    neither refetches nor changes the page. *)
Theorem train_model_flow s m bt bd tr ml m' :
  loading s = false ->
  let evs := [ClickTrainModel; TrainResponded true m; AnalyticsFetched bt bd tr ml] in
  analytics_run s evs =
    (AnalyticsState bt bd tr ml false,
     AnSend (AnPost "/ml/train") :: AnToast (AToastSuccess "ML model trained successfully")
       :: fetchAnalytics) /\
  (forall k, render_analytics (analytics_run s (firstn k evs)).1 <> AnalyticsLoadingView) /\
  analytics_run s [ClickTrainModel; TrainResponded false m'] =
    (s, [AnSend (AnPost "/ml/train"); AnToast (AToastWarning m')]) /\
  analytics_run s [ClickTrainModel; TrainFailed] =
    (s, [AnSend (AnPost "/ml/train"); AnToast (AToastError "Failed to train model")]).
Proof.
  intros Hl evs. split_and!; try reflexivity.
  intros k. unfold render_analytics. rewrite analytics_run_loading, Hl.
  destruct (existsb _ _); discriminate.
Qed.

Lemma train_model_flow_witness :
  let s := AnalyticsState [] [] [] ml_status_init false in
  render_analytics (analytics_run s [ClickTrainModel; TrainResponded true None]).1 <>
    AnalyticsLoadingView.
Proof.
  exact (proj1 (proj2 (train_model_flow (AnalyticsState [] [] [] ml_status_init false) None
    [] [] [] (MlStatus true None) None eq_refl)) 2).
Defined.

(** C30: A failed refetch after training leaves the status stale.  When the
    model was untrained, training succeeds ("ML model trained successfully"
    is shown) and the refetch that follows fails, the card still says "Not
    Trained" with a "Train Model" button and the whole page is unchanged; the
    failure is only logged to the console. *)
Theorem retrain_refetch_failure_stale s m :
  is_trained (mlStatus s) = false -> loading s = false ->
  let r := analytics_run s [ClickTrainModel; TrainResponded true m; AnalyticsFetchFailed] in
  In (AnToast (AToastSuccess "ML model trained successfully")) r.2 /\
  List.Forall (fun e => forall t, e <> AnToast (AToastError t)) r.2 /\
  render_analytics r.1 = render_analytics s /\
  status_text (render_ml_card (mlStatus r.1)) = "Not Trained" /\
  train_button_label (render_ml_card (mlStatus r.1)) = "Train Model".
Proof.
  intros Ht Hl. destruct s as [bt bd tr [trained ty] l]. simpl in Ht, Hl. subst.
  split_and!; simpl; try reflexivity.
  - tauto.
  - repeat constructor; discriminate.
Qed.

Lemma retrain_refetch_failure_stale_witness :
  status_text (render_ml_card (mlStatus
    (analytics_run (AnalyticsState [] [] [] ml_status_init false)
       [ClickTrainModel; TrainResponded true None; AnalyticsFetchFailed]).1)) = "Not Trained".
Proof.
  exact (proj1 (proj2 (proj2 (proj2
    (retrain_refetch_failure_stale (AnalyticsState [] [] [] ml_status_init false) None
       eq_refl eq_refl))))).
Defined.

(** C31: The pie's labels.  For a share [p] between 0 and 1 the label is
    the first 15 characters of the fraud type (all of a shorter one),
    always followed by "... ", then the whole percentage nearest to
    [100 * p] (a half rounds up), which lies between 0 and 100, and "%". *)
Theorem pie_label_bounds type p :
  (0 <= p <= 1)%Q ->
  exists n, (0 <= n <= 100)%Z /\
    (inject_Z n - (1 # 2) <= p * 100 < inject_Z n + (1 # 2))%Q /\
    pie_label type p = substring 0 15 type ++ "... " ++ pretty n ++ "%" /\
    String.length (substring 0 15 type) = Nat.min 15 (String.length type).
Proof.
  intros Hp. exists (toFixed0 (p * 100)).
  split; [apply toFixed0_bounds; split; nra|]. split; [apply toFixed0_nearest|].
  split; [reflexivity | apply substring_0_length].
Qed.

Lemma pie_label_bounds_witness :
  exists n, (0 <= n <= 100)%Z /\
    (inject_Z n - (1 # 2) <= (1 # 4) * 100 < inject_Z n + (1 # 2))%Q /\
    pie_label "duplicate_aadhaar_card" (1 # 4) =
      substring 0 15 "duplicate_aadhaar_card" ++ "... " ++ pretty n ++ "%" /\
    String.length (substring 0 15 "duplicate_aadhaar_card") =
      Nat.min 15 (String.length "duplicate_aadhaar_card").
Proof. apply pie_label_bounds. split; vm_compute; discriminate. Defined.

End Analytics.
