(* ===== verification/AppShell.v ===== *)
(** The application shell: [App.js] (lines 293-411 of
    [src/frontend/src/pages/FraudAlerts.js]: the route table guarded by
    [isAuthenticated], the start-up effect reading the stored token, and the
    Axios request interceptor), the [Login] page ([src/unnamed/part_001])
    and the [Layout] component's menu and logout ([src/unnamed/part_000],
    lines 209-311).  Together they form the session: a state of the browser
    storage, the authentication flag and the current location, changed by
    the events below. *)

From S2P Require Import Prelude.
Local Open Scope string_scope.

(** ** Routes *)

(** What a route renders. *)
Inductive screen : Type :=
| LoginScreen | DashboardScreen | UsersScreen | FraudAlertsScreen
| TransactionsScreen | AnalyticsScreen
(** No [Route] matches the location: the router renders nothing. *)
| NoScreen.

#[export] Instance screen_eq_dec : EqDecision screen.
Proof. solve_decision. Defined.

Inductive route_element : Type :=
| Show (s : screen)
(** [<Navigate to=... replace />]. *)
| Redirect (to : string).

(** A route that renders [page] when authenticated, else goes to login. *)
Definition protected (auth : bool) (page : screen) : route_element :=
  if auth then Show page else Redirect "/login".

(** The [<Routes>] of [App], by the normalised location. *)
Definition route_table (auth : bool) (key : string) : route_element :=
  if String.eqb key "/login" then (if auth then Redirect "/" else Show LoginScreen)
  else if String.eqb key "/" then protected auth DashboardScreen
  else if String.eqb key "/users" then protected auth UsersScreen
  else if String.eqb key "/fraud-alerts" then protected auth FraudAlertsScreen
  else if String.eqb key "/transactions" then protected auth TransactionsScreen
  else if String.eqb key "/analytics" then protected auth AnalyticsScreen
  else Show NoScreen.

(** Trailing slashes of a location, dropped. *)
Fixpoint drop_trailing_slashes (s : string) : string :=
  match s with
  | EmptyString => EmptyString
  | String c s' =>
      let r := drop_trailing_slashes s' in
      if Ascii.eqb c "/" && String.eqb r "" then "" else String c r
  end.

(** How React Router matches a [<Route path>]: case-insensitively (the
    default [caseSensitive={false}]) and ignoring trailing slashes. *)
Definition route_key (path : string) : string :=
  let t := drop_trailing_slashes path in
  if String.eqb t "" then "/" else js_to_lower t.

Definition routes (auth : bool) (path : string) : route_element :=
  route_table auth (route_key path).

(** Following redirects, at most [fuel] route evaluations: the location
    reached and what it renders, or [None] when the fuel runs out. *)
Fixpoint resolve (fuel : nat) (auth : bool) (path : string) : option (string * screen) :=
  match fuel with
  | 0 => None
  | S fuel' =>
      match routes auth path with
      | Show s => Some (path, s)
      | Redirect to => resolve fuel' auth to
      end
  end.

(** ** The Axios interceptor *)

(** [localStorage.getItem("token")]: [None] is [null]. *)
Definition request_headers (token : option string) : list (string * string) :=
  match token with
  | Some t => if js_truthy t then [("Authorization", "Bearer " ++ t)] else []
  | None => []
  end.

(** ** The session *)

Record login_form := LoginForm { email : string; password : string; username : string }.

Record session := Session {
  stored_token : option string;
  stored_user : option string;
  isAuthenticated : bool;
  appLoading : bool;
  location : string;
  (** The [Login] page's own state. *)
  isLogin : bool;
  formData : login_form;
  loginLoading : bool;
  (** Which mount of [Login] that state belongs to: React keeps a
      component's [useState] per mounted instance, and a [Login] mounted
      again starts from its initial state. *)
  loginKey : nat
}.

(** A fresh page load with whatever the browser has stored. *)
Definition session_boot (token user : option string) (path : string) : session :=
  Session token user false true path true (LoginForm "" "" "") false 0.

Inductive shell_toast : Type :=
| ShellSuccess (msg : string)
| ShellError (msg : string).

Inductive shell_effect : Type :=
| PostAuth (endpoint : string) (body : login_form)
| ShellShow (t : shell_toast).

Inductive login_edit : Type :=
| EditEmail (v : string) | EditPassword (v : string) | EditUsername (v : string).

Inductive shell_event : Type :=
(** [App]'s [useEffect] on mount. *)
| AppMounted
(** A click on a menu item or any [navigate(path)]. *)
| NavigateTo (path : string)
| ToggleMode
| EditLogin (e : login_edit)
| SubmitAuth
(** Responses of the authentication request sent by the [Login] mounted as
    [k]: the code after [await] in that instance's [handleSubmit]. *)
| LoginSucceeded (k : nat) (access_token user_json : string)
| RegisterSucceeded (k : nat)
| AuthFailed (k : nat) (detail : option string)
(** [Layout.handleLogout]. *)
| Logout.

Definition apply_login_edit (f : login_form) (e : login_edit) : login_form :=
  match e with
  | EditEmail v => LoginForm v (password f) (username f)
  | EditPassword v => LoginForm (email f) v (username f)
  | EditUsername v => LoginForm (email f) (password f) v
  end.

Definition with_auth (s : session) (tok usr : option string) (auth : bool) : session :=
  Session tok usr auth (appLoading s) (location s) (isLogin s) (formData s) (loginLoading s)
    (loginKey s).

Definition with_login (s : session) (il : bool) (f : login_form) (ld : bool) : session :=
  Session (stored_token s) (stored_user s) (isAuthenticated s) (appLoading s) (location s)
    il f ld (loginKey s).

Definition with_location (s : session) (p : string) : session :=
  Session (stored_token s) (stored_user s) (isAuthenticated s) (appLoading s) p
    (isLogin s) (formData s) (loginLoading s) (loginKey s).

(** [App]'s start-up effect: a truthy stored token signs in; in every case
    loading ends. *)
Definition app_effect (s : session) : session :=
  let auth := match stored_token s with
              | Some t => js_truthy t || isAuthenticated s
              | None => isAuthenticated s
              end in
  Session (stored_token s) (stored_user s) auth false (location s) (isLogin s)
    (formData s) (loginLoading s) (loginKey s).

(** [Login.handleSubmit] up to its [await]: set [loading] and post the form
    to [/auth/login] or [/auth/register]. *)
Definition handleSubmit (s : session) : session * list shell_effect :=
  (with_login s (isLogin s) (formData s) true,
   [PostAuth (if isLogin s then "/auth/login" else "/auth/register") (formData s)]).

(** The [Login] mounted as [k] is on screen: the app has loaded and the
    location renders the [/login] route's [Login] element directly. *)
Definition login_mounted (s : session) : bool :=
  negb (appLoading s) &&
  match routes (isAuthenticated s) (location s) with Show LoginScreen => true | _ => false end.

Definition login_live (s : session) (k : nat) : bool := login_mounted s && Nat.eqb (loginKey s) k.

(** A state setter of the [Login] mounted as [k]: it changes the page only
    while that instance is mounted; on an unmounted one it does nothing. *)
Definition login_set (s : session) (k : nat) (il : bool) (ld : bool) : session :=
  if login_live s k then with_login s il (formData s) ld else s.

(** The rest of [handleSubmit], by outcome; the [finally] clears [loading]
    of the instance that sent the request.  Storage, [setIsAuthenticated]
    (the setter of [App], always mounted) and the toasts act in any case. *)
Definition login_succeeded (s : session) (k : nat) (tok usr : string) : session * list shell_effect :=
  let s1 := with_auth s (Some tok) (Some usr) true in
  (if login_live s k then with_login s1 (isLogin s) (formData s) false else s1,
   [ShellShow (ShellSuccess "Login successful!")]).

Definition register_succeeded (s : session) (k : nat) : session * list shell_effect :=
  (login_set s k true false,
   [ShellShow (ShellSuccess "Registration successful! Please login.")]).

Definition auth_failed (s : session) (k : nat) (detail : option string) : session * list shell_effect :=
  (login_set s k (isLogin s) false,
   [ShellShow (ShellError (match detail with
                           | Some d => if js_truthy d then d else "An error occurred"
                           | None => "An error occurred" end))]).

(** [Layout.handleLogout]. *)
Definition handleLogout (s : session) : session * list shell_effect :=
  (with_location (with_auth s None None false) "/login",
   [ShellShow (ShellSuccess "Logged out successfully")]).

(** What an event does before the router reacts to it. *)
Definition shell_event_handler (s : session) (ev : shell_event) : session * list shell_effect :=
  match ev with
  | AppMounted => (app_effect s, [])
  | NavigateTo p => (with_location s p, [])
  | ToggleMode => (with_login s (negb (isLogin s)) (formData s) (loginLoading s), [])
  | EditLogin e => (with_login s (isLogin s) (apply_login_edit (formData s) e) (loginLoading s), [])
  | SubmitAuth => handleSubmit s
  | LoginSucceeded k tok usr => login_succeeded s k tok usr
  | RegisterSucceeded k => register_succeeded s k
  | AuthFailed k detail => auth_failed s k detail
  | Logout => handleLogout s
  end.

(** The [<Navigate replace>] of the route the location matches replaces
    the location by the one the redirects end at (nothing happens while
    [App] shows its loading screen, outside the router). *)
Definition settle_location (s : session) : session :=
  if appLoading s then s
  else match resolve 2 (isAuthenticated s) (location s) with
       | Some (p, _) => with_location s p
       | None => s
       end.

(** A [Login] mounted afresh: the initial [useState] values. *)
Definition fresh_login (s : session) : session :=
  Session (stored_token s) (stored_user s) (isAuthenticated s) (appLoading s) (location s)
    true (LoginForm "" "" "") false (S (loginKey s)).

(** [Login] keeps its instance only when it was on screen before the event
    and the location reached renders it directly; when it is reached
    through a [<Navigate>] (which replaces it for one render) or from
    another screen, React mounts a new instance. *)
Definition mount_login (before raw : session) : session :=
  let after := settle_location raw in
  if login_mounted after then
    if login_mounted before && login_mounted raw then after else fresh_login after
  else after.

Definition shell_handler (s : session) (ev : shell_event) : session * list shell_effect :=
  let (raw, effs) := shell_event_handler s ev in (mount_login s raw, effs).

(** A run of events; the effects are collected. *)
Fixpoint shell_run (s : session) (evs : list shell_event) : session * list shell_effect :=
  match evs with
  | [] => (s, [])
  | ev :: evs' =>
      let (s1, e1) := shell_handler s ev in
      let (s2, e2) := shell_run s1 evs' in (s2, (e1 ++ e2)%list)
  end.

(** What [App] renders: the loading screen, or the route of the location
    after its redirects (which replace the location). *)
Inductive app_view : Type :=
| AppLoadingView
| AppRouted (path : string) (s : screen)
| AppStuck.

Definition render_app (s : session) : app_view :=
  if appLoading s then AppLoadingView
  else match resolve 2 (isAuthenticated s) (location s) with
       | Some (p, sc) => AppRouted p sc
       | None => AppStuck
       end.

(** ** The [Layout] menu *)

Record menu_item := MenuItem { mi_path : string; mi_label : string; mi_testId : string }.

Definition menuItems : list menu_item :=
  [MenuItem "/" "Dashboard" "nav-dashboard";
   MenuItem "/users" "Users" "nav-users";
   MenuItem "/fraud-alerts" "Fraud Alerts" "nav-fraud-alerts";
   MenuItem "/transactions" "Transactions" "nav-transactions";
   MenuItem "/analytics" "Analytics" "nav-analytics"].

(** [isActive = location.pathname === item.path]. *)
Definition active_items (path : string) : list menu_item :=
  List.filter (fun i => String.eqb (mi_path i) path) menuItems.

(** The locations the menu offers: the protected routes. *)
Definition menu_paths : list string := map mi_path menuItems.

(** The invariant of the session: before [App]'s effect has run the flag
    can only be set by a successful login (which also stores a token);
    afterwards the flag is exactly "a truthy token is stored". *)
Definition session_ok (s : session) : Prop :=
  (appLoading s = true -> isAuthenticated s = true ->
     exists t, stored_token s = Some t /\ js_truthy t = true) /\
  (appLoading s = false ->
     (isAuthenticated s = true <-> exists t, stored_token s = Some t /\ js_truthy t = true)).

(** The responses of [/auth/login] carry a non-empty token. *)
Definition login_tokens_truthy (evs : list shell_event) : Prop :=
  Forall (fun ev => forall k t u, ev = LoginSucceeded k t u -> js_truthy t = true) evs.

(** ** Lemmas *)

Lemma routes_shape auth path :
  (auth = false /\
   ((route_table auth path = Redirect "/login" /\ In path menu_paths) \/
    (route_table auth path = Show LoginScreen /\ path = "/login") \/
    (route_table auth path = Show NoScreen /\ ~ In path menu_paths))) \/
  (auth = true /\
   ((route_table auth path = Redirect "/" /\ path = "/login") \/
    (exists sc, route_table auth path = Show sc /\ sc <> LoginScreen /\
                (In path menu_paths -> sc <> NoScreen)))).
Proof.
  unfold route_table, protected, menu_paths. simpl.
  destruct auth;
    repeat match goal with
           | |- context [String.eqb ?p ?q] => destruct (String.eqb_spec p q); subst
           end; simpl;
    first [ left; split; [reflexivity|]; tauto
          | right; split; [reflexivity|]; first [left; tauto | right; eexists; split_and!;
              [reflexivity | discriminate | intuition (discriminate || congruence)]]
          | left; split; [reflexivity|]; right; right; split; [reflexivity|]; intuition congruence ].
Qed.

Lemma routes_login auth : routes auth "/login" = if auth then Redirect "/" else Show LoginScreen.
Proof. now destruct auth. Qed.

Lemma routes_root auth : routes auth "/" = protected auth DashboardScreen.
Proof. reflexivity. Qed.

Lemma route_key_menu path : In path menu_paths -> route_key path = path.
Proof. unfold menu_paths. simpl. intros H. repeat destruct H as [<-|H]; easy. Qed.

Lemma resolve_SS f auth path :
  resolve (S (S f)) auth path =
  match routes auth path with
  | Show s => Some (path, s)
  | Redirect to => resolve (S f) auth to
  end.
Proof. reflexivity. Qed.

Lemma shell_run_fst_cons s ev evs :
  (shell_run s (ev :: evs)).1 = (shell_run (shell_handler s ev).1 evs).1.
Proof.
  simpl. destruct (shell_handler s ev) as [s1 e1]. simpl. now destruct (shell_run s1 evs).
Qed.

Lemma request_headers_spec tok :
  request_headers tok <> [] <-> exists t, tok = Some t /\ js_truthy t = true.
Proof.
  destruct tok as [t|]; simpl; [|split; [congruence | intros (t & ? & _); discriminate]].
  destruct (js_truthy t) eqn:E; split; try congruence; eauto.
  intros (t' & [= <-] & H). congruence.
Qed.

(** The router and the remount change only the location and [Login]'s own
    state. *)
Lemma mount_login_session before raw :
  let s := mount_login before raw in
  stored_token s = stored_token raw /\ stored_user s = stored_user raw /\
  isAuthenticated s = isAuthenticated raw /\ appLoading s = appLoading raw.
Proof.
  unfold mount_login, settle_location.
  destruct (appLoading raw) eqn:El;
    [|destruct (resolve 2 (isAuthenticated raw) (location raw)) as [[p sc]|]];
    repeat destruct (login_mounted _); cbn; auto.
Qed.

Lemma shell_handler_session s ev :
  let s' := (shell_handler s ev).1 in let r := (shell_event_handler s ev).1 in
  stored_token s' = stored_token r /\ stored_user s' = stored_user r /\
  isAuthenticated s' = isAuthenticated r /\ appLoading s' = appLoading r.
Proof.
  unfold shell_handler. destruct (shell_event_handler s ev) as [raw e]. apply mount_login_session.
Qed.

Lemma login_set_session s k il ld :
  let s' := login_set s k il ld in
  stored_token s' = stored_token s /\ stored_user s' = stored_user s /\
  isAuthenticated s' = isAuthenticated s /\ appLoading s' = appLoading s.
Proof. unfold login_set. now destruct (login_live s k). Qed.

Lemma settle_location_fields s :
  let s' := settle_location s in
  isLogin s' = isLogin s /\ formData s' = formData s /\ loginLoading s' = loginLoading s /\
  loginKey s' = loginKey s.
Proof.
  unfold settle_location. destruct (appLoading s); [auto|].
  destruct (resolve 2 _ _) as [[p sc]|]; cbn; auto.
Qed.

(** Signed in, no location renders [Login]. *)
Lemma auth_not_mounted s : isAuthenticated s = true -> login_mounted s = false.
Proof.
  intros Ha. unfold login_mounted, routes, route_table, protected. rewrite Ha.
  repeat match goal with |- context [String.eqb ?p ?q] => destruct (String.eqb p q) end;
    apply andb_false_r.
Qed.

(** After an event, [Login] is the instance it was (when it stayed on
    screen without a redirect), a fresh one with a new key and [loading]
    cleared, or not on screen. *)
Lemma mount_login_cases before raw :
  let m := mount_login before raw in
  (login_mounted m = true /\ login_mounted before = true /\ login_mounted raw = true /\
   isLogin m = isLogin raw /\ formData m = formData raw /\ loginLoading m = loginLoading raw /\
   loginKey m = loginKey raw) \/
  (login_mounted m = true /\ loginKey m = S (loginKey raw) /\ loginLoading m = false) \/
  (login_mounted m = false /\ loginKey m = loginKey raw).
Proof.
  unfold mount_login. destruct (settle_location_fields raw) as (Hi & Hf & Hl & Hk).
  destruct (login_mounted (settle_location raw)) eqn:Ea.
  - destruct (login_mounted before) eqn:Eb, (login_mounted raw) eqn:Er; cbn;
      first [left; now split_and! | right; left; split_and!; [exact Ea | cbn; now rewrite Hk | reflexivity]].
  - right; right. now split.
Qed.

Lemma shell_event_handler_ok s ev :
  (forall k t u, ev = LoginSucceeded k t u -> js_truthy t = true) ->
  session_ok s -> session_ok (shell_event_handler s ev).1.
Proof.
  intros Htok [Hpre Hpost].
  destruct ev as [| | | | |k t u|k|k d|]; simpl; unfold session_ok; simpl;
    try exact (conj Hpre Hpost).
  - (* AppMounted *)
    split; [discriminate|]. intros _.
    destruct (appLoading s) eqn:El.
    + destruct (stored_token s) as [t|] eqn:Et.
      * destruct (js_truthy t) eqn:Ej; simpl; [split; eauto|].
        split; [intros Ha; now apply Hpre | intros (t' & [= <-] & H); congruence].
      * split; [intros Ha; destruct (Hpre eq_refl Ha) as (? & ? & _); discriminate|].
        intros (? & ? & _); discriminate.
    + specialize (Hpost eq_refl). destruct (stored_token s) as [t|] eqn:Et; [|exact Hpost].
      destruct (js_truthy t) eqn:Ej; simpl; [|exact Hpost].
      split; [intros _; eauto | reflexivity].
  - (* LoginSucceeded *)
    specialize (Htok k t u eq_refl).
    destruct (login_live s k); cbn;
      (split; [intros _ _; eauto | intros _; split; [intros _; eauto | reflexivity]]).
  - (* RegisterSucceeded *)
    destruct (login_set_session s k true false) as (-> & _ & -> & ->). exact (conj Hpre Hpost).
  - (* AuthFailed *)
    destruct (login_set_session s k (isLogin s) false) as (-> & _ & -> & ->). exact (conj Hpre Hpost).
  - (* Logout *)
    split; [discriminate|]. intros _. split; [discriminate | intros (? & ? & _); discriminate].
Qed.

Lemma shell_handler_ok s ev :
  (forall k t u, ev = LoginSucceeded k t u -> js_truthy t = true) ->
  session_ok s -> session_ok (shell_handler s ev).1.
Proof.
  intros Htok Hs. pose proof (shell_event_handler_ok s ev Htok Hs) as H.
  destruct (shell_handler_session s ev) as (Ht & _ & Ha & Hl).
  unfold session_ok in *. now rewrite Ht, Ha, Hl.
Qed.

Lemma shell_run_ok s evs :
  login_tokens_truthy evs -> session_ok s -> session_ok (shell_run s evs).1.
Proof.
  revert s. induction evs as [|ev evs IH]; intros s Hf Hs; [exact Hs|].
  apply Forall_cons in Hf as [H1 H2]. rewrite shell_run_fst_cons.
  apply IH; [exact H2|]. now apply shell_handler_ok.
Qed.

Lemma shell_run_loaded s evs :
  appLoading s = false -> appLoading (shell_run s evs).1 = false.
Proof.
  revert s. induction evs as [|ev evs IH]; intros s Hl; [exact Hl|].
  rewrite shell_run_fst_cons. apply IH.
  destruct (shell_handler_session s ev) as (_ & _ & _ & ->).
  destruct ev; cbn; try reflexivity; try exact Hl;
    first [destruct (login_live _ _); exact Hl | unfold login_set; destruct (login_live _ _); exact Hl].
Qed.

(** ** Properties of the shell *)

(** C4: The route guard.  With enough fuel for one redirect, every location
    resolves (no redirect loop).  Signed out, only the login screen or the
    empty route can render, and every menu location ends at "/login" on the
    login screen; signed in, the login screen never renders (it redirects to
    "/"), and every menu location renders its own page without redirect. *)
Theorem route_guard auth path fuel :
  2 <= fuel ->
  exists p sc, resolve fuel auth path = Some (p, sc) /\
    (auth = false -> sc = LoginScreen \/ sc = NoScreen) /\
    (auth = false -> In path menu_paths -> p = "/login" /\ sc = LoginScreen) /\
    (auth = true -> sc <> LoginScreen) /\
    (auth = true -> In path menu_paths -> p = path /\ sc <> NoScreen).
Proof.
  intros Hf. destruct fuel as [|[|f]]; [lia|lia|]. rewrite resolve_SS. unfold routes.
  assert (Hk : In path menu_paths -> route_key path = path) by apply route_key_menu.
  destruct (routes_shape auth (route_key path))
    as [(-> & [[-> Hin]|[[-> Hl]|[-> Hnin]]])|(-> & [[-> Hl]|(sc & -> & Hsc & Hmenu)])];
    simpl; do 2 eexists; (split; [reflexivity|]); split_and!;
    intros; try (rewrite Hk in * by assumption); try contradiction;
    first [discriminate | tauto | split; [reflexivity | tauto]
          | subst; unfold menu_paths in *; simpl in *; intuition congruence].
Qed.

Lemma route_guard_witness :
  resolve 2 false "/users" = Some ("/login", LoginScreen) /\
  resolve 2 true "/login" = Some ("/", DashboardScreen).
Proof.
  split.
  - destruct (route_guard false "/users" 2 ltac:(lia)) as (p & sc & H & _ & Hm & _).
    destruct (Hm eq_refl ltac:(simpl; tauto)) as [-> ->]. exact H.
  - destruct (route_guard true "/login" 2 ltac:(lia)) as (p & sc & H & _). rewrite H.
    vm_compute in H. symmetry. exact H.
Defined.

(** C5: The session flag follows the stored token.  From any page load
    with any stored token and location, after [App]'s start-up effect and
    any sequence of events (logins returning non-empty tokens), the app is
    no longer loading, it counts as signed in exactly when a truthy token is
    stored, and exactly then the interceptor adds an [Authorization:
    Bearer <token>] header to every request. *)
Theorem session_token_consistent token user path evs :
  login_tokens_truthy evs ->
  let s := (shell_run (session_boot token user path) (AppMounted :: evs)).1 in
  appLoading s = false /\
  (isAuthenticated s = true <-> exists t, stored_token s = Some t /\ js_truthy t = true) /\
  (isAuthenticated s = true <-> request_headers (stored_token s) <> []) /\
  (forall t, stored_token s = Some t -> isAuthenticated s = true ->
     request_headers (stored_token s) = [("Authorization", "Bearer " ++ t)]).
Proof.
  intros Hf s.
  assert (Hl : appLoading s = false).
  { subst s. rewrite shell_run_fst_cons. apply shell_run_loaded.
    destruct (shell_handler_session (session_boot token user path) AppMounted) as (_ & _ & _ & ->).
    reflexivity. }
  assert (Hok : session_ok s).
  { apply shell_run_ok; [constructor; [intros ? ? ? ?; discriminate | exact Hf]|].
    split; intros ?; discriminate. }
  destruct Hok as [_ Hpost]. specialize (Hpost Hl).
  split_and!; [exact Hl | exact Hpost | rewrite request_headers_spec; exact Hpost|].
  intros t Ht Ha. apply Hpost in Ha as (t' & Ht' & Hj). rewrite Ht in Ht'.
  injection Ht' as <-. rewrite Ht. simpl. now rewrite Hj.
Qed.

Lemma session_token_consistent_witness :
  let s := (shell_run (session_boot (Some "tok") None "/")
              (AppMounted :: [Logout; LoginSucceeded 1 "jwt" "{}"])).1 in
  appLoading s = false /\
  (isAuthenticated s = true <-> exists t, stored_token s = Some t /\ js_truthy t = true) /\
  (isAuthenticated s = true <-> request_headers (stored_token s) <> []) /\
  (forall t, stored_token s = Some t -> isAuthenticated s = true ->
     request_headers (stored_token s) = [("Authorization", "Bearer " ++ t)]).
Proof.
  apply session_token_consistent. unfold login_tokens_truthy.
  repeat apply List.Forall_cons; try apply List.Forall_nil;
    intros k t u H; first [discriminate | injection H as <- <- <-; reflexivity].
Defined.

(** Logging out ends the session.  From any loaded state,
    [handleLogout] removes the stored token and user, clears the flag, shows
    "Logged out successfully" and lands on the login screen at "/login";
    later requests carry no [Authorization] header. *)
Theorem logout_clears_session s :
  appLoading s = false ->
  let r := shell_handler s Logout in
  stored_token r.1 = None /\ stored_user r.1 = None /\ isAuthenticated r.1 = false /\
  request_headers (stored_token r.1) = [] /\
  r.2 = [ShellShow (ShellSuccess "Logged out successfully")] /\
  render_app r.1 = AppRouted "/login" LoginScreen.
Proof.
  intros Hl r. subst r.
  unfold shell_handler, shell_event_handler, handleLogout, mount_login, settle_location, render_app.
  cbn. rewrite !Hl, !routes_login. cbn. unfold login_mounted. cbn. rewrite !Hl, !routes_login.
  cbn. destruct (routes _ (location s)) as [[]|]; cbn; rewrite ?Hl, ?routes_login; split_and!; reflexivity.
Qed.

Lemma logout_clears_session_witness :
  let s := (shell_run (session_boot (Some "tok") None "/users") [AppMounted]).1 in
  appLoading s = false /\
  render_app (shell_handler s Logout).1 = AppRouted "/login" LoginScreen.
Proof.
  intros s. assert (Hl : appLoading s = false) by reflexivity. split; [exact Hl|].
  apply (logout_clears_session s Hl).
Defined.

(** C29: Signing in and registering.  On a loaded login screen, a
    successful login stores the returned token and user, sets the flag,
    shows "Login successful!" and the router moves to "/" on the dashboard,
    with requests now carrying the token; a successful registration stores
    nothing, keeps the user signed out and switches the form to login mode;
    a failed request shows the server's detail or "An error occurred". *)
Theorem login_and_register s tok usr detail :
  appLoading s = false -> isAuthenticated s = false -> location s = "/login" ->
  js_truthy tok = true ->
  let k := loginKey s in
  let l := shell_handler s (LoginSucceeded k tok usr) in
  let r := shell_handler s (RegisterSucceeded k) in
  let f := shell_handler s (AuthFailed k detail) in
  (stored_token l.1 = Some tok /\ stored_user l.1 = Some usr /\
   render_app l.1 = AppRouted "/" DashboardScreen /\
   request_headers (stored_token l.1) = [("Authorization", "Bearer " ++ tok)] /\
   l.2 = [ShellShow (ShellSuccess "Login successful!")]) /\
  (stored_token r.1 = stored_token s /\ isAuthenticated r.1 = false /\ isLogin r.1 = true /\
   loginLoading r.1 = false /\ render_app r.1 = AppRouted "/login" LoginScreen /\
   r.2 = [ShellShow (ShellSuccess "Registration successful! Please login.")]) /\
  (isAuthenticated f.1 = false /\ loginLoading f.1 = false /\
   f.2 = [ShellShow (ShellError (match detail with
                                 | Some d => if js_truthy d then d else "An error occurred"
                                 | None => "An error occurred" end))]) /\
  (forall k', k' <> k ->
   let r' := (shell_handler s (RegisterSucceeded k')).1 in
   let f' := (shell_handler s (AuthFailed k' detail)).1 in
   isLogin r' = isLogin s /\ loginLoading r' = loginLoading s /\ loginKey r' = k /\
   isLogin f' = isLogin s /\ loginLoading f' = loginLoading s /\ loginKey f' = k).
Proof.
  intros Hl Ha Hp Ht k l r f. subst k l r f.
  assert (Hm : login_mounted s = true) by (unfold login_mounted; now rewrite Hl, Ha, Hp).
  unfold shell_handler, shell_event_handler, login_succeeded, register_succeeded, auth_failed,
    login_set, login_live.
  rewrite Hm, Nat.eqb_refl. cbn [andb].
  unfold mount_login, settle_location, render_app, login_mounted.
  do 4 (cbn; rewrite ?Hl, ?Ha, ?Hp, ?routes_login, ?routes_root, ?Ht).
  do 3 (split; [split_and!; reflexivity|]).
  intros k' Hk. assert (Hk' : Nat.eqb (loginKey s) k' = false) by (apply Nat.eqb_neq; congruence).
  rewrite Hk'.
  do 3 (cbn; rewrite ?Hl, ?Ha, ?Hp, ?routes_login). split_and!; reflexivity.
Qed.

Lemma login_and_register_witness :
  let s := (shell_run (session_boot None None "/login") [AppMounted]).1 in
  render_app (shell_handler s (LoginSucceeded (loginKey s) "jwt" "{}")).1 =
    AppRouted "/" DashboardScreen.
Proof.
  intros s.
  destruct (login_and_register s "jwt" "{}" None eq_refl eq_refl eq_refl eq_refl)
    as [(_ & _ & H & _) _].
  exact H.
Defined.

(** The menu matches the routes.  The five [Layout] menu locations are
    distinct, so at most one item is highlighted as active, and each renders,
    when signed in, a different page (none of them the login screen or the
    empty route).  The router matches locations ignoring case and trailing
    slashes while the highlight compares them exactly, so "/Users/" shows
    the Users page with no menu item active. *)
Theorem menu_matches_routes :
  NoDup menu_paths /\
  (forall path, List.length (active_items path) <= 1) /\
  map (fun i => routes true (mi_path i)) menuItems =
    [Show DashboardScreen; Show UsersScreen; Show FraudAlertsScreen;
     Show TransactionsScreen; Show AnalyticsScreen] /\
  routes true "/Users/" = Show UsersScreen /\ active_items "/Users/" = [].
Proof.
  split_and!; [vm_compute; repeat constructor; set_solver| |reflexivity..].
  intros path. unfold active_items, menuItems. cbn [List.filter mi_path].
  repeat match goal with
         | |- context [String.eqb ?p ?q] => destruct (String.eqb_spec p q)
         end; subst; try discriminate; simpl; lia.
Qed.

Lemma resolve_more_fuel n auth path r :
  resolve n auth path = Some r -> resolve (S n) auth path = Some r.
Proof.
  revert path. induction n as [|n IH]; intros path H; [discriminate|].
  cbn [resolve] in *. destruct (routes auth path); [exact H | now apply IH].
Qed.

(** Route resolution terminates after one redirect.  Every location has
    one outcome that [resolve] reaches with two route evaluations and keeps
    for any larger fuel: the only redirects go to "/login" (signed out) or
    "/" (signed in), which render without redirecting again. *)
Theorem resolve_terminates auth path :
  exists r, forall fuel, 2 <= fuel -> resolve fuel auth path = Some r.
Proof.
  assert (H2 : exists r, resolve 2 auth path = Some r).
  { rewrite resolve_SS. unfold routes.
    destruct (routes_shape auth (route_key path))
      as [(-> & [[-> _]|[[-> _]|[-> _]]])|(-> & [[-> _]|(sc & -> & _)])]; eauto. }
  destruct H2 as [r Hr]. exists r. intros fuel Hf.
  induction Hf as [|fuel Hf IH]; [exact Hr | now apply resolve_more_fuel].
Qed.
