(* ===== verification/LoginView.v ===== *)
(** What the [Login] page of [src/unnamed/part_001] renders (lines 43-139)
    and what its controls let a user do: the inputs of the current mode
    with their [required] and [type] attributes, the submit button with
    its label and [disabled={loading}], and the mode toggle.  The browser's
    constraint validation decides whether a submission reaches
    [handleSubmit]; the authentication requests in flight, each tagged
    with the mounted [Login] instance that sent it, and their answers form
    a step relation over the session.  Its invariant: every request sent
    passed the form's validation, and the [Login] on screen has at most one
    request of its own pending, exactly while its [loading] is set; a
    [Login] mounted again after a navigation starts with [loading] cleared,
    so two requests can be in flight at once. *)

From S2P Require Import Prelude AppShell.
From stdpp Require Import relations.
Local Open Scope string_scope.

(** ** The rendered form *)

Record login_input := LoginInput {
  li_testId : string;
  li_type : string;
  li_value : string;
  li_required : bool
}.

Record login_view := LoginView {
  lg_inputs : list login_input;
  lg_submit_label : string;
  lg_submit_disabled : bool;
  lg_toggle_label : string
}.

Definition render_login (s : session) : login_view :=
  let f := formData s in
  LoginView
    ((if isLogin s then [] else [LoginInput "username-input" "text" (username f) (negb (isLogin s))])
     ++ [LoginInput "email-input" "email" (email f) true;
         LoginInput "password-input" "password" (password f) true])
    (if loginLoading s then "Please wait..." else if isLogin s then "Sign In" else "Register")
    (loginLoading s)
    (if isLogin s then "Don't have an account? Register" else "Already have an account? Sign In").

(** ** The browser's constraint validation *)

Definition is_alnum (c : ascii) : bool :=
  let n := nat_of_ascii c in
  (Nat.leb 48 n && Nat.leb n 57) || (Nat.leb 65 n && Nat.leb n 90) || (Nat.leb 97 n && Nat.leb n 122).

Fixpoint str_forallb (p : ascii -> bool) (s : string) : bool :=
  match s with
  | EmptyString => true
  | String c s' => p c && str_forallb p s'
  end.

(** The characters the HTML standard allows before the [@] of a valid
    e-mail address, besides letters and digits. *)
Definition email_local_specials : string := ".!#$%&'*+/=?^_`{|}~-".

Definition email_local_char (c : ascii) : bool := is_alnum c || has_char c email_local_specials.

(** A label of the domain: 1 to 63 letters, digits and hyphens, starting
    and ending with a letter or digit. *)
Definition email_label_ok (l : string) : bool :=
  match l with
  | EmptyString => false
  | String c _ =>
      Nat.leb (String.length l) 63 && str_forallb (fun d => is_alnum d || Ascii.eqb d "-") l &&
      is_alnum c && is_alnum (match String.get (String.length l - 1)%nat l with Some d => d | None => c end)
  end.

(** The HTML standard's "valid e-mail address" that [type="email"]
    checks: a non-empty local part, [@], and dot-separated labels. *)
Definition valid_email (s : string) : bool :=
  match split_on "@" s with
  | [local; domain] =>
      js_truthy local && str_forallb email_local_char local && forallb email_label_ok (split_on "." domain)
  | _ => false
  end.

(** An input passes when it is filled or optional, and an e-mail input
    holds a valid address whenever it is filled. *)
Definition input_valid (i : login_input) : bool :=
  if js_truthy (li_value i)
  then negb (String.eqb (li_type i) "email") || valid_email (li_value i)
  else negb (li_required i).

(** ** The controls *)

(** Typing into an input, clicking the submit button (or pressing Enter
    in an input, which submits through the same button), clicking the
    mode toggle. *)
Inductive login_ui : Type :=
| TypeInto (testId v : string)
| ClickSubmit
| ClickToggle.

Definition input_edit (testId v : string) : option login_edit :=
  if String.eqb testId "username-input" then Some (EditUsername v)
  else if String.eqb testId "email-input" then Some (EditEmail v)
  else if String.eqb testId "password-input" then Some (EditPassword v)
  else None.

(** The event a control raises: only rendered inputs can be typed into; a
    disabled button, or a form that fails validation, submits nothing. *)
Definition login_ui_event (v : login_view) (a : login_ui) : option shell_event :=
  match a with
  | TypeInto tid x =>
      if existsb (fun i => String.eqb (li_testId i) tid) (lg_inputs v)
      then option_map EditLogin (input_edit tid x) else None
  | ClickSubmit =>
      if lg_submit_disabled v then None
      else if forallb input_valid (lg_inputs v) then Some SubmitAuth else None
  | ClickToggle => Some ToggleMode
  end.

(** ** Authentication requests in flight *)

(** An [axios.post] of [handleSubmit] that has not been answered: the
    endpoint, the body, and the key of the [Login] instance whose
    [handleSubmit] is waiting for it. *)
Definition auth_request : Type := string * login_form * nat.

Definition req_key (rq : auth_request) : nat := rq.2.

Definition posted (k : nat) (effs : list shell_effect) : list auth_request :=
  flat_map (fun e => match e with PostAuth ep body => [(ep, body, k)] | ShellShow _ => [] end) effs.

(** The events of the rest of the application, which do not touch the
    login form: [App]'s effect, navigation (a [navigate] call, a link, or
    the browser's back and forward buttons, which [BrowserRouter] handles
    without reloading) and logout. *)
Definition env_event (ev : shell_event) : bool :=
  match ev with
  | AppMounted | NavigateTo _ | Logout => true
  | _ => false
  end.

Definition login_world : Type := session * list auth_request.

(** One step: a control of the [Login] page on screen, an answer to any
    pending request (a login answers with a token and user, a registration
    with success, either may fail; answers may arrive in any order), or an
    event of the rest of the application. *)
Inductive login_step : login_world -> login_world -> Prop :=
| ls_ui s p a ev :
    login_mounted s = true -> login_ui_event (render_login s) a = Some ev ->
    login_step (s, p)
      ((shell_handler s ev).1, (p ++ posted (loginKey s) (shell_handler s ev).2)%list)
| ls_login_ok s p1 body k p2 tok usr :
    login_step (s, (p1 ++ ("/auth/login", body, k) :: p2)%list)
      ((shell_handler s (LoginSucceeded k tok usr)).1, (p1 ++ p2)%list)
| ls_register_ok s p1 body k p2 :
    login_step (s, (p1 ++ ("/auth/register", body, k) :: p2)%list)
      ((shell_handler s (RegisterSucceeded k)).1, (p1 ++ p2)%list)
| ls_failed s p1 rq p2 detail :
    login_step (s, (p1 ++ rq :: p2)%list)
      ((shell_handler s (AuthFailed (req_key rq) detail)).1, (p1 ++ p2)%list)
| ls_env s p ev :
    env_event ev = true -> login_step (s, p) ((shell_handler s ev).1, p).

(** What a request that passed the form's validation carries. *)
Definition request_valid (rq : auth_request) : Prop :=
  let '(ep, body, _) := rq in
  valid_email (email body) = true /\ js_truthy (password body) = true /\
  (ep = "/auth/login" \/ (ep = "/auth/register" /\ js_truthy (username body) = true)).

(** The pending requests of the [Login] on screen. *)
Definition cur_requests (s : session) (p : list auth_request) : list auth_request :=
  List.filter (fun rq => Nat.eqb (req_key rq) (loginKey s)) p.

(** The [Login] instance's part of the invariant: no request of a later
    instance, and while it is on screen at most one request of its own,
    pending exactly while [loading] is set. *)
Definition mount_inv (s : session) (p : list auth_request) : Prop :=
  Forall (fun rq => (req_key rq <= loginKey s)%nat) p /\
  (login_mounted s = true ->
   (List.length (cur_requests s p) <= 1)%nat /\ (loginLoading s = true <-> cur_requests s p <> [])).

Definition login_inv (w : login_world) : Prop := Forall request_valid w.2 /\ mount_inv w.1 w.2.

(** ** Lemmas *)

Lemma valid_email_truthy e : valid_email e = true -> js_truthy e = true.
Proof. destruct e; [discriminate | reflexivity]. Qed.

Lemma input_valid_required tid ty v :
  String.eqb ty "email" = false -> input_valid (LoginInput tid ty v true) = js_truthy v.
Proof. intros E. unfold input_valid. cbn. rewrite E. now destruct (js_truthy v). Qed.

Lemma input_valid_email tid e : input_valid (LoginInput tid "email" e true) = valid_email e.
Proof.
  unfold input_valid. cbn. destruct (js_truthy e) eqn:E; [reflexivity|].
  apply js_truthy_false in E as ->. reflexivity.
Qed.

(** The submit control raises [SubmitAuth] exactly when the button is
    enabled and the inputs of the current mode pass validation. *)
Lemma submit_enabled s :
  login_ui_event (render_login s) ClickSubmit = Some SubmitAuth <->
  loginLoading s = false /\ valid_email (email (formData s)) = true /\
  js_truthy (password (formData s)) = true /\
  (isLogin s = false -> js_truthy (username (formData s)) = true).
Proof.
  unfold login_ui_event, render_login. cbn [lg_submit_disabled lg_inputs].
  destruct (loginLoading s); [split; [discriminate | intuition discriminate]|].
  destruct (isLogin s); cbn [app forallb negb];
    rewrite ?input_valid_email, ?input_valid_required by reflexivity;
    destruct (valid_email _), (js_truthy (password _)); cbn;
    try destruct (js_truthy (username _)); cbn; intuition congruence.
Qed.

Lemma login_ui_event_cases v a ev :
  login_ui_event v a = Some ev ->
  (a = ClickSubmit /\ ev = SubmitAuth) \/ ev = ToggleMode \/ exists e, ev = EditLogin e.
Proof.
  destruct a as [tid x| |]; cbn.
  - destruct (existsb _ _); [|discriminate]. destruct (input_edit tid x); [|discriminate].
    intros [= <-]. eauto.
  - destruct (lg_submit_disabled v), (forallb input_valid (lg_inputs v)); intros; simplify_eq; auto.
  - intros [= <-]. auto.
Qed.

Lemma Forall_drop {A} (P : A -> Prop) l1 x l2 :
  Forall P (l1 ++ x :: l2)%list -> Forall P (l1 ++ l2)%list /\ P x.
Proof.
  rewrite !Forall_app. intros [H1 H2]. inversion H2; subst. auto.
Qed.

Lemma cur_requests_app s p q :
  cur_requests s (p ++ q)%list = (cur_requests s p ++ cur_requests s q)%list.
Proof. apply List.filter_app. Qed.

(** No pending request belongs to an instance mounted after all of them. *)
Lemma cur_requests_fresh s k p :
  Forall (fun rq => (req_key rq <= k)%nat) p -> loginKey s = S k -> cur_requests s p = [].
Proof.
  intros Hle Hk. unfold cur_requests. rewrite Hk.
  induction Hle as [|rq p Hrq _ IH]; [reflexivity|]. cbn.
  replace (Nat.eqb (req_key rq) (S k)) with false by (symmetry; apply Nat.eqb_neq; lia).
  exact IH.
Qed.

(** The instance part of the invariant survives the router: a kept
    [Login] keeps its state, a fresh one has no request of its own. *)
Lemma mount_step_inv before raw p :
  Forall (fun rq => (req_key rq <= loginKey raw)%nat) p ->
  (login_mounted before = true -> login_mounted raw = true ->
   (List.length (cur_requests raw p) <= 1)%nat /\
   (loginLoading raw = true <-> cur_requests raw p <> [])) ->
  mount_inv (mount_login before raw) p.
Proof.
  intros Hle Hcur.
  destruct (mount_login_cases before raw)
    as [(Hm & Hb & Hr & _ & _ & Hl & Hk) | [(Hm & Hk & Hl) | (Hm & Hk)]].
  - unfold mount_inv, cur_requests in *. rewrite Hk, Hl. split; [exact Hle|]. intros _. exact (Hcur Hb Hr).
  - split.
    + rewrite Hk. eapply Forall_impl; [exact Hle|]. cbn. intros rq H. lia.
    + intros _. rewrite (cur_requests_fresh _ _ _ Hle Hk), Hl. cbn.
      split; [lia | split; [discriminate | now intros []]].
  - split; [rewrite Hk; exact Hle | intros H; rewrite Hm in H; discriminate].
Qed.

Lemma event_handler_key s ev : loginKey (shell_event_handler s ev).1 = loginKey s.
Proof.
  destruct ev; cbn; try reflexivity; unfold login_set; destruct (login_live _ _); reflexivity.
Qed.

Lemma rtc_eq_l {A} (R : relation A) x x' z : x = x' -> rtc R x' z -> rtc R x z.
Proof. now intros ->. Qed.

Lemma shell_handler_unfold s ev :
  shell_handler s ev = (mount_login s (shell_event_handler s ev).1, (shell_event_handler s ev).2).
Proof. unfold shell_handler. now destruct (shell_event_handler s ev). Qed.

Lemma cur_requests_key s s' p : loginKey s = loginKey s' -> cur_requests s p = cur_requests s' p.
Proof. unfold cur_requests. now intros ->. Qed.

(** A control of the page: a submission adds the one request of the
    instance, the other controls neither post nor touch [loading]. *)
Lemma ui_step_inv s p a ev :
  login_mounted s = true -> login_ui_event (render_login s) a = Some ev -> login_inv (s, p) ->
  login_inv ((shell_handler s ev).1, (p ++ posted (loginKey s) (shell_handler s ev).2)%list).
Proof.
  intros Hm Hui [Hval [Hle Hcur]]. cbn [fst snd] in Hval, Hle, Hcur. rewrite shell_handler_unfold. cbn [fst snd].
  destruct (login_ui_event_cases _ _ _ Hui) as [[-> ->] | [-> | [e ->]]].
  - apply submit_enabled in Hui as (Hl & He & Hpw & Hu). cbn. split.
    + apply Forall_app; split; [exact Hval|]. constructor; [|constructor]. cbn.
      split_and!; [exact He | exact Hpw |].
      destruct (isLogin s); [now left | right; split; [reflexivity | now apply Hu]].
    + apply mount_step_inv.
      * apply Forall_app; split; [exact Hle | constructor; [cbn; lia | constructor]].
      * intros _ _. destruct (Hcur Hm) as [_ Hiff]. rewrite Hl in Hiff.
        assert (H0 : cur_requests s p = []).
        { destruct (cur_requests s p) as [|x l]; [reflexivity|].
          exfalso. assert (H : false = true) by (apply Hiff; discriminate). discriminate. }
        cbn [snd]. rewrite (cur_requests_key _ s) by reflexivity. rewrite cur_requests_app, H0.
        unfold cur_requests. cbn. rewrite Nat.eqb_refl. cbn.
        split; [lia | split; [discriminate | reflexivity]].
  - cbn. rewrite List.app_nil_r. split; [exact Hval|].
    apply mount_step_inv; [exact Hle | intros _ _; exact (Hcur Hm)].
  - cbn. rewrite List.app_nil_r. split; [exact Hval|].
    apply mount_step_inv; [exact Hle | intros _ _; exact (Hcur Hm)].
Qed.

(** An answer that [Login] handles: its setters act on the instance that
    sent the request, and only while that instance is on screen. *)
Lemma answer_inv s p1 rq p2 il :
  login_inv (s, (p1 ++ rq :: p2)%list) ->
  login_inv (mount_login s (login_set s (req_key rq) il false), (p1 ++ p2)%list).
Proof.
  intros [Hval [Hle Hcur]]. cbn [fst snd] in Hval, Hle, Hcur. apply Forall_drop in Hval as [Hval _]. apply Forall_drop in Hle as [Hle _].
  split; [exact Hval|]. apply mount_step_inv.
  - unfold login_set. destruct (login_live s (req_key rq)); exact Hle.
  - intros Hm _. cbn [snd]. destruct (Hcur Hm) as [Hlen Hiff].
    unfold login_set, login_live. rewrite Hm. cbn [andb]. unfold cur_requests in *.
    rewrite !List.filter_app in *. cbn [List.filter] in Hlen, Hiff.
    destruct (Nat.eqb (loginKey s) (req_key rq)) eqn:Ek; rewrite Nat.eqb_sym, Ek in Hlen, Hiff.
    + cbn [loginKey loginLoading with_login]. rewrite length_app in Hlen. cbn in Hlen.
      destruct (List.filter _ p1), (List.filter _ p2); cbn in Hlen; try lia.
      cbn. split; [lia | split; [discriminate | now intros []]].
    + exact (conj Hlen Hiff).
Qed.

(** A successful login signs in, and no location renders [Login] then. *)
Lemma login_ok_inv s p1 rq p2 tok usr :
  login_inv (s, (p1 ++ rq :: p2)%list) ->
  login_inv ((shell_handler s (LoginSucceeded (req_key rq) tok usr)).1, (p1 ++ p2)%list).
Proof.
  intros [Hval [Hle Hcur]]. cbn [fst snd] in Hval, Hle, Hcur. apply Forall_drop in Hval as [Hval _]. apply Forall_drop in Hle as [Hle _].
  rewrite shell_handler_unfold. split; [exact Hval|]. apply mount_step_inv.
  - rewrite event_handler_key. exact Hle.
  - intros _ Hr. exfalso. rewrite auth_not_mounted in Hr; [discriminate|].
    cbn. destruct (login_live _ _); reflexivity.
Qed.

Lemma env_inv s p ev :
  env_event ev = true -> login_inv (s, p) -> login_inv ((shell_handler s ev).1, p).
Proof.
  intros Henv [Hval [Hle Hcur]]. cbn [fst snd] in Hval, Hle, Hcur. rewrite shell_handler_unfold. split; [exact Hval|].
  apply mount_step_inv; [rewrite event_handler_key; exact Hle|].
  intros Hm _. destruct ev; try discriminate Henv; exact (Hcur Hm).
Qed.

Lemma login_step_inv w w' : login_step w w' -> login_inv w -> login_inv w'.
Proof.
  destruct 1 as [s p a ev Hm Hui|s p1 body k p2 tok usr|s p1 body k p2|s p1 rq p2 d|s p ev Henv].
  - exact (ui_step_inv s p a ev Hm Hui).
  - apply (login_ok_inv s p1 ("/auth/login", body, k)).
  - rewrite shell_handler_unfold. apply (answer_inv s p1 ("/auth/register", body, k)).
  - rewrite shell_handler_unfold. apply answer_inv.
  - now apply env_inv.
Qed.

(** Evaluates the world reached so far, so that a run is checked one
    step at a time on concrete states. *)
Ltac norm_world :=
  match goal with
  | |- rtc ?R ?a ?b => let a' := eval vm_compute in a in apply (rtc_eq_l R a a' b); [reflexivity|]
  end.

(** ** Properties of the page *)

(** C8: One request per mounted [Login], and only valid ones.  From any
    session whose [Login], if on screen, is not loading, along every
    sequence of clicks and typing on the [Login] page on screen, answers to
    pending requests in any order (success or failure, in either mode) and
    navigation, App start-up or logout: every pending request carries a
    valid e-mail address, a non-empty password and, for a registration, a
    non-empty username; and the [Login] on screen has at most one request
    of its own pending, exactly while its [loading] (which shows "Please
    wait..." and disables the submit button) is set.  The guard is per
    mounted instance: leaving the page and coming back mounts a fresh
    [Login] whose button is enabled while the old request is still
    pending, and an answer to the old request does not touch it. *)
Theorem login_requests_per_mount s0 s p :
  (login_mounted s0 = true -> loginLoading s0 = false) ->
  rtc login_step (s0, []) (s, p) ->
  Forall request_valid p /\
  (login_mounted s = true ->
   (List.length (cur_requests s p) <= 1)%nat /\ (loginLoading s = true <-> cur_requests s p <> [])).
Proof.
  intros H0 Hrun.
  assert (Hinv : login_inv (s, p)).
  { apply (rtc_ind_r (R := login_step) login_inv) with (x := (s0, [])); [| |exact Hrun].
    - split; [constructor|]. split; [constructor|]. intros Hm. cbn. rewrite (H0 Hm).
      split; [lia | split; [discriminate | now intros []]].
    - intros w1 w2 _ Hstep IH. exact (login_step_inv w1 w2 Hstep IH). }
  destruct Hinv as [Hval [_ Hcur]]. exact (conj Hval Hcur).
Qed.

(** Two requests in flight: sign in, go back to a protected page while the
    first request is pending (the guard redirects to "/login" and mounts a
    new [Login]), and sign in again; the new [Login] has one request of its
    own. *)
Lemma login_requests_per_mount_witness :
  exists s p, rtc login_step (session_boot None None "/login", []) (s, p) /\
    List.length p = 2%nat /\ login_mounted s = true /\ loginLoading s = true /\
    List.length (cur_requests s p) = 1%nat.
Proof.
  eexists _, _.
  match goal with |- rtc login_step ?a ?b /\ _ => assert (Hrun : rtc login_step a b) end.
  { eapply rtc_l; [apply (ls_env _ _ AppMounted); reflexivity | norm_world].
    eapply rtc_l; [apply (ls_ui _ _ (TypeInto "email-input" "officer@pds.gov.in")); reflexivity | norm_world].
    eapply rtc_l; [apply (ls_ui _ _ (TypeInto "password-input" "secret")); reflexivity | norm_world].
    eapply rtc_l; [apply (ls_ui _ _ ClickSubmit); reflexivity | norm_world].
    eapply rtc_l; [apply (ls_env _ _ (NavigateTo "/users")); reflexivity | norm_world].
    eapply rtc_l; [apply (ls_ui _ _ (TypeInto "email-input" "officer@pds.gov.in")); reflexivity | norm_world].
    eapply rtc_l; [apply (ls_ui _ _ (TypeInto "password-input" "secret")); reflexivity | norm_world].
    eapply rtc_l; [apply (ls_ui _ _ ClickSubmit); reflexivity | norm_world].
    apply rtc_refl. }
  destruct (login_requests_per_mount (session_boot None None "/login") _ _ (fun H => eq_refl) Hrun)
    as (_ & Hcur).
  destruct (Hcur eq_refl) as (Hle & Hiff).
  split; [exact Hrun|]. split; [reflexivity|]. split; [reflexivity|].
  split; [apply Hiff; discriminate | reflexivity].
Defined.
