(* ===== verification/LayoutView.v ===== *)
(** What the [Layout] component of [src/unnamed/part_000] (lines 209-311)
    renders around every protected page: the signed-in user's name and
    e-mail read back with [JSON.parse] from [localStorage], the logout
    button and the five menu buttons with the active one highlighted.  A
    render that throws (a stored user that is not JSON, a [null] user, an
    object where text is expected) unmounts the page; it is [None]. *)

From S2P Require Import Prelude Value Json AppShell.
From stdpp Require Import pretty.
Local Open Scope string_scope.

(** ** JavaScript values as the component reads them *)

(** [localStorage.setItem("user", JSON.stringify(response.data.user))]:
    [JSON.stringify(undefined)] is [undefined], which [setItem] stores as
    the string ["undefined"]. *)
Definition stored_user_json (user : option value) : string :=
  match user with
  | Some v => json_stringify v
  | None => "undefined"
  end.

(** Truthiness of a property value ([None] is [undefined]). *)
Definition js_value_truthy (v : option value) : bool :=
  match v with
  | None => false
  | Some (VStr s) => js_truthy s
  | Some (VNum n) => negb (Z.eqb n 0)
  | Some (VBool b) => b
  | Some VNull => false
  | Some (VArr _) | Some (VDoc _) => true
  end.

(** [v.key]: a missing property is [undefined]; reading one of [null]
    throws ([None]). *)
Definition js_get (v : value) (key : string) : option (option value) :=
  match v with
  | VDoc fields => Some (doc_get fields key)
  | VNull => None
  | _ => Some None
  end.

(** The text React renders for a child: nothing for [undefined], [null] and
    booleans, strings and numbers as text, arrays item by item; an object
    throws ("Objects are not valid as a React child"). *)
Fixpoint react_text (v : value) : option string :=
  match v with
  | VStr s => Some s
  | VNum n => Some (pretty n)
  | VBool _ | VNull => Some ""
  | VArr items =>
      (fix go (l : list value) : option string :=
         match l with
         | [] => Some ""
         | x :: l' =>
             match react_text x, go l' with
             | Some a, Some b => Some (a ++ b)
             | _, _ => None
             end
         end) items
  | VDoc _ => None
  end.

Definition react_child (v : option value) : option string :=
  match v with
  | None => Some ""
  | Some x => react_text x
  end.

(** ** The component *)

(** [JSON.parse(localStorage.getItem("user") || '{}')]. *)
Definition layout_user (stored : option string) : result json_error value :=
  json_parse (match stored with
              | Some u => if js_truthy u then u else "{}"
              | None => "{}"
              end).

(** A menu button: its [data-testid], its label and whether it carries the
    active classes ([location.pathname === item.path]). *)
Definition menu_button (path : string) (i : menu_item) : string * string * bool :=
  (mi_testId i, mi_label i, String.eqb path (mi_path i)).

Record layout_view := LayoutView {
  (** [{user.username || 'Admin'}] and [{user.email}]. *)
  lv_username : string;
  lv_email : string;
  lv_menu : list (string * string * bool)
}.

Definition render_layout (s : session) : option layout_view :=
  match layout_user (stored_user s) with
  | Err _ => None
  | Ok user =>
      match js_get user "username" with
      | None => None
      | Some un =>
          match react_child (if js_value_truthy un then un else Some (VStr "Admin")) with
          | None => None
          | Some name =>
              match js_get user "email" with
              | None => None
              | Some em =>
                  match react_child em with
                  | None => None
                  | Some mail => Some (LayoutView name mail (map (menu_button (location s)) menuItems))
                  end
              end
          end
      end
  end.

(** The buttons of the component and the events they raise. *)
Inductive layout_button : Type :=
| LogoutButton
| NavButton (testId : string).

Definition layout_button_event (b : layout_button) : option shell_event :=
  match b with
  | LogoutButton => Some Logout
  | NavButton tid =>
      match List.find (fun i => String.eqb (mi_testId i) tid) menuItems with
      | Some i => Some (NavigateTo (mi_path i))
      | None => None
      end
  end.

(** ** Lemmas *)

Lemma stringify_truthy v : js_truthy (json_stringify v) = true.
Proof. destruct (stringify_head v) as (c & r & -> & _). reflexivity. Qed.

Lemma login_stored_user s k tok usr :
  stored_user (login_succeeded s k tok usr).1 = Some usr.
Proof. unfold login_succeeded. cbn. now destruct (login_live s k). Qed.

Lemma login_location s k tok usr : location (login_succeeded s k tok usr).1 = location s.
Proof. unfold login_succeeded. cbn. now destruct (login_live s k). Qed.

Lemma layout_user_stored v :
  json_wf v -> layout_user (Some (json_stringify v)) = Ok v.
Proof.
  intros Hwf. unfold layout_user, json_parse. rewrite stringify_truthy.
  rewrite <- (string_app_empty_r (json_stringify v)).
  rewrite (parses_back_all v Hwf); [reflexivity | exact I | lia].
Qed.

(** ** Properties of the component *)

(** C18: The header shows the user stored at login.  After a successful
    login whose response carries a user object (each key once) with string
    [username] and [email], the Layout reads it back from storage and shows
    the username, or "Admin" when it is empty, and the e-mail, above the
    five menu buttons; after a logout it shows "Admin" and no e-mail. *)
Theorem layout_shows_stored_user s k tok fs u e :
  json_wf (VDoc fs) -> doc_get fs "username" = Some (VStr u) -> doc_get fs "email" = Some (VStr e) ->
  render_layout (login_succeeded s k tok (stored_user_json (Some (VDoc fs)))).1 =
    Some (LayoutView (if js_truthy u then u else "Admin") e (map (menu_button (location s)) menuItems)) /\
  render_layout (handleLogout s).1 = Some (LayoutView "Admin" "" (map (menu_button "/login") menuItems)).
Proof.
  intros Hwf Hu He. split; [|reflexivity].
  unfold render_layout. rewrite login_stored_user, login_location. cbn [stored_user_json].
  rewrite layout_user_stored by exact Hwf. cbn [js_get]. rewrite Hu, He.
  cbn [js_value_truthy react_child react_text]. destruct (js_truthy u); reflexivity.
Qed.

Lemma layout_shows_stored_user_witness :
  render_layout (login_succeeded (session_boot None None "/login") 0 "jwt"
    (stored_user_json (Some (VDoc [("username", VStr "asha"); ("email", VStr "asha@pds.in")])))).1 =
  Some (LayoutView "asha" "asha@pds.in" (map (menu_button "/login") menuItems)).
Proof.
  exact (proj1 (layout_shows_stored_user (session_boot None None "/login") 0 "jwt"
    [("username", VStr "asha"); ("email", VStr "asha@pds.in")] "asha" "asha@pds.in"
    ltac:(repeat constructor; set_solver) eq_refl eq_refl)).
Defined.



