(* ===== verification/ApiGuide.v ===== *)
(** The endpoint list of the running guide ([src/unnamed/part_003], section
    "API Endpoints") against the requests the pages send.  Every page's
    request is written as the method and URL its [axios] call builds below
    [API = `${BACKEND_URL}/api`]; the guide's templates ([{user_id}] is any
    non-empty path segment) are matched segment by segment against the URL
    without its query string. *)

From S2P Require Import Prelude UsersPage AlertsPage TransactionsPage DashboardPage.
From S2P Require Import AnalyticsPage AppShell.
Local Open Scope string_scope.

(** ** Methods, URLs and the guide's endpoints *)

Inductive http_method : Type := GET | POST | PATCH.

#[export] Instance http_method_eq_dec : EqDecision http_method.
Proof. solve_decision. Defined.

(** [`${API}${path}`], written from the server root. *)
Definition api (path : string) : string := "/api" ++ path.

(** [process.env.REACT_APP_BACKEND_URL], fixed when the app is built from
    its [.env]; a missing variable is [undefined]. *)
Definition BACKEND_URL (env : list (string * string)) : option string :=
  option_map snd (List.find (fun kv => String.eqb kv.1 "REACT_APP_BACKEND_URL") env).

(** The URL axios requests: [`${BACKEND_URL}/api`] followed by the path,
    where a template turns [undefined] into the text "undefined". *)
Definition request_url (env : list (string * string)) (line : string) : string :=
  match BACKEND_URL env with Some u => u | None => "undefined" end ++ line.

(** [frontend/.env] as the reports give it. *)
Definition frontend_env : list (string * string) :=
  [("REACT_APP_BACKEND_URL", "http://localhost:8000")].

(** The endpoints the guide lists, in its order. *)
Definition guide_endpoints : list (http_method * string) :=
  [(POST, "/api/auth/register"); (POST, "/api/auth/login");
   (GET, "/api/users"); (POST, "/api/users"); (GET, "/api/users/{user_id}");
   (GET, "/api/fraud-alerts");
   (GET, "/api/analytics/fraud-by-type"); (GET, "/api/analytics/fraud-by-district");
   (GET, "/api/analytics/daily-transactions"); (GET, "/api/transactions"); (GET, "/api/shops")].

(** The path of a URL: what precedes its first [?]. *)
Definition url_path (url : string) : string := List.hd "" (split_on "?" url).

(** A template segment [{name}] matches any non-empty segment. *)
Definition segment_matches (tmpl seg : string) : bool :=
  match tmpl with
  | String "{" _ => js_truthy seg
  | _ => String.eqb tmpl seg
  end.

Fixpoint segments_match (ts ss : list string) : bool :=
  match ts, ss with
  | [], [] => true
  | t :: ts', s :: ss' => segment_matches t s && segments_match ts' ss'
  | _, _ => false
  end.

Definition template_matches (tmpl url : string) : bool :=
  segments_match (split_on "/" tmpl) (split_on "/" (url_path url)).

Definition documented (line : http_method * string) : bool :=
  existsb (fun e => bool_decide (e.1 = line.1) && template_matches e.2 line.2) guide_endpoints.

(** ** The pages' requests *)

Inductive page_request : Type :=
| UsersRequest (r : request)
| AlertsRequest (r : alert_request)
| TxnsRequest
| DashRequest (r : dash_request)
| AnalyticsRequest (r : Analytics.analytics_request)
| AuthRequest (endpoint : string).

(** [Users.js]: [fetchUsers], [handleAddUser], [handleUpdateStatus],
    [handleVerifyUser], [handleScanUser]. *)
Definition users_request_line (r : request) : http_method * string :=
  match r with
  | GetUsers => (GET, api "/users")
  | PostUser _ => (POST, api "/users")
  | PatchUserStatus uid st => (PATCH, api ("/users/" ++ uid ++ "/status?status=" ++ st))
  | PostVerify uid => (POST, api ("/users/" ++ uid ++ "/verify"))
  | PostScan uid => (POST, api ("/fraud-alerts/scan/" ++ uid))
  end.

(** [FraudAlerts.js]: [fetchAlerts], [handleUpdateAlert] (the status goes in
    the body), [viewAlertDetails]. *)
Definition alerts_request_line (r : alert_request) : http_method * string :=
  match r with
  | GetAlerts => (GET, api "/fraud-alerts")
  | GetAlertUser uid => (GET, api ("/users/" ++ uid))
  | PatchAlert aid _ => (PATCH, api ("/fraud-alerts/" ++ aid))
  end.

(** [Dashboard.js]: the four requests of [fetchDashboardData]. *)
Definition dash_request_line (r : dash_request) : http_method * string :=
  match r with
  | GetDashboard => (GET, api "/analytics/dashboard")
  | GetFraudByType => (GET, api "/analytics/fraud-by-type")
  | GetFraudByDistrict => (GET, api "/analytics/fraud-by-district")
  | GetTransactionsTrend => (GET, api "/analytics/transactions-trend")
  end.

Definition page_request_line (r : page_request) : http_method * string :=
  match r with
  | UsersRequest r => users_request_line r
  | AlertsRequest r => alerts_request_line r
  | TxnsRequest => (GET, api "/transactions")
  | DashRequest r => dash_request_line r
  | AnalyticsRequest (Analytics.AnGet p) => (GET, api p)
  | AnalyticsRequest (Analytics.AnPost p) => (POST, api p)
  | AuthRequest endpoint => (POST, api endpoint)
  end.

(** ** Specification *)

(** An identifier the pages put in a URL: non-empty, without [/] or [?]
    (the store's identifiers are ["uuid-<n>"]). *)
Definition id_ok (uid : string) : bool :=
  js_truthy uid && negb (has_char "/" uid) && negb (has_char "?" uid).

(** The requests the analytics page and the login form can send. *)
Definition analytics_sends (r : Analytics.analytics_request) : bool :=
  match r with
  | Analytics.AnGet p =>
      existsb (String.eqb p) ["/analytics/fraud-by-type"; "/analytics/fraud-by-district";
                              "/analytics/transactions-trend"; "/ml/status"]
  | Analytics.AnPost p => String.eqb p "/ml/train"
  end.

Definition auth_sends (endpoint : string) : bool :=
  String.eqb endpoint "/auth/login" || String.eqb endpoint "/auth/register".

Definition request_ok (r : page_request) : bool :=
  match r with
  | UsersRequest (PatchUserStatus uid _ | PostVerify uid | PostScan uid) => id_ok uid
  | AlertsRequest (GetAlertUser uid | PatchAlert uid _) => id_ok uid
  | AnalyticsRequest r => analytics_sends r
  | AuthRequest e => auth_sends e
  | _ => true
  end.

(** The requests whose endpoint the guide lists. *)
Definition guide_lists (r : page_request) : bool :=
  match r with
  | UsersRequest (GetUsers | PostUser _) => true
  | AlertsRequest (GetAlerts | GetAlertUser _) => true
  | TxnsRequest => true
  | DashRequest (GetFraudByType | GetFraudByDistrict) => true
  | AnalyticsRequest (Analytics.AnGet p) =>
      String.eqb p "/analytics/fraud-by-type" || String.eqb p "/analytics/fraud-by-district"
  | AuthRequest _ => true
  | _ => false
  end.

(** ** Lemmas *)

Lemma id_ok_spec uid :
  id_ok uid = true <->
  js_truthy uid = true /\ has_char "/" uid = false /\ has_char "?" uid = false.
Proof.
  unfold id_ok. rewrite !andb_true_iff, !negb_true_iff. tauto.
Qed.

Lemma existsb_eqb_In p l : existsb (String.eqb p) l = true -> In p l.
Proof.
  rewrite existsb_exists. intros (q & Hq & E). apply String.eqb_eq in E. now subst.
Qed.

(** Computes [documented] on a URL built around an identifier whose
    characters are known not to be [/] or [?]. *)
Ltac url_compute Hslash Hq :=
  unfold documented, template_matches, url_path, api; cbn [page_request_line users_request_line alerts_request_line];
  autorewrite with str_rw; simpl;
  rewrite ?(split_on_app_nochar "?" _ _ Hq), ?(split_on_nochar "?" _ Hq);
  autorewrite with str_rw; simpl;
  rewrite ?(split_on_app_nochar "/" _ _ Hslash), ?(split_on_nochar "/" _ Hslash);
  autorewrite with str_rw; simpl.

Lemma requests_documented r :
  request_ok r = true -> documented (page_request_line r) = guide_lists r.
Proof.
  destruct r as [[| |uid st|uid|uid]|[|uid|aid st]| |[]|[p|p]|e]; cbn [request_ok]; intros Hok;
    try (apply id_ok_spec in Hok as (Ht & Hs & Hq)).
  all: try reflexivity.
  (* the analytics page's reads, [POST /ml/train], the login form *)
  all: try (apply existsb_eqb_In in Hok; repeat destruct Hok as [<-|Hok]; try reflexivity;
            contradiction).
  all: try (apply String.eqb_eq in Hok; now subst).
  all: try (apply orb_true_iff in Hok as [Hok|Hok]; apply String.eqb_eq in Hok; now subst).
  (* the URLs carrying an identifier *)
  all: url_compute Hs Hq; now rewrite ?Ht.
Qed.

(** The analytics page and the login form only send the requests
    [analytics_sends] and [auth_sends] list, in any run. *)
Lemma analytics_run_sends s evs r :
  In (Analytics.AnSend r) (Analytics.analytics_run s evs).2 -> analytics_sends r = true.
Proof.
  revert s. induction evs as [|ev evs IH]; intros s; [contradiction|]. simpl.
  destruct (Analytics.analytics_step s ev) as [s1 e1] eqn:E.
  destruct (Analytics.analytics_run s1 evs) as [s2 e2] eqn:E2. simpl.
  rewrite in_app_iff. intros [Hin|Hin]; [|apply (IH s1); now rewrite E2].
  destruct ev as [| | |[]|]; simpl in E; injection E as <- <-; simpl in Hin;
    repeat destruct Hin as [Hin|Hin]; try discriminate; try contradiction;
    injection Hin as <-; reflexivity.
Qed.

Lemma shell_run_sends s evs e f :
  In (PostAuth e f) (shell_run s evs).2 -> auth_sends e = true.
Proof.
  revert s. induction evs as [|ev evs IH]; intros s; [contradiction|]. simpl.
  destruct (shell_handler s ev) as [s1 e1] eqn:E.
  destruct (shell_run s1 evs) as [s2 e2] eqn:E2. simpl.
  rewrite in_app_iff. intros [Hin|Hin]; [|apply (IH s1); now rewrite E2].
  destruct ev; simpl in E; injection E as <- <-; simpl in Hin;
    repeat destruct Hin as [Hin|Hin]; try discriminate; try contradiction.
  injection Hin as <- _. unfold auth_sends. now destruct (isLogin s).
Qed.

Lemma guide_unrequested_endpoints r :
  request_ok r = true ->
  page_request_line r <> (GET, api "/analytics/daily-transactions") /\
  page_request_line r <> (GET, api "/shops").
Proof.
  destruct r as [[| |uid st|uid|uid]|[|uid|aid st]| |[]|[p|p]|e]; cbn [request_ok]; intros Hok.
  all: try (apply existsb_eqb_In in Hok; repeat destruct Hok as [<-|Hok]; [..|contradiction]).
  all: try (apply String.eqb_eq in Hok; subst).
  all: try (apply orb_true_iff in Hok as [Hok|Hok]; apply String.eqb_eq in Hok; subst).
  all: split; intros H; apply (f_equal snd) in H; vm_compute in H; discriminate.
Qed.

(** ** Property *)

(** C24: The guide's endpoint list against the pages.  For every request a
    page sends (identifiers being non-empty path segments), the guide lists
    its method and path exactly for the reads of users, alerts, a user,
    transactions and the two fraud charts, the creation of a user and the
    two authentication posts; it does not list the user status, verify and
    scan calls, the alert update, the dashboard numbers, the transaction
    trend, the model status or training.  No page requests the guide's
    [/api/analytics/daily-transactions] or [/api/shops]. *)
Theorem frontend_requests_vs_guide r :
  request_ok r = true ->
  documented (page_request_line r) = guide_lists r /\
  page_request_line r <> (GET, api "/analytics/daily-transactions") /\
  page_request_line r <> (GET, api "/shops").
Proof.
  intros Hok. split; [now apply requests_documented | now apply guide_unrequested_endpoints].
Qed.

Lemma frontend_requests_vs_guide_witness :
  documented (page_request_line (AlertsRequest (GetAlertUser "uuid-1"))) = true /\
  documented (page_request_line (DashRequest GetTransactionsTrend)) = false.
Proof.
  split.
  - exact (proj1 (frontend_requests_vs_guide (AlertsRequest (GetAlertUser "uuid-1")) eq_refl)).
  - exact (proj1 (frontend_requests_vs_guide (DashRequest GetTransactionsTrend) eq_refl)).
Defined.
