(* ===== verification/GuideScript.v ===== *)
(** The Python test script of the running guide ([src/unnamed/part_003],
    "Using Python"): register, log in, create a user with the bearer token,
    list the users, printing each status.  The script runs in a small monad
    of our own ([py]) over a world holding the server's state, the printed
    lines and the requests sent; an exception ([KeyError], [TypeError], a
    body that is not JSON) stops it with what it has printed so far.  The
    server is a parameter; [serve_users] answers the two [/api/users]
    routes with the [create_user] handler over a users collection. *)

From S2P Require Import Prelude StableSort Value Matcher Cursor Collection Store CreateUser.
From S2P Require Import AppShell ApiGuide.
From stdpp Require Import pretty.
Local Open Scope string_scope.

(** ** Requests, responses and exceptions of [requests] *)

Record py_request := PyRequest {
  rq_method : http_method;
  rq_url : string;
  rq_headers : list (string * string);
  (** The [json=] argument. *)
  rq_json : option value
}.

(** [resp.status_code] and the body, [None] when it is not JSON. *)
Record py_response := PyResponse {
  status_code : Z;
  resp_json : option value
}.

Inductive py_exc : Type :=
| KeyError (key : string)
| TypeError (msg : string)
| JSONDecodeError.

Record py_world (S : Type) := PyWorld {
  server : S;
  stdout : list string;
  sent : list py_request
}.
Arguments PyWorld {S} server stdout sent.
Arguments server {S} _.
Arguments stdout {S} _.
Arguments sent {S} _.

(** A script step: from a world to a world and a value or an exception. *)
Definition py (S A : Type) : Type := py_world S -> py_world S * result py_exc A.

#[export] Instance py_ret {S} : MRet (py S) := fun A a w => (w, Ok a).

#[export] Instance py_bind {S} : MBind (py S) := fun A B k m w =>
  let (w', r) := m w in
  match r with
  | Ok a => k a w'
  | Err e => (w', Err e)
  end.

Definition raise {S A} (e : py_exc) : py S A := fun w => (w, Err e).

(** [print(line)]. *)
Definition print {S} (line : string) : py S unit :=
  fun w => (PyWorld (server w) (stdout w ++ [line])%list (sent w), Ok tt).

(** ** Python's view of JSON values *)

(** [resp.json()]. *)
Definition resp_dot_json {S} (r : py_response) : py S value :=
  match resp_json r with
  | Some v => mret v
  | None => raise JSONDecodeError
  end.

(** [v[key]] on a decoded JSON value. *)
Definition getitem {S} (v : value) (key : string) : py S value :=
  match v with
  | VDoc fields =>
      match doc_get fields key with
      | Some x => mret x
      | None => raise (KeyError key)
      end
  | VArr _ => raise (TypeError "list indices must be integers or slices, not str")
  | VStr _ => raise (TypeError "string indices must be integers, not 'str'")
  | VNum _ => raise (TypeError "'int' object is not subscriptable")
  | VBool _ => raise (TypeError "'bool' object is not subscriptable")
  | VNull => raise (TypeError "'NoneType' object is not subscriptable")
  end.

(** [len(v)]: the items of a list, the keys of a dict, the characters of a
    string. *)
Definition py_len {S} (v : value) : py S Z :=
  match v with
  | VArr items => mret (Z.of_nat (List.length items))
  | VDoc fields => mret (Z.of_nat (List.length fields))
  | VStr s => mret (Z.of_nat (String.length s))
  | VNum _ => raise (TypeError "object of type 'int' has no len()")
  | VBool _ => raise (TypeError "object of type 'bool' has no len()")
  | VNull => raise (TypeError "object of type 'NoneType' has no len()")
  end.

(** [repr] of a decoded JSON value (strings in single quotes; the escaping
    of quotes inside strings is not modelled). *)
Fixpoint py_repr (v : value) : string :=
  match v with
  | VStr s => "'" ++ s ++ "'"
  | VNum n => pretty n
  | VBool b => if b then "True" else "False"
  | VNull => "None"
  | VArr items => "[" ++ String.concat ", " (map py_repr items) ++ "]"
  | VDoc fields =>
      "{" ++ String.concat ", " (map (fun '(k, x) => "'" ++ k ++ "': " ++ py_repr x) fields) ++ "}"
  end.

(** [f"{v}"], which is [str(v)]. *)
Definition py_str (v : value) : string :=
  match v with
  | VStr s => s
  | _ => py_repr v
  end.

(** ** The script *)

Definition BASE_URL : string := "http://localhost:8000".

Definition register_json : value :=
  VDoc [("username", VStr "admin"); ("email", VStr "admin@test.com");
        ("password", VStr "Test@123")].

Definition login_json : value :=
  VDoc [("email", VStr "admin@test.com"); ("password", VStr "Test@123")].

Definition create_json : value :=
  VDoc [("aadhaar_id", VStr "123456789012"); ("name", VStr "Test User");
        ("address", VStr "123 St"); ("district", VStr "District"); ("state", VStr "State");
        ("family_size", VNum 3); ("income", VNum 50000); ("card_type", VStr "AAY");
        ("phone", VStr "9876543210")].

(** [headers = {"Authorization": f"Bearer {token}"}]. *)
Definition bearer_headers (token : value) : list (string * string) :=
  [("Authorization", "Bearer " ++ py_str token)].

Section Script.
Context {S : Type} (serve : S -> py_request -> S * py_response).

(** [requests.post]/[requests.get]: the server answers, the request is
    recorded. *)
Definition send (m : http_method) (path : string) (headers : list (string * string))
    (body : option value) : py S py_response :=
  fun w =>
    let rq := PyRequest m (BASE_URL ++ path) headers body in
    let (st', resp) := serve (server w) rq in
    (PyWorld st' (stdout w) (sent w ++ [rq])%list, Ok resp).

Definition guide_script : py S unit :=
  resp ← send POST "/api/auth/register" [] (Some register_json);
  print ("Register: " ++ pretty (status_code resp));;
  resp ← send POST "/api/auth/login" [] (Some login_json);
  j ← resp_dot_json resp;
  token ← getitem j "access_token";
  print ("Login: " ++ pretty (status_code resp));;
  resp ← send POST "/api/users" (bearer_headers token) (Some create_json);
  print ("Create User: " ++ pretty (status_code resp));;
  resp ← send GET "/api/users" (bearer_headers token) None;
  j ← resp_dot_json resp;
  n ← py_len j;
  print ("Get Users: " ++ pretty (status_code resp) ++ " - " ++ pretty n ++ " users").
End Script.

(** ** The users routes of the backend *)

(** FastAPI's validation of the body into [RationUserCreate]: every field
    present with its JSON type (pydantic's coercions are not modelled). *)
Definition json_to_user (v : value) : option ration_user_create :=
  match v with
  | VDoc f =>
      match doc_get f "aadhaar_id", doc_get f "name", doc_get f "address",
            doc_get f "district", doc_get f "state", doc_get f "family_size",
            doc_get f "income", doc_get f "card_type", doc_get f "phone" with
      | Some (VStr a), Some (VStr n), Some (VStr ad), Some (VStr di), Some (VStr st),
        Some (VNum fs), Some (VNum inc), Some (VStr ct), Some (VStr ph) =>
          Some (RationUserCreate a n ad di st fs inc ct ph)
      | _, _, _, _, _, _, _, _, _ => None
      end
  | _ => None
  end.

(** The answer of a route: the returned document, or the [HTTPException]'s
    status with [{"detail": ...}]. *)
Definition http_response (r : result http_error document) : py_response :=
  match r with
  | Ok d => PyResponse 200 (Some (VDoc d))
  | Err (HTTPException code detail) => PyResponse code (Some (VDoc [("detail", VStr detail)]))
  end.

Section UsersServer.
Context {C : Type} `{CollectionOps C}.
(** The fraud rules and the clock of [create_user]. *)
Context (detect : string -> option (list document)) (now : string).
(** [Depends(get_current_user)] on the request's headers, and its refusal. *)
Context (get_current_user : list (string * string) -> bool) (unauthorized : py_response).
(** FastAPI's answer to a body that fails validation, and the
    authentication routes. *)
Context (validation_error : py_response) (auth : py_request -> py_response).

Record users_server := UsersServer {
  srv_users : C;
  srv_alerts : C;
  (** The counter behind the fresh identities ([uuid4]). *)
  srv_next : N
}.

(** The identities of the user and of the alerts the rules raise. *)
Definition alert_ids (next : N) (count : nat) : list string :=
  map (fun k => fresh_id (next + 1 + N.of_nat k)) (seq 0 count).

Definition alert_count (uid : string) : nat :=
  match detect uid with Some found => List.length found | None => 0 end.

(** [POST /api/users] runs [create_user]; [GET /api/users] lists the users;
    every other URL goes to the authentication routes. *)
Definition serve_users (st : users_server) (rq : py_request) : users_server * py_response :=
  if String.eqb (rq_url rq) (BASE_URL ++ "/api/users") then
    if negb (get_current_user (rq_headers rq)) then (st, unauthorized)
    else match rq_method rq with
         | POST =>
             match rq_json rq ≫= json_to_user with
             | None => (st, validation_error)
             | Some u =>
                 let uid := fresh_id (srv_next st) in
                 let n := alert_count uid in
                 let '(users', alerts', r) :=
                   create_user detect (srv_users st) (srv_alerts st) uid now
                     (alert_ids (srv_next st) n) u in
                 (UsersServer users' alerts' (srv_next st + 1 + N.of_nat n), http_response r)
             end
         | GET => (st, PyResponse 200 (Some (VArr (map VDoc (co_docs (srv_users st))))))
         | PATCH => (st, PyResponse 405 (Some (VDoc [("detail", VStr "Method Not Allowed")])))
         end
  else (st, auth rq).
End UsersServer.

(** ** The requests of the script *)

Definition register_request : py_request :=
  PyRequest POST (BASE_URL ++ "/api/auth/register") [] (Some register_json).

Definition login_request : py_request :=
  PyRequest POST (BASE_URL ++ "/api/auth/login") [] (Some login_json).

Definition create_request (token : value) : py_request :=
  PyRequest POST (BASE_URL ++ "/api/users") (bearer_headers token) (Some create_json).

Definition list_request (token : value) : py_request :=
  PyRequest GET (BASE_URL ++ "/api/users") (bearer_headers token) None.

(** The body of the script's [POST /api/users], validated. *)
Definition guide_user : ration_user_create :=
  RationUserCreate "123456789012" "Test User" "123 St" "District" "State" 3 50000 "AAY"
    "9876543210".

(** ** Lemmas *)

Section ScriptFacts.
Context {S : Type} (serve : S -> py_request -> S * py_response).

(** The script against any server whose login answer carries a token and
    whose user list is a JSON list. *)
Lemma guide_script_run s0 s1 s2 s3 s4 r1 r2 r3 r4 fields token items :
  serve s0 register_request = (s1, r1) ->
  serve s1 login_request = (s2, r2) ->
  resp_json r2 = Some (VDoc fields) -> doc_get fields "access_token" = Some token ->
  serve s2 (create_request token) = (s3, r3) ->
  serve s3 (list_request token) = (s4, r4) ->
  resp_json r4 = Some (VArr items) ->
  guide_script serve (PyWorld s0 [] []) =
    (PyWorld s4
       ["Register: " ++ pretty (status_code r1); "Login: " ++ pretty (status_code r2);
        "Create User: " ++ pretty (status_code r3);
        "Get Users: " ++ pretty (status_code r4) ++ " - " ++ pretty (Z.of_nat (List.length items))
          ++ " users"]
       [register_request; login_request; create_request token; list_request token],
     Ok tt).
Proof.
  intros H1 H2 Hj2 Ht H3 H4 Hj4.
  unfold guide_script, mbind, mret, py_bind, py_ret, send, print, resp_dot_json, getitem, py_len.
  simpl. fold register_request. rewrite H1. simpl.
  fold login_request. rewrite H2, Hj2. simpl. rewrite Ht. simpl.
  fold (create_request token). rewrite H3. simpl.
  fold (list_request token). rewrite H4, Hj4. reflexivity.
Qed.
End ScriptFacts.

Lemma create_json_user : json_to_user create_json = Some guide_user.
Proof. reflexivity. Qed.

Section UsersServerFacts.
Context {C : Type} `{CollectionOps C}.
Context (detect : string -> option (list document)) (now : string).
Context (get_current_user : list (string * string) -> bool) (unauthorized : py_response).
Context (validation_error : py_response) (auth : py_request -> py_response).

Let serve := serve_users detect now get_current_user unauthorized validation_error auth.

Lemma serve_users_auth st rq :
  String.eqb (rq_url rq) (BASE_URL ++ "/api/users") = false -> serve st rq = (st, auth rq).
Proof. intros E. unfold serve, serve_users. now rewrite E. Qed.

Lemma serve_users_list st token :
  get_current_user (bearer_headers token) = true ->
  serve st (list_request token) =
    (st, PyResponse 200 (Some (VArr (map VDoc (co_docs (srv_users st)))))).
Proof.
  intros Ha. unfold serve, serve_users, list_request.
  cbn [rq_url rq_headers rq_method rq_json]. now rewrite String.eqb_refl, Ha.
Qed.

(** A [POST /api/users] whose body validates to a user with a new Aadhaar
    number: the user is stored and returned with 200. *)
Lemma serve_users_post_fresh st rq u :
  rq_url rq = BASE_URL ++ "/api/users" -> rq_method rq = POST ->
  get_current_user (rq_headers rq) = true -> rq_json rq ≫= json_to_user = Some u ->
  VStr (aadhaar_id u) ∉ aadhaar_values (srv_users st) ->
  exists st' d, serve st rq = (st', PyResponse 200 (Some (VDoc d))) /\
    co_docs (srv_users st') = (co_docs (srv_users st) ++ [d])%list /\
    doc_get d "aadhaar_id" = Some (VStr (aadhaar_id u)).
Proof.
  intros Hurl Hm Ha Hu Hfresh. unfold serve, serve_users.
  rewrite Hurl, String.eqb_refl, Ha, Hm, Hu. cbn [negb].
  destruct (create_user _ _ _ _ _ _ _) as [[users' alerts'] r] eqn:E.
  apply create_user_ok_inv in E as [(e & Hc & _)|(_ & [= -> ->])].
  - rewrite check_fresh_ok in Hc by exact Hfresh. discriminate.
  - do 2 eexists. split; [reflexivity|]. split; [apply commit_docs|].
    unfold create_user_commit. rewrite co_insert_other by discriminate. apply user_doc_aadhaar.
Qed.

Lemma serve_users_create_fresh st token :
  get_current_user (bearer_headers token) = true ->
  VStr (aadhaar_id guide_user) ∉ aadhaar_values (srv_users st) ->
  exists st' d, serve st (create_request token) = (st', PyResponse 200 (Some (VDoc d))) /\
    co_docs (srv_users st') = (co_docs (srv_users st) ++ [d])%list /\
    doc_get d "aadhaar_id" = Some (VStr (aadhaar_id guide_user)).
Proof. intros Ha. now apply serve_users_post_fresh. Qed.

(** A stored Aadhaar number: nothing is stored and the answer is 400. *)
Lemma serve_users_create_dup st token d :
  get_current_user (bearer_headers token) = true ->
  In d (co_docs (srv_users st)) -> doc_get d "aadhaar_id" = Some (VStr (aadhaar_id guide_user)) ->
  exists st', serve st (create_request token) =
    (st', PyResponse 400 (Some (VDoc [("detail", VStr "Aadhaar ID already registered")]))) /\
    srv_users st' = srv_users st.
Proof.
  intros Ha Hd Hget. unfold serve, serve_users, list_request, create_request.
  cbn [rq_url rq_headers rq_method rq_json]. rewrite String.eqb_refl, Ha. simpl. fold guide_user.
  destruct (create_user _ _ _ _ _ _ _) as [[users' alerts'] r] eqn:E.
  apply create_user_ok_inv in E as [(e & Hc & -> & ->)|(Hc & _)];
    rewrite (check_dup _ _ d Hd Hget) in Hc; [injection Hc as <-|discriminate].
  eexists. split; reflexivity.
Qed.
(** C21: The script is not idempotent.  Against the backend's users routes,
    with a login answer carrying a token the users routes accept and no
    stored user holding the script's Aadhaar number, a first run prints
    "Create User: 200" and lists one more user than were stored; a second
    run against the resulting state prints "Create User: 400" (the number
    is now registered) and lists the same number of users. *)
Theorem guide_script_twice users alerts next r1 r2 fields t :
  auth register_request = r1 -> auth login_request = r2 ->
  resp_json r2 = Some (VDoc fields) -> doc_get fields "access_token" = Some (VStr t) ->
  get_current_user (bearer_headers (VStr t)) = true ->
  VStr (aadhaar_id guide_user) ∉ aadhaar_values users ->
  let k := Z.of_nat (S (List.length (co_docs users))) in
  let w1 := (guide_script serve (PyWorld (UsersServer users alerts next) [] [])).1 in
  let w2 := (guide_script serve (PyWorld (server w1) [] [])).1 in
  stdout w1 = ["Register: " ++ pretty (status_code r1); "Login: " ++ pretty (status_code r2);
               "Create User: 200"; "Get Users: 200 - " ++ pretty k ++ " users"] /\
  stdout w2 = ["Register: " ++ pretty (status_code r1); "Login: " ++ pretty (status_code r2);
               "Create User: 400"; "Get Users: 200 - " ++ pretty k ++ " users"].
Proof.
  intros <- <- Hj2 Ht Ha Hfresh k. cbv zeta.
  assert (Hauth : forall st rq, rq = register_request \/ rq = login_request ->
                  serve st rq = (st, auth rq)).
  { intros st rq [->| ->]; apply serve_users_auth; reflexivity. }
  destruct (serve_users_create_fresh (UsersServer users alerts next) (VStr t) Ha Hfresh)
    as (st1 & d & Hc1 & Hdocs & Hget).
  rewrite (guide_script_run serve _ _ _ _ _ _ _ _ _ fields (VStr t) _
             (Hauth _ _ (or_introl eq_refl)) (Hauth _ _ (or_intror eq_refl)) Hj2 Ht Hc1
             (serve_users_list st1 _ Ha) eq_refl).
  cbn [fst server].
  assert (Hin : In d (co_docs (srv_users st1))) by (rewrite Hdocs; apply in_or_app; simpl; tauto).
  destruct (serve_users_create_dup st1 (VStr t) d Ha Hin Hget) as (st2 & Hc2 & Hst2).
  rewrite (guide_script_run serve _ _ _ _ _ _ _ _ _ fields (VStr t) _
             (Hauth _ _ (or_introl eq_refl)) (Hauth _ _ (or_intror eq_refl)) Hj2 Ht Hc2
             (serve_users_list st2 _ Ha) eq_refl).
  cbn [stdout server status_code]. rewrite Hst2, !length_map, Hdocs, length_app, Nat.add_1_r.
  split; reflexivity.
Qed.

End UsersServerFacts.

(** ** Properties of the script *)

(** What the script prints and sends.  Against any server whose login
    answer is a JSON object with an [access_token] and whose user list is
    a JSON list, the script prints exactly the four status lines (the last
    with the number of users listed) and sends exactly the four requests,
    in order; the create and list requests carry the header the frontend's
    Axios interceptor adds for the same non-empty token. *)
Theorem guide_script_prints {S} (serve : S -> py_request -> S * py_response)
    s0 s1 s2 s3 s4 r1 r2 r3 r4 fields t items :
  serve s0 register_request = (s1, r1) ->
  serve s1 login_request = (s2, r2) ->
  resp_json r2 = Some (VDoc fields) -> doc_get fields "access_token" = Some (VStr t) ->
  serve s2 (create_request (VStr t)) = (s3, r3) ->
  serve s3 (list_request (VStr t)) = (s4, r4) ->
  resp_json r4 = Some (VArr items) ->
  guide_script serve (PyWorld s0 [] []) =
    (PyWorld s4
       ["Register: " ++ pretty (status_code r1); "Login: " ++ pretty (status_code r2);
        "Create User: " ++ pretty (status_code r3);
        "Get Users: " ++ pretty (status_code r4) ++ " - " ++ pretty (Z.of_nat (List.length items))
          ++ " users"]
       [register_request; login_request; create_request (VStr t); list_request (VStr t)],
     Ok tt) /\
  (js_truthy t = true ->
   rq_headers (create_request (VStr t)) = request_headers (Some t) /\
   rq_headers (list_request (VStr t)) = request_headers (Some t)).
Proof.
  intros H1 H2 Hj2 Ht H3 H4 Hj4. split; [eapply guide_script_run; eassumption|].
  intros Htr. simpl. now rewrite Htr.
Qed.

(** A refused login stops the script.  When the login answer is a JSON
    object without [access_token] (FastAPI's [{"detail": ...}] of a 401),
    the script raises [KeyError: 'access_token'] having printed only the
    registration status and sent only the two authentication requests: no
    user is created or listed. *)
Theorem guide_script_login_failure {S} (serve : S -> py_request -> S * py_response)
    s0 s1 s2 r1 r2 fields :
  serve s0 register_request = (s1, r1) ->
  serve s1 login_request = (s2, r2) ->
  resp_json r2 = Some (VDoc fields) -> doc_get fields "access_token" = None ->
  guide_script serve (PyWorld s0 [] []) =
    (PyWorld s2 ["Register: " ++ pretty (status_code r1)] [register_request; login_request],
     Err (KeyError "access_token")).
Proof.
  intros H1 H2 Hj2 Ht.
  unfold guide_script, mbind, mret, py_bind, py_ret, send, print, resp_dot_json, getitem.
  simpl. fold register_request. rewrite H1. simpl.
  fold login_request. rewrite H2, Hj2. simpl. now rewrite Ht.
Qed.

Lemma guide_script_login_failure_witness :
  let serve (st : unit) (rq : py_request) :=
    (st, PyResponse 401 (Some (VDoc [("detail", VStr "Invalid credentials")]))) in
  guide_script serve (PyWorld tt [] []) =
    (PyWorld tt ["Register: " ++ pretty 401%Z] [register_request; login_request],
     Err (KeyError "access_token")).
Proof.
  intros serve.
  exact (guide_script_login_failure serve tt tt tt _ _ _ eq_refl eq_refl eq_refl eq_refl).
Defined.

Lemma guide_script_prints_witness :
  rq_headers (create_request (VStr "jwt")) = request_headers (Some "jwt").
Proof.
  exact (proj1 (proj2 (guide_script_prints
    (fun (st : unit) (rq : py_request) =>
       if String.eqb (rq_url rq) (BASE_URL ++ "/api/users") && bool_decide (rq_method rq = GET)
       then (st, PyResponse 200 (Some (VArr [])))
       else (st, PyResponse 200 (Some (VDoc [("access_token", VStr "jwt")]))))
    tt tt tt tt tt _ _ _ _ _ "jwt" [] eq_refl eq_refl eq_refl eq_refl eq_refl eq_refl eq_refl)
    eq_refl)).
Defined.

Lemma guide_script_twice_witness :
  let serve := serve_users (C := collection) (fun _ => None) "2025-11-13T00:00:00"
    (fun hs => bool_decide (hs = bearer_headers (VStr "jwt")))
    (PyResponse 401 None) (PyResponse 422 None)
    (fun rq => PyResponse 200 (Some (VDoc [("access_token", VStr "jwt")]))) in
  let w1 := (guide_script serve (PyWorld (UsersServer (MockCollection []) (MockCollection []) 0) [] [])).1 in
  stdout (guide_script serve (PyWorld (server w1) [] [])).1 =
    ["Register: " ++ pretty 200%Z; "Login: " ++ pretty 200%Z; "Create User: 400";
     "Get Users: 200 - " ++ pretty 1%Z ++ " users"].
Proof.
  exact (proj2 (guide_script_twice (C := collection) (fun _ => None) "2025-11-13T00:00:00"
    (fun hs => bool_decide (hs = bearer_headers (VStr "jwt")))
    (PyResponse 401 None) (PyResponse 422 None)
    (fun rq => PyResponse 200 (Some (VDoc [("access_token", VStr "jwt")])))
    (MockCollection []) (MockCollection []) 0 _ _ _ "jwt" eq_refl eq_refl eq_refl eq_refl eq_refl
    (not_elem_of_nil _))).
Defined.
