(* ===== verification/GuideCurl.v ===== *)
(** The cURL commands of the running guide ([src/unnamed/part_003], "Using
    cURL", lines 107-148): register, log in, create a user with the token
    pasted in place of [TOKEN], list the users.  Each command is its
    method, URL, [-H] headers and [-d] body text; the server decodes the
    body with [JSON.parse] ([Json.json_parse]) before validating it, so
    the commands run against the same [serve_users] routes as the Python
    script of [GuideScript]. *)

From S2P Require Import Prelude Value Json Matcher Cursor Collection Store CreateUser.
From S2P Require Import UsersPage AppShell ApiGuide GuideScript.
From stdpp Require Import pretty.
Local Open Scope string_scope.

(** ** The commands *)

Definition newline : string := String "010" "".

(** The [-d '{ ... }'] text as the guide lays it out: one member per line
    indented by four spaces, the closing brace by two. *)
Definition curl_data (members : list (string * string)) : string :=
  "{" ++ newline ++
  String.concat ("," ++ newline) (map (fun '(k, v) => "    " ++ json_quote k ++ ": " ++ v) members) ++
  newline ++ "  }".

Definition curl_register_data : string :=
  curl_data [("username", json_quote "admin"); ("email", json_quote "admin@example.com");
             ("password", json_quote "SecurePass123")].

Definition curl_login_data : string :=
  curl_data [("email", json_quote "admin@example.com"); ("password", json_quote "SecurePass123")].

Definition curl_create_data : string :=
  curl_data [("aadhaar_id", json_quote "123456789012"); ("name", json_quote "Test User");
             ("address", json_quote "Test Address"); ("district", json_quote "Test District");
             ("state", json_quote "State"); ("family_size", "3"); ("income", "50000");
             ("card_type", json_quote "AAY"); ("phone", json_quote "9876543210")].

Record curl_command := CurlCommand {
  cc_method : http_method;
  cc_url : string;
  cc_headers : list (string * string);
  cc_data : option string
}.

Definition json_header : string * string := ("Content-Type", "application/json").

Definition token_header (token : string) : string * string := ("Authorization", "Bearer " ++ token).

Definition curl_register : curl_command :=
  CurlCommand POST "http://localhost:8000/api/auth/register" [json_header] (Some curl_register_data).

Definition curl_login : curl_command :=
  CurlCommand POST "http://localhost:8000/api/auth/login" [json_header] (Some curl_login_data).

Definition curl_create (token : string) : curl_command :=
  CurlCommand POST "http://localhost:8000/api/users" [token_header token; json_header]
    (Some curl_create_data).

Definition curl_list (token : string) : curl_command :=
  CurlCommand GET "http://localhost:8000/api/users" [token_header token] None.

Definition curl_commands (token : string) : list curl_command :=
  [curl_register; curl_login; curl_create token; curl_list token].

(** The request the server sees: the body text decoded as JSON, [None]
    when it is not JSON (which validation then rejects). *)
Definition curl_request (c : curl_command) : py_request :=
  PyRequest (cc_method c) (cc_url c) (cc_headers c)
    (cc_data c ≫= fun d => match json_parse d with Ok v => Some v | Err _ => None end).

(** Running the commands one after another against a server. *)
Fixpoint run_curl {S} (serve : S -> py_request -> S * py_response) (st : S)
    (cs : list curl_command) : S * list py_response :=
  match cs with
  | [] => (st, [])
  | c :: cs' =>
      let '(st1, r) := serve st (curl_request c) in
      let '(st2, rs) := run_curl serve st1 cs' in
      (st2, r :: rs)
  end.

(** The user the cURL create command describes. *)
Definition curl_user : ration_user_create :=
  RationUserCreate "123456789012" "Test User" "Test Address" "Test District" "State" 3 50000 "AAY"
    "9876543210".

(** ** Lemmas *)

Lemma curl_register_body :
  json_parse curl_register_data =
    Ok (VDoc [("username", VStr "admin"); ("email", VStr "admin@example.com");
              ("password", VStr "SecurePass123")]).
Proof. vm_compute. reflexivity. Qed.

Lemma curl_login_body :
  json_parse curl_login_data =
    Ok (VDoc [("email", VStr "admin@example.com"); ("password", VStr "SecurePass123")]).
Proof. vm_compute. reflexivity. Qed.

Lemma curl_create_user : rq_json (curl_request (curl_create "")) ≫= json_to_user = Some curl_user.
Proof. vm_compute. reflexivity. Qed.

Lemma curl_create_json t : rq_json (curl_request (curl_create t)) = rq_json (curl_request (curl_create "")).
Proof. reflexivity. Qed.

Lemma curl_create_decodes t : rq_json (curl_request (curl_create t)) ≫= json_to_user = Some curl_user.
Proof. rewrite curl_create_json. exact curl_create_user. Qed.

Lemma curl_list_request t : curl_request (curl_list t) = list_request (VStr t).
Proof. reflexivity. Qed.

Lemma run_curl_cons {S} (serve : S -> py_request -> S * py_response) st c cs st1 r :
  serve st (curl_request c) = (st1, r) ->
  run_curl serve st (c :: cs) = ((run_curl serve st1 cs).1, r :: (run_curl serve st1 cs).2).
Proof. intros E. cbn. rewrite E. now destruct (run_curl serve st1 cs). Qed.

(** Built with the documented [.env], the pages address the server the
    script and the cURL commands address: the users list the page fetches
    is the URL of the script's list request.  Without the variable the
    URL starts with "undefined", a path relative to the page's own
    origin. *)
Lemma frontend_urls_env t :
  request_url frontend_env (users_request_line GetUsers).2 = rq_url (list_request t) /\
  request_url frontend_env (users_request_line (PostUser empty_new_user)).2 = rq_url (create_request t) /\
  request_url [] (users_request_line GetUsers).2 = "undefined/api/users".
Proof. repeat split. Qed.

(** ** Properties of the cURL commands *)

(** The cURL commands send what the Python script sends, except the
    data.  In the same order they use the script's methods and URLs; the
    list command is the script's request itself, with the pasted token;
    the bodies decode (through the layout's newlines and indentation) to
    the documents shown, with other credentials than the script's and a
    user that differs from the script's in address and district only,
    with the same Aadhaar number. *)
Theorem curl_matches_script t :
  map (fun c => (rq_method (curl_request c), rq_url (curl_request c))) (curl_commands t) =
    map (fun r => (rq_method r, rq_url r))
      [register_request; login_request; create_request (VStr t); list_request (VStr t)] /\
  curl_request (curl_list t) = list_request (VStr t) /\
  rq_json (curl_request curl_register) =
    Some (VDoc [("username", VStr "admin"); ("email", VStr "admin@example.com");
                ("password", VStr "SecurePass123")]) /\
  rq_json (curl_request curl_login) =
    Some (VDoc [("email", VStr "admin@example.com"); ("password", VStr "SecurePass123")]) /\
  rq_json (curl_request (curl_create t)) ≫= json_to_user = Some curl_user /\
  curl_user = RationUserCreate (aadhaar_id guide_user) (name guide_user) "Test Address"
    "Test District" (state guide_user) (family_size guide_user) (income guide_user)
    (card_type guide_user) (phone guide_user).
Proof.
  split; [reflexivity|]. split; [apply curl_list_request|].
  rewrite curl_create_decodes.
  cbn [curl_request rq_json cc_data curl_register curl_login mbind option_bind].
  rewrite curl_register_body, curl_login_body. repeat split.
Qed.

Section CurlServer.
Context {C : Type} `{CollectionOps C}.
Context (detect : string -> option (list document)) (now : string).
Context (get_current_user : list (string * string) -> bool) (unauthorized : py_response).
Context (validation_error : py_response) (auth : py_request -> py_response).

Let serve := serve_users detect now get_current_user unauthorized validation_error auth.

(** C22: The two test procedures of the guide do not compose.  Against the
    backend's users routes with no stored user holding the guide's
    Aadhaar number, running the cURL commands (with an accepted token)
    creates the user and lists it, with 200 both times; running the Python
    script afterwards (with its own accepted token) prints "Create User:
    400", because both procedures post the same Aadhaar number, and lists
    the one user more that cURL created. *)
Theorem curl_then_script users alerts next t r1 r2 fields t' :
  get_current_user [token_header t; json_header] = true ->
  get_current_user (bearer_headers (VStr t)) = true ->
  auth register_request = r1 -> auth login_request = r2 ->
  resp_json r2 = Some (VDoc fields) -> doc_get fields "access_token" = Some (VStr t') ->
  get_current_user (bearer_headers (VStr t')) = true ->
  VStr "123456789012" ∉ aadhaar_values users ->
  let run := run_curl serve (UsersServer users alerts next) (curl_commands t) in
  map status_code (skipn 2 run.2) = [200%Z; 200%Z] /\
  stdout (guide_script serve (PyWorld run.1 [] [])).1 =
    ["Register: " ++ pretty (status_code r1); "Login: " ++ pretty (status_code r2);
     "Create User: 400";
     "Get Users: 200 - " ++ pretty (Z.of_nat (S (List.length (co_docs users)))) ++ " users"].
Proof.
  intros Hc Hl <- <- Hj2 Ht Ha' Hfresh run.
  pose proof (serve_users_auth detect now get_current_user unauthorized validation_error auth) as Hauth.
  destruct (serve_users_post_fresh detect now get_current_user unauthorized validation_error auth
              (UsersServer users alerts next) (curl_request (curl_create t)) curl_user
              eq_refl eq_refl Hc (curl_create_decodes t) Hfresh)
    as (st1 & d & Hcr & Hdocs & Hget).
  assert (Hrun : run = (st1, [auth (curl_request curl_register); auth (curl_request curl_login);
                              PyResponse 200 (Some (VDoc d));
                              PyResponse 200 (Some (VArr (map VDoc (co_docs (srv_users st1)))))])).
  { unfold run, curl_commands.
    rewrite (run_curl_cons _ _ _ _ _ _ (Hauth _ (curl_request curl_register) eq_refl)).
    rewrite (run_curl_cons _ _ _ _ _ _ (Hauth _ (curl_request curl_login) eq_refl)).
    rewrite (run_curl_cons _ _ _ _ _ _ Hcr).
    rewrite (run_curl_cons _ _ _ _ _ _ (eq_trans (f_equal (serve st1) (curl_list_request t))
                                          (serve_users_list _ _ _ _ _ _ st1 _ Hl))).
    reflexivity. }
  rewrite Hrun. split; [reflexivity|]. cbn [fst].
  assert (Hin : In d (co_docs (srv_users st1))) by (rewrite Hdocs; apply in_or_app; simpl; tauto).
  destruct (serve_users_create_dup detect now get_current_user unauthorized validation_error auth
              st1 (VStr t') d Ha' Hin Hget) as (st2 & Hc2 & Hst2).
  rewrite (guide_script_run serve _ _ _ _ _ _ _ _ _ fields (VStr t') _
             (Hauth _ register_request eq_refl) (Hauth _ login_request eq_refl) Hj2 Ht Hc2 (serve_users_list _ _ _ _ _ _ st2 _ Ha') eq_refl).
  cbn [stdout status_code]. rewrite Hst2, length_map, Hdocs, length_app, Nat.add_1_r.
  reflexivity.
Qed.

End CurlServer.

Lemma curl_then_script_witness :
  let serve := serve_users (C := collection) (fun _ => None) "2025-11-13T00:00:00"
    (fun hs => bool_decide (token_header "jwt" ∈ hs))
    (PyResponse 401 None) (PyResponse 422 None)
    (fun rq => PyResponse 200 (Some (VDoc [("access_token", VStr "jwt")]))) in
  let run := run_curl serve (UsersServer (MockCollection []) (MockCollection []) 0) (curl_commands "jwt") in
  stdout (guide_script serve (PyWorld run.1 [] [])).1 =
    ["Register: " ++ pretty 200%Z; "Login: " ++ pretty 200%Z; "Create User: 400";
     "Get Users: 200 - " ++ pretty 1%Z ++ " users"].
Proof.
  exact (proj2 (curl_then_script (C := collection) (fun _ => None) "2025-11-13T00:00:00"
    (fun hs => bool_decide (token_header "jwt" ∈ hs))
    (PyResponse 401 None) (PyResponse 422 None)
    (fun rq => PyResponse 200 (Some (VDoc [("access_token", VStr "jwt")])))
    (MockCollection []) (MockCollection []) 0 "jwt" _ _ _ "jwt" eq_refl eq_refl eq_refl eq_refl
    eq_refl eq_refl eq_refl (not_elem_of_nil _))).
Defined.
