(* ===== verification/EndToEnd.v ===== *)
(** Adding a user from end to end: the Users page ([Users.js],
    [handleAddUser]) posts its form, the backend's [create_user] runs
    against the users collection, and the page handles the answer.  The
    composition is stated against the [CollectionOps] interface, so it holds
    for the mock collection and for any collection keeping its laws. *)

From S2P Require Import Prelude StableSort Value Matcher Cursor Collection CreateUser UsersPage.
Local Open Scope string_scope.

(** FastAPI's validation of the body into [RationUserCreate]: the form's
    numbers must be numbers ([parseInt]/[parseFloat] of an empty input give
    [NaN], sent as [null], which validation rejects). *)
Definition form_request (f : new_user_form) : option ration_user_create :=
  match nu_family_size f, nu_income f with
  | Some fs, Some inc =>
      Some (RationUserCreate (nu_aadhaar_id f) (nu_name f) (nu_address f) (nu_district f)
              (nu_state f) fs inc (nu_card_type f) (nu_phone f))
  | _, _ => None
  end.

(** The page's reading of the answer: [error.response?.data?.detail]. *)
Definition add_user_response (r : result http_error document) : users_event :=
  match r with
  | Ok _ => AddUserDone
  | Err (HTTPException _ detail) => AddUserFailed (Some detail)
  end.

(** One round trip of [handleAddUser] for a body that passes validation:
    the submit, [create_user] on the backend, the page's handling of the
    answer.  A body that fails validation is answered by FastAPI with a
    list of errors, which is not modelled ([None]). *)
Definition submit_add_user {C} `{CollectionOps C} (detect : string -> option (list document))
    (users alerts : C) (uid now : string) (ids : list string) (s : users_state)
  : option (C * C * users_state * list effect) :=
  let (s1, e1) := users_step s SubmitAddUser in
  match form_request (newUser s) with
  | None => None
  | Some u =>
      let '(users', alerts', r) := create_user detect users alerts uid now ids u in
      let (s2, e2) := users_step s1 (add_user_response r) in
      Some (users', alerts', s2, (e1 ++ e2)%list)
  end.

(** ** Property *)

Section EndToEnd.
Context {C : Type} `{CollectionOps C}.

(** C7: Adding a user through the page.  For a valid form: when a stored
    user already has its Aadhaar number, nothing is stored, the page shows
    "Aadhaar ID already registered" and keeps the dialog and the form as
    they were; when the number is new, the users collection gains exactly
    one document carrying it (keeping the Aadhaar numbers unique), and the
    page shows "User added successfully", closes the dialog, resets the
    form and refetches the list. *)
Theorem add_user_end_to_end detect (users alerts : C) uid now ids s u :
  form_request (newUser s) = Some u ->
  (forall d, In d (co_docs users) -> doc_get d "aadhaar_id" = Some (VStr (aadhaar_id u)) ->
   exists s', submit_add_user detect users alerts uid now ids s =
                Some (users, alerts, s',
                      [Send (PostUser (newUser s));
                       Show (ToastError "Aadhaar ID already registered")]) /\
              showAddDialog s' = showAddDialog s /\ newUser s' = newUser s) /\
  (VStr (aadhaar_id u) ∉ aadhaar_values users ->
   exists users' alerts' s' doc,
     submit_add_user detect users alerts uid now ids s =
       Some (users', alerts', s',
             [Send (PostUser (newUser s)); Show (ToastSuccess "User added successfully");
              Send GetUsers]) /\
     co_docs users' = (co_docs users ++ [doc])%list /\
     doc_get doc "aadhaar_id" = Some (VStr (aadhaar_id u)) /\
     (aadhaar_unique users -> aadhaar_unique users') /\
     showAddDialog s' = false /\ newUser s' = empty_new_user).
Proof.
  intros Hf. unfold submit_add_user. rewrite (users_step_same_deps s SubmitAddUser I). simpl.
  rewrite Hf. split.
  - intros d Hd Hget. unfold create_user. rewrite (check_dup users u d Hd Hget).
    simpl. rewrite ?String.eqb_refl. simpl. eexists. split_and!; reflexivity.
  - intros Hnot. pose proof (check_fresh_ok users u Hnot) as Hc.
    unfold create_user. rewrite Hc.
    destruct (create_user_commit users uid now u) as [users' doc] eqn:Em.
    simpl. rewrite ?String.eqb_refl. simpl.
    do 4 eexists. split_and!; [reflexivity | | | | reflexivity | reflexivity].
    + pose proof (commit_docs users uid now u) as Hd. rewrite Em in Hd. exact Hd.
    + unfold create_user_commit in Em. rewrite <- (f_equal snd Em). simpl.
      rewrite co_insert_other by discriminate. reflexivity.
    + intros Hu. pose proof (commit_preserves_unique users uid now u Hu Hnot) as Hp.
      rewrite Em in Hp. exact Hp.
Qed.
End EndToEnd.

Lemma add_user_end_to_end_witness :
  let s := set_dialog_form (users_mount.1) true
             (NewUserForm "111122223333" "Ravi" "1 Main St" "Pune" "Maharashtra"
                (Some 4%Z) (Some 60000%Z) "BPL" "9000000000") in
  let stored := MockCollection [[("aadhaar_id", VStr "111122223333"); ("name", VStr "Ravi")]] in
  form_request (newUser s) =
    Some (RationUserCreate "111122223333" "Ravi" "1 Main St" "Pune" "Maharashtra" 4 60000
            "BPL" "9000000000") /\
  exists s', submit_add_user (fun _ => None) stored (MockCollection []) "u9" "t0" [] s =
               Some (stored, MockCollection [], s',
                     [Send (PostUser (newUser s));
                      Show (ToastError "Aadhaar ID already registered")]) /\
             showAddDialog s' = showAddDialog s /\ newUser s' = newUser s.
Proof.
  intros s stored. split; [reflexivity|].
  apply (proj1 (add_user_end_to_end (fun _ => None) stored (MockCollection []) "u9" "t0" [] s
                  _ eq_refl) [("aadhaar_id", VStr "111122223333"); ("name", VStr "Ravi")]).
  - simpl. left. reflexivity.
  - reflexivity.
Defined.
