(* ===== verification/UsersForm.v ===== *)
(** The controls of the Users page ([src/frontend/src/pages/Users.js],
    lines 142-285): the Add User button and its dialog, the form with its
    [required] and [min] attributes, the card-type select, the search
    input and the status select.  The browser's constraint validation
    decides whether a submission reaches [handleAddUser].  A step relation
    over the page state and the log of posted forms shows what the form
    lets through; composed with the [create_user] handler, it shows that
    nothing stops a second submission of the same form while the first is
    pending. *)

From S2P Require Import Prelude StableSort Value Matcher Cursor Collection CreateUser UsersPage.
From S2P Require Import EndToEnd.
From stdpp Require Import relations.
Local Open Scope string_scope.

(** ** The rendered controls *)

Inductive form_control : Type :=
| TextInput (testId value : string)
(** [type="number"] with [min]: [value={NaN}] renders as an empty input. *)
| NumberInput (testId : string) (value : option Z) (min : Z)
| SelectInput (testId value : string) (options : list string).

Definition card_type_options : list string := ["APL"; "BPL"; "Antyodaya"].

Definition status_options : list string := ["all"; "active"; "suspended"; "flagged"].

(** The form of the dialog, in the order of the page. *)
Definition add_user_form (f : new_user_form) : list form_control :=
  [TextInput "aadhaar-input" (nu_aadhaar_id f); TextInput "name-input" (nu_name f);
   TextInput "address-input" (nu_address f); TextInput "district-input" (nu_district f);
   TextInput "state-input" (nu_state f); NumberInput "family-size-input" (nu_family_size f) 1;
   NumberInput "income-input" (nu_income f) 0;
   SelectInput "card-type-select" (nu_card_type f) card_type_options;
   TextInput "phone-input" (nu_phone f)].

Record users_toolbar := UsersToolbar {
  (** The dialog's form, rendered only while [showAddDialog] holds. *)
  ut_dialog : option (list form_control);
  ut_search : string;
  ut_status : string;
  ut_status_options : list string
}.

(** The header and the filter card are rendered whatever [loading] is. *)
Definition render_toolbar (s : users_state) : users_toolbar :=
  UsersToolbar (if showAddDialog s then Some (add_user_form (newUser s)) else None)
    (searchTerm s) (statusFilter s) status_options.

(** Every input of the form is [required]; a number must reach its [min]. *)
Definition control_valid (c : form_control) : bool :=
  match c with
  | TextInput _ v => js_truthy v
  | NumberInput _ None _ => false
  | NumberInput _ (Some n) m => Z.leb m n
  | SelectInput _ _ _ => true
  end.

(** ** The controls and the events they raise *)

(** [TypeNumber] carries what the [onChange] handler computed,
    [parseInt]/[parseFloat] of the typed text. *)
Inductive users_ui : Type :=
| ClickAddUser
| CloseAddDialog
| TypeText (testId v : string)
| TypeNumber (testId : string) (v : option Z)
| ChooseCardType (v : string)
| SubmitAddForm
| TypeSearch (v : string)
| ChooseStatus (v : string).

Definition text_edit (testId v : string) : option form_edit :=
  if String.eqb testId "aadhaar-input" then Some (EditAadhaar v)
  else if String.eqb testId "name-input" then Some (EditName v)
  else if String.eqb testId "address-input" then Some (EditAddress v)
  else if String.eqb testId "district-input" then Some (EditDistrict v)
  else if String.eqb testId "state-input" then Some (EditState v)
  else if String.eqb testId "phone-input" then Some (EditPhone v)
  else None.

Definition number_edit (testId : string) (v : option Z) : option form_edit :=
  if String.eqb testId "family-size-input" then Some (EditFamilySize v)
  else if String.eqb testId "income-input" then Some (EditIncome v)
  else None.

Definition in_options (v : string) (opts : list string) : bool := existsb (String.eqb v) opts.

(** The [DialogTrigger] opens the dialog, [onOpenChange(false)] (Escape, a
    click outside, the close button) closes it; the form's controls exist
    only while it is open; a select offers only its items; the submit
    button is never disabled, and the browser submits only a valid form. *)
Definition users_ui_event (t : users_toolbar) (a : users_ui) : option users_event :=
  match a with
  | ClickAddUser => Some (SetShowAddDialog true)
  | TypeSearch v => Some (SetSearchTerm v)
  | ChooseStatus v => if in_options v (ut_status_options t) then Some (SetStatusFilter v) else None
  | _ =>
      match ut_dialog t with
      | None => None
      | Some form =>
          match a with
          | CloseAddDialog => Some (SetShowAddDialog false)
          | TypeText tid v => option_map EditNewUser (text_edit tid v)
          | TypeNumber tid v => option_map EditNewUser (number_edit tid v)
          | ChooseCardType v =>
              if in_options v card_type_options then Some (EditNewUser (EditCardType v)) else None
          | SubmitAddForm => if forallb control_valid form then Some SubmitAddUser else None
          | _ => None
          end
      end
  end.

(** The answers of the backend, which arrive whatever the user does. *)
Definition is_response (ev : users_event) : bool :=
  match ev with
  | UsersFetched _ | UsersFetchFailed | AddUserDone | AddUserFailed _ | StatusUpdated _
  | StatusUpdateFailed | Verified _ | VerifyFailed | Scanned _ | ScanFailed => true
  | _ => false
  end.

(** The forms a list of effects posts. *)
Definition posted_forms (effs : list effect) : list new_user_form :=
  flat_map (fun e => match e with Send (PostUser f) => [f] | _ => [] end) effs.

(** The page and the log of the forms it posted. *)
Definition form_world : Type := users_state * list new_user_form.

Inductive users_form_step : form_world -> form_world -> Prop :=
| ufs_ui s sent a ev :
    users_ui_event (render_toolbar s) a = Some ev ->
    users_form_step (s, sent) ((users_step s ev).1, (sent ++ posted_forms (users_step s ev).2)%list)
| ufs_response s sent ev :
    is_response ev = true ->
    users_form_step (s, sent) ((users_step s ev).1, (sent ++ posted_forms (users_step s ev).2)%list).

(** A run of controls on the rendered page; a control that raises nothing
    changes nothing. *)
Fixpoint users_ui_run (s : users_state) (acts : list users_ui) : users_state * list effect :=
  match acts with
  | [] => (s, [])
  | a :: acts' =>
      match users_ui_event (render_toolbar s) a with
      | None => users_ui_run s acts'
      | Some ev =>
          let (s1, e1) := users_step s ev in
          let (s2, e2) := users_ui_run s1 acts' in (s2, (e1 ++ e2)%list)
      end
  end.

(** What a form that passed validation carries. *)
Definition form_ok (f : new_user_form) : Prop :=
  Forall (fun v => js_truthy v = true)
    [nu_aadhaar_id f; nu_name f; nu_address f; nu_district f; nu_state f; nu_phone f] /\
  (exists n, nu_family_size f = Some n /\ (1 <= n)%Z) /\
  (exists n, nu_income f = Some n /\ (0 <= n)%Z) /\
  nu_card_type f ∈ card_type_options.

(** The invariant of the page: the card type is an item of its select,
    and every posted form passed validation. *)
Definition card_ok (f : new_user_form) : Prop := nu_card_type f ∈ card_type_options.

(** The events that keep the card type one of the select's items. *)
Definition card_safe (ev : users_event) : Prop :=
  match ev with
  | EditNewUser (EditCardType v) => v ∈ card_type_options
  | _ => True
  end.

Definition form_inv (w : form_world) : Prop := card_ok (newUser w.1) /\ Forall form_ok w.2.

(** ** Lemmas *)

Lemma in_options_elem v opts : in_options v opts = true -> v ∈ opts.
Proof.
  unfold in_options. rewrite existsb_exists. intros (x & Hx & E).
  apply String.eqb_eq in E as ->. now apply list_elem_of_In.
Qed.

Lemma users_step_card s ev : card_safe ev -> card_ok (newUser s) -> card_ok (newUser (users_step s ev).1).
Proof.
  unfold card_ok. intros Hsafe Hc. destruct (users_step_fields s ev) as (_ & _ & _ & _ & _ & ->).
  destruct ev as [| | |e| | | | | | |  | | | | | | |]; cbn; try exact Hc.
  - destruct (newUser s), e; exact Hc || exact Hsafe.
  - unfold card_type_options. set_solver.
Qed.

Lemma posted_forms_step s ev :
  posted_forms (users_step s ev).2 = match ev with SubmitAddUser => [newUser s] | _ => [] end.
Proof. rewrite users_step_effects. destruct ev; reflexivity. Qed.

Lemma ui_event_safe t a ev :
  users_ui_event t a = Some ev ->
  card_safe ev /\ (ev = SubmitAddUser -> exists form, ut_dialog t = Some form /\ forallb control_valid form = true).
Proof.
  destruct a as [| |tid v|tid v|v| |v|v]; cbn [users_ui_event]; try (intros [= <-]; split; [exact I | discriminate]);
    [destruct (ut_dialog t) as [form|]; [|discriminate]..|].
  - intros [= <-]; split; [exact I|discriminate].
  - unfold text_edit.
    repeat (destruct (String.eqb _ _); [intros [= <-]; split; [exact I|discriminate]|]). discriminate.
  - unfold number_edit.
    repeat (destruct (String.eqb _ _); [intros [= <-]; split; [exact I|discriminate]|]). discriminate.
  - destruct (in_options v card_type_options) eqn:E; [|discriminate].
    intros [= <-]. split; [exact (in_options_elem _ _ E) | discriminate].
  - destruct (forallb control_valid form) eqn:E; [|discriminate].
    intros [= <-]. split; [exact I | eauto].
  - destruct (in_options v (ut_status_options t)); [intros [= <-]; split; [exact I | discriminate] | discriminate].
Qed.

Lemma response_safe ev : is_response ev = true -> card_safe ev /\ ev <> SubmitAddUser.
Proof. destruct ev; cbn; try discriminate; split; easy. Qed.

(** A form whose controls all pass validation, with a card type of the
    select, is [form_ok]. *)
Lemma valid_form_ok f : forallb control_valid (add_user_form f) = true -> card_ok f -> form_ok f.
Proof.
  destruct f as [a n ad di st [fs|] [inc|] ct ph]; cbn; try (rewrite ?andb_false_r; discriminate).
  rewrite !andb_true_iff, !Z.leb_le. intros (Ha & Hn & Had & Hdi & Hst & Hfs & Hinc & Hph & _) Hc.
  split_and!; [repeat constructor; assumption | eauto | eauto | exact Hc].
Qed.

Lemma form_step_inv w w' : users_form_step w w' -> form_inv w -> form_inv w'.
Proof.
  intros Hstep [Hc Hall]. destruct Hstep as [s sent a ev Hui|s sent ev Hr]; cbn in *;
    rewrite posted_forms_step.
  - destruct (ui_event_safe _ _ _ Hui) as [Hsafe Hsub]. split; [now apply users_step_card|].
    destruct ev; try (rewrite List.app_nil_r; exact Hall).
    destruct (Hsub eq_refl) as (form & Hd & Hv). cbn in Hd.
    destruct (showAddDialog s); [injection Hd as <- | discriminate].
    apply Forall_app; split; [exact Hall | constructor; [now apply valid_form_ok | constructor]].
  - destruct (response_safe _ Hr) as [Hsafe Hne]. split; [now apply users_step_card|].
    destruct ev; try (rewrite List.app_nil_r; exact Hall). contradiction.
Qed.

(** Submitting leaves the page as it was: the dialog stays open with the
    same form. *)
Lemma users_step_submit s :
  users_step s SubmitAddUser = (s, [Send (PostUser (newUser s))]).
Proof. exact (users_step_same_deps s SubmitAddUser I). Qed.

(** ** Properties of the page's controls *)

(** C14: The Add User form posts only what its validation lets through.
    From the mounted page, along every sequence of clicks, typing and
    choices on the rendered controls and of backend answers, every form
    the page posts has all six text fields filled, a family size of at
    least 1, an income of at least 0 and a card type among APL, BPL and
    Antyodaya; and the card type of the form is always one of these. *)
Theorem users_form_posts_valid s sent :
  rtc users_form_step (users_mount.1, []) (s, sent) ->
  nu_card_type (newUser s) ∈ card_type_options /\ Forall form_ok sent.
Proof.
  intros Hrun. change (form_inv (s, sent)).
  apply (rtc_ind_r (R := users_form_step) form_inv) with (x := (users_mount.1, [])); [| |exact Hrun].
  - split; [cbn; unfold card_type_options; set_solver | constructor].
  - intros w1 w2 _ Hstep IH. exact (form_step_inv w1 w2 Hstep IH).
Qed.

Lemma users_form_posts_valid_witness :
  exists s sent, rtc users_form_step (users_mount.1, []) (s, sent) /\ sent <> [] /\ Forall form_ok sent.
Proof.
  assert (Hrun : exists s, rtc users_form_step (users_mount.1, [])
    (s, [NewUserForm "123456789012" "Asha" "1 Main Rd" "Pune" "MH" (Some 4%Z) (Some 30000%Z) "BPL" "98"])).
  { eexists.
    eapply rtc_l; [apply (ufs_ui _ _ ClickAddUser); reflexivity|].
    eapply rtc_l; [apply (ufs_ui _ _ (TypeText "aadhaar-input" "123456789012")); reflexivity|].
    eapply rtc_l; [apply (ufs_ui _ _ (TypeText "name-input" "Asha")); reflexivity|].
    eapply rtc_l; [apply (ufs_ui _ _ (TypeText "address-input" "1 Main Rd")); reflexivity|].
    eapply rtc_l; [apply (ufs_ui _ _ (TypeText "district-input" "Pune")); reflexivity|].
    eapply rtc_l; [apply (ufs_ui _ _ (TypeText "state-input" "MH")); reflexivity|].
    eapply rtc_l; [apply (ufs_ui _ _ (TypeNumber "family-size-input" (Some 4%Z))); reflexivity|].
    eapply rtc_l; [apply (ufs_ui _ _ (TypeNumber "income-input" (Some 30000%Z))); reflexivity|].
    eapply rtc_l; [apply (ufs_ui _ _ (TypeText "phone-input" "98")); reflexivity|].
    eapply rtc_l; [apply (ufs_ui _ _ SubmitAddForm); reflexivity|]. apply rtc_refl. }
  destruct Hrun as [s Hrun]. eexists s, _. split; [exact Hrun|]. split; [discriminate|].
  exact (proj2 (users_form_posts_valid _ _ Hrun)).
Defined.

(** C10: Nothing stops a double submission.  Unlike the login button, the
    Add User button is never disabled and the dialog stays open while the
    request is pending: with the dialog open on a valid form, submitting
    twice posts the same form twice.  When the backend validates it to a
    user whose Aadhaar number is new, the two [create_user] requests can
    both pass their check before either inserts, and the users collection
    then holds the number twice. *)
Theorem add_user_double_submit {C} `{CollectionOps C} s (users : C) u uid1 uid2 now :
  showAddDialog s = true -> forallb control_valid (add_user_form (newUser s)) = true ->
  form_request (newUser s) = Some u -> VStr (aadhaar_id u) ∉ aadhaar_values users ->
  (users_ui_run s [SubmitAddForm; SubmitAddForm]).2 =
    [Send (PostUser (newUser s)); Send (PostUser (newUser s))] /\
  exists r, rtc (race_step u u uid1 uid2 now) (Race users Start Start) r /\
    r_ph1 r = Committed /\ r_ph2 r = Committed /\ ~ aadhaar_unique (r_users r).
Proof.
  intros Hopen Hvalid _ Hfresh. split.
  - cbn [users_ui_run]. unfold users_ui_event at 1, render_toolbar at 1.
    cbn [ut_dialog]. rewrite Hopen, Hvalid, users_step_submit.
    unfold users_ui_event, render_toolbar. cbn [ut_dialog showAddDialog newUser].
    rewrite Hopen, Hvalid, users_step_submit. reflexivity.
  - assert (Hc : create_user_check users u = Ok tt) by now apply check_fresh_ok.
    eexists. split_and!; [now apply race_checks_first | reflexivity | reflexivity |].
    now apply commit_twice_not_unique.
Qed.

Lemma add_user_double_submit_witness :
  (users_ui_run (set_dialog_form users_init true
     (NewUserForm "123456789012" "Asha" "1 Main Rd" "Pune" "MH" (Some 4%Z) (Some 30000%Z) "BPL" "98"))
     [SubmitAddForm; SubmitAddForm]).2 =
  [Send (PostUser (NewUserForm "123456789012" "Asha" "1 Main Rd" "Pune" "MH" (Some 4%Z) (Some 30000%Z) "BPL" "98"));
   Send (PostUser (NewUserForm "123456789012" "Asha" "1 Main Rd" "Pune" "MH" (Some 4%Z) (Some 30000%Z) "BPL" "98"))].
Proof.
  exact (proj1 (add_user_double_submit (set_dialog_form users_init true
     (NewUserForm "123456789012" "Asha" "1 Main Rd" "Pune" "MH" (Some 4%Z) (Some 30000%Z) "BPL" "98"))
    (MockCollection [])
    (RationUserCreate "123456789012" "Asha" "1 Main Rd" "Pune" "MH" 4 30000 "BPL" "98")
    "u1" "u2" "t0" eq_refl eq_refl eq_refl (not_elem_of_nil _))).
Defined.
